(* ===== verification/_CoqProject ===== *)
-Q . S2P
Prelude.v
PySeq.v
PyStr.v
Data.v
PyValue.v
Loops.v
Nested.v
Store.v
Examples.v
ExampleText.v
Splits.v
FileIO.v
ExampleValue.v
ExampleLoops.v
ExampleStore.v
Tokenizer.v
Features.v
FeatureLoops.v
WellFormed.v
Pipeline.v
RoundTrip.v
