(* ===== verification/Prelude.v ===== *)
(** * Verification of the relation-classification feature pipeline

    The program is [src/examples/relation_classification/utils.py]: it turns
    TACRED-style records (a token list, two entity spans, two entity types
    and a relation label) into the numeric features of a transformer encoder.

    ** The program

    [utils.py] has two stages, both functions of in-memory data:

    - the example builder, class [DatasetProcessor]: [_create_examples]
      reads the JSON array of a split and rebuilds, for each record, a flat
      text from the token list together with the character spans of the
      subject and of the object; [get_train_examples], [get_dev_examples]
      and [get_test_examples] call it; [get_label_list] collects the label
      vocabulary of the training split;
    - the feature encoder, function [convert_examples_to_features]: it
      tokenizes the text of each example around the two spans with a
      subword tokenizer, optionally puts marker tokens around the entities,
      and emits the word ids, masks, entity type ids, position ids of the
      two entities and the index of the label.

    The stages meet in the class [InputExample]: the builder makes the
    examples that the encoder consumes, and the vocabulary of
    [get_label_list] is the [label_list] of the encoder.

    ** Files of the development, in dependency order

    - [Prelude] (this file): exceptions as values (the [result] type with
      stdpp's monad notation), the tactics [simplify_result] and [len],
      the [len] rewrite database, and the lemmas on loops that may raise
      ([mapM] over [result], [foldl_mapM_result]).
    - [PySeq]: Python's sequence operations as the program uses them:
      [len], the slices [s[i:j]], [s[i:]], [s[:j]] with CPython's clipping
      of the bounds, [range], [[x] * n], [enumerate], and dictionaries
      built from [enumerate] by a comprehension.
    - [PyStr]: strings as lists of code points, [str.rstrip] with Unicode
      whitespace, [str.join], the order on strings, [sorted], and
      ['%s' % i].
    - [Data]: the constants (lines 7-11), the classes [InputExample]
      (lines 14-22) and [InputFeatures] (lines 25-35) as records in modules
      of those names, the exceptions, and one record of the input JSON.
    - [PyValue]: the values that [json.load] returns ([value]: [None],
      bool, int, float, str, list, dict) and the operations that lines
      60-82 apply to them, on operands of any type: [py_getitem] is
      [x[key]], [py_add] is [x + 1], [py_lt] is [x < y], [py_slice] is
      [x[lo:hi]], [py_join] is [sep.join(x)], [py_iter] the iteration
      over [x]; each raises [TypeError] where Python does.  A dict is
      the list of its items; [value_wf] says that no key is repeated,
      and [dict_of_pairs] is the dict that [json.load] makes of the
      members of a JSON object.
    - [Loops]: the [for] statement over a finite sequence, whose body may
      raise, as a transition system: configurations [Running] and
      [Raised], the relation [step], the execution [run], and the fold
      [for_loop] that the components use.
    - [Nested]: a [for] statement inside the body of another, stepped too:
      configurations [Outer], [Inner] and [NRaised], the relation [nstep],
      the execution with fuel [nrun], the number of steps of an execution
      ([nested_steps]), and the simulation between the nested loops and
      the outer loop whose body runs the inner loop at once.
    - [Store]: the lists that the program changes through references.  A
      store maps references to the elements of the live lists; a program
      ([prog]) takes a store and returns a value and a store, or raises;
      [new_list] is a list display, [list_getitem] and [list_setitem] are
      [l[i]] and [l[i] = v], [for_in] is a [for] statement on the store;
      programs with the same outcome in every store are equivalent ([≡]).
    - [Examples], Module [DatasetProcessor]: lines 38-88.  The loop
      variables [text], [cur] and [char_spans] of lines 70-81 are the
      record [build_state]; one iteration of the inner loop is
      [build_step], the loop [build_loop], the loop body over the records
      [create_example], the loop [create_examples], the method
      [_create_examples]; [get_label_list] is lines 48-53.  The
      specification is the closed form [layout_of] / [example_spec].
    - [ExampleText]: the rebuilt text compared with [' '.join(tokens)].
    - [Splits]: the loop over the records and the label vocabulary
      ([label_list_spec]).
    - [FileIO]: the [with] statement of lines 56-57 on a file system.  A
      [file_system] holds the text files and the open file objects; an
      [io] takes a file system and returns an outcome and a file system;
      [open_read], [file_read] and [file_close] are [open], [f.read()]
      and [f.close()], [with_open] is the [with] statement, [json_load]
      is [json.load(f)] with the parser of the class [JSONParser],
      [load_split] is lines 56-57 and [_create_examples_io] the method
      on typed records.
    - [ExampleValue]: [_create_examples] on untyped values.
      [token_spans_dyn] is lines 62-63, [entity_order_dyn] lines 65-68,
      [entity_body_dyn] an iteration of the inner loop (lines 74-81),
      [create_example_dyn] the body of the loop over the records (lines
      61-86), [create_examples_dyn] the loop and [_create_examples_dyn]
      the method; [InputExampleDyn.t] is [InputExample] with the types
      and the label as stored; [item_of_value] is the typed record that
      a JSON object is when its values have the types of the input
      format, and [read_record] what the builder reads in an object of
      any types.
    - [ExampleLoops]: [_create_examples] as nested loops.  An iteration
      of the loop over the records is [record_enter] (lines 61-72), the
      inner loop with body [entity_body] (lines 74-81), and [record_leave]
      (lines 82-86); [record_step] is the transition relation,
      [build_inv] the invariant of the inner loop, [record_steps] the
      number of steps of an execution and [examples_spec] its outcome,
      both written from the records.  The loop of [get_label_list] is
      [label_body].
    - [ExampleStore]: [_create_examples] with the spans by reference.
      Line 72 makes two lists per record ([new_char_spans]), lines 78 and
      80 assign to them ([entity_body_ref]), and line 85 hands the lists
      themselves to the [InputExample] ([create_example_ref],
      [InputExampleRef.t]); [read_example] reads an example out of a
      store and [store_example] puts one into a store.
    - [Tokenizer]: the interface of the tokenizer (classes [Tokenizer] and
      [TokenizerLaws]), the class [WordTokenizer] of the tokenizers that
      cut the text at whitespace and tokenize every word on its own, and
      three toy instances.
    - [Features], Module [Encoder]: lines 91-158.  The loop variables
      [tokens], [cur] and [token_spans] of lines 110-123 are the record
      [encode_state]; one iteration of the inner loop is [encode_step],
      the loop [encode_loop], the loop body over the examples
      [convert_example], the function [convert_examples_to_features].  The
      specification is the closed form [segments_of] / [features_spec].
    - [FeatureLoops]: [convert_examples_to_features] as nested loops:
      [feature_enter] (lines 105-112), the inner loop with body
      [span_body] (lines 114-123), and [feature_leave] (lines 125-156);
      [feature_step] is the transition relation, [encode_inv] the
      invariant of the inner loop, [feature_steps] the number of steps
      of an execution and [features_outcome_spec] its outcome.
    - [WellFormed]: the invariants of the two value classes as decidable
      predicates ([wf_example], [wf_features]).
    - [Pipeline]: the two stages together ([load_features]).
    - [RoundTrip]: the two stages on one record with a [WordTokenizer];
      [record_tokens] and [record_span] are the token sequence and the
      token ranges expected from the record.

    ** How the code is modelled

    - A Python [int] is a [Z]; a [str] is the list of its code points
      ([list N]); a list is a [list]; the dictionaries [label_map] and
      [type_map] are [gmap]s of strings, [token_spans] of the encoder a
      [gmap] of the two span names, the set of labels a [gset].
    - A call that may raise returns a [result exn]: [Ok] with the value or
      [Err] with the exception.  Sequencing is the monad's bind, so the
      first exception ends the function, as in Python.  The exceptions that
      the program can raise are [KeyError] (an absent key of a record, an
      unknown entity type, an unknown label), [OSError] (what [open]
      raises), [ValueError] (a text that is no JSON) and [TypeError] (an
      operation of the builder on a value of the wrong type, in
      [ExampleValue]); [IndexError] belongs to the list objects of
      [Store], where no program of the development raises it.
    - The file of a split is read twice: as one call [open_json] of the
      class [Files] in [Splits], which the other files build on, and
      statement by statement in [FileIO], where the file system is part
      of the outcome, after an exception too.
    - The lists of the program are modelled by value where no second
      reference to them exists while they change (the token lists and the
      rows of the features are made and filled inside one iteration).  The
      two lists of [char_spans] are different: the examples keep
      references to them.  They are modelled twice, by value in
      [Examples] and by reference in [ExampleStore], on a store in which
      an allocation returns a reference that denotes no other object.  A
      program on the store that meets a reference to no object stops with
      [Dangling], an outcome that no program of the development reaches.
    - The records are modelled twice.  In [Data] and the files that build
      on it a record is typed: tokens are strings, offsets are integers,
      and what remains of JSON's looseness is that a key may be absent.
      In [PyValue] and [ExampleValue] a record is a value of any type,
      and the builder applies to it the operations of Python with their
      [TypeError]; [item_of_value] reads a JSON object as a typed record
      (the keys in any order, among any other keys), and the builder on
      values is shown to agree with the typed builder on the objects
      that are typed records.  The encoder is modelled on typed examples
      only.
    - Numbers: an int is a [Z] and a bool counts as 0 or 1; a float is
      not a number, infinite or [m * 2 ^ e], compared exactly as Python
      compares; a sum with a float operand is written without rounding,
      because the builder uses such a sum as the bound of a slice only,
      where every float raises [TypeError].
    - The operations of Python are written from the language and library
      references, for Python 3 up to version 3.11; none of them is code
      of the repository.  The last section of [PyValue] and the theorems
      on concrete records at the end of [ExampleValue] evaluate them on
      operands of every type, each case with the Python expression it
      stands for, so that the model can be compared with an interpreter.
    - The functions of the model are total and executable: every loop of
      the program runs over a finite list and is a [foldl].  Integers are
      unbounded in Python, so no width is involved.
    - The loops are modelled a second time as transition systems, in which
      one step is one iteration of the inner loop, or the part of an
      iteration of the outer loop before or after the inner loop.  The
      step relations are inductive; [nrun] executes them with fuel.  An
      iteration of an outer loop of the program takes four steps (the
      inner loops visit two elements), unless its first step raises.
      [record_steps] and [feature_steps] count the steps of an execution
      from its input; that much fuel reaches the end of the loops, and
      so does [4 * len(data)] ([record_run_enough], [record_steps_le],
      [feature_run_enough], [feature_steps_le]); with less fuel [nrun]
      returns the configuration it has reached.

    ** What the theorems show

    - Refinement: [create_example] and [convert_example] compute the closed
      forms of their specifications on every input, errors included; the
      loops over records and examples are [mapM].
    - Invariants: the spans of an example are non-empty and disjoint; the
      word arrays of a feature have one length; the rows of position ids
      have length [max_mention_length] and hold consecutive positions of
      tokens followed by [-1].
    - Functional behaviour of the text: the characters at a span are the
      entity's tokens; the text is [' '.join(tokens)] stripped when a token
      separates the entities.
    - The vocabulary: [no_relation] first, the rest strictly increasing;
      the result depends on the set of the training labels only.
    - Objects and references: the builder with the spans in lists of the
      store is equivalent to the builder by value followed by the
      allocation of the spans ([create_examples_ref_by_value]); the
      examples read out of the store are those of the builder by value,
      and no [IndexError] or dangling reference occurs
      ([create_examples_ref_refines]); the lists of the examples are new
      and pairwise distinct and nothing else changes in the store
      ([create_examples_ref_separate]), so that a later assignment to a
      span of one example changes no other
      ([create_examples_ref_independent]); an assignment [l[i] = v] is
      seen by [l[i]] ([list_setitem_getitem]).
    - Files: [_create_examples] run on a file system has the outcome of
      [_create_examples] for the files that the file system holds, and
      leaves the file system as it found it: the file that it opens is
      closed on every exit and no other open file is touched
      ([_create_examples_io_refines]).
    - Untyped input: on a file that holds objects which are typed
      records the method on values returns what the typed method
      returns, with no [TypeError] ([_create_examples_dyn_typed]); this
      is what makes the typed model, on which all other theorems are
      stated, a model of the code.  Records with Boolean offsets, a
      string for the tokens, or types and a label that are no strings
      are accepted, and the theorem says what is made of them
      ([create_example_dyn_coerces]); a record with the five keys of
      the tokens and the offsets raises [TypeError] exactly when an
      offset is no integer or a token is no string, before the types
      are looked up ([create_example_dyn_TypeError]: the slices of the
      loop follow each other, so every token is joined, wherever the
      spans are; [for_loop_dyn_visits] is the invariant); a file that
      holds an empty
      object or an empty string gives no examples, any other value that
      is no list raises [TypeError] ([create_examples_dyn_shape]).
    - Types: every example of the builder satisfies [wf_example] and
      every feature of the encoder [wf_features].
    - The loops as transition systems: the step relations are
      deterministic and every execution is finite, for any loop body
      ([nstep_sn]).  What depends on the program is when and where the
      loops stop ([record_loop_terminates], [feature_loop_terminates]):
      after four steps for every element that is completed; the builder
      raises in the first step of a record that lacks a key of lines
      61-63 and in the fourth step of one that lacks a key of line 86,
      the encoder always in the fourth step, after the text is
      tokenized; the last configuration holds the outcome of the
      specification, the closed forms of [Examples] and [Features] or
      the [KeyError].  Between two iterations of the outer loop the list
      built so far is the outcome of the fold on the elements visited;
      every element whose predecessors raise nothing is reached
      (liveness); inside the inner loops the spans recorded so far are
      ranges of the text (of the token sequence) that hold the entity, by
      induction on the executions.
    - Errors: which [KeyError] is raised, and when, also for a label of
      another split that the training split lacks.
    - The two stages together: the order of the spans, no [KeyError] for
      a training label, and the round trip of the tokens: with a
      tokenizer that works word by word, the token sequence of the
      features is made of the pieces of the five slices that the offsets
      cut out of the tokens of the record, with the special tokens and
      the markers ([pipeline_tokens]), and the token range of an entity
      holds the pieces of the tokens of the entity
      ([pipeline_positions]), whatever the offsets are; the slices are
      the tokens of the record, each once, when the entities are in
      range and do not overlap ([in_order_slices]).
    - Where the code and its specification differ, the theorem states what
      the code does: the span ends, the order of entities that start at
      the same token, the comparison of span ends, the double space
      between adjacent entities, offsets out of range, a negative
      [max_mention_length], a repeated label, spans that are lists which
      can still be changed, records of other types than the input format
      that are accepted.

    ** What is not modelled

    - The grammar of JSON: the parser is the method [json_loads] of the
      class [JSONParser], a parameter ([open_json] of the class [Files]
      where the file is read in one call).  The theorems on values hold
      for every list of items that a parser may return; a parser that
      follows [json.load] makes the dict of an object with
      [dict_of_pairs], so that no key is repeated and [dict_lookup] is
      the lookup of Python.  Of the file system only the text files that
      are read and the open file objects are modelled: no directories,
      permissions, encodings or buffering, and [open] raises for a
      missing file only; [os.path.join] follows the POSIX rules.
    - The tokenizer of the [transformers] library: the class [Tokenizer]
      is a parameter whose methods are total functions, so a tokenizer
      that raises or keeps state is not covered; theorems that need it
      assume [TokenizerLaws], that [convert_tokens_to_ids] returns one
      id per token, or [WordTokenizer], that the tokens of a text are
      the pieces of its words, whatever the whitespace between them (the
      byte-level tokenizer behind [RobertaTokenizer] is none where the
      text has two spaces in a row).  How a word is cut into pieces is
      not modelled.
    - The objects of the features: the lists of an [InputFeatures] are
      made in the iteration that stores them and are not changed after
      it, so they are modelled by value.  The addresses that Python gives
      to objects are not modelled: [new_list] returns the first reference
      that the store does not use, and no theorem depends on which.
    - The progress bar of [tqdm]: [tqdm(examples)] is the sequence of the
      elements of [examples] (the definition [tqdm] of [Features]), what
      it draws on the terminal is left out.
    - The encoder and [get_label_list] on examples whose types or label
      are no strings (the builder stores them unchecked): they would
      need the hashing and the ordering of arbitrary values.  The
      rounding of float sums, and memory limits.
    - The caller of the two stages is not in the repository sources;
      [load_features] composes them the way the specification describes.
    - Nothing else of [utils.py] is left: the lines that the development
      does not map are the imports, the blank lines and the [class]
      line. *)

From stdpp Require Export prelude gmap sorting lexico list_numbers.

(** ** Scope of the development's notations *)

Declare Scope py_scope.
Delimit Scope py_scope with py.

(** ** Exceptions as values

    A Python call either returns or raises.  [result E A] is the outcome of
    a call that returns an [A] or raises an exception described by an [E];
    the instances below give it stdpp's [x ← m; k] notation, so that a
    sequence of statements reads as in the source and the first exception
    aborts the rest. *)

Inductive result (E A : Type) : Type :=
  | Ok (a : A)
  | Err (e : E).
Arguments Ok {E A} a.
Arguments Err {E A} e.

#[export] Instance result_ret {E} : MRet (result E) := λ A a, Ok a.
#[export] Instance result_bind {E} : MBind (result E) := λ A B f m,
  match m with Ok a => f a | Err e => Err e end.
#[export] Instance result_fmap {E} : FMap (result E) := λ A B f m,
  match m with Ok a => Ok (f a) | Err e => Err e end.

#[export] Instance result_eq_dec {E A} `{EqDecision E, EqDecision A} :
  EqDecision (result E A).
Proof. solve_decision. Defined.

(** [is_Ok r]: the call returned. *)
Definition is_Ok {E A} (r : result E A) : Prop := ∃ a, r = Ok a.

#[export] Instance is_Ok_dec {E A} (r : result E A) : Decision (is_Ok r).
Proof.
  refine (match r with Ok a => left _ | Err e => right _ end);
    [by eexists | by intros [??]].
Defined.

(** A dictionary lookup [d[k]]: the value, or the exception [e]. *)
Definition of_option {E A} (o : option A) (e : E) : result E A :=
  match o with Some a => Ok a | None => Err e end.

(** ** The development's tactics *)

(** [simplify_result] inverts hypotheses of the form [m ≫= f = Ok b],
    [Ok a = Ok b], [Err e = Ok b] and [of_option o e = Ok a]. *)
Ltac simplify_result :=
  repeat match goal with
  | H : Ok _ = Ok _ |- _ => injection H as H; subst
  | H : Err _ = Err _ |- _ => injection H as H; subst
  | H : Ok _ = Err _ |- _ => discriminate H
  | H : Err _ = Ok _ |- _ => discriminate H
  | H : mret _ = Ok _ |- _ => injection H as H; subst
  | H : mret _ = Err _ |- _ => discriminate H
  | H : of_option ?o _ = _ |- _ =>
      let E := fresh "E" in destruct o eqn:E; simpl in H
  | H : (?m ≫= _) = _ |- _ =>
      let E := fresh "E" in destruct m eqn:E; simpl in H
  | H : (_ <$> ?m) = _ |- _ =>
      let E := fresh "E" in destruct m eqn:E; simpl in H
  end.

(** [len]: normalise lengths with the [len] database, then [lia]. *)
Create Rewrite HintDb len.
#[export] Hint Rewrite @length_app @length_cons @length_nil @length_take
  @length_drop @length_replicate @length_fmap @length_reverse
  @length_seqZ @length_seq : len.
Ltac len := autorewrite with len in *; simpl in *; try lia.

(** ** Laws of [result] *)

Section result.
Context {E A B C : Type}.
Implicit Types (m : result E A) (f : A → result E B) (g : B → result E C).

Lemma result_bind_ret_l (a : A) f : (mret a ≫= f) = f a.
Proof. done. Qed.

(** The same, for rewriting where the value is written [Ok a]. *)
Lemma result_bind_Ok_l (a : A) f : (Ok a ≫= f) = f a.
Proof. done. Qed.

Lemma result_bind_Err_l (e : E) f : (Err e ≫= f) = Err e.
Proof. done. Qed.

Lemma result_bind_ret_r m : (m ≫= mret) = m.
Proof. by destruct m. Qed.

Lemma result_bind_assoc m f g : ((m ≫= f) ≫= g) = (m ≫= λ a, f a ≫= g).
Proof. by destruct m. Qed.

Lemma result_bind_Ok m f (b : B) :
  (m ≫= f) = Ok b ↔ ∃ a, m = Ok a ∧ f a = Ok b.
Proof. destruct m; simpl; naive_solver. Qed.

Lemma result_bind_Err m f (e : E) :
  (m ≫= f) = Err e ↔ m = Err e ∨ ∃ a, m = Ok a ∧ f a = Err e.
Proof. destruct m; simpl; naive_solver. Qed.

Lemma result_fmap_Ok (h : A → B) m (b : B) :
  (h <$> m) = Ok b ↔ ∃ a, m = Ok a ∧ b = h a.
Proof. destruct m; simpl; naive_solver. Qed.

Lemma of_option_Ok (o : option A) (e : E) a :
  of_option o e = Ok a ↔ o = Some a.
Proof. destruct o; simpl; naive_solver. Qed.

Lemma of_option_Err (o : option A) (e e' : E) :
  of_option o e = Err e' ↔ o = None ∧ e' = e.
Proof. destruct o; simpl; naive_solver. Qed.

Lemma is_Ok_alt m : is_Ok m ↔ ∀ e, m ≠ Err e.
Proof. destruct m; unfold is_Ok; naive_solver. Qed.

End result.

(** ** A loop that may raise: [mapM] over [result]

    [mapM f l] runs [f] on the elements of [l] from left to right and
    collects the results; the first exception is the outcome. *)

Section mapM.
Context {E A B : Type} (f : A → result E B).
Implicit Types (l : list A) (k : list B).

Lemma mapM_result_nil : mapM f [] = Ok [].
Proof. done. Qed.

Lemma mapM_result_cons x l :
  mapM f (x :: l) = (y ← f x; k ← mapM f l; mret (y :: k)).
Proof. done. Qed.

Lemma mapM_result_Ok l k : mapM f l = Ok k ↔ Forall2 (λ x y, f x = Ok y) l k.
Proof.
  revert k. induction l as [|x l IH]; intros k; simpl.
  - split; [intros; simplify_result; constructor | by inv 1].
  - split.
    + intros H. simplify_result. constructor; [done|]. by apply IH.
    + inv 1 as [|???? Hx Hl]. apply IH in Hl.
      unfold mbind, result_bind at 1. by rewrite Hx, Hl.
Qed.

Lemma mapM_result_length l k : mapM f l = Ok k → length k = length l.
Proof. rewrite mapM_result_Ok. intros H. symmetry. by eapply Forall2_length. Qed.

Lemma mapM_result_lookup l k i x :
  mapM f l = Ok k → l !! i = Some x → ∃ y, k !! i = Some y ∧ f x = Ok y.
Proof. rewrite mapM_result_Ok. intros H Hx. by eapply Forall2_lookup_l in H. Qed.

(** All calls return: the loop returns the list of their results. *)
Lemma mapM_result_total (h : A → B) l :
  Forall (λ x, f x = Ok (h x)) l → mapM f l = Ok (h <$> l).
Proof.
  intros H. apply mapM_result_Ok. induction H; simpl; by constructor.
Qed.

Lemma mapM_result_is_Ok_cons x l :
  is_Ok (mapM f (x :: l)) ↔ is_Ok (f x) ∧ is_Ok (mapM f l).
Proof.
  unfold is_Ok. simpl. destruct (f x), (mapM f l); simpl; naive_solver.
Qed.

(** The loop raises [e] exactly when some element raises [e] and every
    element before it returns. *)
Lemma mapM_result_Err l e :
  mapM f l = Err e ↔
  ∃ l1 x l2, l = l1 ++ x :: l2 ∧ is_Ok (mapM f l1) ∧ f x = Err e.
Proof.
  induction l as [|x l IH].
  { split; [done|]. intros (l1 & ? & ? & ? & _). by destruct l1. }
  rewrite mapM_result_cons. split.
  - intros [Hx|(y & Hx & [Hl|(k & _ & ?)]%result_bind_Err)]%result_bind_Err;
      [|apply IH in Hl as (l1 & x' & l2 & -> & Hl1 & Hx')|done].
    + exists [], x, l. split_and!; [done|by eexists|done].
    + exists (x :: l1), x', l2. split_and!; [done| |done].
      apply mapM_result_is_Ok_cons. split; [by eexists|done].
  - intros (l1 & x' & l2 & Heq & Hl1 & Hx').
    destruct l1 as [|x1 l1]; simplify_eq/=; [by rewrite Hx'|].
    apply mapM_result_is_Ok_cons in Hl1 as [[y Hy] Hl1].
    rewrite Hy. simpl.
    assert (mapM f (l1 ++ x' :: l2) = Err e) as ->; [|done].
    apply IH. eauto 10.
Qed.

Lemma mapM_result_is_Ok l : is_Ok (mapM f l) ↔ Forall (λ x, is_Ok (f x)) l.
Proof.
  induction l as [|x l IH]; [by split; [constructor|eexists]|].
  by rewrite mapM_result_is_Ok_cons, Forall_cons, IH.
Qed.

(** The same, by position: the element at [i] raises [e] and the elements
    before it return. *)
Lemma mapM_result_Err_lookup l e :
  mapM f l = Err e ↔
  ∃ i x, l !! i = Some x ∧ f x = Err e ∧ Forall (λ y, is_Ok (f y)) (take i l).
Proof.
  rewrite mapM_result_Err. split.
  - intros (l1 & x & l2 & -> & Hl1%mapM_result_is_Ok & Hx).
    exists (length l1), x. by rewrite list_lookup_middle, take_app_length.
  - intros (i & x & Hi & Hx & Hl1). exists (take i l), x, (drop (S i) l).
    by rewrite take_drop_middle, mapM_result_is_Ok.
Qed.

(** A loop that appends one result per element to a list, and stops at the
    first exception, is [mapM]. *)
Lemma foldl_mapM_result (g : result E (list B) → A → result E (list B)) l k0 :
  (∀ acc x, g acc x = (ys ← acc; y ← f x; mret (ys ++ [y]))) →
  foldl g (Ok k0) l = (k ← mapM f l; mret (k0 ++ k)).
Proof.
  intros Hg. revert k0. induction l as [|x l IH]; intros k0.
  { simpl. by rewrite app_nil_r. }
  cbn [foldl]. rewrite Hg, mapM_result_cons. simpl. destruct (f x) as [y|e]; simpl.
  - etrans; [apply (IH (k0 ++ [y]))|]. destruct (mapM f l); simpl; [|done].
    by rewrite <-(assoc_L (++)).
  - clear IH. induction l as [|x' l IH]; [done|]. cbn [foldl]. by rewrite Hg.
Qed.

End mapM.

(** ** Lists made of the lists of their elements *)

(** In a concatenation without duplicates, two elements at different
    positions contribute disjoint lists. *)
Lemma NoDup_bind_lookup {A B} (f : A → list B) (l : list A) i j x y b :
  NoDup (l ≫= f) → l !! i = Some x → l !! j = Some y → i ≠ j →
  b ∈ f x → b ∉ f y.
Proof.
  revert i j. induction l as [|a l IH]; intros i j; [done|].
  rewrite bind_cons. intros (_ & Hdisj & Hnd)%NoDup_app Hi Hj Hij Hb Hb'.
  destruct i as [|i], j as [|j]; simplify_eq/=.
  - apply (Hdisj b Hb), list_elem_of_bind. eauto using list_elem_of_lookup_2.
  - apply (Hdisj b Hb'), list_elem_of_bind. eauto using list_elem_of_lookup_2.
  - eapply (IH i j); eauto.
Qed.
