(* ===== verification/PySeq.v ===== *)
(** * Python's sequence operations

    The built-in operations on lists and strings that
    [src/examples/relation_classification/utils.py] relies on, with the
    semantics of the language reference: [len], slicing [s[i:j]], [s[i:]],
    [s[:j]] with negative and out-of-range bounds, [range(a, b)],
    [[x] * n] and [enumerate].  Python integers are unbounded, so every
    index is a [Z].  Nothing here raises: a slice clips its bounds. *)

From S2P Require Import Prelude.

#[local] Open Scope Z_scope.

Section seq.
Context {A : Type}.
Implicit Types (l k : list A) (i j n : Z) (x : A).

(** [len(l)] *)
Definition py_len l : Z := Z.of_nat (length l).

(** The bound [i] of a slice of a sequence of length [n], adjusted as
    CPython's [PySlice_AdjustIndices] does for step 1: a negative bound
    counts from the end, and the result is clipped to [0, n]. *)
Definition slice_index n i : Z :=
  if decide (i < 0) then Z.max 0 (i + n) else Z.min i n.

(** [l[i:j]] *)
Definition slice l i j : list A :=
  let a := slice_index (py_len l) i in
  let b := slice_index (py_len l) j in
  take (Z.to_nat (b - a)) (drop (Z.to_nat a) l).

(** [l[i:]] *)
Definition slice_from l i : list A :=
  drop (Z.to_nat (slice_index (py_len l) i)) l.

(** [l[:j]] *)
Definition slice_to l j : list A :=
  take (Z.to_nat (slice_index (py_len l) j)) l.

(** [[x] * n]: the empty list when [n] is negative. *)
Definition py_repeat x n : list A := replicate (Z.to_nat n) x.

(** [enumerate(l)] *)
Definition enumerate l : list (Z * A) := zip (seqZ 0 (py_len l)) l.

End seq.

(** [list(range(a, b))]: the empty list when [b <= a]. *)
Definition py_range (a b : Z) : list Z := seqZ a (b - a).

(** ** Lengths *)

Section len.
Context {A : Type}.
Implicit Types (l k : list A) (i j n : Z) (x : A).

Lemma py_len_nonneg l : 0 ≤ py_len l.
Proof. unfold py_len. lia. Qed.

Lemma py_len_nil : py_len (@nil A) = 0.
Proof. done. Qed.

Lemma py_len_cons x l : py_len (x :: l) = 1 + py_len l.
Proof. unfold py_len. simpl. lia. Qed.

Lemma py_len_app l k : py_len (l ++ k) = py_len l + py_len k.
Proof. unfold py_len. rewrite length_app. lia. Qed.

Lemma py_len_0 l : py_len l = 0 ↔ l = [].
Proof. unfold py_len. destruct l; simpl; split; (done || lia). Qed.

Lemma py_len_to_nat l : Z.to_nat (py_len l) = length l.
Proof. unfold py_len. lia. Qed.

Lemma slice_index_bounds n i : 0 ≤ n → 0 ≤ slice_index n i ≤ n.
Proof. unfold slice_index. case_decide; lia. Qed.

Lemma slice_index_id n i : 0 ≤ i ≤ n → slice_index n i = i.
Proof. unfold slice_index. case_decide; lia. Qed.

Lemma slice_index_ge n i : 0 ≤ n ≤ i → slice_index n i = n.
Proof. unfold slice_index. case_decide; lia. Qed.

Lemma slice_index_neg n i : i < 0 → slice_index n i = Z.max 0 (i + n).
Proof. unfold slice_index. case_decide; lia. Qed.

Lemma slice_index_mono n i j :
  0 ≤ n → 0 ≤ i ≤ j ∨ i ≤ j < 0 → slice_index n i ≤ slice_index n j.
Proof. unfold slice_index. repeat case_decide; lia. Qed.

End len.

#[export] Hint Rewrite @py_len_nil @py_len_cons @py_len_app @py_len_to_nat : len.

(** [slice_simpl] exposes the [take]/[drop] form of the slices in the goal:
    it unfolds them and decides the sign tests of their bounds with [lia]. *)
Ltac slice_simpl :=
  unfold slice, slice_from, slice_to, slice_index;
  repeat (case_decide; try lia).

(** ** Slices with bounds that are not negative *)

Section slice.
Context {A : Type}.
Implicit Types (l k : list A) (i j n : Z) (x : A).

Lemma slice_from_drop l i : 0 ≤ i → slice_from l i = drop (Z.to_nat i) l.
Proof.
  intros Hi. slice_simpl. destruct (decide (i ≤ py_len l)).
  - by rewrite Z.min_l.
  - rewrite Z.min_r, py_len_to_nat, !drop_ge by (unfold py_len in *; lia). done.
Qed.

Lemma slice_to_take l j : 0 ≤ j → slice_to l j = take (Z.to_nat j) l.
Proof.
  intros Hj. slice_simpl. destruct (decide (j ≤ py_len l)).
  - by rewrite Z.min_l.
  - rewrite Z.min_r, py_len_to_nat, !take_ge by (unfold py_len in *; lia). done.
Qed.

Lemma slice_take_drop l i j :
  0 ≤ i → 0 ≤ j → slice l i j = take (Z.to_nat (j - i)) (drop (Z.to_nat i) l).
Proof.
  intros Hi Hj. slice_simpl. pose proof (py_len_to_nat l) as Hn.
  destruct (decide (i ≤ py_len l)), (decide (j ≤ py_len l)).
  - by rewrite !Z.min_l.
  - rewrite (Z.min_l i), (Z.min_r j) by lia.
    rewrite !take_ge; [done|rewrite length_drop; lia..].
  - rewrite (Z.min_r i), (Z.min_l j), !drop_ge by lia. by rewrite !take_nil.
  - rewrite !Z.min_r, !drop_ge by lia. by rewrite !take_nil.
Qed.

Lemma slice_empty l i j : 0 ≤ j ≤ i → slice l i j = [].
Proof.
  intros. rewrite slice_take_drop by lia.
  by replace (Z.to_nat (j - i)) with 0%nat by lia.
Qed.

Lemma slice_all l : slice l 0 (py_len l) = l.
Proof.
  rewrite slice_take_drop by (pose proof (py_len_nonneg l); lia).
  rewrite Z.sub_0_r, py_len_to_nat. simpl. by rewrite take_ge.
Qed.

Lemma slice_from_0 l : slice_from l 0 = l.
Proof. by rewrite slice_from_drop. Qed.

Lemma slice_from_len l i : py_len l ≤ i → slice_from l i = [].
Proof.
  intros. pose proof (py_len_nonneg l).
  rewrite slice_from_drop, drop_ge by (unfold py_len in *; lia). done.
Qed.

Lemma slice_from_slice l i : slice_from l i = slice l i (py_len l).
Proof.
  unfold slice_from, slice. pose proof (py_len_nonneg l).
  rewrite (slice_index_id _ (py_len l)) by lia.
  pose proof (slice_index_bounds (py_len l) i).
  rewrite take_ge; [done|]. rewrite length_drop. unfold py_len in *. lia.
Qed.

Lemma slice_to_slice l j : slice_to l j = slice l 0 j.
Proof.
  unfold slice_to, slice. pose proof (py_len_nonneg l).
  rewrite (slice_index_id _ 0) by lia. by rewrite Z.sub_0_r.
Qed.

(** The three parts of a sequence cut at two positions. *)
Lemma slice_split l i j :
  0 ≤ i ≤ j → slice_to l i ++ slice l i j ++ slice_from l j = l.
Proof.
  intros. rewrite slice_to_take, slice_take_drop, slice_from_drop by lia.
  replace (Z.to_nat j) with (Z.to_nat i + Z.to_nat (j - i))%nat by lia.
  rewrite <-drop_drop, take_drop. apply take_drop.
Qed.

Lemma slice_app_slice l i j n :
  0 ≤ i ≤ j → j ≤ n → slice l i j ++ slice l j n = slice l i n.
Proof.
  intros. rewrite !slice_take_drop by lia.
  replace (Z.to_nat j) with (Z.to_nat i + Z.to_nat (j - i))%nat by lia.
  rewrite <-drop_drop, take_take_drop. f_equal. lia.
Qed.

Lemma py_len_slice l i j :
  0 ≤ i ≤ j → j ≤ py_len l → py_len (slice l i j) = j - i.
Proof.
  intros. rewrite slice_take_drop by lia. unfold py_len in *.
  rewrite length_take, length_drop. lia.
Qed.

(** Slices of a concatenation at the positions where its parts meet: the
    shape of every slice the example builder takes of its own text. *)
Lemma slice_to_app_len l k : slice_to (l ++ k) (py_len l) = l.
Proof.
  rewrite slice_to_take, py_len_to_nat by apply py_len_nonneg.
  apply take_app_length.
Qed.

Lemma slice_from_app_len l k : slice_from (l ++ k) (py_len l) = k.
Proof.
  rewrite slice_from_drop, py_len_to_nat by apply py_len_nonneg.
  apply drop_app_length.
Qed.

Lemma slice_app_middle l1 l2 l3 i j :
  i = py_len l1 → j = py_len l1 + py_len l2 →
  slice (l1 ++ l2 ++ l3) i j = l2.
Proof.
  intros -> ->. pose proof (py_len_nonneg l1). pose proof (py_len_nonneg l2).
  rewrite slice_take_drop by lia. rewrite py_len_to_nat, drop_app_length.
  replace (py_len l1 + py_len l2 - py_len l1) with (py_len l2) by lia.
  rewrite py_len_to_nat. apply take_app_length.
Qed.

(** A slice of a prefix is a prefix of the slice. *)
Lemma slice_take l (m : nat) i j :
  0 ≤ i → 0 ≤ j →
  slice (take m l) i j = take (m - Z.to_nat i) (slice l i j).
Proof.
  intros. rewrite !slice_take_drop by lia.
  rewrite take_take, Nat.min_comm, <-take_take.
  by rewrite skipn_firstn_comm.
Qed.

Lemma slice_prefix l k i j :
  0 ≤ i → 0 ≤ j → k `prefix_of` l → slice k i j `prefix_of` slice l i j.
Proof.
  intros Hi Hj [k' ->]. rewrite <-(take_app_length k k') at 1.
  rewrite slice_take by done. apply prefix_take.
Qed.

(** A slice that ends inside the prefix [l] of [l ++ k] does not see [k]. *)
Lemma slice_app_l l k i j :
  0 ≤ i → 0 ≤ j ≤ py_len l → slice (l ++ k) i j = slice l i j.
Proof.
  intros Hi Hj. rewrite !slice_take_drop by lia. unfold py_len in *.
  destruct (decide (Z.to_nat i ≤ length l)%nat).
  - rewrite drop_app_le, take_app_le by (rewrite ?length_drop; lia). done.
  - replace (Z.to_nat (j - i)) with 0%nat by lia. done.
Qed.

Lemma last_slice l i j :
  0 ≤ i < j → j ≤ py_len l → last (slice l i j) = l !! Z.to_nat (j - 1).
Proof.
  intros. rewrite slice_take_drop, last_lookup by lia.
  rewrite length_take, length_drop. unfold py_len in *.
  rewrite lookup_take_lt, lookup_drop by lia. f_equal. lia.
Qed.

Lemma slice_nonempty l i j : 0 ≤ i < j → i < py_len l → slice l i j ≠ [].
Proof.
  intros ?? Hnil%(f_equal length). rewrite slice_take_drop in Hnil by lia.
  rewrite length_take, length_drop in Hnil. unfold py_len in *. simpl in *. lia.
Qed.

Lemma slice_nil_inv l i j :
  0 ≤ i → 0 ≤ j → slice l i j = [] → j ≤ i ∨ py_len l ≤ i.
Proof.
  intros ?? Hs. destruct (decide (j ≤ i)); [by left|right].
  destruct (decide (py_len l ≤ i)); [done|].
  destruct (slice_nonempty l i j); [lia|lia|done].
Qed.

(** [l[:k] + l[k:] == l], for every [k]. *)
Lemma slice_to_from l i : slice_to l i ++ slice_from l i = l.
Proof. unfold slice_to, slice_from. apply take_drop. Qed.

Lemma slice_from_split l i j :
  0 ≤ i ≤ j → slice_from l i = slice l i j ++ slice_from l j.
Proof.
  intros. rewrite !slice_from_drop, slice_take_drop by lia.
  replace (Z.to_nat j) with (Z.to_nat i + Z.to_nat (j - i))%nat by lia.
  by rewrite <-drop_drop, take_drop.
Qed.

Lemma slice_from_nonempty l i : 0 ≤ i < py_len l → slice_from l i ≠ [].
Proof. intros. rewrite slice_from_slice. apply slice_nonempty; lia. Qed.

Lemma Forall_slice (P : A → Prop) l i j : Forall P l → Forall P (slice l i j).
Proof. intros. by apply Forall_take, Forall_drop. Qed.

Lemma Forall_slice_from (P : A → Prop) l i :
  Forall P l → Forall P (slice_from l i).
Proof. intros. by apply Forall_drop. Qed.

Lemma elem_of_slice l i j x : x ∈ slice l i j → x ∈ l.
Proof. intros ?%subseteq_take. by eapply subseteq_drop. Qed.

End slice.

(** ** Slices with negative bounds *)

Section slice_neg.
Context {A : Type}.
Implicit Types (l k : list A) (i j n : Z) (x : A).

(** A negative bound [i] stands for [len(l) + i], clipped at 0. *)
Lemma slice_neg_l l i j :
  i < 0 → slice l i j = slice l (Z.max 0 (i + py_len l)) j.
Proof.
  intros. unfold slice. pose proof (py_len_nonneg l).
  rewrite (slice_index_neg _ i), (slice_index_id _ (Z.max _ _)) by lia. done.
Qed.

Lemma slice_neg_r l i j :
  j < 0 → slice l i j = slice l i (Z.max 0 (j + py_len l)).
Proof.
  intros. unfold slice. pose proof (py_len_nonneg l).
  rewrite (slice_index_neg _ j), (slice_index_id _ (Z.max _ _)) by lia. done.
Qed.

Lemma slice_from_neg l i :
  i < 0 → slice_from l i = slice_from l (Z.max 0 (i + py_len l)).
Proof.
  intros. unfold slice_from. pose proof (py_len_nonneg l).
  rewrite (slice_index_neg _ i), (slice_index_id _ (Z.max _ _)) by lia. done.
Qed.

Lemma slice_to_neg l j :
  j < 0 → slice_to l j = slice_to l (Z.max 0 (j + py_len l)).
Proof.
  intros. unfold slice_to. pose proof (py_len_nonneg l).
  rewrite (slice_index_neg _ j), (slice_index_id _ (Z.max _ _)) by lia. done.
Qed.

(** [l[:j]] with a negative [j] drops the last [-j] elements. *)
Lemma length_slice_to_neg l j :
  j < 0 → py_len (slice_to l j) = Z.max 0 (py_len l + j).
Proof.
  intros. rewrite slice_to_neg, slice_to_take by lia. unfold py_len.
  rewrite length_take. lia.
Qed.

End slice_neg.

(** ** [range], [[x] * n] and [enumerate] *)

Section range.
Context {A : Type}.
Implicit Types (l : list A) (x : A).

Lemma length_py_range a b : length (py_range a b) = Z.to_nat (b - a).
Proof. apply length_seqZ. Qed.

Lemma py_range_empty a b : b ≤ a → py_range a b = [].
Proof. intros. apply seqZ_nil. lia. Qed.

Lemma lookup_py_range a b (i : nat) :
  Z.of_nat i < b - a → py_range a b !! i = Some (a + Z.of_nat i).
Proof. apply lookup_seqZ_lt. Qed.

Lemma elem_of_py_range a b k : k ∈ py_range a b ↔ a ≤ k < b.
Proof. unfold py_range. rewrite elem_of_seqZ. lia. Qed.

(** [list(range(a, b))[:m]] for [m] that is not negative: the range cut
    after [m] elements. *)
Lemma slice_to_py_range a b m :
  0 ≤ m → slice_to (py_range a b) m = py_range a (a + Z.min (b - a) m).
Proof.
  intros. rewrite slice_to_take by done. unfold py_range.
  replace (a + Z.min (b - a) m - a) with (Z.min (b - a) m) by lia.
  destruct (decide (m ≤ b - a)).
  - replace (b - a) with (m + (b - a - m)) at 1 by lia.
    rewrite seqZ_app, Z.min_r by lia. apply take_app_length'. len.
  - rewrite take_ge, Z.min_l by len. done.
Qed.

Lemma elem_of_slice_to_py_range a b m k :
  k ∈ slice_to (py_range a b) m → a ≤ k < b.
Proof. intros ?%subseteq_take. by apply elem_of_py_range. Qed.

Lemma length_py_repeat x n : length (py_repeat x n) = Z.to_nat n.
Proof. apply length_replicate. Qed.

Lemma py_repeat_neg x n : n ≤ 0 → py_repeat x n = [].
Proof. intros. unfold py_repeat. by replace (Z.to_nat n) with 0%nat by lia. Qed.

Lemma elem_of_py_repeat x y n : y ∈ py_repeat x n → y = x.
Proof. unfold py_repeat. by intros [-> _]%elem_of_replicate. Qed.

Lemma length_enumerate l : length (enumerate l) = length l.
Proof.
  unfold enumerate. rewrite length_zip_with, length_seqZ, py_len_to_nat. lia.
Qed.

Lemma lookup_enumerate l (i : nat) x :
  enumerate l !! i = Some (Z.of_nat i, x) ↔ l !! i = Some x.
Proof.
  unfold enumerate. rewrite lookup_zip_with_Some. split.
  - intros (? & ? & [= <- <-] & _ & ?). done.
  - intros Hx. exists (Z.of_nat i), x. split_and!; [done| |done].
    rewrite lookup_seqZ_lt; [done|].
    apply lookup_lt_Some in Hx. unfold py_len. lia.
Qed.

Lemma lookup_enumerate_inv l (i : nat) (p : Z * A) :
  enumerate l !! i = Some p → p.1 = Z.of_nat i ∧ l !! i = Some p.2.
Proof.
  unfold enumerate. rewrite lookup_zip_with_Some.
  intros (? & ? & -> & [-> _]%lookup_seqZ & ?). split; [simpl; lia|done].
Qed.

Lemma enumerate_snoc l x : enumerate (l ++ [x]) = enumerate l ++ [(py_len l, x)].
Proof.
  unfold enumerate.
  replace (py_len (l ++ [x])) with (py_len l + 1) by (unfold py_len; len).
  rewrite seqZ_app by (unfold py_len; lia).
  rewrite zip_with_app by (rewrite length_seqZ; unfold py_len; lia). done.
Qed.

Lemma enumerate_fst l : (enumerate l).*1 = seqZ 0 (py_len l).
Proof.
  unfold enumerate. apply fst_zip. rewrite length_seqZ, py_len_to_nat. lia.
Qed.

Lemma enumerate_snd l : (enumerate l).*2 = l.
Proof.
  unfold enumerate. apply snd_zip. rewrite length_seqZ, py_len_to_nat. lia.
Qed.

(** The pairs of a prefix are a prefix of the pairs. *)
Lemma enumerate_take l (k : nat) : enumerate (take k l) = take k (enumerate l).
Proof.
  induction l as [|x l IH] using rev_ind; [by destruct k|].
  rewrite enumerate_snoc. destruct (decide (k ≤ length l)%nat).
  - by rewrite !take_app_le by (rewrite ?length_enumerate; lia).
  - by rewrite !take_ge, enumerate_snoc by (len; rewrite ?length_enumerate; lia).
Qed.

End range.

(** ** Dictionaries built from [enumerate]

    [{x: f(i) for i, x in enumerate(l)}]: the keys are the elements of [l],
    and an element that occurs more than once keeps the value of its last
    position. *)

Section dict_enumerate.
Context `{Countable K} {V : Type} (f : Z → V).
Context (g : gmap K V → Z * K → gmap K V).
Context (Hg : ∀ m i x, g m (i, x) = <[x := f i]> m).
Implicit Types (l : list K) (x : K) (v : V).

Lemma dict_enumerate_snoc l x :
  foldl g ∅ (enumerate (l ++ [x])) = <[x := f (py_len l)]> (foldl g ∅ (enumerate l)).
Proof. by rewrite enumerate_snoc, foldl_app; simpl; rewrite Hg. Qed.

Lemma dict_enumerate_None l x : foldl g ∅ (enumerate l) !! x = None ↔ x ∉ l.
Proof.
  induction l as [|y l IH] using rev_ind.
  { split; [intros _; apply not_elem_of_nil|done]. }
  rewrite dict_enumerate_snoc, lookup_insert_None, IH, not_elem_of_app.
  rewrite list_elem_of_singleton. naive_solver.
Qed.

Lemma dict_enumerate_is_Some l x : is_Some (foldl g ∅ (enumerate l) !! x) ↔ x ∈ l.
Proof.
  rewrite <-not_eq_None_Some, dict_enumerate_None.
  destruct (decide (x ∈ l)); naive_solver.
Qed.

(** The value of a key is [f] of the last position of the key. *)
Lemma dict_enumerate_Some l x v :
  foldl g ∅ (enumerate l) !! x = Some v ↔
  ∃ i : nat, l !! i = Some x ∧ v = f (Z.of_nat i) ∧ x ∉ drop (S i) l.
Proof.
  revert v. induction l as [|y l IH] using rev_ind; intros v.
  { split; [done|]. by intros (i & ? & _). }
  rewrite dict_enumerate_snoc, lookup_insert_Some, IH. split.
  - intros [[-> <-]|[? (i & Hi & -> & Hlast)]].
    + exists (length l). rewrite list_lookup_middle by done.
      split_and!; [done..|]. rewrite drop_ge by len. apply not_elem_of_nil.
    + exists i. pose proof (lookup_lt_Some _ _ _ Hi).
      rewrite lookup_app_l, drop_app_le by lia.
      split_and!; [done..|]. rewrite not_elem_of_app, list_elem_of_singleton. done.
  - intros (i & Hi & -> & Hlast). destruct (decide (i < length l)%nat) as [Hlt|Hge].
    + rewrite lookup_app_l in Hi by done. rewrite drop_app_le in Hlast by lia.
      apply not_elem_of_app in Hlast as [? ?%not_elem_of_cons]. right.
      split; [naive_solver|]. eauto.
    + left. rewrite lookup_app_r in Hi by lia.
      apply list_lookup_singleton_Some in Hi as [? <-]. split; [done|].
      unfold py_len. f_equal. lia.
Qed.

(** Without repetitions, the value of a key is [f] of its position. *)
Lemma dict_enumerate_NoDup l x v :
  NoDup l →
  foldl g ∅ (enumerate l) !! x = Some v ↔
  ∃ i : nat, l !! i = Some x ∧ v = f (Z.of_nat i).
Proof.
  intros Hnd. rewrite dict_enumerate_Some. split; [naive_solver|].
  intros (i & Hi & ->). exists i. split_and!; [done..|].
  intros (j & Hj)%list_elem_of_lookup. rewrite lookup_drop in Hj.
  pose proof (NoDup_lookup _ _ _ _ Hnd Hi Hj). lia.
Qed.

End dict_enumerate.

#[export] Hint Rewrite length_py_range @length_py_repeat @length_enumerate : len.

(** ** [enumerate], element by element *)

Lemma enumerate_cons {A} (x : A) l :
  enumerate (x :: l) = (0, x) :: zip (seqZ 1 (py_len l)) l.
Proof.
  unfold enumerate. rewrite py_len_cons.
  rewrite (seqZ_cons 0) by (pose proof (py_len_nonneg l); lia).
  simpl. do 3 f_equal. lia.
Qed.

(** Lists that are related elementwise are enumerated with the same
    indices. *)
Lemma enumerate_Forall2 {A B} (R : A → B → Prop) l k :
  Forall2 R l k →
  Forall2 (λ p q, p.1 = q.1 ∧ R p.2 q.2) (enumerate l) (enumerate k).
Proof.
  intros H. unfold enumerate, py_len. rewrite <-(Forall2_length _ _ _ H).
  generalize (seqZ 0 (Z.of_nat (length l))).
  induction H; intros [|i ns]; simpl; by repeat constructor.
Qed.

(** ** Slices that follow each other

    The slices [l[:i]] and [l[i:j]] hold every element of [l[:j]],
    whatever [i] and [j] are: when [j] comes before [i], the first slice
    alone does. *)

Lemma Forall_slice_to_slice {A} (P : A → Prop) (l : list A) i j :
  Forall P (slice_to l i) → Forall P (slice l i j) → Forall P (slice_to l j).
Proof.
  unfold slice_to, slice. pose proof (py_len_nonneg l) as Hn.
  pose proof (slice_index_bounds (py_len l) i Hn) as Hi.
  pose proof (slice_index_bounds (py_len l) j Hn) as Hj.
  set (a := slice_index (py_len l) i) in *.
  set (b := slice_index (py_len l) j) in *. intros Ha Hab.
  destruct (decide (b ≤ a)) as [Hle|Hlt].
  - replace (take (Z.to_nat b) l)
      with (take (Z.to_nat b) (take (Z.to_nat a) l))
      by (rewrite take_take; f_equal; lia).
    by apply Forall_take.
  - replace (Z.to_nat b) with (Z.to_nat a + Z.to_nat (b - a))%nat by lia.
    rewrite <-take_take_drop. by apply Forall_app.
Qed.

Lemma slice_to_0 {A} (l : list A) : slice_to l 0 = [].
Proof.
  unfold slice_to. by rewrite slice_index_id by (pose proof (py_len_nonneg l); lia).
Qed.
