(* ===== verification/PyStr.v ===== *)
(** * Python strings

    A Python [str] is a sequence of Unicode code points: [char] is a code
    point as an [N] and [str] a list of them, so [len], slices and
    concatenation are the list operations of [PySeq].  This file adds what
    [src/examples/relation_classification/utils.py] uses of the [str] type:
    literals, [str.isspace], [str.rstrip()], [sep.join(xs)], the ['%s' % i]
    formatting of an integer, the comparison [<] of strings and [sorted]. *)

From stdpp Require Import strings pretty.
From S2P Require Import Prelude PySeq.

Abbreviation char := N (only parsing).
Abbreviation str := (list N) (only parsing).

(** ** Literals *)

(** The string whose code points are the bytes of the literal [s]. *)
Definition pystr (s : string) : str :=
  Stdlib.Strings.Ascii.N_of_ascii <$> Stdlib.Strings.String.list_ascii_of_string s.

(** ['%s' % i] for an integer [i]: its decimal digits, after ['-'] when it is
    negative. *)
Definition str_of_Z (i : Z) : str := pystr (pretty i).

(** [' '] *)
Definition space : char := 32%N.

(** ** [str.isspace] and [str.rstrip] *)

(** The code points CPython's [_PyUnicode_IsWhitespace] accepts. *)
Definition isspace (c : char) : bool :=
  ((9 <=? c) && (c <=? 13) || (28 <=? c) && (c <=? 32) ||
   (c =? 133) || (c =? 160) || (c =? 5760) ||
   (8192 <=? c) && (c <=? 8202) || (c =? 8232) || (c =? 8233) ||
   (c =? 8239) || (c =? 8287) || (c =? 12288))%N.

(** [s.rstrip()]: [s] without its trailing whitespace. *)
Fixpoint rstrip (s : str) : str :=
  match s with
  | [] => []
  | c :: s' =>
      match rstrip s' with
      | [] => if isspace c then [] else [c]
      | r => c :: r
      end
  end.

(** [s] is not empty and its last character is not whitespace. *)
Definition ends_nonspace (s : str) : Prop :=
  ∃ s' c, s = s' ++ [c] ∧ isspace c = false.

(** ** [sep.join(xs)] *)

Fixpoint join (sep : str) (xs : list str) : str :=
  match xs with
  | [] => []
  | x :: xs' =>
      match xs' with
      | [] => x
      | _ :: _ => x ++ sep ++ join sep xs'
      end
  end.

(** ** Comparison and [sorted] *)

(** [a < b]: the first differing code point decides, and a proper prefix is
    smaller. *)
Fixpoint str_ltb (a b : str) : bool :=
  match a, b with
  | [], [] => false
  | [], _ :: _ => true
  | _ :: _, [] => false
  | x :: a', y :: b' =>
      if (x <? y)%N then true else if (x =? y)%N then str_ltb a' b' else false
  end.

(** [a <= b] *)
Definition str_le (a b : str) : Prop := str_ltb b a = false.

#[export] Instance str_le_dec : RelDecision str_le.
Proof. intros a b. unfold str_le. apply _. Defined.

(** [sorted(xs)] for a collection of strings. *)
Definition sorted (xs : list str) : list str := merge_sort str_le xs.

(** ** Lemmas on [rstrip] *)

Section rstrip.
Implicit Types (s r w : str) (c : char).

Lemma isspace_space : isspace space = true.
Proof. done. Qed.

Lemma rstrip_cons c s :
  rstrip (c :: s) =
    if decide (rstrip s = []) then (if isspace c then [] else [c])
    else c :: rstrip s.
Proof. simpl. by destruct (rstrip s). Qed.

Lemma rstrip_spaces w : Forall (λ c, isspace c = true) w → rstrip w = [].
Proof. induction 1 as [|c w Hc _ IH]; [done|]. simpl. by rewrite IH, Hc. Qed.

Lemma rstrip_nil_inv s : rstrip s = [] → Forall (λ c, isspace c = true) s.
Proof.
  induction s as [|c s IH]; [done|]. rewrite rstrip_cons.
  case_decide; [|done]. destruct (isspace c) eqn:?; [|done]. auto.
Qed.

Lemma rstrip_app_spaces s w :
  Forall (λ c, isspace c = true) w → rstrip (s ++ w) = rstrip s.
Proof.
  intros Hw. induction s as [|c s IH]; simpl; [by apply rstrip_spaces|].
  by rewrite IH.
Qed.

Lemma rstrip_ends_nonspace s : ends_nonspace s → rstrip s = s.
Proof.
  intros (s' & c & -> & Hc). induction s' as [|c' s' IH]; simpl.
  - by rewrite Hc.
  - rewrite IH. by destruct s'.
Qed.

Lemma rstrip_app_nonspace s w :
  ends_nonspace s → Forall (λ c, isspace c = true) w → rstrip (s ++ w) = s.
Proof. intros. by rewrite rstrip_app_spaces, rstrip_ends_nonspace. Qed.

(** [rstrip] removes a suffix of whitespace, and what it leaves does not
    end in whitespace. *)
Lemma rstrip_decompose s :
  ∃ w, s = rstrip s ++ w ∧ Forall (λ c, isspace c = true) w.
Proof.
  induction s as [|c s (w & Hs & Hw)].
  { by exists []. }
  rewrite rstrip_cons. case_decide as Hr.
  - rewrite Hr in Hs. simpl in Hs. subst w. destruct (isspace c) eqn:Hc.
    + exists (c :: s). auto.
    + by exists s.
  - exists w. by rewrite <-app_comm_cons, <-Hs.
Qed.

Lemma rstrip_result s : rstrip s = [] ∨ ends_nonspace (rstrip s).
Proof.
  induction s as [|c s IH]; [by left|]. rewrite rstrip_cons.
  case_decide as Hr.
  - destruct (isspace c) eqn:Hc; [by left|]. right. by exists [], c.
  - right. destruct IH as [?|(s' & c' & -> & ?)]; [done|].
    by exists (c :: s'), c'.
Qed.

Lemma rstrip_prefix s : rstrip s `prefix_of` s.
Proof. destruct (rstrip_decompose s) as (w & Hs & _). by exists w. Qed.

Lemma rstrip_idemp s : rstrip (rstrip s) = rstrip s.
Proof.
  destruct (rstrip_result s) as [->|?]; [done|].
  by apply rstrip_ends_nonspace.
Qed.

Lemma length_rstrip s : (length (rstrip s) ≤ length s)%nat.
Proof. apply prefix_length, rstrip_prefix. Qed.

(** The specification of [rstrip]: the only way to split [s] into a part
    that does not end in whitespace and a tail of whitespace. *)
Lemma rstrip_unique s r w :
  s = r ++ w → Forall (λ c, isspace c = true) w →
  r = [] ∨ ends_nonspace r → rstrip s = r.
Proof.
  intros -> Hw [->|Hr].
  - by apply rstrip_spaces.
  - by apply rstrip_app_nonspace.
Qed.

Lemma ends_nonspace_app s r : ends_nonspace r → ends_nonspace (s ++ r).
Proof.
  intros (r' & c & -> & Hc). exists (s ++ r'), c. by rewrite (assoc_L (++)).
Qed.

Lemma ends_nonspace_ne s : ends_nonspace s → s ≠ [].
Proof. intros (s' & c & -> & _). by destruct s'. Qed.

End rstrip.

Lemma ends_nonspace_last s :
  ends_nonspace s ↔ ∃ c, last s = Some c ∧ isspace c = false.
Proof. unfold ends_nonspace. setoid_rewrite last_Some. naive_solver. Qed.

#[export] Instance ends_nonspace_dec s : Decision (ends_nonspace s).
Proof.
  refine (match last s as o return last s = o → _ with
          | Some c => λ H, cast_if (decide (isspace c = false))
          | None => λ H, right _
          end eq_refl); abstract (rewrite ends_nonspace_last; naive_solver).
Defined.

(** ** Lemmas on [join] *)

Section join.
Implicit Types (sep s : str) (xs ys : list str).

Lemma join_nil sep : join sep [] = [].
Proof. done. Qed.

Lemma join_singleton sep s : join sep [s] = s.
Proof. done. Qed.

Lemma join_cons sep s xs :
  xs ≠ [] → join sep (s :: xs) = s ++ sep ++ join sep xs.
Proof. by destruct xs. Qed.

Lemma join_app sep xs ys :
  xs ≠ [] → ys ≠ [] →
  join sep (xs ++ ys) = join sep xs ++ sep ++ join sep ys.
Proof.
  intros Hxs Hys. induction xs as [|s xs IH]; [done|].
  destruct xs as [|s' xs].
  - simpl. by destruct ys.
  - change ((s :: s' :: xs) ++ ys) with (s :: ((s' :: xs) ++ ys)).
    rewrite (join_cons _ s ((s' :: xs) ++ ys)), IH, (join_cons _ s (s' :: xs))
      by done.
    by rewrite <-!(assoc_L (++)).
Qed.

Lemma join_snoc sep xs s :
  xs ≠ [] → join sep (xs ++ [s]) = join sep xs ++ sep ++ s.
Proof. intros. by rewrite join_app. Qed.

Lemma length_join sep xs :
  length (join sep xs) =
    sum_list (length <$> xs) + (length xs - 1) * length sep.
Proof.
  induction xs as [|s xs IH]; [done|]. destruct xs as [|s' xs].
  - simpl. lia.
  - rewrite join_cons by done. rewrite !length_app, IH.
    cbn [fmap list_fmap sum_list sum_list_with length]. unfold id. nia.
Qed.

Lemma join_ends_nonspace sep xs s :
  last xs = Some s → ends_nonspace s → ends_nonspace (join sep xs).
Proof.
  intros [xs' ->]%last_Some Hs. destruct xs' as [|s' xs']; [done|].
  rewrite join_snoc by done. by do 2 apply ends_nonspace_app.
Qed.

Lemma join_eq_nil sep xs : join sep xs = [] → xs = [] ∨ xs = [[]] ∨ sep = [].
Proof.
  destruct xs as [|s [|s' xs]]; simpl; [auto|intros ->; auto|].
  intros H. apply app_eq_nil in H as [_ H]. apply app_eq_nil in H as [-> _].
  auto.
Qed.

Lemma join_nil_inv sep xs :
  sep ≠ [] → Forall (λ s, s ≠ []) xs → join sep xs = [] → xs = [].
Proof.
  intros ? Hxs [->|[->|?]]%join_eq_nil; [done| |done].
  by apply Forall_cons in Hxs as [? _].
Qed.

(** [join] followed by the separator: every element followed by it. *)
Lemma join_sep_concat sep xs :
  xs ≠ [] → join sep xs ++ sep = concat ((λ s, s ++ sep) <$> xs).
Proof.
  induction xs as [|s xs IH]; [done|]. intros _. destruct xs as [|s' xs].
  - simpl. by rewrite app_nil_r.
  - rewrite join_cons by done. rewrite fmap_cons, concat_cons, <-IH by done.
    by rewrite <-!(assoc_L (++)).
Qed.

Lemma join_app_concat sep xs ys :
  ys ≠ [] →
  join sep (xs ++ ys) = concat ((λ s, s ++ sep) <$> xs) ++ join sep ys.
Proof.
  intros. destruct (decide (xs = [])) as [->|]; [done|].
  by rewrite join_app, <-join_sep_concat, <-(assoc_L (++)).
Qed.

End join.

(** ** The order on strings *)

Section order.
Implicit Types (a b c : str).

Lemma str_ltb_irrefl a : str_ltb a a = false.
Proof.
  induction a as [|x a IH]; [done|]. simpl.
  by rewrite N.ltb_irrefl, N.eqb_refl.
Qed.

(** [str_ltb] decides stdpp's lexicographic order on lists of code points. *)
Lemma str_ltb_lexico a b : str_ltb a b = true ↔ lexico a b.
Proof.
  revert b. induction a as [|x a IH]; intros [|y b]; simpl; try done.
  change (lexico (x :: a) (y :: b)) with
    ((x < y)%N ∨ x = y ∧ lexico a b).
  rewrite <-IH. destruct (N.ltb_spec x y), (N.eqb_spec x y);
    naive_solver lia.
Qed.

Lemma str_ltb_trans a b c :
  str_ltb a b = true → str_ltb b c = true → str_ltb a c = true.
Proof. rewrite !str_ltb_lexico. apply transitivity. Qed.

Lemma str_ltb_total a b : str_ltb a b = false → str_ltb b a = false → a = b.
Proof.
  rewrite <-!not_true_iff_false, !str_ltb_lexico. intros ??.
  by destruct (trichotomy lexico a b) as [?|[?|?]].
Qed.

Lemma str_lexico_asymm a b : lexico a b → ¬ lexico b a.
Proof. intros ??. apply (irreflexivity lexico a). by trans b. Qed.

Lemma str_le_lexico a b : str_le a b ↔ ¬ lexico b a.
Proof. unfold str_le. by rewrite <-not_true_iff_false, str_ltb_lexico. Qed.

#[export] Instance str_le_refl : Reflexive str_le.
Proof. intros a. apply str_ltb_irrefl. Qed.

#[export] Instance str_le_total : Total str_le.
Proof.
  intros a b. rewrite !str_le_lexico.
  destruct (trichotomy lexico a b) as [?|[->|?]];
    [left|left; apply irreflexivity, _|right]; by apply str_lexico_asymm.
Qed.

#[export] Instance str_le_antisymm : AntiSymm (=) str_le.
Proof. intros a b ??. by apply str_ltb_total. Qed.

#[export] Instance str_le_trans : Transitive str_le.
Proof.
  intros a b c. rewrite !str_le_lexico. intros Hba Hcb Hca.
  destruct (trichotomy lexico a b) as [?|[->|?]]; [|done..].
  apply Hcb. by trans a.
Qed.

Lemma str_le_lt_or_eq a b : str_le a b ↔ str_ltb a b = true ∨ a = b.
Proof.
  rewrite str_le_lexico, str_ltb_lexico. split.
  - intros ?. destruct (trichotomy lexico a b) as [?|[->|?]]; auto. done.
  - intros [?| ->]; [by apply str_lexico_asymm|apply irreflexivity, _].
Qed.

End order.

(** ** Lemmas on [sorted] *)

Section sorted.
Implicit Types (xs ys : list str) (a : str).

Lemma sorted_Permutation xs : sorted xs ≡ₚ xs.
Proof. apply merge_sort_Permutation. Qed.

Lemma sorted_StronglySorted xs : StronglySorted str_le (sorted xs).
Proof. apply StronglySorted_merge_sort; apply _. Qed.

Lemma elem_of_sorted a xs : a ∈ sorted xs ↔ a ∈ xs.
Proof. by rewrite sorted_Permutation. Qed.

Lemma length_sorted xs : length (sorted xs) = length xs.
Proof. by rewrite sorted_Permutation. Qed.

Lemma NoDup_sorted xs : NoDup (sorted xs) ↔ NoDup xs.
Proof. by rewrite sorted_Permutation. Qed.

(** The result of [sorted] does not depend on the sorting algorithm: it is
    the only sorted arrangement of its argument. *)
Lemma sorted_unique xs ys :
  StronglySorted str_le ys → ys ≡ₚ xs → sorted xs = ys.
Proof.
  intros Hys Hp. apply (StronglySorted_unique str_le).
  - apply sorted_StronglySorted.
  - done.
  - by rewrite sorted_Permutation.
Qed.

Lemma sorted_idemp xs : sorted (sorted xs) = sorted xs.
Proof.
  apply sorted_unique; [apply sorted_StronglySorted|done].
Qed.

(** Sorting a duplicate-free collection yields a strictly increasing list. *)
Lemma sorted_strict xs :
  NoDup xs → StronglySorted (λ a b, str_ltb a b = true) (sorted xs).
Proof.
  intros Hnd%NoDup_sorted. pose proof (sorted_StronglySorted xs) as Hs.
  induction Hs as [|a ys Hs IH Ha]; [constructor|].
  apply NoDup_cons in Hnd as [Hin Hnd]. constructor; [auto|].
  rewrite Forall_forall in Ha |- *. intros b Hb.
  destruct (proj1 (str_le_lt_or_eq a b) (Ha b Hb)) as [?| ->]; done.
Qed.

Lemma strictly_sorted_le xs :
  StronglySorted (λ a b, str_ltb a b = true) xs → StronglySorted str_le xs.
Proof.
  induction 1 as [|a xs _ IH Ha]; constructor; [done|].
  eapply Forall_impl; [done|]. intros b ?. apply str_le_lt_or_eq. by left.
Qed.

Lemma strictly_sorted_NoDup xs :
  StronglySorted (λ a b, str_ltb a b = true) xs → NoDup xs.
Proof.
  induction 1 as [|a xs _ IH Ha]; constructor; [|done].
  rewrite Forall_forall in Ha. intros Hlt%Ha. by rewrite str_ltb_irrefl in Hlt.
Qed.

(** A strictly increasing list is determined by its elements. *)
Lemma strictly_sorted_unique xs ys :
  StronglySorted (λ a b, str_ltb a b = true) xs →
  StronglySorted (λ a b, str_ltb a b = true) ys →
  (∀ a, a ∈ xs ↔ a ∈ ys) → xs = ys.
Proof.
  intros Hxs Hys Hel. apply (StronglySorted_unique str_le).
  - by apply strictly_sorted_le.
  - by apply strictly_sorted_le.
  - apply NoDup_Permutation; [by apply strictly_sorted_NoDup..|done].
Qed.

End sorted.

#[export] Hint Rewrite length_sorted : len.

(** ** Literals and formatting *)

Lemma ascii_of_N_of_ascii_fmap (l : list Stdlib.Strings.Ascii.ascii) :
  Stdlib.Strings.Ascii.ascii_of_N <$> (Stdlib.Strings.Ascii.N_of_ascii <$> l) = l.
Proof.
  induction l as [|a l IH]; [done|].
  by rewrite !fmap_cons, IH, Stdlib.Strings.Ascii.ascii_N_embedding.
Qed.

#[export] Instance pystr_inj : Inj (=) (=) pystr.
Proof.
  intros s1 s2 Hs. unfold pystr in Hs.
  apply (f_equal (fmap Stdlib.Strings.Ascii.ascii_of_N)) in Hs.
  rewrite !ascii_of_N_of_ascii_fmap in Hs.
  rewrite <-(Stdlib.Strings.String.string_of_list_ascii_of_string s1),
    <-(Stdlib.Strings.String.string_of_list_ascii_of_string s2).
  by rewrite Hs.
Qed.

#[export] Instance str_of_Z_inj : Inj (=) (=) str_of_Z.
Proof. intros i j Hij. by apply (inj pretty), (inj pystr). Qed.

Lemma length_pystr s : length (pystr s) = Stdlib.Strings.String.length s.
Proof.
  unfold pystr. rewrite length_fmap.
  induction s; simpl; by f_equal.
Qed.

(** ** Slices of a stripped text *)

Section slice_rstrip.
Implicit Types (s r p w : str).
#[local] Open Scope Z_scope.

Lemma rstrip_app s r :
  rstrip (s ++ r) = if decide (rstrip r = []) then rstrip s else s ++ rstrip r.
Proof.
  induction s as [|c s IH].
  { simpl. by case_decide. }
  rewrite <-app_comm_cons, !rstrip_cons, IH.
  destruct (decide (rstrip r = [])) as [Hr|Hr]; [done|].
  rewrite decide_False; [done|]. by intros [_ ?]%app_eq_nil.
Qed.

(** [rstrip] never cuts into a prefix that ends in a character that is not
    whitespace. *)
Lemma rstrip_prefix_nonspace p s :
  ends_nonspace p → p `prefix_of` s → p `prefix_of` rstrip s.
Proof.
  intros Hp [q ->]. rewrite rstrip_app. case_decide.
  - by rewrite rstrip_ends_nonspace.
  - by apply prefix_app_r.
Qed.

(** The part [l2 ++ w] of a text, where [l2] ends in a character that is not
    whitespace and [w] is whitespace, read back from the stripped text at
    the positions it had before stripping: only whitespace is lost. *)
Lemma slice_rstrip_middle (l1 l2 l3 w : str) i j :
  i = py_len l1 → j = py_len l1 + py_len l2 + py_len w →
  ends_nonspace l2 → Forall (λ c, isspace c = true) w →
  rstrip (slice (rstrip (l1 ++ (l2 ++ w) ++ l3)) i j) = l2.
Proof.
  intros -> -> Hl2 Hw.
  assert ((l1 ++ l2) `prefix_of` rstrip (l1 ++ (l2 ++ w) ++ l3)) as [q Hq].
  { apply rstrip_prefix_nonspace; [by apply ends_nonspace_app|].
    exists (w ++ l3). by rewrite <-!(assoc_L (++)). }
  destruct (rstrip_decompose (l1 ++ (l2 ++ w) ++ l3)) as (w' & Hraw & _).
  rewrite Hq in Hraw |- *. rewrite <-!(assoc_L (++)) in *.
  do 2 apply app_inv_head in Hraw.
  pose proof (py_len_nonneg l1). pose proof (py_len_nonneg l2).
  pose proof (py_len_nonneg w).
  rewrite slice_take_drop, py_len_to_nat, drop_app_length by lia.
  replace (Z.to_nat _) with (length l2 + length w)%nat
    by (unfold py_len; lia).
  rewrite take_app_add. apply rstrip_app_nonspace; [done|].
  apply (f_equal (take (length w))) in Hraw.
  rewrite take_app_length, take_app in Hraw. rewrite Hraw in Hw.
  by apply Forall_app in Hw as [? _].
Qed.

(** A slice of a text is the same slice of the stripped text, followed by
    whitespace. *)
Lemma slice_rstrip_spaces s i j :
  0 ≤ i → 0 ≤ j →
  ∃ w, Forall (λ c, isspace c = true) w ∧ slice s i j = slice (rstrip s) i j ++ w.
Proof.
  intros. destruct (rstrip_decompose s) as (w0 & Hs & Hw).
  revert Hs. generalize (rstrip s). intros r ->.
  rewrite !slice_take_drop, drop_app, take_app by done.
  eexists. split; [|done]. by apply Forall_take, Forall_drop.
Qed.

(** A non-empty tail of tokens that end in a character that is not
    whitespace, joined: it ends in such a character too. *)
Lemma join_slice_from_ends_nonspace sep (tokens : list str) k :
  Forall ends_nonspace tokens → 0 ≤ k < py_len tokens →
  ends_nonspace (join sep (slice_from tokens k)).
Proof.
  intros Htok ?. destruct (last (slice_from tokens k)) as [t|] eqn:Hl.
  - eapply join_ends_nonspace; [done|].
    rewrite Forall_forall in Htok. apply Htok.
    apply last_Some in Hl as [l' Hl]. eapply (subseteq_drop (Z.to_nat k)).
    rewrite <-slice_from_drop, Hl by lia. set_solver.
  - apply last_None in Hl. by destruct (slice_from_nonempty tokens k).
Qed.

End slice_rstrip.
