(* ===== verification/Data.v ===== *)
(** * Data model

    The constants and value classes of
    [src/examples/relation_classification/utils.py] (lines 7-35), the
    exceptions its functions raise, and the shape of one record of the
    input JSON.

    - [InputExample.t] and [InputFeatures.t] are the classes [InputExample]
      and [InputFeatures]; each lives in a module of its own because both
      have a field [label], as in the source.
    - [Item] is one object of the JSON array a split is loaded from.  Its
      fields are typed (tokens are strings, offsets integers); what the
      model keeps of JSON's looseness is that a key may be absent, which is
      what makes [item['key']] raise [KeyError]. *)

From stdpp Require Import strings.
From S2P Require Import Prelude PySeq PyStr.

#[local] Open Scope Z_scope.

(** ** Exceptions *)

Inductive exn :=
  | KeyError (key : str)       (* [d[key]] for a key that [d] lacks *)
  | OSError (path : str)       (* [open(path)] failed *)
  | IndexError                 (* [l[i]] for an index outside the list [l] *)
  | ValueError                 (* a text that is no JSON, a closed file *)
  | TypeError.                 (* an operation on a value of the wrong type *)

#[export] Instance exn_eq_dec : EqDecision exn.
Proof. solve_decision. Defined.

(** [d[key]] for a lookup whose outcome is [v]. *)
Definition getitem {A} (key : str) (v : option A) : result exn A :=
  of_option v (KeyError key).

(** ** Constants (lines 7-11) *)

Definition ENTITY_TYPES : list str :=
  pystr <$> ["CAUSE_OF_DEATH"; "CITY"; "COUNTRY"; "CRIMINAL_CHARGE"; "DATE";
             "DURATION"; "IDEOLOGY"; "LOCATION"; "MISC"; "NATIONALITY";
             "NUMBER"; "ORGANIZATION"; "PERSON"; "RELIGION";
             "STATE_OR_PROVINCE"; "TITLE"; "URL"].

Definition HEAD_TOKEN : str := pystr "[HEAD]".
Definition TAIL_TOKEN : str := pystr "[TAIL]".

(** ** [InputExample] (lines 14-22) *)

Module InputExample.
Record t := mk {
  id : str;
  text : str;
  span_a : Z * Z;
  span_b : Z * Z;
  type_a : str;
  type_b : str;
  label : str;
}.
End InputExample.

#[export] Instance InputExample_eq_dec : EqDecision InputExample.t.
Proof. solve_decision. Defined.

(** ** [InputFeatures] (lines 25-35) *)

Module InputFeatures.
Record t := mk {
  word_ids : list Z;
  word_segment_ids : list Z;
  word_attention_mask : list Z;
  entity_ids : list Z;
  entity_position_ids : list (list Z);
  entity_segment_ids : list Z;
  entity_attention_mask : list Z;
  label : Z;
}.
End InputFeatures.

#[export] Instance InputFeatures_eq_dec : EqDecision InputFeatures.t.
Proof. solve_decision. Defined.

(** ** One record of the input JSON

    The keys [_create_examples] reads.  [None] is an absent key. *)

Record Item := {
  token : option (list str);
  subj_start : option Z;
  subj_end : option Z;
  obj_start : option Z;
  obj_end : option Z;
  subj_type : option str;
  obj_type : option str;
  relation : option str;
}.

(** A record with every key present. *)
Definition full_item (tokens : list str) (ss se os oe : Z)
    (st ot rel : str) : Item :=
  {| token := Some tokens; subj_start := Some ss; subj_end := Some se;
     obj_start := Some os; obj_end := Some oe; subj_type := Some st;
     obj_type := Some ot; relation := Some rel |}.

(** ** Facts about the constants *)

Lemma length_ENTITY_TYPES : length ENTITY_TYPES = 17%nat.
Proof. done. Qed.

Lemma NoDup_ENTITY_TYPES : NoDup ENTITY_TYPES.
Proof. compute_done. Qed.

Lemma HEAD_TAIL_distinct : HEAD_TOKEN ≠ TAIL_TOKEN.
Proof. compute_done. Qed.

Lemma getitem_Ok {A} key (v : option A) a : getitem key v = Ok a ↔ v = Some a.
Proof. apply of_option_Ok. Qed.

Lemma getitem_Err {A} key (v : option A) e :
  getitem key v = Err e ↔ v = None ∧ e = KeyError key.
Proof. apply of_option_Err. Qed.
