(* ===== verification/PyValue.v ===== *)
(** * The values that [json.load] returns

    [json.load] promises no types: the file of a split may hold any JSON
    text, and [_create_examples]
    ([src/examples/relation_classification/utils.py], lines 59-88) applies
    [x['key']], [x + 1], [x < y], [x[i:j]], [' '.join(x)] and
    [enumerate(x)] to whatever it finds.  This file models the values and
    these operations, from the Python language and library references:

    - [value]: [None], a [bool], an [int], a [float], a [str], a list of
      values, or a [dict] with strings as keys, given by its items in
      the order of the keys; a dict of Python holds each key once
      ([value_wf]), and [dict_of_pairs] is the dict that [json.load]
      makes of the members of a JSON object, repeated keys included;
    - [pyfloat]: a float is not a number, infinite, or [m * 2 ^ e];
    - [py_getitem], [py_add], [py_lt], [py_slice], [py_join], [py_iter]:
      the operations, which raise [TypeError] on operands of the wrong
      type and [KeyError] for a key that a dict lacks;
    - [py_same]: the test [x is y or x == y] that the comparison of lists
      applies to their elements.

    The operations are those of Python 3 up to version 3.11.  Comparisons
    of numbers are exact, as in Python.  A sum with a float
    operand is written without the rounding of the hardware: the program
    uses such a sum as the bound of a slice only, where every float
    raises [TypeError].  The lemmas on the operations hold for every list
    of items; on a list with a repeated key [dict_lookup] finds the first
    item of the key, which is the lookup of Python on the lists without
    repeated keys, the only ones that are dicts.  The last section
    evaluates the operations on concrete operands, each with the Python
    expression it stands for. *)

From stdpp Require Import strings.
From S2P Require Import Prelude PySeq PyStr Data.

#[local] Open Scope Z_scope.

(** ** Values *)

(** A Python [float]: [FFin m e] is [m * 2 ^ e]. *)
Inductive pyfloat :=
  | FNan
  | FInf (negative : bool)
  | FFin (m e : Z).

#[export] Instance pyfloat_eq_dec : EqDecision pyfloat.
Proof. solve_decision. Defined.

Unset Elimination Schemes.
Inductive value :=
  | VNone
  | VBool (b : bool)
  | VInt (z : Z)
  | VFloat (f : pyfloat)
  | VStr (s : str)
  | VList (l : list value)
  | VDict (d : list (str * value)).
Set Elimination Schemes.

(** The induction principle: the elements of a list and the values of a
    dict satisfy the property. *)
Section value_ind.
Context (P : value → Prop).
Context (HNone : P VNone) (HBool : ∀ b, P (VBool b)) (HInt : ∀ z, P (VInt z)).
Context (HFloat : ∀ f, P (VFloat f)) (HStr : ∀ s, P (VStr s)).
Context (HList : ∀ l, Forall P l → P (VList l)).
Context (HDict : ∀ d, Forall (λ kv, P kv.2) d → P (VDict d)).

Fixpoint value_ind (v : value) : P v :=
  match v with
  | VNone => HNone
  | VBool b => HBool b
  | VInt z => HInt z
  | VFloat f => HFloat f
  | VStr s => HStr s
  | VList l =>
      HList l ((fix go l : Forall P l :=
        match l with
        | [] => Forall_nil_2 P
        | x :: l => Forall_cons_2 P x l (value_ind x) (go l)
        end) l)
  | VDict d =>
      HDict d ((fix go d : Forall (λ kv, P kv.2) d :=
        match d with
        | [] => Forall_nil_2 _
        | kv :: d => Forall_cons_2 _ kv d (value_ind kv.2) (go d)
        end) d)
  end.
End value_ind.

(** ** Numbers *)

(** The order of two finite floats, exactly. *)
Definition dyadic_compare (m1 e1 m2 e2 : Z) : comparison :=
  let e := Z.min e1 e2 in
  (m1 * 2 ^ (e1 - e)) ?= (m2 * 2 ^ (e2 - e)).

Definition float_ltb (x y : pyfloat) : bool :=
  match x, y with
  | FNan, _ | _, FNan => false
  | FInf n1, FInf n2 => n1 && negb n2
  | FInf n, FFin _ _ => n
  | FFin _ _, FInf n => negb n
  | FFin m1 e1, FFin m2 e2 =>
      bool_decide (dyadic_compare m1 e1 m2 e2 = Lt)
  end.

Definition float_eqb (x y : pyfloat) : bool :=
  match x, y with
  | FInf n1, FInf n2 => bool_decide (n1 = n2)
  | FFin m1 e1, FFin m2 e2 =>
      bool_decide (dyadic_compare m1 e1 m2 e2 = Eq)
  | _, _ => false
  end.

(** [x + y] on floats, without rounding; [inf + -inf] is not a number. *)
Definition float_add (x y : pyfloat) : pyfloat :=
  match x, y with
  | FNan, _ | _, FNan => FNan
  | FInf n1, FInf n2 => if decide (n1 = n2) then FInf n1 else FNan
  | FInf n, FFin _ _ | FFin _ _, FInf n => FInf n
  | FFin m1 e1, FFin m2 e2 =>
      let e := Z.min e1 e2 in
      FFin (m1 * 2 ^ (e1 - e) + m2 * 2 ^ (e2 - e)) e
  end.

(** The integers: a [bool] is an [int], [False] is 0 and [True] is 1. *)
Definition int_like (v : value) : option Z :=
  match v with
  | VBool b => Some (Z.b2z b)
  | VInt z => Some z
  | _ => None
  end.

(** The numbers, for comparisons: an integer [z] compares as [z * 2 ^ 0]
    does, with no rounding. *)
Definition as_number (v : value) : option pyfloat :=
  match v with
  | VFloat f => Some f
  | _ => (λ z, FFin z 0) <$> int_like v
  end.

(** ** Operations *)

(** The value of a key in the items of a dict. *)
Fixpoint dict_lookup (key : str) (d : list (str * value)) : option value :=
  match d with
  | [] => None
  | (k, v) :: d => if decide (k = key) then Some v else dict_lookup key d
  end.

(** [d[key] = v]: the value of a key that the dict holds is replaced
    where it stands; a new key comes last. *)
Fixpoint dict_set (key : str) (v : value) (d : list (str * value)) :
    list (str * value) :=
  match d with
  | [] => [(key, v)]
  | (k, w) :: d =>
      if decide (k = key) then (key, v) :: d else (k, w) :: dict_set key v d
  end.

(** The dict that [json.load] makes of the members of a JSON object, in
    the order of the text: a key that is repeated keeps its first
    position and its last value. *)
Definition dict_of_pairs (members : list (str * value)) :
    list (str * value) :=
  foldl (λ d kv, dict_set kv.1 kv.2 d) [] members.

(** No dict of the value holds a key twice. *)
Fixpoint value_wf (v : value) : bool :=
  match v with
  | VList l => forallb value_wf l
  | VDict d =>
      bool_decide (NoDup d.*1) &&
      (fix go d :=
         match d with [] => true | (_, v) :: d => value_wf v && go d end) d
  | _ => true
  end.

(** [x[key]] for a string [key]: only a dict has string keys. *)
Definition py_getitem (x : value) (key : str) : result exn value :=
  match x with
  | VDict d => of_option (dict_lookup key d) (KeyError key)
  | _ => Err TypeError
  end.

(** [x + n] for an integer [n], as in [item['subj_end'] + 1]: an integer
    and a Boolean give an integer, a float a float; a str, a list, a dict
    and [None] do not add to an integer. *)
Definition py_add (x : value) (n : Z) : result exn value :=
  match x with
  | VFloat f => Ok (VFloat (float_add f (FFin n 0)))
  | _ =>
      match int_like x with
      | Some a => Ok (VInt (a + n))
      | None => Err TypeError
      end
  end.

(** [x is y or x == y], the test that containers apply to their elements:
    values of JSON that are not a number are the same when they are equal;
    the float that is not a number is one object (the constant of the
    [json] module) and so the same as itself. *)
Fixpoint py_same (x y : value) : bool :=
  match x, y with
  | VNone, VNone => true
  | VStr s, VStr t => bool_decide (s = t)
  | VList l1, VList l2 =>
      (fix go l1 l2 :=
         match l1, l2 with
         | [], [] => true
         | x :: l1, y :: l2 => py_same x y && go l1 l2
         | _, _ => false
         end) l1 l2
  | VDict d1, VDict d2 =>
      bool_decide (length d1 = length d2) &&
      (fix go d :=
         match d with
         | [] => true
         | (k, v) :: d =>
             match dict_lookup k d2 with
             | Some w => py_same v w
             | None => false
             end && go d
         end) d1
  | VFloat FNan, VFloat FNan => true
  | _, _ =>
      match as_number x, as_number y with
      | Some a, Some b => float_eqb a b
      | _, _ => false
      end
  end.

(** [x < y]: numbers by value, strings by code points, lists by the first
    elements that are not the same (the shorter list first when there are
    none); [TypeError] for everything else. *)
Fixpoint py_lt (x y : value) : result exn bool :=
  match x, y with
  | VStr s, VStr t => Ok (str_ltb s t)
  | VList l1, VList l2 =>
      (fix go l1 l2 :=
         match l1, l2 with
         | [], [] => Ok false
         | [], _ :: _ => Ok true
         | _ :: _, [] => Ok false
         | x :: l1, y :: l2 => if py_same x y then go l1 l2 else py_lt x y
         end) l1 l2
  | _, _ =>
      match as_number x, as_number y with
      | Some a, Some b => Ok (float_ltb a b)
      | _, _ => Err TypeError
      end
  end.

(** A bound of a slice: an integer, or [None] for a bound left out. *)
Definition slice_bound (v : value) : result exn (option Z) :=
  match v with
  | VNone => Ok None
  | VBool b => Ok (Some (Z.b2z b))
  | VInt z => Ok (Some z)
  | _ => Err TypeError
  end.

(** [s[lo:hi]] on a sequence, with bounds that may be left out. *)
Definition seq_slice {A} (s : list A) (lo hi : option Z) : list A :=
  match lo, hi with
  | Some i, Some j => slice s i j
  | Some i, None => slice_from s i
  | None, Some j => slice_to s j
  | None, None => s
  end.

(** [x[lo:hi]]: a list and a str have slices.  A dict has none:
    [TypeError], as the slice cannot be hashed (from Python 3.12 on a
    slice can, and the exception is a [KeyError]). *)
Definition py_slice (x lo hi : value) : result exn value :=
  match x with
  | VList l =>
      lo ← slice_bound lo; hi ← slice_bound hi; mret (VList (seq_slice l lo hi))
  | VStr s =>
      lo ← slice_bound lo; hi ← slice_bound hi; mret (VStr (seq_slice s lo hi))
  | _ => Err TypeError
  end.

(** The elements that a [for] statement or a function sees in [x]: the
    elements of a list, the characters of a str, the keys of a dict. *)
Definition py_iter (x : value) : result exn (list value) :=
  match x with
  | VList l => Ok l
  | VStr s => Ok ((λ c, VStr [c]) <$> s)
  | VDict d => Ok ((λ kv, VStr kv.1) <$> d)
  | _ => Err TypeError
  end.

Definition as_str (v : value) : result exn str :=
  match v with VStr s => Ok s | _ => Err TypeError end.

(** [sep.join(x)]: the elements of [x] must be strings. *)
Definition py_join (sep : str) (x : value) : result exn str :=
  items ← py_iter x; words ← mapM as_str items; mret (join sep words).

(** ** Values of the typed data *)

(** The words that [join] sees in a value that holds strings: the elements
    of a list of strings, the characters of a string. *)
Definition characters (s : str) : list str := (λ c, [c]) <$> s.

Definition words_of (v : value) : option (list str) :=
  match v with
  | VList l =>
      match mapM as_str l with Ok ws => Some ws | Err _ => None end
  | VStr s => Some (characters s)
  | _ => None
  end.

(** ** Facts about the operations *)

Section seq_slice.
Context {A B : Type}.
Implicit Types (l : list A) (k : list B) (lo hi : option Z).

Lemma seq_slice_Forall2 (R : A → B → Prop) l k lo hi :
  Forall2 R l k → Forall2 R (seq_slice l lo hi) (seq_slice k lo hi).
Proof.
  intros H. pose proof (Forall2_length _ _ _ H) as Hlen.
  destruct lo, hi; simpl; unfold slice, slice_from, slice_to, py_len;
    rewrite ?Hlen; auto using Forall2_take, Forall2_drop.
Qed.

Lemma seq_slice_fmap (f : A → B) l lo hi :
  seq_slice (f <$> l) lo hi = f <$> seq_slice l lo hi.
Proof.
  destruct lo, hi; simpl; unfold slice, slice_from, slice_to, py_len;
    by rewrite ?length_fmap, ?fmap_take, ?fmap_drop.
Qed.

End seq_slice.

Lemma int_like_number v z :
  int_like v = Some z → as_number v = Some (FFin z 0).
Proof. destruct v; naive_solver. Qed.

Lemma dyadic_compare_0 a b : dyadic_compare a 0 b 0 = (a ?= b).
Proof.
  unfold dyadic_compare. change (2 ^ (0 - Z.min 0 0)) with 1.
  by rewrite !Z.mul_1_r.
Qed.

Lemma slice_bound_int_like v z :
  int_like v = Some z → slice_bound v = Ok (Some z).
Proof. destruct v; naive_solver. Qed.

Lemma slice_bound_not_int_like v :
  int_like v = None → v ≠ VNone → slice_bound v = Err TypeError.
Proof. by destruct v. Qed.

Lemma py_add_int_like v z :
  int_like v = Some z → py_add v 1 = Ok (VInt (z + 1)).
Proof. destruct v; naive_solver. Qed.

Lemma py_lt_int_like x y a b :
  int_like x = Some a → int_like y = Some b →
  py_lt x y = Ok (bool_decide (a < b)).
Proof.
  intros Hx Hy. pose proof (int_like_number _ _ Hx) as Ha.
  pose proof (int_like_number _ _ Hy) as Hb.
  assert (py_lt x y = Ok (float_ltb (FFin a 0) (FFin b 0))) as ->
    by (destruct x; try done; destruct y; try done; simpl in *; by simplify_eq).
  simpl. rewrite dyadic_compare_0. f_equal. apply bool_decide_ext.
  by rewrite Z.compare_lt_iff.
Qed.

(** The operations raise no exception but [TypeError]; [x[key]] also
    raises the [KeyError] of the key. *)
Lemma py_add_Err x n e : py_add x n = Err e → e = TypeError.
Proof. destruct x; naive_solver. Qed.

Lemma py_lt_Err x y e : py_lt x y = Err e → e = TypeError.
Proof.
  revert y. induction x as [| | | | |l1 IH|] using value_ind; intros y;
    destruct y as [| | | | |l2|]; simpl; try (repeat case_match; naive_solver).
  revert l2. induction IH as [|x l1 Hx _ IHl]; intros [|y l2]; try done.
  destruct (py_same x y); eauto.
Qed.

Lemma slice_bound_Err v e : slice_bound v = Err e → e = TypeError.
Proof. destruct v; naive_solver. Qed.

Lemma py_slice_Err x lo hi e : py_slice x lo hi = Err e → e = TypeError.
Proof.
  destruct x; simpl; try naive_solver;
    destruct (slice_bound lo) eqn:Hlo, (slice_bound hi) eqn:Hhi; simpl;
    intros; simplify_eq; eauto using slice_bound_Err.
Qed.

Lemma mapM_as_str_Err l e : mapM as_str l = Err e → e = TypeError.
Proof.
  induction l as [|v l IH]; [done|]. rewrite mapM_result_cons.
  destruct v; simpl; try naive_solver. destruct (mapM as_str l); naive_solver.
Qed.

Lemma py_join_Err sep x e : py_join sep x = Err e → e = TypeError.
Proof.
  unfold py_join. destruct x; simpl; try naive_solver;
    destruct (mapM as_str _) eqn:H; simpl; intros; simplify_eq;
    eauto using mapM_as_str_Err.
Qed.

Lemma py_slice_join_Err sep x lo hi e :
  py_slice x lo hi ≫= py_join sep = Err e → e = TypeError.
Proof.
  destruct (py_slice x lo hi) eqn:H; simpl;
    [apply py_join_Err|intros [= <-]; eauto using py_slice_Err].
Qed.

(** A slice with a bound that is no integer raises, whatever is sliced. *)
Lemma py_slice_bound_Err x lo hi :
  slice_bound lo = Err TypeError ∨ slice_bound hi = Err TypeError →
  py_slice x lo hi = Err TypeError.
Proof.
  intros H. destruct x; simpl; try done; destruct H as [->|Hhi]; try done;
    (destruct (slice_bound lo) eqn:Hlo; simpl; [by rewrite Hhi|]);
    by apply slice_bound_Err in Hlo as ->.
Qed.

(** ** The words of a value *)

Lemma mapM_as_str_VStr ws : mapM as_str (VStr <$> ws) = Ok ws.
Proof.
  apply mapM_result_Ok. induction ws; simpl; by constructor.
Qed.

Lemma mapM_as_str_characters s :
  mapM as_str ((λ c, VStr [c]) <$> s) = Ok (characters s).
Proof.
  apply mapM_result_Ok. unfold characters.
  induction s; simpl; by constructor.
Qed.

Lemma words_of_VList ws : words_of (VList (VStr <$> ws)) = Some ws.
Proof. simpl. by rewrite mapM_as_str_VStr. Qed.

(** The words that [join] receives from a slice of a value that holds
    words are the slice of the words. *)
Lemma py_slice_join sep v ws lo hi a b :
  words_of v = Some ws → slice_bound lo = Ok a → slice_bound hi = Ok b →
  py_slice v lo hi ≫= py_join sep = Ok (join sep (seq_slice ws a b)).
Proof.
  intros Hws Hlo Hhi. destruct v as [| | | |s|l|]; simplify_eq/=.
  - rewrite Hlo, Hhi. simpl. unfold py_join. simpl.
    rewrite mapM_as_str_characters. unfold characters.
    by rewrite seq_slice_fmap.
  - rewrite Hlo, Hhi. simpl. unfold py_join. simpl.
    destruct (mapM as_str l) as [ws'|] eqn:Hl; simplify_eq.
    apply mapM_result_Ok in Hl.
    apply (seq_slice_Forall2 _ _ _ a b), mapM_result_Ok in Hl. by rewrite Hl.
Qed.

(** ** Keys of a dict *)

Lemma dict_lookup_app key d1 d2 :
  dict_lookup key (d1 ++ d2) =
    match dict_lookup key d1 with
    | Some v => Some v
    | None => dict_lookup key d2
    end.
Proof. induction d1 as [|[k v] d1 IH]; simpl; [done|]. by case_decide. Qed.

Lemma dict_lookup_None key d : dict_lookup key d = None ↔ key ∉ d.*1.
Proof.
  induction d as [|[k v] d IH]; simpl; [split; [set_solver|done]|].
  rewrite not_elem_of_cons. case_decide; naive_solver.
Qed.

Lemma dict_lookup_elem_of key v d :
  dict_lookup key d = Some v → (key, v) ∈ d.
Proof.
  induction d as [|[k w] d IH]; simpl; [done|].
  case_decide; [intros [= <-]; subst; left|right; auto].
Qed.

(** In a dict the lookup finds the one item of the key, wherever it
    stands... *)
Lemma dict_lookup_Some key v d :
  NoDup d.*1 → dict_lookup key d = Some v ↔ (key, v) ∈ d.
Proof.
  intros Hd. split; [apply dict_lookup_elem_of|].
  induction d as [|[k w] d IH]; simpl; [by intros ?%elem_of_nil|].
  apply NoDup_cons in Hd as [Hk Hd]. intros [[= -> ->]|Hin]%elem_of_cons.
  - by rewrite decide_True.
  - rewrite decide_False; [by apply IH|]. intros ->. destruct Hk.
    by apply (list_elem_of_fmap_2 fst _ (key, v)).
Qed.

(** ... so it does not depend on the order of the items. *)
Lemma dict_lookup_Permutation key d d' :
  NoDup d.*1 → d ≡ₚ d' → dict_lookup key d = dict_lookup key d'.
Proof.
  intros Hd Hp. assert (NoDup d'.*1) as Hd' by by rewrite <-Hp.
  apply option_eq. intros v. rewrite !dict_lookup_Some by done. by rewrite Hp.
Qed.

(** *** Values without repeated keys *)

Lemma value_wf_VDict d :
  value_wf (VDict d) = true ↔
  NoDup d.*1 ∧ Forall (λ kv, value_wf kv.2 = true) d.
Proof.
  simpl. rewrite andb_true_iff, bool_decide_eq_true. apply and_iff_compat_l.
  induction d as [|[k v] d IH]; [by split; [constructor|]|].
  rewrite andb_true_iff, Forall_cons, IH. done.
Qed.

Lemma value_wf_words ws : value_wf (VList (VStr <$> ws)) = true.
Proof. simpl. by induction ws. Qed.

(** *** Assignment to a key, and the dict of a JSON object *)

Lemma dict_lookup_dict_set k key v d :
  dict_lookup k (dict_set key v d) =
    if decide (k = key) then Some v else dict_lookup k d.
Proof.
  induction d as [|[k' w] d IH]; simpl; repeat (case_decide || simpl);
    (done || congruence).
Qed.

Lemma dict_set_new key v d :
  key ∉ d.*1 → dict_set key v d = d ++ [(key, v)].
Proof.
  induction d as [|[k w] d IH]; simpl; [done|].
  intros [? ?]%not_elem_of_cons. by rewrite decide_False, IH.
Qed.

Lemma dict_set_keys key v d :
  key ∈ d.*1 → (dict_set key v d).*1 = d.*1.
Proof.
  induction d as [|[k w] d IH]; csimpl; [by intros ?%elem_of_nil|].
  case_decide; [by subst|]. intros [?|?]%elem_of_cons; [done|].
  csimpl. by rewrite IH.
Qed.

Lemma dict_set_NoDup key v d : NoDup d.*1 → NoDup (dict_set key v d).*1.
Proof.
  intros Hd. destruct (decide (key ∈ d.*1)) as [Hk|Hk].
  - by rewrite dict_set_keys.
  - rewrite dict_set_new, fmap_app by done. apply NoDup_app.
    split_and!; [done| |apply NoDup_singleton]. set_solver.
Qed.

Section dict_of_pairs.
Implicit Types members d : list (str * value).
Let set_pair d (kv : str * value) := dict_set kv.1 kv.2 d.

Lemma foldl_dict_set_NoDup members d :
  NoDup d.*1 → NoDup (foldl set_pair d members).*1.
Proof.
  revert d. induction members as [|[k v] members IH]; intros d Hd; [done|].
  apply IH, dict_set_NoDup, Hd.
Qed.

Lemma dict_lookup_foldl_dict_set key members d :
  dict_lookup key (foldl set_pair d members) =
    match dict_lookup key (reverse members) with
    | Some v => Some v
    | None => dict_lookup key d
    end.
Proof.
  revert d. induction members as [|[k v] members IH]; intros d; [done|].
  cbn [foldl]. rewrite IH, reverse_cons, dict_lookup_app. unfold set_pair.
  cbn [fst snd]. destruct (dict_lookup key (reverse members)); [done|].
  rewrite dict_lookup_dict_set. simpl. by repeat case_decide.
Qed.

Lemma foldl_dict_set_new members d :
  NoDup (d ++ members).*1 → foldl set_pair d members = d ++ members.
Proof.
  revert d. induction members as [|[k v] members IH]; intros d Hd;
    [by rewrite app_nil_r|].
  cbn [foldl]. unfold set_pair at 2. cbn [fst snd].
  rewrite fmap_app, fmap_cons in Hd. cbn [fst] in Hd. rewrite dict_set_new.
  - rewrite IH, <-(assoc_L (++)); [done|].
    by rewrite <-(assoc_L (++)), fmap_app.
  - apply NoDup_app in Hd as (_ & Hd & _). intros Hk. apply (Hd _ Hk). left.
Qed.

(** The dict of a JSON object holds each key once, ... *)
Lemma dict_of_pairs_NoDup members : NoDup (dict_of_pairs members).*1.
Proof. apply foldl_dict_set_NoDup, NoDup_nil_2. Qed.

(** ... a key has the value of its last member, ... *)
Lemma dict_lookup_dict_of_pairs key members :
  dict_lookup key (dict_of_pairs members) = dict_lookup key (reverse members).
Proof.
  unfold dict_of_pairs. fold set_pair. rewrite dict_lookup_foldl_dict_set.
  by destruct (dict_lookup _ _).
Qed.

(** ... and an object without repeated keys is the dict of its members,
    in their order. *)
Lemma dict_of_pairs_id members :
  NoDup members.*1 → dict_of_pairs members = members.
Proof. intros Hd. by apply (foldl_dict_set_new members []). Qed.

End dict_of_pairs.

(** ** Operands that are no integers *)

Lemma py_lt_None x y : x = VNone ∨ y = VNone → py_lt x y = Err TypeError.
Proof. intros [->| ->]; [done|by destruct x]. Qed.

(** A sum that is defined although the operand is no integer is a float,
    and no bound of a slice. *)
Lemma py_add_not_int_like v w :
  int_like v = None → py_add v 1 = Ok w →
  slice_bound w = Err TypeError.
Proof. destruct v; try done. by intros _ [= <-]. Qed.

Lemma not_int_like_bound v :
  int_like v = None → v = VNone ∨ slice_bound v = Err TypeError.
Proof. destruct v; naive_solver. Qed.

Lemma py_getitem_Some d key v :
  dict_lookup key d = Some v → py_getitem (VDict d) key = Ok v.
Proof. simpl. by intros ->. Qed.

(** A subscription sees the lookups of a dict only. *)
Lemma py_getitem_ext d d' key :
  (∀ key, dict_lookup key d = dict_lookup key d') →
  py_getitem (VDict d) key = py_getitem (VDict d') key.
Proof. intros Hd. simpl. by rewrite Hd. Qed.

(** ** Lists that hold values of any type *)

(** [join] on a slice of a list returns when the slice holds strings. *)
Lemma py_slice_join_list sep l lo hi a b :
  slice_bound lo = Ok a → slice_bound hi = Ok b →
  py_slice (VList l) lo hi ≫= py_join sep =
    join sep <$> mapM as_str (seq_slice l a b).
Proof.
  intros Hlo Hhi. simpl. rewrite Hlo, Hhi. unfold py_join. simpl.
  by destruct (mapM _ _).
Qed.

Lemma words_of_VList_is_Some l :
  is_Some (words_of (VList l)) ↔ Forall (λ v, is_Ok (as_str v)) l.
Proof.
  rewrite <-mapM_result_is_Ok. simpl. unfold is_Ok, is_Some.
  destruct (mapM as_str l); naive_solver.
Qed.

(** ** Concrete operands

    The outcomes of CPython 3.11 for the expression that each case names. *)

(** [True < 1.5], [1 < 'a'], [float('nan') < 1]. *)
Example py_lt_numbers :
  py_lt (VBool true) (VFloat (FFin 3 (-1))) = Ok true ∧
  py_lt (VInt 1) (VStr (pystr "a")) = Err TypeError ∧
  py_lt (VFloat FNan) (VInt 1) = Ok false.
Proof. done. Qed.

(** [[1, 'a'] < [1, 'b']], [[None] < [None]], [[None] < [None, 1]]: the
    elements that are the same are not compared. *)
Example py_lt_lists :
  py_lt (VList [VInt 1; VStr (pystr "a")]) (VList [VInt 1; VStr (pystr "b")]) =
    Ok true ∧
  py_lt (VList [VNone]) (VList [VNone]) = Ok false ∧
  py_lt (VList [VNone]) (VList [VNone; VInt 1]) = Ok true.
Proof. by vm_compute. Qed.

(** [True + 1], [None + 1], ['a' + 1], [[1] + 1], [0.5 + 1]. *)
Example py_add_cases :
  py_add (VBool true) 1 = Ok (VInt 2) ∧
  py_add VNone 1 = Err TypeError ∧
  py_add (VStr (pystr "a")) 1 = Err TypeError ∧
  py_add (VList [VInt 1]) 1 = Err TypeError ∧
  (w ← py_add (VFloat (FFin 1 (-1))) 1; mret (py_same w (VFloat (FFin 3 (-1))))) =
    Ok true.
Proof. by vm_compute. Qed.

(** ['abc'[1:None]], [['a', 'b', 'c', 'd'][True:-1]], [['a', 'b'][1.0:]],
    [{}[1:2]]. *)
Example py_slice_cases :
  py_slice (VStr (pystr "abc")) (VInt 1) VNone = Ok (VStr (pystr "bc")) ∧
  py_slice (VList [VStr (pystr "a"); VStr (pystr "b"); VStr (pystr "c");
                   VStr (pystr "d")]) (VBool true) (VInt (-1)) =
    Ok (VList [VStr (pystr "b"); VStr (pystr "c")]) ∧
  py_slice (VList [VStr (pystr "a"); VStr (pystr "b")]) (VFloat (FFin 1 0))
           VNone = Err TypeError ∧
  py_slice (VDict []) (VInt 1) (VInt 2) = Err TypeError.
Proof. by vm_compute. Qed.

(** [['a']['token']], ['a']['token']], [{}['token']]. *)
Example py_getitem_cases :
  py_getitem (VList [VStr (pystr "a")]) (pystr "token") = Err TypeError ∧
  py_getitem (VStr (pystr "a")) (pystr "token") = Err TypeError ∧
  py_getitem (VDict []) (pystr "token") = Err (KeyError (pystr "token")).
Proof. done. Qed.

(** [list({'b': 1, 'a': 2})], [' '.join('ab')], [' '.join(['a', 1])],
    [' '.join({'x': 1, 'y': 2})], [list(None)]. *)
Example py_iter_join_cases :
  py_iter (VDict [(pystr "b", VInt 1); (pystr "a", VInt 2)]) =
    Ok [VStr (pystr "b"); VStr (pystr "a")] ∧
  py_join (pystr " ") (VStr (pystr "ab")) = Ok (pystr "a b") ∧
  py_join (pystr " ") (VList [VStr (pystr "a"); VInt 1]) = Err TypeError ∧
  py_join (pystr " ") (VDict [(pystr "x", VInt 1); (pystr "y", VInt 2)]) =
    Ok (pystr "x y") ∧
  py_iter VNone = Err TypeError.
Proof. by vm_compute. Qed.

(** [json.loads('{"a": 1, "b": 2, "a": 3}')] is [{'a': 3, 'b': 2}], and
    [{'a': 1, 'b': [1]} == {'b': [1], 'a': True}]. *)
Example dict_of_pairs_repeated :
  dict_of_pairs [(pystr "a", VInt 1); (pystr "b", VInt 2); (pystr "a", VInt 3)] =
    [(pystr "a", VInt 3); (pystr "b", VInt 2)] ∧
  py_same (VDict [(pystr "a", VInt 1); (pystr "b", VList [VInt 1])])
          (VDict [(pystr "b", VList [VInt 1]); (pystr "a", VBool true)]) = true.
Proof. by vm_compute. Qed.
