(* ===== verification/Loops.v ===== *)
(** * The [for] statement as a transition system

    Every loop of [src/examples/relation_classification/utils.py] is a
    [for] statement over a finite sequence whose body updates the
    variables of the loop and may raise.  This file gives such a loop a
    small-step semantics, once and for all:

    - a configuration ([config]) is either [Running pending st], with the
      elements still to visit and the values of the loop's variables, or
      [Raised e] when the body has raised [e];
    - [step] runs the body on the next element;
    - [next] is the step as a function, [run] the whole execution,
      [iterations] the number of steps it takes;
    - [for_loop] is the loop as the components write it, a [foldl] in the
      exception monad.

    The lemmas are the ones the loops of the program share: the step is
    deterministic, every execution ends ([step_sn]) after at most one step
    per element, its last configuration is the value of the fold
    ([run_for_loop], [rtc_step_final]), the configurations on the way are
    the folds of the prefixes ([rtc_step_Running]), and a property that the
    body preserves holds in all of them ([loop_invariant]).  The file
    starts with a fact on deterministic relations: the execution that
    stops is the longest ([nsteps_nf_le]). *)

From S2P Require Import Prelude.

(** ** Executions of a deterministic relation

    An execution that has stopped is the longest one: no execution from
    the same configuration takes more steps. *)
Lemma nsteps_nf_le {A} (R : relation A) n m x y z :
  deterministic R → nsteps R n x y → nf R y → nsteps R m x z → (m ≤ n)%nat.
Proof.
  intros Hdet Hn Hnf. revert m z.
  induction Hn as [x|n x x1 y Hx _ IH]; intros m z Hm.
  - destruct Hm as [|m ? x1 ? Hx _]; [done|]. destruct Hnf. by exists x1.
  - destruct Hm as [|m ? x1' ? Hx' Hm]; [lia|].
    rewrite <-(Hdet _ _ _ Hx Hx') in Hm. specialize (IH Hnf m _ Hm). lia.
Qed.

Section loop.
Context {St X E : Type}.

Inductive config :=
  | Running (pending : list X) (st : St)
  | Raised (e : E).

Context (body : St → X → result E St).
Implicit Types (st : St) (x : X) (xs : list X) (e : E) (c : config).

(** One iteration: the body runs on the first pending element. *)
Inductive step : relation config :=
  | step_iter x xs st st' :
      body st x = Ok st' → step (Running (x :: xs) st) (Running xs st')
  | step_raise x xs st e :
      body st x = Err e → step (Running (x :: xs) st) (Raised e).

(** The configuration in which a loop with outcome [r] stops. *)
Definition of_result (r : result E St) : config :=
  match r with Ok st => Running [] st | Err e => Raised e end.

Definition next c : option config :=
  match c with
  | Running (x :: xs) st => Some
      match body st x with Ok st' => Running xs st' | Err e => Raised e end
  | _ => None
  end.

(** The loop has stopped: nothing is pending, or the body has raised. *)
Definition final c : bool :=
  match c with Running (_ :: _) _ => false | _ => true end.

Definition pending_of c : list X :=
  match c with Running xs _ => xs | Raised _ => [] end.

Fixpoint run xs st : config :=
  match xs with
  | [] => Running [] st
  | x :: xs =>
      match body st x with Ok st' => run xs st' | Err e => Raised e end
  end.

Fixpoint iterations xs st : nat :=
  match xs with
  | [] => 0
  | x :: xs =>
      match body st x with Ok st' => S (iterations xs st') | Err _ => 1 end
  end.

(** The loop as a fold: an exception is carried to the end. *)
Definition loop_fold (acc : result E St) x : result E St :=
  st ← acc; body st x.
Definition for_loop xs st : result E St := foldl loop_fold (Ok st) xs.

(** ** The step *)

Lemma step_next c c' : step c c' ↔ next c = Some c'.
Proof.
  split.
  - destruct 1 as [???? Hb|???? Hb]; simpl; by rewrite Hb.
  - destruct c as [[|x xs] st|e]; intros [= <-].
    destruct (body st x) eqn:Hb; by constructor.
Qed.

Lemma step_deterministic : deterministic step.
Proof. intros c c1 c2. rewrite !step_next. congruence. Qed.

Lemma red_step c : red step c ↔ final c = false.
Proof.
  unfold red. setoid_rewrite step_next.
  destruct c as [[|x xs] st|e]; simpl; naive_solver.
Qed.

Lemma nf_step c : nf step c ↔ final c = true.
Proof. unfold nf. rewrite red_step. by destruct (final c). Qed.

Lemma step_pending c c' :
  step c c' → (length (pending_of c') < length (pending_of c))%nat.
Proof. destruct 1; simpl; lia. Qed.

(** Every execution is finite. *)
Lemma step_sn c : sn step c.
Proof.
  apply (wf_projected (<)%nat (λ c, length (pending_of c))); [|apply lt_wf].
  intros c1 c2. apply step_pending.
Qed.

(** ** The fold *)

Lemma foldl_loop_fold_Err e xs : foldl loop_fold (Err e) xs = Err e.
Proof. by induction xs. Qed.

Lemma for_loop_cons x xs st :
  for_loop (x :: xs) st = (st' ← body st x; for_loop xs st').
Proof.
  unfold for_loop. cbn [foldl loop_fold mbind result_bind].
  destruct (body st x); [done|apply foldl_loop_fold_Err].
Qed.

Lemma for_loop_app xs ys st :
  for_loop (xs ++ ys) st = (st' ← for_loop xs st; for_loop ys st').
Proof.
  unfold for_loop. rewrite foldl_app.
  destruct (foldl loop_fold (Ok st) xs); [done|apply foldl_loop_fold_Err].
Qed.

Lemma for_loop_snoc xs x st :
  for_loop (xs ++ [x]) st = (st' ← for_loop xs st; body st' x).
Proof. rewrite for_loop_app. by destruct (for_loop xs st). Qed.

(** A body that never raises: the loop is the fold of its result. *)
Lemma for_loop_pure (f : St → X → St) xs st :
  (∀ st x, body st x = Ok (f st x)) → for_loop xs st = Ok (foldl f st xs).
Proof.
  intros Hf. revert st. induction xs as [|x xs IH]; intros st; [done|].
  rewrite for_loop_cons, Hf. apply IH.
Qed.

(** ** The execution *)

Lemma run_for_loop xs st : run xs st = of_result (for_loop xs st).
Proof.
  revert st. induction xs as [|x xs IH]; intros st; [done|].
  rewrite for_loop_cons. simpl. by destruct (body st x).
Qed.

Lemma final_run xs st : final (run xs st) = true.
Proof.
  revert st. induction xs as [|x xs IH]; intros st; simpl; [done|].
  by destruct (body st x).
Qed.

Lemma iterations_le xs st : (iterations xs st ≤ length xs)%nat.
Proof.
  revert st. induction xs as [|x xs IH]; intros st; simpl; [done|].
  destruct (body st x) as [st'|]; [specialize (IH st')|]; lia.
Qed.

(** A body that never raises runs once per element. *)
Lemma iterations_pure (f : St → X → St) xs st :
  (∀ st x, body st x = Ok (f st x)) → iterations xs st = length xs.
Proof.
  intros Hf. revert st. induction xs as [|x xs IH]; intros st; simpl; [done|].
  by rewrite Hf, IH.
Qed.

Lemma nsteps_run xs st :
  nsteps step (iterations xs st) (Running xs st) (run xs st).
Proof.
  revert st. induction xs as [|x xs IH]; intros st; simpl; [constructor|].
  destruct (body st x) as [st'|e] eqn:Hb.
  - eapply nsteps_l; [by apply step_iter|apply IH].
  - apply nsteps_once. by apply step_raise.
Qed.

Lemma rtc_run xs st : rtc step (Running xs st) (run xs st).
Proof. eapply rtc_nsteps_2, nsteps_run. Qed.

(** The configuration in which an execution stops is the one [run]
    computes. *)
Lemma rtc_step_final xs st c :
  rtc step (Running xs st) c → final c = true → c = run xs st.
Proof.
  intros Hc Hf.
  apply (confluent_rtc_nf (R := step) (Running xs st));
    [apply deterministic_confluent, step_deterministic|done|by apply nf_step
    |apply rtc_run|apply nf_step, final_run].
Qed.

(** ** The configurations of an execution *)

Lemma rtc_step_prefix done xs st st' :
  for_loop done st = Ok st' → rtc step (Running (done ++ xs) st) (Running xs st').
Proof.
  revert st. induction done as [|x done IH]; intros st.
  { by intros [= ->]. }
  rewrite for_loop_cons. intros (st1 & Hb & Hl)%result_bind_Ok.
  eapply rtc_l; [by apply step_iter|by apply IH].
Qed.

(** The loop is at [xs'] with the variables [st'] exactly when [st'] is the
    outcome of the loop over the elements before [xs']. *)
Lemma rtc_step_Running xs st xs' st' :
  rtc step (Running xs st) (Running xs' st') ↔
  ∃ done, xs = done ++ xs' ∧ for_loop done st = Ok st'.
Proof.
  split; [|intros (done & -> & ?); by apply rtc_step_prefix].
  remember (Running xs st) as c eqn:Hc. remember (Running xs' st') as c' eqn:Hc'.
  intros Hrtc. revert xs st Hc. induction Hrtc as [|c c1 c2 Hstep Hrtc IH];
    intros xs st ->.
  { simplify_eq. by exists []. }
  inversion Hstep as [x xs1 st0 st1 Hb|]; subst;
    [|by apply rtc_nf in Hrtc; [|apply nf_step]].
  destruct (IH ltac:(done) _ _ eq_refl) as (done & -> & Hl).
  exists (x :: done). split; [done|]. by rewrite for_loop_cons, Hb.
Qed.

Lemma rtc_step_Raised xs st e :
  rtc step (Running xs st) (Raised e) ↔ for_loop xs st = Err e.
Proof.
  split.
  - intros Hc%rtc_step_final; [|done]. rewrite run_for_loop in Hc.
    by destruct (for_loop xs st); simplify_eq/=.
  - intros Hl. pose proof (rtc_run xs st) as Hr.
    by rewrite run_for_loop, Hl in Hr.
Qed.

(** ** Invariants *)

(** A property of configurations that every step preserves holds in every
    configuration of an execution that starts in it. *)
Lemma step_invariant (I : config → Prop) c c' :
  (∀ c1 c2, I c1 → step c1 c2 → I c2) → I c → rtc step c c' → I c'.
Proof. intros Hstep Hc Hrtc. induction Hrtc; eauto. Qed.

(** The rule of the loop invariant: a property of the pending elements and
    the variables that the body preserves holds whenever the loop is
    running. *)
Lemma loop_invariant (I : list X → St → Prop) xs st xs' st' :
  (∀ x xs st st', I (x :: xs) st → body st x = Ok st' → I xs st') →
  I xs st → rtc step (Running xs st) (Running xs' st') → I xs' st'.
Proof.
  intros Hbody Hinit Hrtc.
  apply (step_invariant (λ c, if c is Running xs st then I xs st else True)
           _ _) in Hrtc; [done| |done].
  intros ?? Hc1 Hstep. destruct Hstep; by eauto.
Qed.

End loop.

Arguments config : clear implicits.

(** The rules of the step relations and the facts on executions that the
    proofs about the loops of the program use. *)
Create HintDb loops.
#[export] Hint Constructors step : loops.
#[export] Hint Resolve rtc_run final_run step_sn nsteps_once nsteps_O : loops.

(** ** Loops that append to a list

    The loops over the records and over the examples append one element
    per iteration: their fold is a [mapM]. *)

Section append.
Context {X E B : Type} (f : X → result E B).
Context (body : list B → X → result E (list B)).
Context (Hbody : ∀ acc x, body acc x = (y ← f x; mret (acc ++ [y]))).

Lemma for_loop_mapM xs acc :
  for_loop body xs acc = (k ← mapM f xs; mret (acc ++ k)).
Proof.
  apply (foldl_mapM_result f). intros [ys|e] x; simpl; [apply Hbody|done].
Qed.

Lemma for_loop_mapM_nil xs : for_loop body xs [] = mapM f xs.
Proof. rewrite for_loop_mapM. by destruct (mapM f xs). Qed.

End append.
