(* ===== verification/Nested.v ===== *)
(** * A loop inside a loop, as a transition system

    Both functions of [src/examples/relation_classification/utils.py] are
    a [for] statement whose body sets up the variables of an inner [for]
    statement, runs it, and then appends a value built from its variables.
    This file gives that shape a small-step semantics in which the inner
    loop is stepped too:

    - [enter st x] is the part of the body before the inner loop: it
      returns what the inner loop reads ([env]), the sequence it visits
      and the initial values of its variables, or raises;
    - [ibody env] is the body of the inner loop;
    - [leave st x env ist] is the part of the body after the inner loop;
    - a configuration ([nconfig]) is [Outer pending st] between two
      iterations of the outer loop, [Inner x pending st env ipending ist]
      inside the iteration for [x], or [NRaised e];
    - [nbody] is the body as one function, the body of the outer loop in
      the semantics of the file [Loops].

    The lemmas relate the two semantics in both directions
    ([nstep_simulation], [nested_iteration_exact]), show that every
    execution of the nested loops ends ([nstep_sn]), count its steps
    ([nested_steps], [nested_run_exact], [nsteps_nested_le]), and show
    that an execution with that much fuel ([nrun]) stops in the
    configuration of the fold ([nrun_enough]). *)

From S2P Require Import Prelude Loops.

Section nested.
Context {St X E Env Y ISt : Type}.

Inductive nconfig :=
  | Outer (pending : list X) (st : St)
  | Inner (x : X) (pending : list X) (st : St) (env : Env)
      (ipending : list Y) (ist : ISt)
  | NRaised (e : E).

Context (enter : St → X → result E (Env * list Y * ISt)).
Context (ibody : Env → ISt → Y → result E ISt).
Context (leave : St → X → Env → ISt → result E St).
Implicit Types (st : St) (x : X) (xs : list X) (e : E) (env : Env).
Implicit Types (y : Y) (ys : list Y) (ist : ISt) (c : nconfig).

Inductive nstep : relation nconfig :=
  | nstep_enter x xs st env ys ist :
      enter st x = Ok (env, ys, ist) →
      nstep (Outer (x :: xs) st) (Inner x xs st env ys ist)
  | nstep_enter_raise x xs st e :
      enter st x = Err e → nstep (Outer (x :: xs) st) (NRaised e)
  | nstep_inner x xs st env y ys ist ist' :
      ibody env ist y = Ok ist' →
      nstep (Inner x xs st env (y :: ys) ist) (Inner x xs st env ys ist')
  | nstep_inner_raise x xs st env y ys ist e :
      ibody env ist y = Err e →
      nstep (Inner x xs st env (y :: ys) ist) (NRaised e)
  | nstep_leave x xs st env ist st' :
      leave st x env ist = Ok st' →
      nstep (Inner x xs st env [] ist) (Outer xs st')
  | nstep_leave_raise x xs st env ist e :
      leave st x env ist = Err e →
      nstep (Inner x xs st env [] ist) (NRaised e).

#[local] Hint Constructors nstep : loops.

(** The configuration after a call that returns [r]. *)
Definition continue {A} (k : A → nconfig) (r : result E A) : nconfig :=
  match r with Ok a => k a | Err e => NRaised e end.

Definition nnext c : option nconfig :=
  match c with
  | Outer (x :: xs) st =>
      Some (continue (λ '(env, ys, ist), Inner x xs st env ys ist) (enter st x))
  | Inner x xs st env (y :: ys) ist =>
      Some (continue (Inner x xs st env ys) (ibody env ist y))
  | Inner x xs st env [] ist =>
      Some (continue (Outer xs) (leave st x env ist))
  | _ => None
  end.

Definition nfinal c : bool :=
  match c with Outer [] _ | NRaised _ => true | _ => false end.

(** The execution, for a number of steps. *)
Fixpoint nrun (fuel : nat) c : nconfig :=
  match fuel with
  | O => c
  | S fuel => match nnext c with Some c' => nrun fuel c' | None => c end
  end.

(** The body of the outer loop as one function. *)
Definition nbody st x : result E St :=
  '(env, ys, ist) ← enter st x;
  ist' ← for_loop (ibody env) ys ist;
  leave st x env ist'.

Definition embed (c : config St X E) : nconfig :=
  match c with Running xs st => Outer xs st | Raised e => NRaised e end.

(** The configuration of the outer loop: an iteration that has not ended
    has not happened. *)
Definition flatten c : config St X E :=
  match c with
  | Outer xs st => Running xs st
  | Inner x xs st _ _ _ => Running (x :: xs) st
  | NRaised e => Raised e
  end.

(** The number of steps of the iteration for [x]: one into the inner
    loop, one for each iteration of the inner loop, and one out of it; a
    step that raises is the last. *)
Definition iteration_steps st x : nat :=
  match enter st x with
  | Err _ => 1
  | Ok (env, ys, ist) =>
      S (iterations (ibody env) ys ist +
         if for_loop (ibody env) ys ist is Ok _ then 1 else 0)
  end.

(** The number of steps of the nested loops. *)
Fixpoint nested_steps xs st : nat :=
  match xs with
  | [] => 0
  | x :: xs =>
      iteration_steps st x +
      if nbody st x is Ok st' then nested_steps xs st' else 0
  end.

(** Inside an iteration, the inner loop has run on a prefix of the
    sequence that [enter] returned. *)
Definition ninv c : Prop :=
  match c with
  | Inner x xs st env ys ist =>
      ∃ done ist0, enter st x = Ok (env, done ++ ys, ist0) ∧
                   for_loop (ibody env) done ist0 = Ok ist
  | _ => True
  end.

(** ** The step *)

Lemma nstep_nnext c c' : nstep c c' ↔ nnext c = Some c'.
Proof.
  split.
  - destruct 1 as [?????? Hb|???? Hb|???????? Hb|???????? Hb|?????? Hb|?????? Hb];
      simpl; by rewrite Hb.
  - destruct c as [[|x xs] st|x xs st env [|y ys] ist|e]; intros [= <-].
    + destruct (enter st x) as [[[env ys] ist]|e] eqn:Hb; by constructor.
    + destruct (leave st x env ist) eqn:Hb; by constructor.
    + destruct (ibody env ist y) eqn:Hb; by constructor.
Qed.

Lemma nstep_deterministic : deterministic nstep.
Proof. intros c c1 c2. rewrite !nstep_nnext. congruence. Qed.

Lemma nf_nstep c : nf nstep c ↔ nfinal c = true.
Proof.
  unfold nf, red. setoid_rewrite nstep_nnext.
  destruct c as [[|x xs] st|x xs st env [|y ys] ist|e]; simpl; naive_solver.
Qed.

(** ** Every execution is finite *)

Lemma sn_NRaised e : sn nstep (NRaised e).
Proof. by apply nf_sn, nf_nstep. Qed.

Lemma sn_Inner x xs st env ys ist :
  (∀ st', sn nstep (Outer xs st')) → sn nstep (Inner x xs st env ys ist).
Proof.
  intros Hout. revert ist. induction ys as [|y ys IH]; intros ist;
    constructor; intros c' Hstep; inv Hstep; auto using sn_NRaised.
Qed.

Lemma sn_Outer xs st : sn nstep (Outer xs st).
Proof.
  revert st. induction xs as [|x xs IH]; intros st;
    constructor; intros c' Hstep; inv Hstep; auto using sn_Inner, sn_NRaised.
Qed.

Lemma nstep_sn c : sn nstep c.
Proof. destruct c; auto using sn_Outer, sn_Inner, sn_NRaised. Qed.

(** ** The nested loops refine the outer loop *)

Lemma nbody_enter_Err st x e : enter st x = Err e → nbody st x = Err e.
Proof. unfold nbody. by intros ->. Qed.

Lemma nbody_enter_Ok st x env ys ist :
  enter st x = Ok (env, ys, ist) →
  nbody st x = (ist' ← for_loop (ibody env) ys ist; leave st x env ist').
Proof. unfold nbody. by intros ->. Qed.

Lemma ninv_step c c' : ninv c → nstep c c' → ninv c'.
Proof.
  intros Hinv Hstep. destruct Hstep as [?????? Hb| |???????? Hb| | |]; [|done| |done..].
  - by exists [], ist.
  - destruct Hinv as (done & ist0 & He & Hl). exists (done ++ [y]), ist0.
    split; [by rewrite <-(assoc_L (++))|]. by rewrite for_loop_snoc, Hl.
Qed.

(** A step of the nested loops is a step of the outer loop, or none. *)
Lemma nstep_simulation c c' :
  ninv c → nstep c c' →
  flatten c' = flatten c ∨ step nbody (flatten c) (flatten c').
Proof.
  intros Hinv Hstep.
  destruct Hstep as [| |?|???????? Hb|?????? Hb|?????? Hb]; simpl in *;
    [by left|right; by apply step_raise, nbody_enter_Err|by left|right..];
    destruct Hinv as (done & ist0 & He & Hl);
    [apply step_raise|apply step_iter|apply step_raise];
    rewrite (nbody_enter_Ok _ _ _ _ _ He), ?app_nil_r, ?for_loop_app, Hl;
    simpl; by rewrite ?for_loop_cons, ?Hb.
Qed.

Lemma nested_refines c c' :
  ninv c → rtc nstep c c' → rtc (step nbody) (flatten c) (flatten c').
Proof.
  intros Hinv Hrtc. induction Hrtc as [|c c1 c2 Hstep _ IH]; [done|].
  destruct (nstep_simulation _ _ Hinv Hstep) as [<-|?];
    [|eapply rtc_l; [done|]]; eauto using ninv_step.
Qed.

(** ** The outer loop is refined by the nested loops *)

(** The inner loop runs as the loop of the file [Loops] does, one step
    for each iteration. *)
Lemma inner_run_exact x xs st env ys ist :
  nsteps nstep (iterations (ibody env) ys ist) (Inner x xs st env ys ist)
    (continue (Inner x xs st env []) (for_loop (ibody env) ys ist)).
Proof.
  revert ist. induction ys as [|y ys IH]; intros ist; [constructor|].
  rewrite for_loop_cons. simpl. destruct (ibody env ist y) as [ist'|e] eqn:Hb.
  - eapply nsteps_l; [by constructor|apply IH].
  - apply nsteps_once. by constructor.
Qed.

(** An iteration of the outer loop is [iteration_steps] steps of the
    nested loops. *)
Lemma nested_iteration_exact x xs st :
  nsteps nstep (iteration_steps st x) (Outer (x :: xs) st)
    (continue (Outer xs) (nbody st x)).
Proof.
  unfold iteration_steps, nbody.
  destruct (enter st x) as [[[env ys] ist]|e] eqn:He; simpl;
    [|apply nsteps_once; by constructor].
  eapply nsteps_l; [by constructor|].
  pose proof (inner_run_exact x xs st env ys ist) as Hrun.
  destruct (for_loop (ibody env) ys ist) as [ist'|e]; simpl in *;
    [|by rewrite Nat.add_0_r].
  rewrite Nat.add_1_r. eapply nsteps_r; [done|].
  apply nstep_nnext. simpl. by destruct (leave st x env ist').
Qed.

Lemma step_nbody_embed (c c' : config St X E) :
  step nbody c c' →
  ∃ x xs st, c = Running (x :: xs) st ∧
             embed c' = continue (Outer xs) (nbody st x).
Proof.
  destruct 1 as [x xs st st' Hb|x xs st e Hb]; exists x, xs, st; by rewrite Hb.
Qed.

Lemma flat_refined (c c' : config St X E) :
  rtc (step nbody) c c' → rtc nstep (embed c) (embed c').
Proof.
  induction 1 as [|c c1 c2 Hstep _ IH]; [done|]. etrans; [|done].
  apply step_nbody_embed in Hstep as (x & xs & st & -> & ->).
  eapply rtc_nsteps_2, nested_iteration_exact.
Qed.

Lemma nested_run xs st : rtc nstep (Outer xs st) (embed (run nbody xs st)).
Proof. apply (flat_refined (Running xs st)), rtc_run. Qed.

Lemma nfinal_embed_run xs st : nfinal (embed (run nbody xs st)) = true.
Proof.
  pose proof (final_run nbody xs st). by destruct (run nbody xs st) as [[]|].
Qed.

(** The configuration in which the nested loops stop is the configuration
    in which the outer loop stops. *)
Lemma nested_final xs st c :
  rtc nstep (Outer xs st) c → nfinal c = true → c = embed (run nbody xs st).
Proof.
  intros Hc Hf.
  apply (confluent_rtc_nf (R := nstep) (Outer xs st));
    [apply deterministic_confluent, nstep_deterministic|done|by apply nf_nstep
    |apply nested_run|apply nf_nstep, nfinal_embed_run].
Qed.

(** ** The number of steps *)

(** The nested loops stop after [nested_steps] steps... *)
Lemma nested_run_exact xs st :
  nsteps nstep (nested_steps xs st) (Outer xs st) (embed (run nbody xs st)).
Proof.
  revert st. induction xs as [|x xs IH]; intros st; simpl; [constructor|].
  eapply nsteps_trans; [apply nested_iteration_exact|].
  destruct (nbody st x) as [st'|e]; simpl; [apply IH|constructor].
Qed.

(** ... and no execution takes more. *)
Lemma nsteps_nested_le n xs st c :
  nsteps nstep n (Outer xs st) c → (n ≤ nested_steps xs st)%nat.
Proof.
  eapply nsteps_nf_le;
    [apply nstep_deterministic|apply nested_run_exact
    |apply nf_nstep, nfinal_embed_run].
Qed.

(** ** The configurations of an execution *)

(** The outer loop is at [xs'] with the variables [st'] exactly when [st']
    is the outcome of the loop over the elements before [xs']. *)
Lemma rtc_nstep_Outer xs st xs' st' :
  rtc nstep (Outer xs st) (Outer xs' st') ↔
  ∃ done, xs = done ++ xs' ∧ for_loop nbody done st = Ok st'.
Proof.
  rewrite <-rtc_step_Running. split.
  - by intros ?%nested_refines.
  - apply (flat_refined (Running xs st) (Running xs' st')).
Qed.

Lemma rtc_nstep_NRaised xs st e :
  rtc nstep (Outer xs st) (NRaised e) ↔ for_loop nbody xs st = Err e.
Proof.
  rewrite <-rtc_step_Raised. split.
  - by intros ?%nested_refines.
  - apply (flat_refined (Running xs st) (Raised e)).
Qed.

(** The rule of the invariant of the inner loop: a property that holds
    when the inner loop is entered and that its body preserves holds
    whenever the inner loop is running. *)
Lemma inner_invariant (I : Env → list Y → ISt → Prop) c x xs st env ys ist :
  (∀ st x env ys ist, enter st x = Ok (env, ys, ist) → I env ys ist) →
  (∀ env y ys ist ist',
     I env (y :: ys) ist → ibody env ist y = Ok ist' → I env ys ist') →
  (if c is Inner _ _ _ env ys ist then I env ys ist else True) →
  rtc nstep c (Inner x xs st env ys ist) → I env ys ist.
Proof.
  intros Henter Hbody Hc Hrtc.
  cut (if Inner x xs st env ys ist is Inner _ _ _ env ys ist
       then I env ys ist else True); [done|].
  induction Hrtc as [|c c1 c2 Hstep _ IH]; [done|]. apply IH.
  destruct Hstep; by eauto.
Qed.

(** ** Fuel *)

Lemma nrun_rtc fuel c : rtc nstep c (nrun fuel c).
Proof.
  revert c. induction fuel as [|fuel IH]; intros c; simpl; [done|].
  destruct (nnext c) as [c'|] eqn:Hc; [|done].
  eapply rtc_l; [by apply nstep_nnext|apply IH].
Qed.

Lemma nrun_final fuel c : nfinal c = true → nrun fuel c = c.
Proof. destruct fuel, c as [[]| |]; naive_solver. Qed.

Lemma nrun_nsteps fuel n c c' :
  nsteps nstep n c c' → nfinal c' = true → (n ≤ fuel)%nat → nrun fuel c = c'.
Proof.
  intros Hn Hf. revert fuel. induction Hn as [|n c c1 c2 Hstep _ IH]; intros fuel ?.
  { by apply nrun_final. }
  destruct fuel as [|fuel]; [lia|]. apply nstep_nnext in Hstep. simpl.
  rewrite Hstep. apply IH; [done|lia].
Qed.

(** With [nested_steps xs st] units of fuel the execution reaches the
    outcome of the outer loop. *)
Lemma nrun_enough fuel xs st :
  (nested_steps xs st ≤ fuel)%nat →
  nrun fuel (Outer xs st) = embed (of_result (for_loop nbody xs st)).
Proof.
  intros Hfuel. rewrite <-run_for_loop.
  eapply nrun_nsteps; [apply nested_run_exact|apply nfinal_embed_run|done].
Qed.

End nested.

Arguments nconfig : clear implicits.

#[export] Hint Constructors nstep : loops.
#[export] Hint Resolve nstep_sn nested_run nrun_rtc : loops.
