(* ===== verification/Store.v ===== *)
(** * Objects and references

    A Python list is an object: a variable or a field holds a reference to
    it, an assignment [l[i] = v] changes the object, and the change is seen
    through every reference.  This file models the objects that
    [src/examples/relation_classification/utils.py] mutates through
    references:

    - a [store] maps the references ([loc]) of the live lists to their
      elements;
    - a program ([prog A]) takes a store and returns a value and a store,
      or raises; [x ← m; k] is sequencing, as for [result];
    - [new_list] is a list display [[v1, ..., vn]], which makes a new
      object; [list_getitem] is [l[i]] and [list_setitem] is [l[i] = v],
      which raise [IndexError] outside the list;
    - [for_in] is a [for] statement whose body runs on the store: it is
      the loop of the file [Loops] with the store as one more variable.

    A reference of Python always denotes a live object.  A store is a
    finite map, so the model has to say what a program does with a
    reference outside it: that outcome is [Dangling], which is no exception
    of Python, and the theorems on the programs show that it is never
    reached.

    Two programs are equivalent ([≡]) when they have the same outcome in
    every store; sequencing respects the equivalence, so that programs are
    rewritten inside programs. *)

From S2P Require Import Prelude PySeq Data Loops.

#[local] Open Scope Z_scope.

(** The identity of an object. *)
Notation loc := positive.

(** Why a program stops without a value. *)
Inductive fault :=
  | Raises (e : exn)       (* a Python exception *)
  | Dangling (l : loc).    (* a reference to no object: never reached *)

#[export] Instance fault_eq_dec : EqDecision fault.
Proof. solve_decision. Defined.

(** [l[i]] on a list of length [n]: the position that the index [i]
    denotes.  A negative index counts from the end. *)
Definition list_index (n i : Z) : result exn nat :=
  if decide (0 ≤ i < n) then Ok (Z.to_nat i)
  else if decide (- n ≤ i < 0) then Ok (Z.to_nat (n + i))
  else Err IndexError.

(** The live lists, with elements of type [V]. *)
Notation store V := (gmap loc (list V)).

Section store.
Context {V : Type}.
Implicit Types (σ : store V) (l : loc) (vs : list V).

Definition prog (A : Type) : Type := store V → result fault (A * store V).

#[export] Instance prog_ret : MRet prog := λ A a σ, Ok (a, σ).
#[export] Instance prog_bind : MBind prog := λ A B f m σ,
  match m σ with Ok (a, σ') => f a σ' | Err e => Err e end.
#[export] Instance prog_fmap : FMap prog := λ A B f m σ,
  match m σ with Ok (a, σ') => Ok (f a, σ') | Err e => Err e end.

(** Two programs with the same outcome in every store. *)
#[export] Instance prog_equiv {A} : Equiv (prog A) := λ m1 m2, ∀ σ, m1 σ = m2 σ.

(** A computation that does not use the store. *)
Definition lift {A} (r : result exn A) : prog A := λ σ,
  match r with Ok a => Ok (a, σ) | Err e => Err (Raises e) end.

(** [[v1, ..., vn]]: a new object, at a reference that denotes no other. *)
Definition new_list (vs : list V) : prog loc := λ σ,
  let l := fresh (dom σ) in Ok (l, <[l:=vs]> σ).

(** The elements of the object. *)
Definition deref (l : loc) : prog (list V) := λ σ,
  match σ !! l with Some vs => Ok (vs, σ) | None => Err (Dangling l) end.

(** The object gets new elements and keeps its identity. *)
Definition update (l : loc) (vs : list V) : prog () := λ σ, Ok ((), <[l:=vs]> σ).

(** [l[i]]. *)
Definition list_getitem (l : loc) (i : Z) : prog V :=
  vs ← deref l;
  k ← lift (list_index (py_len vs) i);
  lift (of_option (vs !! k) IndexError).

(** [l[i] = v]. *)
Definition list_setitem (l : loc) (i : Z) (v : V) : prog () :=
  vs ← deref l;
  k ← lift (list_index (py_len vs) i);
  update l (<[k:=v]> vs).

(** [for x in xs: body], where the body changes the variables [st] of the
    loop and the store. *)
Definition for_in {St X} (body : St → X → prog St) (xs : list X) (st : St) :
    prog St :=
  λ σ, for_loop (λ s x, body s.1 x s.2) xs (st, σ).

(** The program returns in [σ]. *)
Definition returns {A} (m : prog A) σ : Prop :=
  ∃ a σ', m σ = Ok (a, σ').

(** ** Equivalence of programs *)

#[export] Instance prog_equivalence {A} : Equivalence (≡@{prog A}).
Proof.
  split; [by intros m σ|by intros m1 m2 H σ|].
  intros m1 m2 m3 H1 H2 σ. by rewrite H1.
Qed.

#[export] Instance prog_bind_proper {A B} :
  Proper (pointwise_relation A (≡) ==> (≡) ==> (≡@{prog B})) mbind.
Proof.
  intros f g Hfg m1 m2 Hm σ. unfold mbind, prog_bind. rewrite Hm.
  destruct (m2 σ) as [[a σ']|]; [apply Hfg|done].
Qed.

Lemma prog_bind_unfold {A B} (m : prog A) (f : A → prog B) σ :
  (m ≫= f) σ = match m σ with Ok (a, σ') => f a σ' | Err e => Err e end.
Proof. done. Qed.

Lemma prog_bind_ret_l {A B} (a : A) (f : A → prog B) : (mret a ≫= f) ≡ f a.
Proof. done. Qed.

Lemma prog_bind_ret_r {A} (m : prog A) : (m ≫= mret) ≡ m.
Proof. intros σ. unfold mbind, prog_bind. by destruct (m σ) as [[]|]. Qed.

Lemma prog_bind_assoc {A B C} (m : prog A) (f : A → prog B) (g : B → prog C) :
  ((m ≫= f) ≫= g) ≡ (m ≫= λ a, f a ≫= g).
Proof. intros σ. unfold mbind, prog_bind. by destruct (m σ) as [[]|]. Qed.

Lemma lift_bind {A B} (r : result exn A) (f : A → result exn B) :
  lift (r ≫= f) ≡ (a ← lift r; lift (f a)).
Proof. intros σ. by destruct r. Qed.

Lemma lift_Ok_bind {A B} (a : A) (f : A → prog B) : (lift (Ok a) ≫= f) ≡ f a.
Proof. done. Qed.

Lemma lift_Err_bind {A B} e (f : A → prog B) σ :
  (lift (Err e) ≫= f) σ = Err (Raises e).
Proof. done. Qed.

(** ** Outcomes *)

Lemma prog_bind_Ok {A B} (m : prog A) (f : A → prog B) σ b σ'' :
  (m ≫= f) σ = Ok (b, σ'') ↔ ∃ a σ', m σ = Ok (a, σ') ∧ f a σ' = Ok (b, σ'').
Proof.
  unfold mbind, prog_bind. destruct (m σ) as [[a σ']|]; naive_solver.
Qed.

Lemma lift_Ok {A} (r : result exn A) σ a σ' :
  lift r σ = Ok (a, σ') ↔ r = Ok a ∧ σ' = σ.
Proof. destruct r; simpl; naive_solver. Qed.

Lemma new_list_Ok vs σ l σ' :
  new_list vs σ = Ok (l, σ') ↔ l = fresh (dom σ) ∧ σ' = <[l:=vs]> σ.
Proof. unfold new_list. naive_solver. Qed.

(** A new object is no object of the store, and the objects of the store
    are as they were. *)
Lemma new_list_fresh vs σ l σ' : new_list vs σ = Ok (l, σ') → σ !! l = None.
Proof.
  intros [-> _]%new_list_Ok. apply not_elem_of_dom, is_fresh.
Qed.

Lemma new_list_lookup vs σ l σ' :
  new_list vs σ = Ok (l, σ') → σ' !! l = Some vs.
Proof. intros [-> ->]%new_list_Ok. apply lookup_insert_eq. Qed.

Lemma new_list_subseteq vs σ l σ' : new_list vs σ = Ok (l, σ') → σ ⊆ σ'.
Proof.
  intros H. pose proof (new_list_fresh _ _ _ _ H).
  apply new_list_Ok in H as [_ ->]. by apply insert_subseteq.
Qed.

Lemma list_index_Ok n i k :
  list_index n i = Ok k → (k < Z.to_nat n)%nat ∧ (Z.of_nat k = i ∨ Z.of_nat k = n + i).
Proof. unfold list_index. repeat case_decide; intros; simplify_eq; lia. Qed.

Lemma list_index_nonneg n i :
  0 ≤ i < n → list_index n i = Ok (Z.to_nat i).
Proof. intros. unfold list_index. by rewrite decide_True. Qed.

(** [l[i] = v] on a live list, with the index inside it. *)
Lemma list_setitem_Ok l (i : nat) v vs σ :
  σ !! l = Some vs → (i < length vs)%nat →
  list_setitem l (Z.of_nat i) v σ = Ok ((), <[l:=<[i:=v]> vs]> σ).
Proof.
  intros Hl Hi. unfold list_setitem, deref, mbind, prog_bind. rewrite Hl.
  rewrite list_index_nonneg by (unfold py_len; lia). simpl.
  by rewrite Nat2Z.id.
Qed.

Lemma list_getitem_Ok l (i : nat) v vs σ :
  σ !! l = Some vs → vs !! i = Some v →
  list_getitem l (Z.of_nat i) σ = Ok (v, σ).
Proof.
  intros Hl Hi. unfold list_getitem, deref, mbind, prog_bind. rewrite Hl.
  apply lookup_lt_Some in Hi as Hlt.
  rewrite list_index_nonneg by (unfold py_len; lia). simpl.
  by rewrite Nat2Z.id, Hi.
Qed.

(** An assignment through [l] changes the object of [l] only. *)
Lemma list_setitem_other l i v σ σ' l' :
  list_setitem l i v σ = Ok ((), σ') → l' ≠ l → σ' !! l' = σ !! l'.
Proof.
  unfold list_setitem, deref, update, mbind, prog_bind.
  destruct (σ !! l) as [vs|]; [|done].
  destruct (list_index _ _); simpl; [|done].
  intros [= <-] ?. by rewrite lookup_insert_ne.
Qed.

Lemma list_setitem_dom l i v σ σ' :
  list_setitem l i v σ = Ok ((), σ') → dom σ' = dom σ.
Proof.
  unfold list_setitem, deref, update, mbind, prog_bind.
  destruct (σ !! l) as [vs|] eqn:Hl; [|done].
  destruct (list_index _ _); simpl; [|done].
  intros [= <-]. rewrite dom_insert_L.
  apply elem_of_dom_2 in Hl. set_solver.
Qed.

(** The position of an index does not depend on the elements. *)
Lemma list_setitem_inv l i v σ σ' :
  list_setitem l i v σ = Ok ((), σ') →
  ∃ vs k, σ !! l = Some vs ∧ list_index (py_len vs) i = Ok k ∧
          σ' = <[l:=<[k:=v]> vs]> σ.
Proof.
  unfold list_setitem, deref, update, lift. rewrite !prog_bind_unfold.
  destruct (σ !! l) as [vs|]; [|done].
  destruct (list_index _ _) as [k|] eqn:Hk; [|done]. intros [= <-].
  by eexists _, _.
Qed.

(** [l[i] = v] raises [IndexError] exactly when the index is outside the
    list. *)
Lemma list_setitem_Err l i v vs σ f :
  σ !! l = Some vs →
  list_setitem l i v σ = Err f ↔
  f = Raises IndexError ∧ ¬ (- py_len vs ≤ i < py_len vs).
Proof.
  intros Hl. unfold list_setitem, deref, update, lift, list_index.
  rewrite !prog_bind_unfold, Hl.
  repeat case_decide; simpl; (split; [intros [=]|intros [??]]);
    simplify_eq; first [lia|done|split; [done|lia]].
Qed.

(** ** Loops *)

Lemma for_in_nil {St X} (body : St → X → prog St) st :
  for_in body [] st ≡ mret st.
Proof. done. Qed.

Lemma for_in_cons {St X} (body : St → X → prog St) x xs st :
  for_in body (x :: xs) st ≡ (st' ← body st x; for_in body xs st').
Proof.
  intros σ. unfold for_in. rewrite for_loop_cons. simpl.
  unfold mbind at 2, prog_bind. by destruct (body st x σ) as [[]|].
Qed.

Lemma for_in_app {St X} (body : St → X → prog St) xs ys st :
  for_in body (xs ++ ys) st ≡ (st' ← for_in body xs st; for_in body ys st').
Proof.
  revert st. induction xs as [|x xs IH]; intros st; simpl.
  { by rewrite for_in_nil, prog_bind_ret_l. }
  rewrite !for_in_cons, prog_bind_assoc. by setoid_rewrite IH.
Qed.

(** A loop that appends one result per element to a list is [mapM]. *)
Lemma for_in_mapM {X B} (f : X → prog B) (body : list B → X → prog (list B)) xs acc :
  (∀ acc x, body acc x ≡ (y ← f x; mret (acc ++ [y]))) →
  for_in body xs acc ≡ (k ← mapM f xs; mret (acc ++ k)).
Proof.
  intros Hbody. revert acc. induction xs as [|x xs IH]; intros acc.
  { rewrite for_in_nil. simpl. rewrite prog_bind_ret_l. by rewrite app_nil_r. }
  rewrite for_in_cons, Hbody, prog_bind_assoc. simpl. rewrite prog_bind_assoc.
  f_equiv. intros y. rewrite prog_bind_ret_l, IH, prog_bind_assoc.
  f_equiv. intros k. rewrite prog_bind_ret_l. by rewrite <-(assoc_L (++)).
Qed.

(** A loop whose body computes without the store and then runs a program
    that always returns: the computations can be done first. *)
Lemma mapM_lift_bind {X Y B} (g : X → result exn Y) (h : Y → prog B)
    (f : X → prog B) xs :
  (∀ x, f x ≡ (y ← lift (g x); h y)) → (∀ y σ, returns (h y) σ) →
  mapM f xs ≡ (ys ← lift (mapM g xs); mapM h ys).
Proof.
  intros Hf Hh. induction xs as [|x xs IH]; [done|].
  intros σ. cbn [mapM]. rewrite !prog_bind_unfold, Hf, prog_bind_unfold.
  unfold lift at 1 2. destruct (g x) as [y|e]; simpl; [|done].
  destruct (Hh y σ) as (b & σ1 & Hb).
  rewrite Hb, prog_bind_unfold, IH, !prog_bind_unfold. unfold lift.
  destruct (mapM g xs) as [ys|e]; simpl; [|done].
  by rewrite prog_bind_unfold, Hb.
Qed.

(** An assignment [l[i] = v] that returns is seen by a later [l[i]],
    also for a negative index; it changes no other object, and the store
    has the same objects before and after. *)
Theorem list_setitem_getitem l i v σ σ' :
  list_setitem l i v σ = Ok ((), σ') →
  list_getitem l i σ' = Ok (v, σ') ∧
  (∀ l', l' ≠ l → σ' !! l' = σ !! l') ∧ dom σ' = dom σ.
Proof.
  intros Hset. split; [|eauto using list_setitem_other, list_setitem_dom].
  apply list_setitem_inv in Hset as (vs & k & Hl & Hk & ->).
  unfold list_getitem. rewrite prog_bind_unfold. unfold deref.
  rewrite lookup_insert_eq, prog_bind_unfold. unfold py_len in *.
  rewrite length_insert, Hk. apply list_index_Ok in Hk as [Hk _]. unfold lift.
  by rewrite list_lookup_insert_eq by lia.
Qed.

End store.

Lemma list_setitem_getitem_witness :
  list_getitem 1%positive (-1) {[1%positive := [None; Some 5]]} =
    Ok (Some 5, {[1%positive := [None; Some 5]]}) ∧
  (∀ l', l' ≠ 1%positive →
     ({[1%positive := [None; Some 5]]} : store (option Z)) !! l' =
       ({[1%positive := [None; None]]} : store (option Z)) !! l') ∧
  dom ({[1%positive := [None; Some 5]]} : store (option Z)) =
    dom ({[1%positive := [None; None]]} : store (option Z)).
Proof.
  apply (list_setitem_getitem 1%positive (-1) (Some 5)
           {[1%positive := [None; None]]}).
  reflexivity.
Defined.

Arguments prog : clear implicits.
