(* ===== verification/Examples.v ===== *)
(** * The example builder: one record

    Module [DatasetProcessor] models what the method [_create_examples] of
    the class of that name does with one record
    ([src/examples/relation_classification/utils.py], lines 61-86).

    - The body of the [for i, item in enumerate(data)] loop is
      [create_example]; the inner [for target_entity in entity_order] loop
      is a fold of [build_step] over a [build_state] that holds the loop's
      variables [text], [cur] and [char_spans].
    - [layout_of], [layout_text], [layout_span] and [example_spec] are the
      specification: the text and the spans in closed form.
    - The loop over the records, the methods that read a split and
      [get_label_list] are in the file [Splits]. *)

From stdpp Require Import strings functions.
From S2P Require Import Prelude PySeq PyStr Data.

#[local] Open Scope Z_scope.

(** ** Records used as concrete inputs *)

(** The record of the specification's worked example. *)
Definition john_tokens : list str := pystr <$> ["John"; "lives"; "in"; "Paris"].
Definition john_item : Item :=
  full_item john_tokens 0 0 3 3 (pystr "PERSON") (pystr "CITY") (pystr "lives_in").

(** Two adjacent one-token entities. *)
Definition pair_tokens : list str := pystr <$> ["Marie"; "Curie"].

(** A record without the key [obj_end]. *)
Definition broken_item : Item :=
  {| token := Some john_tokens; subj_start := Some 0; subj_end := Some 0;
     obj_start := Some 3; obj_end := None; subj_type := Some (pystr "PERSON");
     obj_type := None; relation := Some (pystr "lives_in") |}.

Module DatasetProcessor.

(** The keys of the dictionaries [token_spans] and [char_spans]. *)
Inductive entity := subj | obj.

#[export] Instance entity_eq_dec : EqDecision entity.
Proof. solve_decision. Defined.

(** [token_spans] (lines 62-63): the token span of each entity, end
    exclusive. *)
Definition token_spans (subj_start subj_end obj_start obj_end : Z)
    (e : entity) : Z * Z :=
  match e with
  | subj => (subj_start, subj_end + 1)
  | obj => (obj_start, obj_end + 1)
  end.

(** [entity_order] (lines 65-68): the entity that starts first comes first;
    when both start at the same token, [obj] does. *)
Definition entity_order (token_spans : entity → Z * Z) : list entity :=
  if decide ((token_spans subj).1 < (token_spans obj).1) then [subj; obj]
  else [obj; subj].

(** The variables of the inner loop.  An entry of [char_spans] is the list
    [[None, None]] until the loop fills it. *)
Record build_state := {
  text : str;
  cur : Z;
  char_spans : entity → option Z * option Z;
}.

(** Lines 70-72. *)
Definition build_init : build_state :=
  {| text := []; cur := 0; char_spans := λ _, (None, None) |}.

(** [char_spans[e][0] = v] and [char_spans[e][1] = v]. *)
Definition set_start (cs : entity → option Z * option Z) (e : entity) (v : Z) :
    entity → option Z * option Z :=
  <[e := (Some v, (cs e).2)]> cs.
Definition set_end (cs : entity → option Z * option Z) (e : entity) (v : Z) :
    entity → option Z * option Z :=
  <[e := ((cs e).1, Some v)]> cs.

(** [if text: text += ' '] (lines 76-77). *)
Definition add_sep (text : str) : str :=
  if decide (text = []) then text else text ++ [space].

(** One iteration of [for target_entity in entity_order] (lines 74-81). *)
Definition build_step (tokens : list str) (token_spans : entity → Z * Z)
    (st : build_state) (target_entity : entity) : build_state :=
  let token_span := token_spans target_entity in
  let text := text st ++ join [space] (slice tokens (cur st) token_span.1) in
  let text := add_sep text in
  let char_spans := set_start (char_spans st) target_entity (py_len text) in
  let text :=
    text ++ (join [space] (slice tokens token_span.1 token_span.2) ++ [space]) in
  let char_spans := set_end char_spans target_entity (py_len text) in
  {| text := text; cur := token_span.2; char_spans := char_spans |}.

(** The inner loop (lines 73-81). *)
Definition build_loop (tokens : list str) (token_spans : entity → Z * Z) :
    build_state :=
  foldl (build_step tokens token_spans) build_init (entity_order token_spans).

(** The text before [rstrip] (line 82). *)
Definition raw_text (tokens : list str) (st : build_state) : str :=
  text st ++ join [space] (slice_from tokens (cur st)).

(** The span an [InputExample] receives from [char_spans].  Both entries of
    a span are filled when the loop ends ([build_loop_char_spans]), so the
    default is never used. *)
Definition span_of (slot : option Z * option Z) : Z * Z :=
  (default 0 slot.1, default 0 slot.2).

(** The body of the loop over the records (lines 61-86). *)
Definition create_example (set_type : str) (i : Z) (item : Item) :
    result exn InputExample.t :=
  tokens ← getitem (pystr "token") (token item);
  subj_start ← getitem (pystr "subj_start") (subj_start item);
  subj_end ← getitem (pystr "subj_end") (subj_end item);
  obj_start ← getitem (pystr "obj_start") (obj_start item);
  obj_end ← getitem (pystr "obj_end") (obj_end item);
  let token_spans := token_spans subj_start subj_end obj_start obj_end in
  let st := build_loop tokens token_spans in
  let text := rstrip (raw_text tokens st) in
  subj_type ← getitem (pystr "subj_type") (subj_type item);
  obj_type ← getitem (pystr "obj_type") (obj_type item);
  relation ← getitem (pystr "relation") (relation item);
  mret (InputExample.mk (set_type ++ pystr "-" ++ str_of_Z i) text
          (span_of (char_spans st subj)) (span_of (char_spans st obj))
          subj_type obj_type relation).

(** ** Specification of the rebuilt text

    What the loop is meant to compute, in closed form.  The text is made of
    five segments: the tokens before the first entity, the first entity,
    the tokens between the entities, the second entity and the tokens after
    it, each joined by spaces; a space follows every segment but the last
    (and an empty first segment). *)

Definition first_entity (ts : entity → Z * Z) : entity :=
  if decide ((ts subj).1 < (ts obj).1) then subj else obj.
Definition second_entity (ts : entity → Z * Z) : entity :=
  if decide ((ts subj).1 < (ts obj).1) then obj else subj.

Record layout := {
  seg_pre : str;
  seg_ent1 : str;
  seg_mid : str;
  seg_ent2 : str;
  seg_tail : str;
}.

Definition layout_of (tokens : list str) (ts : entity → Z * Z) : layout :=
  let s1 := ts (first_entity ts) in
  let s2 := ts (second_entity ts) in
  {| seg_pre := join [space] (slice tokens 0 s1.1);
     seg_ent1 := join [space] (slice tokens s1.1 s1.2);
     seg_mid := join [space] (slice tokens s1.2 s2.1);
     seg_ent2 := join [space] (slice tokens s2.1 s2.2);
     seg_tail := join [space] (slice_from tokens s2.2) |}.

Definition layout_text (l : layout) : str :=
  add_sep (seg_pre l) ++ (seg_ent1 l ++ [space]) ++ (seg_mid l ++ [space]) ++
  (seg_ent2 l ++ [space]) ++ seg_tail l.

(** The character spans of the first and of the second entity: each covers
    the entity's segment and the space after it. *)
Definition layout_span1 (l : layout) : Z * Z :=
  let a := py_len (add_sep (seg_pre l)) in (a, a + py_len (seg_ent1 l) + 1).
Definition layout_span2 (l : layout) : Z * Z :=
  let a := (layout_span1 l).2 + py_len (seg_mid l) + 1 in
  (a, a + py_len (seg_ent2 l) + 1).

Definition layout_span (l : layout) (ts : entity → Z * Z) (e : entity) : Z * Z :=
  if decide (e = first_entity ts) then layout_span1 l else layout_span2 l.

(** The example a record with every key present is meant to yield. *)
Definition example_spec (set_type : str) (i : Z) (tokens : list str)
    (ss se os oe : Z) (st ot rel : str) : InputExample.t :=
  let ts := token_spans ss se os oe in
  let l := layout_of tokens ts in
  InputExample.mk (set_type ++ pystr "-" ++ str_of_Z i) (rstrip (layout_text l))
    (layout_span l ts subj) (layout_span l ts obj) st ot rel.

(** The text of entity [e]: its tokens joined by spaces. *)
Definition entity_text (tokens : list str) (ts : entity → Z * Z)
    (e : entity) : str :=
  join [space] (slice tokens (ts e).1 (ts e).2).

(** The example a record is meant to yield, when it lacks no key. *)
Definition item_spec (set_type : str) (i : Z) (item : Item) :
    option InputExample.t :=
  tokens ← token item;
  ss ← subj_start item; se ← subj_end item;
  os ← obj_start item; oe ← obj_end item;
  st ← subj_type item; ot ← obj_type item; rel ← relation item;
  Some (example_spec set_type i tokens ss se os oe st ot rel).

(** The keys a record lacks, in the order [create_example] reads them. *)
Definition missing_keys (item : Item) : list str :=
  let absent {A} (key : string) (v : option A) : list str :=
    if v is None then [pystr key] else [] in
  absent "token" (token item) ++ absent "subj_start" (subj_start item) ++
  absent "subj_end" (subj_end item) ++ absent "obj_start" (obj_start item) ++
  absent "obj_end" (obj_end item) ++ absent "subj_type" (subj_type item) ++
  absent "obj_type" (obj_type item) ++ absent "relation" (relation item).

(** ** The inner loop *)

Lemma entity_order_eq ts : entity_order ts = [first_entity ts; second_entity ts].
Proof. unfold entity_order, first_entity, second_entity. by case_decide. Qed.

Lemma first_second_ne ts : first_entity ts ≠ second_entity ts.
Proof. unfold first_entity, second_entity. by case_decide. Qed.

Lemma entity_first_or_second ts e :
  e = first_entity ts ∧ e ≠ second_entity ts ∨
  e = second_entity ts ∧ e ≠ first_entity ts.
Proof.
  unfold first_entity, second_entity. destruct e; case_decide; naive_solver.
Qed.

Lemma add_sep_nil : add_sep [] = [].
Proof. done. Qed.

Lemma add_sep_nonempty s : s ≠ [] → add_sep s = s ++ [space].
Proof. unfold add_sep. by case_decide. Qed.

Section step.
Context (tokens : list str) (ts : entity → Z * Z) (st : build_state).
Context (e : entity).
Let before := add_sep (text st ++ join [space] (slice tokens (cur st) (ts e).1)).
Let ent := join [space] (slice tokens (ts e).1 (ts e).2).

Lemma build_step_text :
  text (build_step tokens ts st e) = before ++ ent ++ [space].
Proof. done. Qed.

Lemma build_step_cur : cur (build_step tokens ts st e) = (ts e).2.
Proof. done. Qed.

Lemma build_step_char_spans e' :
  char_spans (build_step tokens ts st e) e' =
    if decide (e' = e)
    then (Some (py_len before), Some (py_len before + py_len ent + 1))
    else char_spans st e'.
Proof.
  unfold build_step, set_start, set_end. cbn [char_spans]. fold before ent.
  destruct (decide (e' = e)) as [->|He].
  - rewrite !fn_lookup_insert. cbn. do 2 f_equal. len.
  - by rewrite !fn_lookup_insert_ne.
Qed.

End step.

(** The loop of lines 73-81 followed by line 82 computes the text of the
    closed-form [layout]... *)
Lemma build_loop_text tokens ts :
  raw_text tokens (build_loop tokens ts) = layout_text (layout_of tokens ts).
Proof.
  unfold build_loop, raw_text. rewrite entity_order_eq. cbn [foldl].
  rewrite !build_step_text, !build_step_cur. cbn [text cur build_init app].
  rewrite (add_sep_nonempty (_ ++ _)).
  2:{ by intros [[_ [_ ?]%app_eq_nil]%app_eq_nil _]%app_eq_nil. }
  unfold layout_text, layout_of. cbn. by rewrite <-!(assoc_L (++)).
Qed.

(** ... and its character spans.  Both entries of both spans are filled:
    the [None] of line 72 never reaches an [InputExample]. *)
Lemma build_loop_char_spans tokens ts e :
  char_spans (build_loop tokens ts) e =
    (Some (layout_span (layout_of tokens ts) ts e).1,
     Some (layout_span (layout_of tokens ts) ts e).2).
Proof.
  unfold build_loop. rewrite entity_order_eq.
  pose proof (first_second_ne ts) as Hne. cbn [foldl].
  rewrite !build_step_char_spans, !build_step_text, !build_step_cur.
  cbn [text cur build_init app].
  rewrite (add_sep_nonempty (_ ++ _)).
  2:{ by intros [[_ [_ ?]%app_eq_nil]%app_eq_nil _]%app_eq_nil. }
  unfold layout_span.
  destruct (entity_first_or_second ts e) as [[-> ?]|[-> ?]].
  - by rewrite decide_False, !decide_True.
  - rewrite decide_True, decide_False by done.
    unfold layout_span2, layout_span1, layout_of. cbn. do 2 f_equal; len.
Qed.

Lemma build_loop_span_of tokens ts e :
  span_of (char_spans (build_loop tokens ts) e) =
    layout_span (layout_of tokens ts) ts e.
Proof.
  rewrite build_loop_char_spans. unfold span_of. simpl.
  by destruct (layout_span _ _ _).
Qed.

(** ** The layout *)

Section layout.
Context (l : layout).

Lemma layout_text_split1 :
  layout_text l =
    add_sep (seg_pre l) ++ (seg_ent1 l ++ [space]) ++
    ((seg_mid l ++ [space]) ++ (seg_ent2 l ++ [space]) ++ seg_tail l).
Proof. done. Qed.

Lemma layout_text_split2 :
  layout_text l =
    (add_sep (seg_pre l) ++ (seg_ent1 l ++ [space]) ++ (seg_mid l ++ [space])) ++
    (seg_ent2 l ++ [space]) ++ seg_tail l.
Proof. unfold layout_text. by rewrite <-!(assoc_L (++)). Qed.

(** The spans are in text order, separated and not empty. *)
Lemma layout_spans_ordered :
  0 ≤ (layout_span1 l).1 < (layout_span1 l).2 ∧
  (layout_span1 l).2 < (layout_span2 l).1 < (layout_span2 l).2 ∧
  (layout_span2 l).2 ≤ py_len (layout_text l).
Proof.
  unfold layout_span2, layout_span1, layout_text. cbn.
  pose proof (py_len_nonneg (add_sep (seg_pre l))).
  pose proof (py_len_nonneg (seg_ent1 l)). pose proof (py_len_nonneg (seg_mid l)).
  pose proof (py_len_nonneg (seg_ent2 l)). pose proof (py_len_nonneg (seg_tail l)).
  len.
Qed.

Lemma slice_layout_span1 :
  slice (layout_text l) (layout_span1 l).1 (layout_span1 l).2 =
    seg_ent1 l ++ [space].
Proof.
  rewrite layout_text_split1. apply slice_app_middle; [done|].
  unfold layout_span1. cbn. len.
Qed.

Lemma slice_layout_span2 :
  slice (layout_text l) (layout_span2 l).1 (layout_span2 l).2 =
    seg_ent2 l ++ [space].
Proof.
  rewrite layout_text_split2. apply slice_app_middle;
    unfold layout_span2, layout_span1; cbn; len.
Qed.

Lemma slice_rstrip_layout_span1 :
  ends_nonspace (seg_ent1 l) →
  rstrip (slice (rstrip (layout_text l)) (layout_span1 l).1 (layout_span1 l).2) =
    seg_ent1 l.
Proof.
  intros. rewrite layout_text_split1. apply slice_rstrip_middle; [done| |done|].
  - unfold layout_span1. cbn. len.
  - by repeat constructor.
Qed.

Lemma slice_rstrip_layout_span2 :
  ends_nonspace (seg_ent2 l) →
  rstrip (slice (rstrip (layout_text l)) (layout_span2 l).1 (layout_span2 l).2) =
    seg_ent2 l.
Proof.
  intros. rewrite layout_text_split2. apply slice_rstrip_middle; [| |done|].
  - unfold layout_span2, layout_span1. cbn. len.
  - unfold layout_span2, layout_span1. cbn. len.
  - by repeat constructor.
Qed.

End layout.

(** ** One record *)

Lemma layout_span_first tokens ts :
  layout_span (layout_of tokens ts) ts (first_entity ts) =
    layout_span1 (layout_of tokens ts).
Proof. unfold layout_span. by rewrite decide_True. Qed.

Lemma layout_span_second tokens ts :
  layout_span (layout_of tokens ts) ts (second_entity ts) =
    layout_span2 (layout_of tokens ts).
Proof.
  unfold layout_span. rewrite decide_False; [done|].
  intros ?. by apply (first_second_ne ts).
Qed.

(** [entity_cases ts e]: [e] is the first or the second entity of the
    order, with its span. *)
Ltac entity_cases ts e :=
  destruct (entity_first_or_second ts e) as [[-> _]|[-> _]];
    [rewrite ?layout_span_first|rewrite ?layout_span_second].

Lemma slice_layout_span tokens ts e :
  let l := layout_of tokens ts in
  slice (layout_text l) (layout_span l ts e).1 (layout_span l ts e).2 =
    entity_text tokens ts e ++ [space].
Proof.
  cbv zeta. entity_cases ts e.
  - apply (slice_layout_span1 (layout_of tokens ts)).
  - apply (slice_layout_span2 (layout_of tokens ts)).
Qed.

Lemma slice_rstrip_layout_span tokens ts e :
  let l := layout_of tokens ts in
  ends_nonspace (entity_text tokens ts e) →
  rstrip (slice (rstrip (layout_text l)) (layout_span l ts e).1
            (layout_span l ts e).2) = entity_text tokens ts e.
Proof.
  cbv zeta. entity_cases ts e.
  - apply (slice_rstrip_layout_span1 (layout_of tokens ts)).
  - apply (slice_rstrip_layout_span2 (layout_of tokens ts)).
Qed.

Lemma layout_span_bounds tokens ts e :
  let s := layout_span (layout_of tokens ts) ts e in
  0 ≤ s.1 < s.2 ∧ s.2 ≤ py_len (layout_text (layout_of tokens ts)).
Proof.
  pose proof (layout_spans_ordered (layout_of tokens ts)).
  cbv zeta. entity_cases ts e; lia.
Qed.

Lemma layout_spans_disjoint tokens ts :
  let l := layout_of tokens ts in
  (layout_span l ts (first_entity ts)).2 < (layout_span l ts (second_entity ts)).1.
Proof.
  cbv zeta. rewrite layout_span_first, layout_span_second.
  pose proof (layout_spans_ordered (layout_of tokens ts)). lia.
Qed.

(** A record with every key present yields the example of the
    specification: no offset, however far out of range, makes
    [create_example] raise. *)
Lemma create_example_full set_type i tokens ss se os oe st ot rel :
  create_example set_type i (full_item tokens ss se os oe st ot rel) =
    Ok (example_spec set_type i tokens ss se os oe st ot rel).
Proof.
  unfold create_example, full_item, example_spec. simpl.
  by rewrite build_loop_text, !build_loop_span_of.
Qed.

Lemma item_spec_Some set_type i item ex :
  item_spec set_type i item = Some ex ↔
  ∃ tokens ss se os oe st ot rel,
    item = full_item tokens ss se os oe st ot rel ∧
    ex = example_spec set_type i tokens ss se os oe st ot rel.
Proof.
  unfold item_spec, full_item. split.
  - intros Hex. destruct item. simplify_option_eq. eauto 12.
  - intros (?&?&?&?&?&?&?&?&->&->). done.
Qed.

Lemma create_example_Ok_inv set_type i item ex :
  create_example set_type i item = Ok ex →
  ∃ tokens ss se os oe st ot rel,
    item = full_item tokens ss se os oe st ot rel ∧
    ex = example_spec set_type i tokens ss se os oe st ot rel.
Proof.
  intros Hex.
  destruct item as [[tokens|] [ss|] [se|] [os|] [oe|] [st|] [ot|] [rel|]];
    try done.
  fold (full_item tokens ss se os oe st ot rel) in Hex.
  rewrite create_example_full in Hex. simplify_result. eauto 12.
Qed.

(** A record that lacks a key raises [KeyError] for the first key it lacks,
    in the order of the lookups. *)
Lemma create_example_missing set_type i item key :
  head (missing_keys item) = Some key →
  create_example set_type i item = Err (KeyError key).
Proof.
  destruct item as [[?|] [?|] [?|] [?|] [?|] [?|] [?|] [?|]];
    intros [= <-]; done.
Qed.

Lemma missing_keys_full tokens ss se os oe st ot rel :
  missing_keys (full_item tokens ss se os oe st ot rel) = [].
Proof. done. Qed.

Lemma item_spec_full set_type i tokens ss se os oe st ot rel :
  item_spec set_type i (full_item tokens ss se os oe st ot rel) =
    Some (example_spec set_type i tokens ss se os oe st ot rel).
Proof. done. Qed.

Lemma item_spec_None set_type i item :
  item_spec set_type i item = None → ∃ key, head (missing_keys item) = Some key.
Proof.
  destruct item as [[?|] [?|] [?|] [?|] [?|] [?|] [?|] [?|]]; by eauto.
Qed.

Lemma missing_keys_nil item :
  missing_keys item = [] ↔
  ∃ tokens ss se os oe st ot rel, item = full_item tokens ss se os oe st ot rel.
Proof.
  split; [|by intros (?&?&?&?&?&?&?&?&->)].
  destruct item as [[?|] [?|] [?|] [?|] [?|] [?|] [?|] [?|]]; try done.
  intros _. by do 8 eexists.
Qed.

(** [create_example] returns exactly on the records that lack no key... *)
Lemma create_example_is_Ok set_type i item :
  is_Ok (create_example set_type i item) ↔ missing_keys item = [].
Proof.
  split.
  - intros [ex (?&?&?&?&?&?&?&?&->&_)%create_example_Ok_inv]. done.
  - intros (?&?&?&?&?&?&?&?&->)%missing_keys_nil.
    rewrite create_example_full. by eexists.
Qed.

(** ... and raises nothing but [KeyError], for the first key that the
    record lacks. *)
Lemma create_example_Err set_type i item e :
  create_example set_type i item = Err e ↔
  ∃ key, head (missing_keys item) = Some key ∧ e = KeyError key.
Proof.
  split.
  - intros He. destruct (missing_keys item) as [|key ?] eqn:Hkeys.
    + apply (create_example_is_Ok set_type i) in Hkeys as [? Hex]. congruence.
    + exists key. split; [done|].
      rewrite (create_example_missing _ _ _ key) in He by by rewrite Hkeys.
      congruence.
  - intros (key & ? & ->). by apply create_example_missing.
Qed.

Lemma create_example_id set_type i item ex :
  create_example set_type i item = Ok ex →
  InputExample.id ex = set_type ++ pystr "-" ++ str_of_Z i.
Proof. by intros (?&?&?&?&?&?&?&?&_&->)%create_example_Ok_inv. Qed.

Lemma create_example_item_spec set_type i item ex :
  create_example set_type i item = Ok ex ↔ item_spec set_type i item = Some ex.
Proof.
  rewrite item_spec_Some. split; [apply create_example_Ok_inv|].
  intros (?&?&?&?&?&?&?&?&->&->). apply create_example_full.
Qed.

(** C1: [create_example] implements its specification on every record: a
    record with all keys yields [example_spec], and a record that lacks a
    key raises [KeyError] for the first key it lacks. *)
Theorem create_example_refines_spec set_type i item :
  create_example set_type i item =
    match item_spec set_type i item with
    | Some ex => Ok ex
    | None => Err (KeyError (default [] (head (missing_keys item))))
    end.
Proof.
  destruct (item_spec set_type i item) as [ex|] eqn:Hspec.
  - apply item_spec_Some in Hspec as (?&?&?&?&?&?&?&?&->&->).
    apply create_example_full.
  - apply item_spec_None in Hspec as [key Hkey]. rewrite Hkey.
    by apply create_example_missing.
Qed.

(** C4: the example of a record satisfies the invariant of [InputExample]:
    both character spans are non-empty, start at a position that is not
    negative, and do not overlap. *)
Theorem create_example_spans_disjoint set_type i item ex :
  create_example set_type i item = Ok ex →
  let a := InputExample.span_a ex in
  let b := InputExample.span_b ex in
  0 ≤ a.1 < a.2 ∧ 0 ≤ b.1 < b.2 ∧ (a.2 < b.1 ∨ b.2 < a.1).
Proof.
  intros (tokens&ss&se&os&oe&st&ot&rel&->&->)%create_example_Ok_inv.
  cbn. set (ts := token_spans ss se os oe).
  pose proof (layout_span_bounds tokens ts subj).
  pose proof (layout_span_bounds tokens ts obj).
  pose proof (layout_spans_disjoint tokens ts) as Hd. cbv zeta in *.
  split_and!; [lia..|].
  unfold first_entity, second_entity in Hd. case_decide; lia.
Qed.

Lemma create_example_spans_disjoint_witness :
  0 ≤ 0 < 5 ∧ 0 ≤ 14 < 20 ∧ (5 < 14 ∨ 20 < 0).
Proof.
  by apply (create_example_spans_disjoint (pystr "train") 0 john_item
              (example_spec (pystr "train") 0 john_tokens 0 0 3 3
                 (pystr "PERSON") (pystr "CITY") (pystr "lives_in"))).
Defined.

(** C5: the characters of the rebuilt text at an entity's span are the
    entity's tokens joined by spaces, up to the space that follows them. *)
Theorem create_example_span_text set_type i tokens ss se os oe st ot rel ex :
  create_example set_type i (full_item tokens ss se os oe st ot rel) = Ok ex →
  let text := InputExample.text ex in
  let a := InputExample.span_a ex in
  let b := InputExample.span_b ex in
  let subj_text := join [space] (slice tokens ss (se + 1)) in
  let obj_text := join [space] (slice tokens os (oe + 1)) in
  (ends_nonspace subj_text → rstrip (slice text a.1 a.2) = subj_text) ∧
  (ends_nonspace obj_text → rstrip (slice text b.1 b.2) = obj_text).
Proof.
  rewrite create_example_full. intros [= <-]. cbn.
  split.
  - apply (slice_rstrip_layout_span tokens (token_spans ss se os oe) subj).
  - apply (slice_rstrip_layout_span tokens (token_spans ss se os oe) obj).
Qed.

Lemma create_example_span_text_witness :
  let text := pystr "John lives in Paris" in
  (ends_nonspace (pystr "John") → rstrip (slice text 0 5) = pystr "John") ∧
  (ends_nonspace (pystr "Paris") → rstrip (slice text 14 20) = pystr "Paris").
Proof.
  exact (create_example_span_text (pystr "train") 0 john_tokens 0 0 3 3
           (pystr "PERSON") (pystr "CITY") (pystr "lives_in") _ eq_refl).
Defined.

(** ** Which entity comes first

    The entity whose first token comes first is placed first in the text.
    When both start at the same token the comparison of line 65 is false and
    [obj] is placed first. *)

(** C35: the span of the subject precedes the span of the object in the
    rebuilt text exactly when the subject starts at an earlier token; in
    particular, when both start at the same token the object comes first. *)
Theorem create_example_entity_order set_type i tokens ss se os oe st ot rel ex :
  create_example set_type i (full_item tokens ss se os oe st ot rel) = Ok ex →
  let a := InputExample.span_a ex in
  let b := InputExample.span_b ex in
  if decide (ss < os) then a.2 < b.1 else b.2 < a.1.
Proof.
  rewrite create_example_full. intros [= <-]. cbn.
  pose proof (layout_spans_disjoint tokens (token_spans ss se os oe)) as Hd.
  cbv zeta in Hd. unfold first_entity, second_entity in Hd. cbn in Hd.
  by case_decide.
Qed.

Lemma create_example_entity_order_witness : 14 < 15.
Proof.
  exact (create_example_entity_order (pystr "train") 0 john_tokens 1 1 1 2
           (pystr "PERSON") (pystr "CITY") (pystr "lives_in") _ eq_refl).
Defined.

Lemma layout_span_width tokens ts e :
  let s := layout_span (layout_of tokens ts) ts e in
  s.2 = s.1 + py_len (entity_text tokens ts e) + 1.
Proof. cbv zeta. by entity_cases ts e. Qed.

(** C36: the span of an entity covers the tokens of the entity joined by
    spaces and the space that follows them: its end is its start plus the
    length of the joined tokens plus one, also for the entity that ends
    the text, where the space is stripped. *)
Theorem create_example_span_width set_type i tokens ss se os oe st ot rel ex :
  create_example set_type i (full_item tokens ss se os oe st ot rel) = Ok ex →
  let ts := token_spans ss se os oe in
  (InputExample.span_a ex).2 =
    (InputExample.span_a ex).1 + py_len (entity_text tokens ts subj) + 1 ∧
  (InputExample.span_b ex).2 =
    (InputExample.span_b ex).1 + py_len (entity_text tokens ts obj) + 1.
Proof.
  rewrite create_example_full. intros [= <-]. cbn.
  split; apply layout_span_width.
Qed.

Lemma create_example_span_width_witness :
  5 = 0 + py_len (entity_text john_tokens (token_spans 0 0 3 3) subj) + 1 ∧
  20 = 14 + py_len (entity_text john_tokens (token_spans 0 0 3 3) obj) + 1.
Proof.
  exact (create_example_span_width (pystr "train") 0 john_tokens 0 0 3 3
           (pystr "PERSON") (pystr "CITY") (pystr "lives_in") _ eq_refl).
Defined.

(** ** Concrete records *)

(** On the record of the specification's worked example the text is
    ["John lives in Paris"], the subject's span is [(0, 5)] and the
    object's span is [(14, 20)]: a span ends after the space that follows
    its entity, and the text is shorter than the end of the last span. *)
Example create_example_john :
  create_example (pystr "train") 0 john_item =
    Ok (InputExample.mk (pystr "train-0") (pystr "John lives in Paris")
          (0, 5) (14, 20) (pystr "PERSON") (pystr "CITY") (pystr "lives_in")).
Proof. reflexivity. Qed.

(** Offsets outside the token list raise nothing.  With the subject at
    tokens 5 to 7 and the object at token -1 of a four-token list, the
    slices are clipped, the text repeats tokens and the subject's span lies
    beyond the end of the text. *)
Example create_example_out_of_range :
  create_example (pystr "train") 0
      (full_item john_tokens 5 7 (-1) (-1) (pystr "PERSON") (pystr "CITY")
         (pystr "lives_in")) =
    Ok (InputExample.mk (pystr "train-0")
          (pystr "John lives in  John lives in Paris")
          (35, 36) (14, 15) (pystr "PERSON") (pystr "CITY") (pystr "lives_in")).
Proof. reflexivity. Qed.

(** A record without the keys [obj_end] and [obj_type] raises the
    [KeyError] of [obj_end], the first of the two that is looked up. *)
Example create_example_broken :
  create_example (pystr "train") 7 broken_item = Err (KeyError (pystr "obj_end")).
Proof. reflexivity. Qed.

End DatasetProcessor.
