(* ===== verification/ExampleText.v ===== *)
(** * The rebuilt text of an example and the token list

    How the text [_create_examples] rebuilds
    ([src/examples/relation_classification/utils.py], lines 70-83) relates
    to [' '.join(tokens)]: equal up to trailing whitespace when a token
    separates the entities, one space longer when the entities are
    adjacent. *)

From stdpp Require Import strings functions.
From S2P Require Import Prelude PySeq PyStr Data Examples.
Import DatasetProcessor.

#[local] Open Scope Z_scope.

(** ** Shapes of a record's spans *)

(** The spans of a record are separated: the first entity starts in the
    token list and is not empty, at least one token lies between the
    entities, and the second entity is not empty and ends in the list. *)
Definition separated (tokens : list str) (ts : entity → Z * Z) : Prop :=
  let s1 := ts (first_entity ts) in
  let s2 := ts (second_entity ts) in
  0 ≤ s1.1 < s1.2 ∧ s1.2 < s2.1 < s2.2 ∧ s2.2 ≤ py_len tokens.

(** The spans of a record are adjacent: the second entity starts at the
    token after the first entity. *)
Definition adjacent (tokens : list str) (ts : entity → Z * Z) : Prop :=
  let s1 := ts (first_entity ts) in
  let s2 := ts (second_entity ts) in
  0 ≤ s1.1 < s1.2 ∧ s1.2 = s2.1 ∧ s2.1 < s2.2 ∧ s2.2 ≤ py_len tokens.

#[export] Instance separated_dec tokens ts : Decision (separated tokens ts).
Proof. unfold separated. cbv zeta. apply _. Defined.
#[export] Instance adjacent_dec tokens ts : Decision (adjacent tokens ts).
Proof. unfold adjacent. cbv zeta. apply _. Defined.

(** ** The text of separated spans *)

Lemma add_sep_join tokens :
  Forall (λ t, t ≠ []) tokens →
  add_sep (join [space] tokens) = concat ((λ s, s ++ [space]) <$> tokens).
Proof.
  intros Htok. destruct (decide (tokens = [])) as [->|]; [done|].
  rewrite add_sep_nonempty, join_sep_concat; [done..|].
  intros ?%join_nil_inv; done.
Qed.

(** The tokens from [a] to [b], a space after each, followed by the joined
    tokens from [b] on: the joined tokens from [a] on, and a space when
    nothing follows [b]. *)
Lemma concat_slice_join_from (tokens : list str) a b :
  0 ≤ a < b → b ≤ py_len tokens →
  concat ((λ s, s ++ [space]) <$> slice tokens a b) ++
      join [space] (slice_from tokens b) =
    join [space] (slice_from tokens a) ++
      if decide (b = py_len tokens) then [space] else [].
Proof.
  intros. rewrite (slice_from_split tokens a b) by lia.
  case_decide as Hend.
  - rewrite slice_from_len by lia. rewrite !app_nil_r.
    by rewrite join_sep_concat by (apply slice_nonempty; lia).
  - rewrite app_nil_r. rewrite join_app_concat; [done|].
    apply slice_from_nonempty. lia.
Qed.

Lemma layout_text_separated tokens ts :
  Forall (λ t, t ≠ []) tokens → separated tokens ts →
  layout_text (layout_of tokens ts) =
    join [space] tokens ++
      if decide ((ts (second_entity ts)).2 = py_len tokens) then [space] else [].
Proof.
  intros Htok (H1 & H2 & H3).
  set (s1 := ts (first_entity ts)) in *. set (s2 := ts (second_entity ts)) in *.
  unfold layout_text, layout_of. cbn. fold s1 s2.
  rewrite add_sep_join by by apply Forall_slice.
  rewrite !join_sep_concat by (apply slice_nonempty; lia).
  do 3 rewrite (assoc_L (++) (concat _)), <-concat_app, <-fmap_app,
    slice_app_slice by lia.
  by rewrite concat_slice_join_from, slice_from_0 by lia.
Qed.

Lemma layout_text_adjacent tokens ts :
  Forall (λ t, t ≠ []) tokens → adjacent tokens ts →
  layout_text (layout_of tokens ts) =
    join [space] (slice_to tokens (ts (second_entity ts)).1) ++ [space; space] ++
    join [space] (slice_from tokens (ts (second_entity ts)).1) ++
      if decide ((ts (second_entity ts)).2 = py_len tokens) then [space] else [].
Proof.
  intros Htok (H1 & H2 & H3 & H4).
  set (s1 := ts (first_entity ts)) in *. set (s2 := ts (second_entity ts)) in *.
  unfold layout_text, layout_of. cbn. fold s1 s2.
  rewrite add_sep_join by by apply Forall_slice.
  rewrite (slice_empty _ s1.2 s2.1), join_nil by lia.
  rewrite !join_sep_concat by (apply slice_nonempty; lia).
  rewrite (assoc_L (++) (concat _)), <-concat_app, <-fmap_app,
    slice_app_slice by lia.
  rewrite <-join_sep_concat by (apply slice_nonempty; lia).
  rewrite slice_to_slice, H2, <-!(assoc_L (++)). f_equal. cbn [app].
  do 2 f_equal. apply concat_slice_join_from; lia.
Qed.

(** C26: when the spans of a record are separated and no token is empty, the
    rebuilt text is the token list joined by single spaces, without its
    trailing whitespace. *)
Theorem create_example_text_joined set_type i tokens ss se os oe st ot rel ex :
  create_example set_type i (full_item tokens ss se os oe st ot rel) = Ok ex →
  Forall (λ t, t ≠ []) tokens →
  separated tokens (token_spans ss se os oe) →
  InputExample.text ex = rstrip (join [space] tokens).
Proof.
  rewrite create_example_full. intros [= <-] Htok Hsep. cbn.
  rewrite layout_text_separated by done.
  apply rstrip_app_spaces. case_decide; by repeat constructor.
Qed.

Lemma create_example_text_joined_witness :
  InputExample.text (example_spec (pystr "train") 0 john_tokens 0 0 3 3
      (pystr "PERSON") (pystr "CITY") (pystr "lives_in")) =
    rstrip (join [space] john_tokens).
Proof.
  apply (create_example_text_joined (pystr "train") 0 john_tokens 0 0 3 3
           (pystr "PERSON") (pystr "CITY") (pystr "lives_in"));
    [reflexivity|by vm_compute; repeat constructor|by vm_compute].
Defined.

(** C37: when the two entities of a record are adjacent, the rebuilt text has
    two spaces where the token list joined by spaces has one. *)
Theorem create_example_adjacent_double_space
    set_type i tokens ss se os oe st ot rel ex :
  create_example set_type i (full_item tokens ss se os oe st ot rel) = Ok ex →
  Forall ends_nonspace tokens →
  adjacent tokens (token_spans ss se os oe) →
  let k := (token_spans ss se os oe (second_entity (token_spans ss se os oe))).1 in
  let before := join [space] (slice_to tokens k) in
  let after := join [space] (slice_from tokens k) in
  InputExample.text ex = before ++ [space; space] ++ after ∧
  join [space] tokens = before ++ [space] ++ after.
Proof.
  rewrite create_example_full. intros [= <-] Htok Hadj. cbn.
  set (ts := token_spans ss se os oe) in *.
  pose proof Hadj as (H1 & H2 & H3 & H4).
  assert (Forall (λ t : str, t ≠ []) tokens) as Hne.
  { eapply Forall_impl; [done|]. apply ends_nonspace_ne. }
  split.
  - rewrite layout_text_adjacent, !(assoc_L (++)) by done.
    rewrite rstrip_app_nonspace;
      [by rewrite <-!(assoc_L (++))| |case_decide; by repeat constructor].
    apply ends_nonspace_app, join_slice_from_ends_nonspace; [done|lia].
  - rewrite <-(slice_to_from tokens (ts (second_entity ts)).1) at 1.
    apply join_app.
    + rewrite slice_to_slice. apply slice_nonempty; lia.
    + apply slice_from_nonempty. lia.
Qed.

Lemma create_example_adjacent_double_space_witness :
  InputExample.text (example_spec (pystr "train") 0 pair_tokens 0 0 1 1
      (pystr "PERSON") (pystr "PERSON") (pystr "no_relation")) =
    pystr "Marie  Curie" ∧
  join [space] pair_tokens = pystr "Marie Curie".
Proof.
  apply (create_example_adjacent_double_space (pystr "train") 0 pair_tokens
           0 0 1 1 (pystr "PERSON") (pystr "PERSON") (pystr "no_relation"));
    [reflexivity| |by vm_compute].
  repeat constructor; by apply ends_nonspace_last; eexists.
Defined.
