(* ===== verification/Splits.v ===== *)
(** * The example builder: splits and the label vocabulary

    The methods of the class [DatasetProcessor]
    ([src/examples/relation_classification/utils.py], lines 38-88) around
    the loop body [create_example] of the file [Examples]:

    - [create_examples] is the loop over the records (lines 59-60 and
      85-88), [_create_examples] the method (lines 55-88), and
      [get_train_examples], [get_dev_examples] and [get_test_examples] its
      callers (lines 39-46);
    - [get_label_list] is lines 48-53;
    - reading the file is not modelled: [open] and [json.load] are the
      method [open_json] of the class [Files], a parameter of the model.

    The loop is a [mapM] of [create_example] over the enumerated records,
    so the examples come in the order of the records, their ids are
    distinct, and the first record that lacks a key decides the exception;
    the vocabulary starts with [no_relation] and continues with the other
    labels of the training split in strictly increasing order. *)

From stdpp Require Import strings.
From S2P Require Import Prelude PySeq PyStr Data Examples.
Import DatasetProcessor.

#[local] Open Scope Z_scope.

(** ** The file system the processor reads

    [open_json path] stands for
    [with open(path, "r") as f: data = json.load(f)]: the records of the
    file, or the exception raised. *)

Class Files := { open_json : str → result exn (list Item) }.

(** [os.path.join(a, b)] on a POSIX system. *)
Definition os_path_join (a b : str) : str :=
  if decide (head b = Some 47%N) then b
  else if decide (a = [] ∨ last a = Some 47%N) then a ++ b
  else a ++ [47%N] ++ b.

(** ** The methods *)

(** The loop over the records (lines 59-60, 85-88): [examples] grows by one
    example per record, and the first exception ends the loop. *)
Definition create_examples (set_type : str) (data : list Item) :
    result exn (list InputExample.t) :=
  foldl (λ acc '(i, item),
           examples ← acc;
           example ← create_example set_type i item;
           mret (examples ++ [example]))
        (mret []) (enumerate data).

(** The set [labels] after the loop of lines 49-51. *)
Definition collect_labels (examples : list InputExample.t) : gset str :=
  foldl (λ labels example, labels ∪ {[InputExample.label example]}) ∅ examples.

Section with_files.
Context `{Files}.

(** [_create_examples] (lines 55-88). *)
Definition _create_examples (data_dir set_type : str) :
    result exn (list InputExample.t) :=
  data ← open_json (os_path_join data_dir (set_type ++ pystr ".json"));
  create_examples set_type data.

(** Lines 39-46. *)
Definition get_train_examples (data_dir : str) :=
  _create_examples data_dir (pystr "train").
Definition get_dev_examples (data_dir : str) :=
  _create_examples data_dir (pystr "dev").
Definition get_test_examples (data_dir : str) :=
  _create_examples data_dir (pystr "test").

(** [get_label_list] (lines 48-53). *)
Definition get_label_list (data_dir : str) : result exn (list str) :=
  examples ← get_train_examples data_dir;
  let labels := collect_labels examples in
  let labels := labels ∖ {[pystr "no_relation"]} in
  mret ([pystr "no_relation"] ++ sorted (elements labels)).

End with_files.

(** ** Definitions used in the statements *)

(** The body of the outer loop, on a pair of [enumerate(data)]. *)
Definition create_example_at (set_type : str) (p : Z * Item) :
    result exn InputExample.t :=
  create_example set_type p.1 p.2.

Definition no_relation : str := pystr "no_relation".

(** What [get_label_list] promises about the list [labels] it returns for
    the examples [exs] of the training split. *)
Record label_list_spec (exs : list InputExample.t) (labels : list str) := {
  spec_head : head labels = Some no_relation;
  spec_sorted : StronglySorted (λ a b, str_ltb a b = true) (tail labels);
  spec_NoDup : NoDup labels;
  spec_elem l : l ∈ labels ↔ l = no_relation ∨ l ∈ InputExample.label <$> exs;
}.

(** A file system with one training split of three records, and nothing
    else. *)
Definition toy_data : list Item :=
  [john_item;
   full_item pair_tokens 0 0 1 1 (pystr "PERSON") (pystr "PERSON") no_relation;
   full_item john_tokens 3 3 0 0 (pystr "CITY") (pystr "PERSON")
     (pystr "has_resident")].

#[export] Instance toy_files : Files := {|
  open_json path :=
    if decide (path = pystr "data/train.json") then Ok toy_data
    else Err (OSError path)
|}.

(** ** The outer loop *)

Lemma create_examples_eq set_type data :
  create_examples set_type data =
    mapM (create_example_at set_type) (enumerate data).
Proof.
  unfold create_examples.
  etrans; [apply (foldl_mapM_result (create_example_at set_type))|].
  - by intros ? [??].
  - apply result_bind_ret_r.
Qed.

Lemma create_examples_Ok set_type data exs :
  create_examples set_type data = Ok exs ↔
  Forall2 (λ p ex, item_spec set_type p.1 p.2 = Some ex) (enumerate data) exs.
Proof.
  rewrite create_examples_eq, mapM_result_Ok.
  split; intros Hall; eapply Forall2_impl; [done| |done|];
    intros p ex; apply create_example_item_spec.
Qed.

Lemma create_examples_lookup set_type data exs (k : nat) item :
  create_examples set_type data = Ok exs → data !! k = Some item →
  ∃ ex, exs !! k = Some ex ∧ create_example set_type (Z.of_nat k) item = Ok ex.
Proof.
  rewrite create_examples_eq. intros Hexs Hk%lookup_enumerate.
  apply (mapM_result_lookup _ _ _ _ _ Hexs Hk).
Qed.

Lemma create_examples_length set_type data exs :
  create_examples set_type data = Ok exs → length exs = length data.
Proof.
  rewrite create_examples_eq. intros ->%mapM_result_length. len.
Qed.

Lemma create_examples_lookup_inv set_type data exs (k : nat) ex :
  create_examples set_type data = Ok exs → exs !! k = Some ex →
  ∃ item, data !! k = Some item ∧ create_example set_type (Z.of_nat k) item = Ok ex.
Proof.
  intros Hexs Hk. destruct (data !! k) as [item|] eqn:Hitem.
  - destruct (create_examples_lookup _ _ _ _ _ Hexs Hitem) as (ex' & ? & ?).
    exists item. by simplify_eq.
  - apply lookup_ge_None in Hitem. apply lookup_lt_Some in Hk.
    apply create_examples_length in Hexs. lia.
Qed.

Lemma Forall_enumerate_snd {A} (P : A → Prop) (l : list A) (k : nat) :
  Forall (λ p, P p.2) (take k (enumerate l)) ↔ Forall P (take k l).
Proof. by rewrite <-(enumerate_snd l) at 2; rewrite <-fmap_take, Forall_fmap. Qed.

(** ** The examples of a split *)

Section read_split.
Context `{Files}.

(** [_create_examples] reads the file [<data_dir>/<set_type>.json] and
    maps [create_example] over its enumerated records from left to right;
    the exception of [open], or of the first record that raises, is its
    outcome. *)
Theorem _create_examples_mapM data_dir set_type :
  _create_examples data_dir set_type =
    (data ← open_json (os_path_join data_dir (set_type ++ pystr ".json"));
     mapM (create_example_at set_type) (enumerate data)).
Proof.
  unfold _create_examples. destruct (open_json _); simpl; [|done].
  apply create_examples_eq.
Qed.

End read_split.

(** The examples of a split come in the order of its records, one per
    record, each the example that the specification gives for the record
    and its position. *)
Theorem create_examples_in_order set_type data exs :
  create_examples set_type data = Ok exs →
  length exs = length data ∧
  ∀ (k : nat) item, data !! k = Some item →
    ∃ ex, exs !! k = Some ex ∧ item_spec set_type (Z.of_nat k) item = Some ex.
Proof.
  intros Hexs. split; [by eapply create_examples_length|].
  intros k item Hk.
  destruct (create_examples_lookup _ _ _ _ _ Hexs Hk) as (ex & ? & ?).
  exists ex. by rewrite <-create_example_item_spec.
Qed.

(** C29: the loop over the records raises exactly when some record lacks a
    key; the exception is the [KeyError] of the first key that the first
    such record lacks. *)
Theorem create_examples_first_error set_type data e :
  create_examples set_type data = Err e ↔
  ∃ (k : nat) item key,
    data !! k = Some item ∧ Forall (λ it, missing_keys it = []) (take k data) ∧
    head (missing_keys item) = Some key ∧ e = KeyError key.
Proof.
  rewrite create_examples_eq, mapM_result_Err_lookup.
  unfold create_example_at.
  setoid_rewrite create_example_Err. setoid_rewrite create_example_is_Ok.
  split.
  - intros (k & p & [_ Hk]%lookup_enumerate_inv & (key & ? & ->) & Hall).
    apply (Forall_enumerate_snd (λ it, missing_keys it = [])) in Hall. eauto 10.
  - intros (k & item & key & Hk%lookup_enumerate & Hall & ? & ->).
    apply (Forall_enumerate_snd (λ it, missing_keys it = [])) in Hall. eauto 10.
Qed.

(** The ids of the examples of a split are [<set_type>-<position>],
    and no two examples of a split have the same id. *)
Theorem create_examples_ids set_type data exs :
  create_examples set_type data = Ok exs →
  InputExample.id <$> exs =
    (λ k, set_type ++ pystr "-" ++ str_of_Z k) <$> seqZ 0 (py_len exs) ∧
  NoDup (InputExample.id <$> exs).
Proof.
  intros Hexs.
  assert (InputExample.id <$> exs =
    (λ k, set_type ++ pystr "-" ++ str_of_Z k) <$> seqZ 0 (py_len exs)) as Hids.
  { apply list_eq_same_length with (length exs); [len..|]. unfold py_len.
    intros k ?? Hk. rewrite !list_lookup_fmap, lookup_seqZ_lt by lia.
    destruct (exs !! k) as [ex|] eqn:Hex; [|done].
    destruct (create_examples_lookup_inv _ _ _ _ _ Hexs Hex) as (? & _ & Hid).
    simpl. intros [= <-] [= <-]. rewrite Z.add_0_l. by eapply create_example_id. }
  split; [done|]. rewrite Hids.
  apply NoDup_fmap_2; [|apply NoDup_seqZ].
  intros i j [= Hij%(inj str_of_Z)]%(inj (app set_type)). done.
Qed.

(** ** The label vocabulary *)

Lemma elem_of_foldl_labels (X : gset str) exs l :
  l ∈ foldl (λ labels example, labels ∪ {[InputExample.label example]}) X exs ↔
  l ∈ X ∨ l ∈ InputExample.label <$> exs.
Proof.
  revert X. induction exs as [|ex exs IH]; intros X; simpl.
  - set_solver.
  - rewrite IH, elem_of_cons. set_solver.
Qed.

Lemma elem_of_collect_labels exs l :
  l ∈ collect_labels exs ↔ l ∈ InputExample.label <$> exs.
Proof. unfold collect_labels. rewrite elem_of_foldl_labels. set_solver. Qed.

(** The list of lines 52-53, for the examples [exs] of the training split. *)
Definition label_list (exs : list InputExample.t) : list str :=
  [no_relation] ++ sorted (elements (collect_labels exs ∖ {[no_relation]})).

Lemma label_list_meets_spec exs : label_list_spec exs (label_list exs).
Proof.
  unfold label_list. split; simpl.
  - done.
  - apply sorted_strict, NoDup_elements.
  - apply NoDup_cons. rewrite elem_of_sorted, elem_of_elements, NoDup_sorted.
    split; [set_solver|apply NoDup_elements].
  - intros l. rewrite elem_of_cons, elem_of_sorted, elem_of_elements,
      elem_of_difference, elem_of_collect_labels, elem_of_singleton.
    destruct (decide (l = no_relation)); naive_solver.
Qed.

(** The specification determines the vocabulary. *)
Lemma label_list_spec_unique exs l1 l2 :
  label_list_spec exs l1 → label_list_spec exs l2 → l1 = l2.
Proof.
  intros [Hh1 Hs1 Hn1 He1] [Hh2 Hs2 Hn2 He2].
  destruct l1 as [|a l1], l2 as [|b l2]; simplify_eq/=. f_equal.
  apply strictly_sorted_unique; [done..|]. intros l.
  apply NoDup_cons in Hn1 as [? _], Hn2 as [? _].
  specialize (He1 l). specialize (He2 l). rewrite elem_of_cons in He1, He2.
  destruct (decide (l = no_relation)) as [->|]; naive_solver.
Qed.

(** The vocabulary depends only on the set of the labels of the examples,
    not on their order or on how often a label occurs. *)
Lemma label_list_ext exs1 exs2 :
  (∀ l, l ∈ InputExample.label <$> exs1 ↔ l ∈ InputExample.label <$> exs2) →
  label_list exs1 = label_list exs2.
Proof.
  intros Hl. eapply label_list_spec_unique; [apply label_list_meets_spec|].
  destruct (label_list_meets_spec exs2) as [??? Helem]. split; [done..|].
  intros l. by rewrite Helem, Hl.
Qed.

#[export] Instance collect_labels_Proper : Proper ((≡ₚ) ==> (=)) collect_labels.
Proof.
  intros exs1 exs2 Hperm. apply set_eq. intros l.
  by rewrite !elem_of_collect_labels, Hperm.
Qed.

#[export] Instance label_list_Proper : Proper ((≡ₚ) ==> (=)) label_list.
Proof. intros exs1 exs2 Hperm. apply label_list_ext. intros l. by rewrite Hperm. Qed.

Section labels.
Context `{Files}.

Lemma get_label_list_eq data_dir :
  get_label_list data_dir = label_list <$> get_train_examples data_dir.
Proof. unfold get_label_list. by destruct (get_train_examples _). Qed.

Lemma get_label_list_Ok data_dir labels :
  get_label_list data_dir = Ok labels ↔
  ∃ exs, get_train_examples data_dir = Ok exs ∧ labels = label_list exs.
Proof. rewrite get_label_list_eq. apply result_fmap_Ok. Qed.

(** C9: [get_label_list] returns a vocabulary exactly when the training
    split can be read; the vocabulary starts with [no_relation], continues
    with the other labels of the split in strictly increasing order, and
    holds each label once. *)
Theorem get_label_list_refines_spec data_dir :
  match get_train_examples data_dir with
  | Ok exs =>
      ∃ labels, get_label_list data_dir = Ok labels ∧ label_list_spec exs labels
  | Err e => get_label_list data_dir = Err e
  end.
Proof.
  rewrite get_label_list_eq. destruct (get_train_examples _) as [exs|]; [|done].
  eexists. split; [done|]. apply label_list_meets_spec.
Qed.

(** Any list that starts with [no_relation], continues strictly
    increasing and holds exactly the labels of the training split is the
    list that [get_label_list] returns. *)
Theorem get_label_list_unique data_dir exs labels :
  get_train_examples data_dir = Ok exs →
  label_list_spec exs labels →
  get_label_list data_dir = Ok labels.
Proof.
  intros Hexs Hspec. rewrite get_label_list_eq, Hexs. simpl. f_equal.
  eapply label_list_spec_unique; [apply label_list_meets_spec|done].
Qed.

End labels.

(** The vocabulary depends only on the set of the labels of the
    training split: two training splits with the same labels, in any order
    and however often they occur, give the same vocabulary. *)
Theorem get_label_list_labels (F1 F2 : Files) dir1 dir2 exs1 exs2 :
  @get_train_examples F1 dir1 = Ok exs1 →
  @get_train_examples F2 dir2 = Ok exs2 →
  (∀ l, l ∈ InputExample.label <$> exs1 ↔ l ∈ InputExample.label <$> exs2) →
  @get_label_list F1 dir1 = @get_label_list F2 dir2.
Proof.
  intros Hexs1 Hexs2 Hl. rewrite !get_label_list_eq, Hexs1, Hexs2. simpl.
  f_equal. by apply label_list_ext.
Qed.

(** ** The toy file system *)

Definition toy_examples : list InputExample.t :=
  [example_spec (pystr "train") 0 john_tokens 0 0 3 3
     (pystr "PERSON") (pystr "CITY") (pystr "lives_in");
   example_spec (pystr "train") 1 pair_tokens 0 0 1 1
     (pystr "PERSON") (pystr "PERSON") no_relation;
   example_spec (pystr "train") 2 john_tokens 3 3 0 0
     (pystr "CITY") (pystr "PERSON") (pystr "has_resident")].

Definition toy_labels : list str :=
  [no_relation; pystr "has_resident"; pystr "lives_in"].

Lemma toy_train_examples : get_train_examples (pystr "data") = Ok toy_examples.
Proof. reflexivity. Qed.

Lemma toy_label_list : label_list toy_examples = toy_labels.
Proof. by vm_compute. Qed.

Lemma create_examples_in_order_witness :
  length toy_examples = length toy_data ∧
  ∀ (k : nat) item, toy_data !! k = Some item →
    ∃ ex, toy_examples !! k = Some ex ∧
          item_spec (pystr "train") (Z.of_nat k) item = Some ex.
Proof.
  apply (create_examples_in_order (pystr "train") toy_data toy_examples).
  reflexivity.
Defined.

Lemma create_examples_ids_witness :
  InputExample.id <$> toy_examples =
    (λ k, pystr "train" ++ pystr "-" ++ str_of_Z k) <$> seqZ 0 (py_len toy_examples) ∧
  NoDup (InputExample.id <$> toy_examples).
Proof.
  apply (create_examples_ids (pystr "train") toy_data toy_examples).
  reflexivity.
Defined.

Lemma get_label_list_unique_witness :
  get_label_list (pystr "data") = Ok toy_labels.
Proof.
  apply (get_label_list_unique (pystr "data") toy_examples toy_labels).
  - reflexivity.
  - rewrite <-toy_label_list. apply label_list_meets_spec.
Defined.

(** On the toy file system the vocabulary is [no_relation] followed by
    the two other labels in increasing order, and a split that does not
    exist raises the exception of [open]. *)
Example get_label_list_toy :
  get_label_list (pystr "data") = Ok toy_labels ∧
  get_dev_examples (pystr "data") = Err (OSError (pystr "data/dev.json")).
Proof. split; by vm_compute. Qed.

(** The toy file system with the records of the training split in the
    reverse order. *)
Definition toy_files_rev : Files := {|
  open_json path :=
    if decide (path = pystr "data/train.json") then Ok (reverse toy_data)
    else Err (OSError path)
|}.

Definition toy_examples_rev : list InputExample.t :=
  [example_spec (pystr "train") 0 john_tokens 3 3 0 0
     (pystr "CITY") (pystr "PERSON") (pystr "has_resident");
   example_spec (pystr "train") 1 pair_tokens 0 0 1 1
     (pystr "PERSON") (pystr "PERSON") no_relation;
   example_spec (pystr "train") 2 john_tokens 0 0 3 3
     (pystr "PERSON") (pystr "CITY") (pystr "lives_in")].

Lemma get_label_list_labels_witness :
  @get_label_list toy_files (pystr "data") =
    @get_label_list toy_files_rev (pystr "data").
Proof.
  apply (get_label_list_labels toy_files toy_files_rev (pystr "data")
           (pystr "data") toy_examples toy_examples_rev); [reflexivity..|].
  intros l. cbn [fmap list_fmap toy_examples toy_examples_rev
                 InputExample.label example_spec]. set_solver.
Defined.
