(* ===== verification/FileIO.v ===== *)
(** * Reading a split: the file and its handle

    [_create_examples]
    ([src/examples/relation_classification/utils.py], lines 55-88) reads
    the records of a split with

      [with open(os.path.join(data_dir, set_type + ".json"), "r") as f:]
      [    data = json.load(f)]

    (lines 56-57).  The file [Splits] models the two lines as one call,
    [open_json].  This file models them statement by statement, on a file
    system with open files, and relates the two:

    - a [file_system] holds the text files by path and the files that are
      open, each with the text that is still to read;
    - an [io A] takes a file system and returns an outcome and a file
      system: the file system is there after an exception too, which is why
      this is not the [result] of a function of the file system;
    - [open_read] is [open(path, "r")], [file_read] is [f.read()],
      [file_close] is [f.close()], and [with_open] is the [with] statement:
      the file is closed when the body returns and when it raises;
    - [json_load] is [json.load(f)]: it reads the file and parses the
      text; the parser is the method [json_loads] of the class
      [JSONParser], a parameter, for typed records and for values;
    - [load_split] is lines 56-57 and [_create_examples_io] the method
      on typed records.

    The theorems show that the method leaves the file system as it found
    it, whether it returns or raises, and that its outcome is the outcome
    of [_create_examples] for the files that the file system holds. *)

From stdpp Require Import strings.
From S2P Require Import Prelude PySeq PyStr Data Examples Splits.
Import DatasetProcessor.

#[local] Open Scope Z_scope.

(** The identity of a file object. *)
Notation handle := positive.

Record file_system := FileSystem {
  fs_files : gmap str str;        (* the text of the file at a path *)
  fs_open : gmap handle str;      (* the open files: the text still to read *)
}.

(** A statement sequence that uses the file system and may raise. *)
Definition io (A : Type) : Type := file_system → result exn A * file_system.

#[export] Instance io_ret : MRet io := λ A a σ, (Ok a, σ).
#[export] Instance io_bind : MBind io := λ A B f m σ,
  match m σ with
  | (Ok a, σ') => f a σ'
  | (Err e, σ') => (Err e, σ')
  end.

(** A computation that does not use the file system. *)
Definition io_lift {A} (r : result exn A) : io A := λ σ, (r, σ).

(** [open(path, "r")]: a new file object, or [OSError] when there is no
    file at the path. *)
Definition open_read (path : str) : io handle := λ σ,
  match fs_files σ !! path with
  | None => (Err (OSError path), σ)
  | Some text =>
      let f := fresh (dom (fs_open σ)) in
      (Ok f, FileSystem (fs_files σ) (<[f:=text]> (fs_open σ)))
  end.

(** [f.read()]: the text that is still to read; nothing is left after it.
    Reading a closed file raises [ValueError]. *)
Definition file_read (f : handle) : io str := λ σ,
  match fs_open σ !! f with
  | None => (Err ValueError, σ)
  | Some text => (Ok text, FileSystem (fs_files σ) (<[f:=[]]> (fs_open σ)))
  end.

(** A statement that leaves the files alone and changes no open file but
    [f]. *)
Definition touches_only {A} (f : handle) (m : io A) : Prop :=
  ∀ σ, fs_files (m σ).2 = fs_files σ ∧
       ∀ f', f' ≠ f → fs_open (m σ).2 !! f' = fs_open σ !! f'.

(** [f.close()]; closing a closed file does nothing. *)
Definition file_close (f : handle) : io () := λ σ,
  (Ok (), FileSystem (fs_files σ) (delete f (fs_open σ))).

(** [with open(path, "r") as f: body]: the file is closed when the body
    has returned and when it has raised, and the outcome of the body is
    the outcome of the statement. *)
Definition with_open {A} (path : str) (body : handle → io A) : io A := λ σ,
  match open_read path σ with
  | (Err e, σ') => (Err e, σ')
  | (Ok f, σ') => let r := body f σ' in (r.1, (file_close f r.2).2)
  end.

(** [json.loads]: the data that a text holds, or [ValueError] for a text
    that is no JSON.  [D] is what the data are taken to be: the typed
    records of [Data], or the values of [PyValue]. *)
Class JSONParser (D : Type) := { json_loads : str → result exn D }.
Arguments json_loads {D _} text.

Section with_parser.
Context {D : Type} {parser : JSONParser D}.

(** [json.load(f)] (line 57). *)
Definition json_load (f : handle) : io D :=
  text ← file_read f;
  io_lift (json_loads text).

(** Lines 56-57. *)
Definition load_split (data_dir set_type : str) : io D :=
  with_open (os_path_join data_dir (set_type ++ pystr ".json")) json_load.

(** What a path holds: opening, reading and parsing in one call. *)
Definition load_json (σ : file_system) (path : str) : result exn D :=
  match fs_files σ !! path with
  | None => Err (OSError path)
  | Some text => json_loads text
  end.

End with_parser.

Section typed.
Context {parser : JSONParser (list Item)}.

(** [_create_examples] (lines 55-88). *)
Definition _create_examples_io (data_dir set_type : str) :
    io (list InputExample.t) :=
  data ← load_split data_dir set_type;
  io_lift (create_examples set_type data).

(** The files as the file [Splits] sees them. *)
Definition fs_Files (σ : file_system) : Files :=
  {| open_json := load_json σ |}.

End typed.

(** ** Concrete inputs *)

(** A parser that knows one text, and a file system with a training split
    and a file that is no JSON. *)
Definition toy_parser : JSONParser (list Item) := {|
  json_loads text :=
    if decide (text = pystr "[three records]") then Ok toy_data
    else Err ValueError
|}.

Definition toy_fs : file_system :=
  FileSystem
    (<[pystr "data/train.json" := pystr "[three records]"]>
       (<[pystr "data/dev.json" := pystr "not json"]> ∅))
    ∅.

(** ** The file system after a statement *)

Section lemmas.
Context {D : Type} {parser : JSONParser D}.
Implicit Types (σ : file_system) (f : handle) (path : str).

Lemma io_bind_unfold {A B} (m : io A) (k : A → io B) σ :
  (m ≫= k) σ =
    match m σ with (Ok a, σ') => k a σ' | (Err e, σ') => (Err e, σ') end.
Proof. done. Qed.

Lemma file_read_touches_only f : touches_only f (file_read f).
Proof.
  intros σ. unfold file_read. destruct (fs_open σ !! f); [|done].
  split; [done|]. intros f' ?. simpl. by rewrite lookup_insert_ne.
Qed.

Lemma json_load_touches_only f : touches_only f (json_load f).
Proof.
  intros σ. unfold json_load. rewrite io_bind_unfold.
  pose proof (file_read_touches_only f σ) as Hread.
  by destruct (file_read f σ) as [[text|e] σ'].
Qed.

(** The rule of the [with] statement: when the body changes no other open
    file, the file system after the statement is the file system before
    it, whatever the outcome of the body. *)
Lemma with_open_restores {A} path (body : handle → io A) σ :
  (∀ f, touches_only f (body f)) → (with_open path body σ).2 = σ.
Proof.
  intros Hbody. unfold with_open, open_read.
  destruct (fs_files σ !! path) as [text|]; [|done].
  set (f := fresh (dom (fs_open σ))). cbn [snd file_close].
  destruct (Hbody f (FileSystem (fs_files σ) (<[f:=text]> (fs_open σ))))
    as [Hfiles Hopen].
  destruct σ as [files opened]. cbn [fs_files fs_open] in *. f_equal; [done|].
  apply map_eq. intros f'. destruct (decide (f' = f)) as [->|Hne].
  - rewrite lookup_delete_eq. symmetry. apply not_elem_of_dom, is_fresh.
  - by rewrite lookup_delete_ne, Hopen, lookup_insert_ne.
Qed.

(** The outcome of reading a file. *)
Lemma with_open_json_load path σ :
  (with_open path json_load σ).1 = load_json σ path.
Proof.
  unfold with_open, open_read, load_json.
  destruct (fs_files σ !! path) as [text|]; [|done].
  unfold json_load, file_read. rewrite io_bind_unfold. cbn [fs_open].
  by rewrite lookup_insert_eq.
Qed.

(** Lines 56-57 return what the file of the split holds and leave the
    file system as it was. *)
Lemma load_split_run data_dir set_type σ :
  load_split data_dir set_type σ =
    (load_json σ (os_path_join data_dir (set_type ++ pystr ".json")), σ).
Proof.
  unfold load_split. set (path := os_path_join _ _).
  rewrite <-with_open_json_load.
  rewrite <-(with_open_restores path json_load σ json_load_touches_only) at 3.
  by destruct (with_open _ _ σ).
Qed.

End lemmas.

(** ** Theorems *)

(** C23: [_create_examples] on a file system, with the [with] statement of
    lines 56-57 modelled statement by statement: its outcome is the
    outcome of [_create_examples] for the files that the file system
    holds, exceptions included, and it leaves the file system as it found
    it: the file that it opens is closed when the method returns, when the
    text is no JSON and when a record lacks a key, and no other file is
    touched. *)
Theorem _create_examples_io_refines {parser : JSONParser (list Item)}
    data_dir set_type σ :
  _create_examples_io data_dir set_type σ =
    (@_create_examples (fs_Files σ) data_dir set_type, σ).
Proof.
  unfold _create_examples_io, _create_examples.
  rewrite io_bind_unfold, load_split_run. cbn [open_json fs_Files].
  by destruct (load_json σ _).
Qed.

(** The training split of [toy_fs] gives the examples of [toy_data]; the
    development split is no JSON, and its file is closed all the same. *)
Lemma _create_examples_io_toy :
  @_create_examples_io toy_parser (pystr "data") (pystr "train") toy_fs =
    (create_examples (pystr "train") toy_data, toy_fs) ∧
  @_create_examples_io toy_parser (pystr "data") (pystr "dev") toy_fs =
    (Err ValueError, toy_fs).
Proof. by vm_compute. Qed.
