(* ===== verification/ExampleValue.v ===== *)
(** * The example builder on untyped records

    [_create_examples]
    ([src/examples/relation_classification/utils.py], lines 59-88) on the
    values that [json.load] returns, whatever their types.  The file
    [Examples] models the loop body on a typed record, in which a key may
    be absent and nothing else can go wrong; here the record is a [value]
    of [PyValue] and every operation may raise [TypeError]:

    - [token_spans_dyn] is lines 62-63, [entity_order_dyn] lines 65-68,
      [entity_body_dyn] one iteration of the inner loop (lines 74-81),
      [create_example_dyn] the body of the loop over the records (lines
      61-86), [create_examples_dyn] the loop (lines 59-88) and
      [_create_examples_dyn] the method, on the file system of [FileIO];
    - [InputExampleDyn.t] is [InputExample] with the two types and the
      label as the builder stores them, unchecked;
    - [item_of_value] is the typed record that a JSON object is, when
      its values have the types of the input format, [value_of_item] a
      JSON object of a typed record, and [example_value] the example of
      a typed example.

    [read_int], [read_words] and [read_record] say what the builder
    reads in a record of any types: a Boolean as an integer, a string as
    the list of its characters.

    The theorems show that the method on a file of typed records is the
    method of [Splits] (no [TypeError]); that a record which can be read
    is accepted, with the example of the specification for what is read;
    that a record which has the five keys of the tokens and the offsets
    raises [TypeError] exactly when it cannot be read; and what the loop
    makes of a file that holds no array.  The proofs rest on a simulation
    of the loop of [Examples] ([for_loop_dyn_words]) and on an invariant
    of the loop: the tokens before [cur] have all been joined
    ([for_loop_dyn_visits]). *)

From stdpp Require Import strings functions.
From S2P Require Import Prelude PySeq PyStr Data PyValue Loops Examples Splits.
From S2P Require Import FileIO.
Import DatasetProcessor.

#[local] Open Scope Z_scope.

(** ** [InputExample] (lines 14-22), with fields of any type *)

Module InputExampleDyn.
Record t := mk {
  id : str;
  text : str;
  span_a : Z * Z;
  span_b : Z * Z;
  type_a : value;
  type_b : value;
  label : value;
}.
End InputExampleDyn.

(** [token_spans] (lines 62-63). *)
Definition token_spans_dyn (item : value) :
    result exn (entity → value * value) :=
  subj_start ← py_getitem item (pystr "subj_start");
  subj_end ← py_getitem item (pystr "subj_end");
  subj_stop ← py_add subj_end 1;
  obj_start ← py_getitem item (pystr "obj_start");
  obj_end ← py_getitem item (pystr "obj_end");
  obj_stop ← py_add obj_end 1;
  mret (λ e, match e with
             | subj => (subj_start, subj_stop)
             | obj => (obj_start, obj_stop)
             end).

(** [entity_order] (lines 65-68). *)
Definition entity_order_dyn (token_spans : entity → value * value) :
    result exn (list entity) :=
  before ← py_lt (token_spans subj).1 (token_spans obj).1;
  mret (if before : bool then [subj; obj] else [obj; subj]).

(** The variables of the inner loop; [cur] is 0 or the end of a token
    span, a value. *)
Record build_state_dyn := {
  text_dyn : str;
  cur_dyn : value;
  char_spans_dyn : entity → option Z * option Z;
}.

(** Lines 70-72. *)
Definition build_init_dyn : build_state_dyn :=
  {| text_dyn := []; cur_dyn := VInt 0; char_spans_dyn := λ _, (None, None) |}.

(** One iteration of [for target_entity in entity_order] (lines 74-81). *)
Definition entity_body_dyn (tokens : value)
    (token_spans : entity → value * value)
    (st : build_state_dyn) (target_entity : entity) :
    result exn build_state_dyn :=
  let token_span := token_spans target_entity in
  before ← py_slice tokens (cur_dyn st) token_span.1 ≫= py_join [space];
  let text := text_dyn st ++ before in
  let text := add_sep text in
  let char_spans := set_start (char_spans_dyn st) target_entity (py_len text) in
  entity_text ← py_slice tokens token_span.1 token_span.2 ≫= py_join [space];
  let text := text ++ (entity_text ++ [space]) in
  let char_spans := set_end char_spans target_entity (py_len text) in
  mret {| text_dyn := text; cur_dyn := token_span.2;
          char_spans_dyn := char_spans |}.

(** The body of the loop over the records (lines 61-86). *)
Definition create_example_dyn (set_type : str) (i : Z) (item : value) :
    result exn InputExampleDyn.t :=
  tokens ← py_getitem item (pystr "token");
  token_spans ← token_spans_dyn item;
  entity_order ← entity_order_dyn token_spans;
  st ← for_loop (entity_body_dyn tokens token_spans) entity_order
         build_init_dyn;
  rest ← py_slice tokens (cur_dyn st) VNone ≫= py_join [space];
  let text := rstrip (text_dyn st ++ rest) in
  subj_type ← py_getitem item (pystr "subj_type");
  obj_type ← py_getitem item (pystr "obj_type");
  relation ← py_getitem item (pystr "relation");
  mret (InputExampleDyn.mk (set_type ++ pystr "-" ++ str_of_Z i) text
          (span_of (char_spans_dyn st subj)) (span_of (char_spans_dyn st obj))
          subj_type obj_type relation).

(** The loop over the records (lines 59-60, 85-88), on whatever the file
    holds. *)
Definition create_examples_dyn (set_type : str) (data : value) :
    result exn (list InputExampleDyn.t) :=
  items ← py_iter data;
  for_loop (λ examples '(i, item),
              example ← create_example_dyn set_type i item;
              mret (examples ++ [example]))
           (enumerate items) [].

(** [_create_examples] (lines 55-88), on whatever the file holds. *)
Definition _create_examples_dyn {parser : JSONParser value}
    (data_dir set_type : str) : io (list InputExampleDyn.t) :=
  data ← load_split data_dir set_type;
  io_lift (create_examples_dyn set_type data).

(** ** Typed records as values *)

(** An item of a JSON object, when the key is present. *)
Definition entry {A} (key : string) (f : A → value) (o : option A)
    (d : list (str * value)) : list (str * value) :=
  match o with Some a => (pystr key, f a) :: d | None => d end.

(** The items of the JSON object of a typed record: the keys that are
    present, in the order of the data set. *)
Definition item_entries (item : Item) : list (str * value) :=
  entry "token" (λ ts, VList (VStr <$> ts)) (token item) $
  entry "subj_start" VInt (subj_start item) $
  entry "subj_end" VInt (subj_end item) $
  entry "obj_start" VInt (obj_start item) $
  entry "obj_end" VInt (obj_end item) $
  entry "subj_type" VStr (subj_type item) $
  entry "obj_type" VStr (obj_type item) $
  entry "relation" VStr (relation item) [].

Definition value_of_item (item : Item) : value := VDict (item_entries item).

(** ** Values as typed records *)

(** A key of a record read at a type: [Some None] when the key is absent,
    [None] when its value has another type. *)
Definition typed_field {A} (read : value → option A) (key : string)
    (d : list (str * value)) : option (option A) :=
  match dict_lookup (pystr key) d with
  | None => Some None
  | Some v => Some <$> read v
  end.

Definition as_int (v : value) : option Z :=
  match v with VInt z => Some z | _ => None end.
Definition as_string (v : value) : option str :=
  match v with VStr s => Some s | _ => None end.
Definition as_strings (v : value) : option (list str) :=
  match v with VList l => mapM as_string l | _ => None end.

(** The typed record that a JSON object is, when the values of the eight
    keys have the types of the input format: whatever the order of the
    keys, and whatever other keys the object has. *)
Definition item_of_value (v : value) : option Item :=
  match v with
  | VDict d =>
      token ← typed_field as_strings "token" d;
      subj_start ← typed_field as_int "subj_start" d;
      subj_end ← typed_field as_int "subj_end" d;
      obj_start ← typed_field as_int "obj_start" d;
      obj_end ← typed_field as_int "obj_end" d;
      subj_type ← typed_field as_string "subj_type" d;
      obj_type ← typed_field as_string "obj_type" d;
      relation ← typed_field as_string "relation" d;
      Some (Build_Item token subj_start subj_end obj_start obj_end
              subj_type obj_type relation)
  | _ => None
  end.

(** An example with other values for the two types and the label. *)
Definition retag (ex : InputExample.t) (type_a type_b label : value) :
    InputExampleDyn.t :=
  InputExampleDyn.mk (InputExample.id ex) (InputExample.text ex)
    (InputExample.span_a ex) (InputExample.span_b ex) type_a type_b label.

Definition example_value (ex : InputExample.t) : InputExampleDyn.t :=
  retag ex (VStr (InputExample.type_a ex)) (VStr (InputExample.type_b ex))
    (VStr (InputExample.label ex)).

(** ** What the builder reads in a record of any types *)

(** The integer that the builder reads at a key: a [bool] counts as 0 or
    1. *)
Definition read_int (key : string) (d : list (str * value)) : option Z :=
  dict_lookup (pystr key) d ≫= int_like.

(** The words that the builder reads at [token]: the elements of a list
    of strings, or the characters of a string. *)
Definition read_words (d : list (str * value)) : option (list str) :=
  dict_lookup (pystr "token") d ≫= words_of.

(** What the builder reads in the five keys of the tokens and the
    offsets, when it can read them all. *)
Definition read_record (d : list (str * value)) :
    option (list str * Z * Z * Z * Z) :=
  tokens ← read_words d;
  ss ← read_int "subj_start" d; se ← read_int "subj_end" d;
  os ← read_int "obj_start" d; oe ← read_int "obj_end" d;
  Some (tokens, ss, se, os, oe).

(** The state of the loop on a typed record, among the states of the loop
    on values. *)
Definition state_dyn (st : build_state) : build_state_dyn :=
  {| text_dyn := text st; cur_dyn := VInt (cur st);
     char_spans_dyn := char_spans st |}.

(** ** Records used as concrete inputs *)

(** A record with Boolean offsets, a string for the tokens, a list for a
    type and no label. *)
Definition loose_record : list (str * value) :=
  [(pystr "subj_end", VBool true); (pystr "subj_start", VBool false);
   (pystr "token", VStr (pystr "abcd")); (pystr "obj_end", VInt 3);
   (pystr "obj_start", VInt 3); (pystr "obj_type", VNone);
   (pystr "subj_type", VList [VInt 1]); (pystr "relation", VNone)].

(** The first record of [toy_data] as the data set has it: with its keys
    in another order and with keys that the builder does not read. *)
Definition toy_object : value :=
  VDict [(pystr "id", VStr (pystr "e7798"));
         (pystr "relation", VStr (pystr "lives_in"));
         (pystr "token", VList (VStr <$> john_tokens));
         (pystr "subj_start", VInt 0); (pystr "subj_end", VInt 0);
         (pystr "obj_start", VInt 3); (pystr "obj_end", VInt 3);
         (pystr "subj_type", VStr (pystr "PERSON"));
         (pystr "obj_type", VStr (pystr "CITY"));
         (pystr "stanford_head", VList [VInt 2; VInt 0; VInt 4; VInt 2])].

(** A parser of values that knows the text of [toy_parser] and one more. *)
Definition toy_value_parser : JSONParser value := {|
  json_loads text :=
    if decide (text = pystr "[three records]")
    then Ok (VList (toy_object :: (value_of_item <$> tail toy_data)))
    else if decide (text = pystr "{}") then Ok (VDict [])
    else Err ValueError
|}.

(** A record with a float as offset, and no types. *)
Definition float_record : list (str * value) :=
  [(pystr "token", VList [VStr (pystr "a")]); (pystr "subj_start", VInt 0);
   (pystr "subj_end", VFloat (FFin 0 0)); (pystr "obj_start", VInt 0);
   (pystr "obj_end", VInt 0)].

(** ** The keys of a typed record *)

Lemma dict_lookup_entry_ne {A} key k (f : A → value) o d :
  pystr k ≠ key → dict_lookup key (entry k f o d) = dict_lookup key d.
Proof. intros. destruct o; simpl; [|done]. by rewrite decide_False. Qed.

Lemma dict_lookup_entry_eq {A} k (f : A → value) o d :
  dict_lookup (pystr k) (entry k f o d) =
    match o with Some a => Some (f a) | None => dict_lookup (pystr k) d end.
Proof. destruct o; simpl; [|done]. by rewrite decide_True. Qed.

(** [item_entries item] has the value of a key where [item] has it. *)
Ltac solve_item_key :=
  unfold item_entries;
  rewrite ?dict_lookup_entry_ne by done; rewrite dict_lookup_entry_eq;
  case_match; [done|]; by rewrite ?dict_lookup_entry_ne by done.

Lemma dict_lookup_token item :
  dict_lookup (pystr "token") (item_entries item) = (λ ts, VList (VStr <$> ts)) <$> token item.
Proof. solve_item_key. Qed.

Lemma dict_lookup_subj_start item :
  dict_lookup (pystr "subj_start") (item_entries item) = VInt <$> subj_start item.
Proof. solve_item_key. Qed.

Lemma dict_lookup_subj_end item :
  dict_lookup (pystr "subj_end") (item_entries item) = VInt <$> subj_end item.
Proof. solve_item_key. Qed.

Lemma dict_lookup_obj_start item :
  dict_lookup (pystr "obj_start") (item_entries item) = VInt <$> obj_start item.
Proof. solve_item_key. Qed.

Lemma dict_lookup_obj_end item :
  dict_lookup (pystr "obj_end") (item_entries item) = VInt <$> obj_end item.
Proof. solve_item_key. Qed.

Lemma dict_lookup_subj_type item :
  dict_lookup (pystr "subj_type") (item_entries item) = VStr <$> subj_type item.
Proof. solve_item_key. Qed.

Lemma dict_lookup_obj_type item :
  dict_lookup (pystr "obj_type") (item_entries item) = VStr <$> obj_type item.
Proof. solve_item_key. Qed.

Lemma dict_lookup_relation item :
  dict_lookup (pystr "relation") (item_entries item) = VStr <$> relation item.
Proof. solve_item_key. Qed.

Create Rewrite HintDb item_keys.
#[export] Hint Rewrite dict_lookup_token dict_lookup_subj_start
  dict_lookup_subj_end dict_lookup_obj_start dict_lookup_obj_end
  dict_lookup_subj_type dict_lookup_obj_type dict_lookup_relation : item_keys.

(** ** The members of a JSON object

    The builder reads a record through its keys.  So the example of a
    JSON object does not depend on the order of its members, and when the
    text of the object repeats a key, the last member counts, as
    [json.load] has it. *)

Section members.
Context (d d' : list (str * value)).
Context (Hd : ∀ key, dict_lookup key d = dict_lookup key d').

Lemma token_spans_dyn_ext :
  token_spans_dyn (VDict d) = token_spans_dyn (VDict d').
Proof. unfold token_spans_dyn. by rewrite !(py_getitem_ext d d' _ Hd). Qed.

Lemma create_example_dyn_ext set_type i :
  create_example_dyn set_type i (VDict d) =
    create_example_dyn set_type i (VDict d').
Proof.
  unfold create_example_dyn.
  by rewrite token_spans_dyn_ext, !(py_getitem_ext d d' _ Hd).
Qed.

Lemma item_of_value_ext : item_of_value (VDict d) = item_of_value (VDict d').
Proof. unfold item_of_value, typed_field. by rewrite !Hd. Qed.

End members.

Lemma create_example_dyn_Permutation set_type i d d' :
  NoDup d.*1 → d ≡ₚ d' →
  create_example_dyn set_type i (VDict d) =
    create_example_dyn set_type i (VDict d').
Proof.
  intros Hd Hp. apply create_example_dyn_ext. intros key.
  by apply dict_lookup_Permutation.
Qed.

Lemma create_example_dyn_members set_type i members :
  create_example_dyn set_type i (VDict (dict_of_pairs members)) =
    create_example_dyn set_type i (VDict (reverse members)).
Proof.
  apply create_example_dyn_ext. intros key. apply dict_lookup_dict_of_pairs.
Qed.

(** The JSON object of a typed record holds each key once. *)
Lemma value_of_item_wf item : value_wf (value_of_item item) = true.
Proof.
  apply value_wf_VDict.
  destruct item as [[tokens|] [?|] [?|] [?|] [?|] [?|] [?|] [?|]];
    (split; [compute_done|]);
    repeat constructor; apply value_wf_words.
Qed.

(** ** The inner loop on a record that holds words and integers *)

Section typed_loop.
Context (tv : value) (tokens : list str).
Context (tsd : entity → value * value) (ts : entity → Z * Z).
Context (Hwords : words_of tv = Some tokens).
Context (Hstart : ∀ e, int_like (tsd e).1 = Some (ts e).1).
Context (Hstop : ∀ e, (tsd e).2 = VInt (ts e).2).

(** An iteration is the iteration of [Examples] on the words. *)
Lemma entity_body_dyn_words st e :
  entity_body_dyn tv tsd (state_dyn st) e =
    Ok (state_dyn (build_step tokens ts st e)).
Proof.
  unfold entity_body_dyn. cbn [state_dyn text_dyn cur_dyn char_spans_dyn].
  rewrite (py_slice_join _ tv tokens (VInt (cur st)) (tsd e).1
             (Some (cur st)) (Some (ts e).1))
    by auto using slice_bound_int_like.
  rewrite result_bind_Ok_l, Hstop.
  by rewrite (py_slice_join _ tv tokens (tsd e).1 (VInt (ts e).2)
                (Some (ts e).1) (Some (ts e).2))
    by auto using slice_bound_int_like.
Qed.

Lemma for_loop_dyn_words es st :
  for_loop (entity_body_dyn tv tsd) es (state_dyn st) =
    Ok (state_dyn (foldl (build_step tokens ts) st es)).
Proof.
  revert st. induction es as [|e es IH]; intros st; [done|].
  rewrite for_loop_cons, entity_body_dyn_words, result_bind_Ok_l. apply IH.
Qed.

(** The text after the loop. *)
Lemma rest_dyn_words st :
  py_slice tv (cur_dyn (state_dyn st)) VNone ≫= py_join [space] =
    Ok (join [space] (slice_from tokens (cur st))).
Proof. by apply (py_slice_join _ _ _ _ _ (Some (cur st)) None). Qed.

End typed_loop.

(** ** The builder on a record that holds words and integers *)

Lemma read_int_Some key d z :
  read_int key d = Some z ↔
  ∃ v, dict_lookup (pystr key) d = Some v ∧ int_like v = Some z.
Proof. unfold read_int. by rewrite bind_Some. Qed.

Lemma token_spans_dyn_read d ss se os oe :
  read_int "subj_start" d = Some ss → read_int "subj_end" d = Some se →
  read_int "obj_start" d = Some os → read_int "obj_end" d = Some oe →
  ∃ tsd, token_spans_dyn (VDict d) = Ok tsd ∧
    (∀ e, int_like (tsd e).1 = Some (token_spans ss se os oe e).1) ∧
    (∀ e, (tsd e).2 = VInt (token_spans ss se os oe e).2).
Proof.
  intros (vss & Hss & ?)%read_int_Some (vse & Hse & ?)%read_int_Some
    (vos & Hos & ?)%read_int_Some (voe & Hoe & ?)%read_int_Some.
  unfold token_spans_dyn, py_getitem. rewrite Hss, Hse, Hos, Hoe. simpl.
  rewrite (py_add_int_like vse se), (py_add_int_like voe oe) by done.
  eexists. split; [done|]. by split; intros [].
Qed.

Lemma entity_order_dyn_ints tsd ts :
  (∀ e, int_like (tsd e).1 = Some (ts e).1) →
  entity_order_dyn tsd = Ok (entity_order ts).
Proof.
  intros H. unfold entity_order_dyn, entity_order.
  rewrite (py_lt_int_like _ _ _ _ (H subj) (H obj)). simpl.
  by case_bool_decide; case_decide.
Qed.

(** The builder reads words and integers where it can, and then works as
    the builder of [Examples] does; the types and the label are looked up
    after the loop and copied. *)
Lemma create_example_dyn_words set_type i d tokens ss se os oe st0 ot0 rel0 :
  read_words d = Some tokens →
  read_int "subj_start" d = Some ss → read_int "subj_end" d = Some se →
  read_int "obj_start" d = Some os → read_int "obj_end" d = Some oe →
  create_example_dyn set_type i (VDict d) =
    (subj_type ← py_getitem (VDict d) (pystr "subj_type");
     obj_type ← py_getitem (VDict d) (pystr "obj_type");
     relation ← py_getitem (VDict d) (pystr "relation");
     mret (retag (example_spec set_type i tokens ss se os oe st0 ot0 rel0)
             subj_type obj_type relation)).
Proof.
  intros (tv & Htv & Hwords)%bind_Some Hss Hse Hos Hoe.
  destruct (token_spans_dyn_read d ss se os oe) as (tsd & Htsd & H1 & H2);
    [done..|].
  unfold create_example_dyn.
  rewrite Htsd, (py_getitem_Some _ _ _ Htv), !result_bind_Ok_l.
  rewrite (entity_order_dyn_ints _ _ H1), result_bind_Ok_l.
  change build_init_dyn with (state_dyn build_init).
  rewrite (for_loop_dyn_words tv tokens tsd _ Hwords H1 H2), result_bind_Ok_l.
  rewrite (rest_dyn_words tv tokens Hwords), result_bind_Ok_l.
  unfold retag, example_spec. cbv zeta.
  cbn [InputExample.id InputExample.text InputExample.span_a
       InputExample.span_b].
  by rewrite <-build_loop_text, <-!build_loop_span_of.
Qed.

(** ** Exceptions of the inner loop *)

Section bad_bound.
Context (tv : value) (tsd : entity → value * value).
Implicit Types (st : build_state_dyn) (e : entity).

(** An iteration raises no exception but [TypeError]. *)
Lemma entity_body_dyn_Err st e x :
  entity_body_dyn tv tsd st e = Err x → x = TypeError.
Proof.
  unfold entity_body_dyn.
  intros [H|(before & _ & [H|(? & _ & [=])]%result_bind_Err)]%result_bind_Err;
    eauto using py_slice_join_Err.
Qed.

Lemma for_loop_dyn_Err es st x :
  for_loop (entity_body_dyn tv tsd) es st = Err x → x = TypeError.
Proof.
  revert st. induction es as [|e es IH]; intros st; [done|].
  rewrite for_loop_cons.
  intros [?|(st' & _ & ?)]%result_bind_Err; eauto using entity_body_dyn_Err.
Qed.

(** An iteration on a token span with a bound that cannot bound a slice
    raises. *)
Lemma entity_body_dyn_bad st e :
  slice_bound (tsd e).1 = Err TypeError ∨
    slice_bound (tsd e).2 = Err TypeError →
  entity_body_dyn tv tsd st e = Err TypeError.
Proof.
  intros Hbad. unfold entity_body_dyn.
  destruct (py_slice tv (cur_dyn st) (tsd e).1 ≫= py_join [space])
    as [before|x] eqn:Hbefore; [|by apply py_slice_join_Err in Hbefore as ->].
  rewrite result_bind_Ok_l, py_slice_bound_Err; [done|].
  destruct Hbad as [Hbad|Hbad]; [|by right].
  by rewrite py_slice_bound_Err in Hbefore by by right.
Qed.

(** So does the loop, when it visits such a token span. *)
Lemma for_loop_dyn_bad es st e :
  e ∈ es →
  slice_bound (tsd e).1 = Err TypeError ∨
    slice_bound (tsd e).2 = Err TypeError →
  for_loop (entity_body_dyn tv tsd) es st = Err TypeError.
Proof.
  intros He Hbad. revert st.
  induction es as [|e' es IH]; intros st; [by apply elem_of_nil in He|].
  rewrite for_loop_cons. destruct (decide (e' = e)) as [->|].
  - by rewrite entity_body_dyn_bad.
  - destruct (entity_body_dyn tv tsd st e') as [st'|x] eqn:Hbody.
    + apply IH. set_solver.
    + by apply entity_body_dyn_Err in Hbody as ->.
Qed.

End bad_bound.

(** ** The tokens that the loop visits

    The slices of the loop follow each other: every slice starts where the
    one before it ended.  So when the loop and the slice after it have
    raised nothing, every token has been joined, and is a string, wherever
    the spans are. *)

Section visits.
Context (l : list value) (tsd : entity → value * value) (ts : entity → Z * Z).
Context (Hstart : ∀ e, int_like (tsd e).1 = Some (ts e).1).
Context (Hstop : ∀ e, (tsd e).2 = VInt (ts e).2).
Notation strs := (Forall (λ v, is_Ok (as_str v))).

Lemma entity_body_dyn_visits st st' e c :
  cur_dyn st = VInt c → strs (slice_to l c) →
  entity_body_dyn (VList l) tsd st e = Ok st' →
  cur_dyn st' = VInt (ts e).2 ∧ strs (slice_to l (ts e).2).
Proof.
  intros Hc Hinv. unfold entity_body_dyn. rewrite Hc, Hstop.
  rewrite (py_slice_join_list _ l (VInt c) (tsd e).1
             (Some c) (Some (ts e).1)) by auto using slice_bound_int_like.
  destruct (mapM as_str _) as [ws1|] eqn:H1; [|done].
  cbn [fmap result_fmap mbind result_bind].
  rewrite (py_slice_join_list _ l (tsd e).1 (VInt (ts e).2)
             (Some (ts e).1) (Some (ts e).2)) by auto using slice_bound_int_like.
  destruct (mapM as_str (seq_slice l (Some (ts e).1) _)) as [ws2|] eqn:H2;
    [|done].
  cbn [fmap result_fmap mbind result_bind mret result_ret].
  intros [= <-]. split; [done|].
  apply (Forall_slice_to_slice _ _ (ts e).1), mapM_result_is_Ok; [|by eexists].
  apply (Forall_slice_to_slice _ _ c), mapM_result_is_Ok; [done|by eexists].
Qed.

Lemma for_loop_dyn_visits es st st' c :
  cur_dyn st = VInt c → strs (slice_to l c) →
  for_loop (entity_body_dyn (VList l) tsd) es st = Ok st' →
  ∃ c', cur_dyn st' = VInt c' ∧ strs (slice_to l c').
Proof.
  revert st c. induction es as [|e es IH]; intros st c Hc Hinv.
  - intros H. unfold for_loop in H. simplify_eq/=. eauto.
  - rewrite for_loop_cons.
    destruct (entity_body_dyn _ _ st e) as [st1|] eqn:Hbody; [|done].
    destruct (entity_body_dyn_visits _ _ _ _ Hc Hinv Hbody) as [Hc1 Hinv1].
    rewrite result_bind_Ok_l. eauto.
Qed.

End visits.

(** When the loop and the slice of line 82 raise nothing, [token] holds a
    list of strings or a string. *)
Lemma loop_Ok_words tv tsd ts es st rest :
  (∀ e, int_like (tsd e).1 = Some (ts e).1) →
  (∀ e, (tsd e).2 = VInt (ts e).2) →
  for_loop (entity_body_dyn tv tsd) es build_init_dyn = Ok st →
  py_slice tv (cur_dyn st) VNone ≫= py_join [space] = Ok rest →
  is_Some (words_of tv).
Proof.
  intros Hstart Hstop Hloop Hrest. destruct tv as [| | | |s|l|]; try done.
  apply words_of_VList_is_Some.
  destruct (for_loop_dyn_visits l tsd ts Hstart Hstop es build_init_dyn st 0)
    as (c & Hc & Hinv); [done|by rewrite slice_to_0|done|].
  rewrite Hc, (py_slice_join_list _ l (VInt c) VNone (Some c) None) in Hrest
    by done.
  rewrite <-(slice_to_from l c). apply Forall_app. split; [done|].
  apply mapM_result_is_Ok. destruct (mapM as_str _); [by eexists|done].
Qed.

(** ** Exceptions of the builder *)

Lemma token_spans_dyn_Ok d tsd :
  token_spans_dyn (VDict d) = Ok tsd →
  ∃ vse voe,
    dict_lookup (pystr "subj_start") d = Some (tsd subj).1 ∧
    dict_lookup (pystr "subj_end") d = Some vse ∧
    py_add vse 1 = Ok (tsd subj).2 ∧
    dict_lookup (pystr "obj_start") d = Some (tsd obj).1 ∧
    dict_lookup (pystr "obj_end") d = Some voe ∧
    py_add voe 1 = Ok (tsd obj).2.
Proof.
  unfold token_spans_dyn, py_getitem. intros H. simplify_result.
  by eexists _, _.
Qed.

Lemma token_spans_dyn_Err d x :
  Forall (λ key, is_Some (dict_lookup (pystr key) d))
    ["subj_start"; "subj_end"; "obj_start"; "obj_end"] →
  token_spans_dyn (VDict d) = Err x → x = TypeError.
Proof.
  rewrite !Forall_cons.
  intros ([vss Hss] & [vse Hse] & [vos Hos] & [voe Hoe] & _).
  unfold token_spans_dyn, py_getitem. rewrite Hss, Hse, Hos, Hoe. simpl.
  destruct (py_add vse _) eqn:H1; simpl; [|intros [= <-]; eauto using py_add_Err].
  destruct (py_add voe _) eqn:H2; simpl; [done|].
  intros [= <-]; eauto using py_add_Err.
Qed.

Lemma entity_order_dyn_Err tsd x :
  entity_order_dyn tsd = Err x → x = TypeError.
Proof.
  unfold entity_order_dyn. destruct (py_lt _ _) eqn:H; simpl; [done|].
  intros [= <-]. eauto using py_lt_Err.
Qed.

Lemma entity_order_dyn_Ok tsd es :
  entity_order_dyn tsd = Ok es →
  (∀ e, e ∈ es) ∧ (tsd subj).1 ≠ VNone ∧ (tsd obj).1 ≠ VNone.
Proof.
  unfold entity_order_dyn. destruct (py_lt _ _) as [b|] eqn:H; [|done].
  intros [= <-]. split; [intros []; destruct b; set_solver|].
  split; intros Hnone; by rewrite py_lt_None in H by auto.
Qed.

(** When a start or an end is no integer, a token span has a bound that
    cannot bound a slice. *)
Lemma token_spans_dyn_bad d tsd es :
  token_spans_dyn (VDict d) = Ok tsd → entity_order_dyn tsd = Ok es →
  Exists (λ key, read_int key d = None)
    ["subj_start"; "subj_end"; "obj_start"; "obj_end"] →
  ∃ e, slice_bound (tsd e).1 = Err TypeError ∨
       slice_bound (tsd e).2 = Err TypeError.
Proof.
  intros (vse & voe & Hss & Hse & Hs & Hos & Hoe & Ho)%token_spans_dyn_Ok
    (_ & Hns & Hno)%entity_order_dyn_Ok.
  unfold read_int. rewrite !Exists_cons, Exists_nil, Hss, Hse, Hos, Hoe.
  simpl. intros [H|[H|[H|[H|[]]]]].
  - exists subj. left. by destruct (not_int_like_bound _ H).
  - exists subj. right. eauto using py_add_not_int_like.
  - exists obj. left. by destruct (not_int_like_bound _ H).
  - exists obj. right. eauto using py_add_not_int_like.
Qed.

Lemma read_record_Some d tokens ss se os oe :
  read_record d = Some (tokens, ss, se, os, oe) ↔
  read_words d = Some tokens ∧
  read_int "subj_start" d = Some ss ∧ read_int "subj_end" d = Some se ∧
  read_int "obj_start" d = Some os ∧ read_int "obj_end" d = Some oe.
Proof.
  unfold read_record. destruct (read_words d), (read_int "subj_start" d),
    (read_int "subj_end" d), (read_int "obj_start" d), (read_int "obj_end" d);
    naive_solver.
Qed.

Lemma read_record_None d :
  read_record d = None →
  (∃ ss se os oe, read_words d = None ∧
     read_int "subj_start" d = Some ss ∧ read_int "subj_end" d = Some se ∧
     read_int "obj_start" d = Some os ∧ read_int "obj_end" d = Some oe) ∨
  Exists (λ key, read_int key d = None)
    ["subj_start"; "subj_end"; "obj_start"; "obj_end"].
Proof.
  unfold read_record. rewrite !Exists_cons.
  destruct (read_words d), (read_int "subj_start" d),
    (read_int "subj_end" d), (read_int "obj_start" d), (read_int "obj_end" d);
    naive_solver.
Qed.

(** A start or an end that is no integer raises [TypeError]. *)
Lemma create_example_dyn_offsets set_type i d :
  is_Some (dict_lookup (pystr "token") d) →
  Forall (λ key, is_Some (dict_lookup (pystr key) d))
    ["subj_start"; "subj_end"; "obj_start"; "obj_end"] →
  Exists (λ key, read_int key d = None)
    ["subj_start"; "subj_end"; "obj_start"; "obj_end"] →
  create_example_dyn set_type i (VDict d) = Err TypeError.
Proof.
  intros [tv Htv] Hkeys Hbad.
  unfold create_example_dyn. rewrite (py_getitem_Some _ _ _ Htv). simpl.
  destruct (token_spans_dyn (VDict d)) as [tsd|x] eqn:Htsd; simpl;
    [|by apply token_spans_dyn_Err in Htsd as ->].
  destruct (entity_order_dyn tsd) as [es|x] eqn:Hes; simpl;
    [|by apply entity_order_dyn_Err in Hes as ->].
  destruct (token_spans_dyn_bad d tsd es) as [e He]; [done..|].
  apply entity_order_dyn_Ok in Hes as [Hes _].
  by rewrite (for_loop_dyn_bad tv tsd es _ e).
Qed.

(** Tokens that are no strings raise [TypeError]. *)
Lemma create_example_dyn_tokens set_type i d ss se os oe :
  is_Some (dict_lookup (pystr "token") d) → read_words d = None →
  read_int "subj_start" d = Some ss → read_int "subj_end" d = Some se →
  read_int "obj_start" d = Some os → read_int "obj_end" d = Some oe →
  create_example_dyn set_type i (VDict d) = Err TypeError.
Proof.
  intros [tv Htv] Hwords Hss Hse Hos Hoe.
  unfold read_words in Hwords. rewrite Htv in Hwords. simpl in Hwords.
  destruct (token_spans_dyn_read d ss se os oe) as (tsd & Htsd & H1 & H2);
    [done..|].
  unfold create_example_dyn.
  rewrite (py_getitem_Some _ _ _ Htv), Htsd, !result_bind_Ok_l.
  rewrite (entity_order_dyn_ints _ _ H1), result_bind_Ok_l.
  destruct (for_loop _ _ _) as [st|x] eqn:Hloop;
    [|by apply for_loop_dyn_Err in Hloop as ->].
  rewrite result_bind_Ok_l.
  destruct (py_slice tv (cur_dyn st) VNone ≫= py_join [space])
    as [rest|x] eqn:Hrest; [|by apply py_slice_join_Err in Hrest as ->].
  destruct (loop_Ok_words tv tsd _ _ _ _ H1 H2 Hloop Hrest). congruence.
Qed.

(** ** The loop over the records *)

Lemma create_examples_dyn_items set_type data items :
  py_iter data = Ok items →
  create_examples_dyn set_type data =
    mapM (λ '(i, item), create_example_dyn set_type i item) (enumerate items).
Proof.
  intros Hitems. unfold create_examples_dyn. rewrite Hitems, result_bind_Ok_l.
  apply (for_loop_mapM_nil (λ '(i, item), create_example_dyn set_type i item)).
  by intros acc [i item].
Qed.

(** The first record that is no dict ends the loop. *)
Lemma create_examples_dyn_first set_type data item items :
  py_iter data = Ok (item :: items) → (∀ d, item ≠ VDict d) →
  create_examples_dyn set_type data = Err TypeError.
Proof.
  intros Hitems Hitem.
  rewrite (create_examples_dyn_items _ _ _ Hitems), enumerate_cons.
  rewrite mapM_result_cons. by destruct item; [..|destruct (Hitem d)].
Qed.

(** ** Typed records *)

Lemma mapM_as_string_VStr ts : mapM as_string (VStr <$> ts) = Some ts.
Proof. apply mapM_Some. induction ts; simpl; by constructor. Qed.

Lemma as_strings_Some v ts : as_strings v = Some ts → v = VList (VStr <$> ts).
Proof.
  destruct v as [| | | | |l|]; try done. simpl. rewrite mapM_Some.
  intros H. f_equal. induction H as [|x y l k Hxy Hlk IH]; [done|].
  destruct x; simplify_eq/=. by f_equal.
Qed.

Lemma typed_field_Some {A} (read : value → option A) (embed : A → value)
    key d o :
  (∀ v a, read v = Some a → v = embed a) →
  typed_field read key d = Some o → dict_lookup (pystr key) d = embed <$> o.
Proof.
  intros Hread. unfold typed_field.
  destruct (dict_lookup _ d) as [v|]; [|by intros [= <-]].
  destruct (read v) as [a|] eqn:Hv; [|done]. intros [= <-]. simpl.
  f_equal. eauto.
Qed.

(** A value that is a typed record has the values of the record at its
    keys. *)
Lemma item_of_value_lookup d item :
  item_of_value (VDict d) = Some item →
  dict_lookup (pystr "token") d = (λ ts, VList (VStr <$> ts)) <$> token item ∧
  dict_lookup (pystr "subj_start") d = VInt <$> subj_start item ∧
  dict_lookup (pystr "subj_end") d = VInt <$> subj_end item ∧
  dict_lookup (pystr "obj_start") d = VInt <$> obj_start item ∧
  dict_lookup (pystr "obj_end") d = VInt <$> obj_end item ∧
  dict_lookup (pystr "subj_type") d = VStr <$> subj_type item ∧
  dict_lookup (pystr "obj_type") d = VStr <$> obj_type item ∧
  dict_lookup (pystr "relation") d = VStr <$> relation item.
Proof.
  unfold item_of_value. intros H.
  repeat (apply bind_Some in H as (? & ? & H)). simplify_eq/=.
  split_and!; (eapply typed_field_Some; [|done]);
    first [apply as_strings_Some|by intros []; naive_solver].
Qed.

(** The JSON object of a typed record is that record. *)
Lemma item_of_value_of_item item :
  item_of_value (value_of_item item) = Some item.
Proof.
  unfold value_of_item, item_of_value, typed_field.
  autorewrite with item_keys.
  destruct item as [[tokens|] [?|] [?|] [?|] [?|] [?|] [?|] [?|]]; simpl;
    by rewrite ?mapM_as_string_VStr.
Qed.

(** On a value that is a typed record, [create_example_dyn] has the
    outcome of [create_example], the same example or the same [KeyError],
    and no [TypeError]. *)
Lemma create_example_dyn_typed set_type i v item :
  item_of_value v = Some item →
  create_example_dyn set_type i v =
    example_value <$> create_example set_type i item.
Proof.
  destruct v as [| | | | | |d]; try done.
  intros (Htok & Hss & Hse & Hos & Hoe & Hst & Hot & Hrel)%item_of_value_lookup.
  destruct item as [tok ss se os oe st ot rel]. simpl in *.
  destruct tok as [tokens|], ss as [ss|], se as [se|], os as [os|],
    oe as [oe|];
    try (unfold create_example_dyn, token_spans_dyn, py_getitem;
         rewrite ?Htok, ?Hss, ?Hse, ?Hos, ?Hoe; done).
  rewrite (create_example_dyn_words _ _ _ tokens ss se os oe [] [] [])
    by (unfold read_words, read_int; rewrite ?Htok, ?Hss, ?Hse, ?Hos, ?Hoe;
        simpl; by rewrite ?mapM_as_str_VStr).
  unfold py_getitem. rewrite Hst, Hot, Hrel.
  destruct st as [st|], ot as [ot|], rel as [rel|]; try done.
  change (Build_Item _ _ _ _ _ _ _ _)
    with (full_item tokens ss se os oe st ot rel).
  by rewrite create_example_full.
Qed.

(** On a JSON array of typed records, [create_examples_dyn] has the
    outcome of [create_examples], the same examples or the [KeyError] of
    the first record that lacks a key, and no [TypeError]. *)
Lemma create_examples_dyn_typed set_type values (data : list Item) :
  mapM item_of_value values = Some data →
  create_examples_dyn set_type (VList values) =
    fmap (M:=list) example_value <$> create_examples set_type data.
Proof.
  intros H%mapM_Some%enumerate_Forall2.
  rewrite (create_examples_dyn_items _ (VList _) _ eq_refl).
  rewrite create_examples_eq.
  induction H as [|[i v] [j item] l k [Hi Hv] _ IH]; [done|].
  simpl in Hi, Hv. subst j. rewrite !mapM_result_cons, IH.
  rewrite (create_example_dyn_typed set_type i v item Hv).
  unfold create_example_at. simpl.
  destruct (create_example set_type i item); [|done].
  by destruct (mapM _ k).
Qed.

(** ** The method *)

(** The method returns what the loop makes of the data of the file, and
    leaves the file system as it found it. *)
Lemma _create_examples_dyn_run {parser : JSONParser value}
    data_dir set_type σ :
  _create_examples_dyn data_dir set_type σ =
    (data ← load_json σ (os_path_join data_dir (set_type ++ pystr ".json"));
     create_examples_dyn set_type data, σ).
Proof.
  unfold _create_examples_dyn. rewrite io_bind_unfold, load_split_run.
  by destruct (load_json σ _).
Qed.

(** ** Theorems *)

(** C3: the method on untyped values refines the method on typed
    records.  When the file of the split holds a JSON array of objects
    that are typed records (the eight keys, where present, have values of
    the types of the input format; the keys come in any order, among any
    other keys), [_create_examples_dyn] returns the examples that the loop
    of [Splits] builds from the records, or raises the [KeyError] of the
    first record that lacks a key, and no [TypeError]; the file system is
    left as it was. *)
Theorem _create_examples_dyn_typed {parser : JSONParser value}
    data_dir set_type σ values (data : list Item) :
  load_json σ (os_path_join data_dir (set_type ++ pystr ".json")) =
    Ok (VList values) →
  mapM item_of_value values = Some data →
  _create_examples_dyn data_dir set_type σ =
    (fmap (M:=list) example_value <$> create_examples set_type data, σ).
Proof.
  intros Hvalues Hdata.
  rewrite _create_examples_dyn_run, Hvalues, result_bind_Ok_l.
  by rewrite (create_examples_dyn_typed _ _ data).
Qed.

(** C25: records that the builder accepts although their values have other
    types than those of the data set: when [token] holds a list of strings
    or a string, and the four offsets integers or Booleans, the builder
    returns the example of the specification for the words it reads (the
    characters, for a string) and the integers it reads (0 and 1, for
    Booleans), with the values of [subj_type], [obj_type] and [relation]
    copied, whatever they are. *)
Theorem create_example_dyn_coerces set_type i d tokens ss se os oe st ot rel :
  read_record d = Some (tokens, ss, se, os, oe) →
  dict_lookup (pystr "subj_type") d = Some st →
  dict_lookup (pystr "obj_type") d = Some ot →
  dict_lookup (pystr "relation") d = Some rel →
  create_example_dyn set_type i (VDict d) =
    Ok (retag (example_spec set_type i tokens ss se os oe [] [] []) st ot rel).
Proof.
  intros (? & ? & ? & ? & ?)%read_record_Some Hst Hot Hrel.
  rewrite (create_example_dyn_words _ _ _ tokens ss se os oe [] [] []) by done.
  by rewrite (py_getitem_Some _ _ _ Hst), (py_getitem_Some _ _ _ Hot),
    (py_getitem_Some _ _ _ Hrel).
Qed.

(** C24: which records raise [TypeError].  A record that has the five
    keys of the tokens and the offsets makes the builder raise [TypeError]
    exactly when it cannot be read: when a start or an end is no integer
    (and no Boolean), or when [token] is neither a string nor a list of
    strings.  One token that is no string is enough, wherever the spans
    are, because the slices of the loop visit every token; and the
    exception comes before the [KeyError] of an absent [subj_type],
    [obj_type] or [relation], which are looked up after the loop. *)
Theorem create_example_dyn_TypeError set_type i d :
  Forall (λ key, is_Some (dict_lookup (pystr key) d))
    ["token"; "subj_start"; "subj_end"; "obj_start"; "obj_end"] →
  create_example_dyn set_type i (VDict d) = Err TypeError ↔
  read_record d = None.
Proof.
  intros Hkeys.
  destruct (read_record d) as [[[[[tokens ss] se] os] oe]|] eqn:Hr.
  - apply read_record_Some in Hr as (? & ? & ? & ? & ?). split; [|done].
    rewrite (create_example_dyn_words _ _ _ tokens ss se os oe [] [] [])
      by done.
    unfold py_getitem. by repeat (destruct (dict_lookup _ d); simpl).
  - split; [done|intros _]. apply Forall_cons in Hkeys as [Htoken Hkeys].
    apply read_record_None in Hr as [(ss & se & os & oe & ? & ? & ? & ? & ?)|?].
    + by eapply create_example_dyn_tokens.
    + by apply create_example_dyn_offsets.
Qed.

(** C31: the loop on whatever the file holds: on a list it builds the
    examples of the elements in order and stops at the first exception;
    on an empty dict and on an empty string it returns no examples; on
    every other value it raises [TypeError] (a dict with keys and a string
    with characters are iterated, and their first element is a string,
    which is no record). *)
Theorem create_examples_dyn_shape set_type data :
  create_examples_dyn set_type data =
    match data with
    | VList items =>
        mapM (λ '(i, item), create_example_dyn set_type i item)
          (enumerate items)
    | VDict [] | VStr [] => Ok []
    | _ => Err TypeError
    end.
Proof.
  destruct data as [| | | |[|c s]|items|[|[k v] d]]; try done.
  - by eapply create_examples_dyn_first.
  - by apply create_examples_dyn_items.
  - by eapply create_examples_dyn_first.
Qed.

(** ** The theorems on concrete records *)

Lemma _create_examples_dyn_typed_witness :
  @_create_examples_dyn toy_value_parser (pystr "data") (pystr "train") toy_fs =
    (fmap (M:=list) example_value <$> create_examples (pystr "train") toy_data,
     toy_fs).
Proof. by eapply _create_examples_dyn_typed. Defined.

(** A file that holds an empty object gives no examples and no exception;
    a file that is no JSON raises [ValueError]. *)
Lemma _create_examples_dyn_toy :
  let σ := FileSystem (<[pystr "data/test.json" := pystr "{}"]> (fs_files toy_fs))
             (fs_open toy_fs) in
  @_create_examples_dyn toy_value_parser (pystr "data") (pystr "test") σ =
    (Ok [], σ) ∧
  @_create_examples_dyn toy_value_parser (pystr "data") (pystr "dev") σ =
    (Err ValueError, σ).
Proof. by vm_compute. Qed.

Lemma create_example_dyn_coerces_witness :
  create_example_dyn (pystr "train") 0 (VDict loose_record) =
    Ok (InputExampleDyn.mk (pystr "train-0") (pystr "a b c d") (0, 4) (6, 8)
          (VList [VInt 1]) VNone VNone).
Proof.
  rewrite (create_example_dyn_coerces (pystr "train") 0 loose_record
             (characters (pystr "abcd")) 0 1 3 3 (VList [VInt 1]) VNone VNone)
    by done.
  by vm_compute.
Defined.

Lemma create_example_dyn_TypeError_witness :
  create_example_dyn (pystr "train") 0 (VDict float_record) = Err TypeError.
Proof.
  apply create_example_dyn_TypeError; [|done].
  by repeat (apply Forall_cons_2; [by eexists|]).
Defined.

(** A token that is no string, after the last entity. *)
Lemma create_example_dyn_number_token :
  create_example_dyn (pystr "train") 0
    (VDict [(pystr "token", VList [VStr (pystr "a"); VStr (pystr "b"); VInt 0]);
            (pystr "subj_start", VInt 0); (pystr "subj_end", VInt 0);
            (pystr "obj_start", VInt 1); (pystr "obj_end", VInt 1)]) =
    Err TypeError.
Proof. by vm_compute. Qed.

(** Without the float, the record lacks a key. *)
Lemma create_example_dyn_float_record :
  create_example_dyn (pystr "train") 0
    (VDict (<[2%nat := (pystr "subj_end", VInt 0)]> float_record)) =
    Err (KeyError (pystr "subj_type")).
Proof. by vm_compute. Qed.

(** What the loop makes of files that hold no array. *)
Lemma create_examples_dyn_no_array :
  create_examples_dyn (pystr "train") (VDict []) = Ok [] ∧
  create_examples_dyn (pystr "train") (VStr []) = Ok [] ∧
  create_examples_dyn (pystr "train") (VDict [(pystr "a", VInt 1)]) =
    Err TypeError ∧
  create_examples_dyn (pystr "train") VNone = Err TypeError.
Proof. by vm_compute. Qed.

(** The concrete objects hold each key once. *)
Example toy_objects_wf :
  value_wf toy_object = true ∧ value_wf (VDict loose_record) = true ∧
  value_wf (VDict float_record) = true.
Proof. by vm_compute. Qed.
