(* ===== verification/ExampleLoops.v ===== *)
(** * The example builder, step by step

    The method [_create_examples] of
    [src/examples/relation_classification/utils.py] (lines 59-88) as the
    nested loops of the file [Nested]: the loop over the records is the
    outer loop, the loop over the two entities the inner loop.

    - [record_enter] is the part of an iteration before the inner loop
      (lines 61-72): the lookups that may raise [KeyError], the order of
      the entities and the initial values of [text], [cur] and
      [char_spans];
    - [entity_body] is the body of the inner loop (lines 74-81);
    - [record_leave] is the part after it (lines 82-86): the tail of the
      text, [rstrip], the lookups of the types and of the relation, and
      [examples.append];
    - [record_step] is the transition relation, [record_start] the
      configuration before the first record, [record_run] the execution
      with fuel.

    The theorems: the loops stop after [record_steps] steps, four for a
    record that they complete, in the examples that the specification
    asks for or in the [KeyError] of the first record that lacks a key
    ([examples_spec]); that much fuel is enough; between two records
    [examples] holds the examples of the records visited; inside the inner
    loop the spans of the entities visited are in the text
    ([build_inv]). *)

From stdpp Require Import strings.
From S2P Require Import Prelude PySeq PyStr Data Loops Nested Examples Splits.
Import DatasetProcessor.

#[local] Open Scope Z_scope.

(** ** The parts of an iteration *)

(** What the inner loop reads: [tokens] and [token_spans]. *)
Definition build_env : Type := list str * (entity → Z * Z).

(** Lines 61-72. *)
Definition record_enter (examples : list InputExample.t) (p : Z * Item) :
    result exn (build_env * list entity * build_state) :=
  tokens ← getitem (pystr "token") (token p.2);
  subj_start ← getitem (pystr "subj_start") (subj_start p.2);
  subj_end ← getitem (pystr "subj_end") (subj_end p.2);
  obj_start ← getitem (pystr "obj_start") (obj_start p.2);
  obj_end ← getitem (pystr "obj_end") (obj_end p.2);
  let token_spans := token_spans subj_start subj_end obj_start obj_end in
  mret ((tokens, token_spans), entity_order token_spans, build_init).

(** Lines 74-81: on a typed record no statement of the body raises (the
    [TypeError] of other records is in [entity_body_dyn] of the file
    [ExampleValue]). *)
Definition entity_body (env : build_env) (st : build_state)
    (target_entity : entity) : result exn build_state :=
  mret (build_step env.1 env.2 st target_entity).

(** Lines 82-86. *)
Definition record_leave (set_type : str) (examples : list InputExample.t)
    (p : Z * Item) (env : build_env) (st : build_state) :
    result exn (list InputExample.t) :=
  let text := rstrip (raw_text env.1 st) in
  subj_type ← getitem (pystr "subj_type") (subj_type p.2);
  obj_type ← getitem (pystr "obj_type") (obj_type p.2);
  relation ← getitem (pystr "relation") (relation p.2);
  mret (examples ++
        [InputExample.mk (set_type ++ pystr "-" ++ str_of_Z p.1) text
           (span_of (char_spans st subj)) (span_of (char_spans st obj))
           subj_type obj_type relation]).

(** ** The transition system *)

Definition record_config : Type :=
  nconfig (list InputExample.t) (Z * Item) exn build_env entity build_state.

Definition record_step (set_type : str) : record_config → record_config → Prop :=
  nstep record_enter entity_body (record_leave set_type).

(** Line 59 and the head of the loop (line 60). *)
Definition record_start (data : list Item) : record_config :=
  Outer (enumerate data) [].

Definition record_run (set_type : str) (fuel : nat) (data : list Item) :
    record_config :=
  nrun record_enter entity_body (record_leave set_type) fuel (record_start data).

(** The configuration in which the loops stop when the method returns or
    raises [r] (line 88). *)
Definition record_outcome (r : result exn (list InputExample.t)) :
    record_config :=
  embed (of_result r).

(** ** The outcome and the number of steps

    What the loops are meant to end in, and after how many steps, written
    from the records alone. *)

(** The outcome of a record: its example in closed form ([item_spec]), or
    [KeyError] for the first key that it lacks. *)
Definition record_spec (set_type : str) (p : Z * Item) :
    result exn InputExample.t :=
  of_option (item_spec set_type p.1 p.2)
    (KeyError (default [] (head (missing_keys p.2)))).

Definition examples_spec (set_type : str) (data : list Item) :
    result exn (list InputExample.t) :=
  mapM (record_spec set_type) (enumerate data).

(** The record has the keys that lines 61-63 read, before the inner
    loop. *)
Definition enters (item : Item) : bool :=
  bool_decide (is_Some (token item) ∧ is_Some (subj_start item) ∧
               is_Some (subj_end item) ∧ is_Some (obj_start item) ∧
               is_Some (obj_end item)).

(** A record that lacks no key takes four steps: one into the inner loop,
    one for each entity, one out of it.  The first record that lacks a key
    is the last: the step into the inner loop raises when the key is one
    of lines 61-63; otherwise the text is built first, and the step out
    of the inner loop raises (line 86). *)
Fixpoint record_steps (data : list Item) : nat :=
  match data with
  | [] => 0
  | item :: data =>
      if decide (missing_keys item = []) then 4 + record_steps data
      else if enters item then 4 else 1
  end.

(** ** The invariant of the inner loop

    While [pending] remains to be visited, the entities visited have both
    entries of their span filled, the span is a range of [text], and the
    characters at the span are the tokens of the entity and the space that
    follows them; the entities that remain have [[None, None]]. *)

Definition span_filled (env : build_env) (st : build_state) (e : entity) : Prop :=
  ∃ a b, char_spans st e = (Some a, Some b) ∧ 0 ≤ a < b ∧ b ≤ py_len (text st) ∧
         slice (text st) a b = entity_text env.1 env.2 e ++ [space].

Record build_inv (env : build_env) (pending : list entity)
    (st : build_state) : Prop := {
  inv_pending : pending `suffix_of` entity_order env.2;
  inv_unfilled e : e ∈ pending → char_spans st e = (None, None);
  inv_filled e : e ∉ pending → span_filled env st e;
}.

(** ** The body of the outer loop *)

Lemma record_nbody set_type examples p :
  nbody record_enter entity_body (record_leave set_type) examples p =
    (example ← create_example_at set_type p; mret (examples ++ [example])).
Proof.
  destruct p as [i [[tokens|] [ss|] [se|] [os|] [oe|] st ot rel]]; try done.
  unfold nbody, create_example_at, create_example. cbn.
  rewrite (for_loop_pure _ (build_step tokens (token_spans ss se os oe))) by done.
  by destruct st, ot, rel.
Qed.

Lemma for_loop_record_nbody set_type data :
  for_loop (nbody record_enter entity_body (record_leave set_type))
    (enumerate data) [] = create_examples set_type data.
Proof.
  rewrite create_examples_eq.
  apply (for_loop_mapM_nil (create_example_at set_type)), record_nbody.
Qed.

Lemma record_nbody_spec set_type examples p :
  nbody record_enter entity_body (record_leave set_type) examples p =
    (example ← record_spec set_type p; mret (examples ++ [example])).
Proof.
  rewrite record_nbody. f_equal. destruct p as [i item].
  unfold create_example_at, record_spec. cbn [fst snd].
  destruct (item_spec set_type i item) as [ex|] eqn:Hspec; simpl.
  - by apply create_example_item_spec.
  - apply item_spec_None in Hspec as [key Hkey]. rewrite Hkey.
    by apply create_example_missing.
Qed.

Lemma for_loop_record_spec set_type data :
  for_loop (nbody record_enter entity_body (record_leave set_type))
    (enumerate data) [] = examples_spec set_type data.
Proof.
  apply (for_loop_mapM_nil (record_spec set_type)), record_nbody_spec.
Qed.

(** ** The number of steps *)

Lemma enters_complete item : missing_keys item = [] → enters item = true.
Proof. by intros (?&?&?&?&?&?&?&?&->)%missing_keys_nil. Qed.

(** An iteration that enters the inner loop visits the two entities and
    leaves it: four steps, whether the last one raises or not. *)
Lemma record_iteration_steps examples p :
  iteration_steps record_enter entity_body examples p =
    if enters p.2 then 4%nat else 1%nat.
Proof.
  destruct p as [i [[tokens|] [ss|] [se|] [os|] [oe|] st ot rel]]; try done.
  unfold iteration_steps. cbn.
  rewrite (for_loop_pure _ (build_step tokens (token_spans ss se os oe))),
    (iterations_pure _ (build_step tokens (token_spans ss se os oe))) by done.
  by rewrite entity_order_eq.
Qed.

Lemma record_nested_steps set_type ps examples :
  nested_steps record_enter entity_body (record_leave set_type) ps examples =
    record_steps ps.*2.
Proof.
  revert examples. induction ps as [|p ps IH]; intros examples; [done|].
  cbn [nested_steps fmap list_fmap record_steps].
  rewrite record_iteration_steps, record_nbody.
  pose proof (create_example_is_Ok set_type p.1 p.2) as Hok.
  fold (create_example_at set_type p) in Hok.
  destruct (create_example_at set_type p) as [ex|e]; simpl.
  - rewrite decide_True, IH, enters_complete by (apply Hok; by eexists). done.
  - rewrite decide_False by (by intros [? [=]]%Hok). lia.
Qed.

Lemma record_steps_nested set_type data :
  nested_steps record_enter entity_body (record_leave set_type)
    (enumerate data) [] = record_steps data.
Proof. by rewrite record_nested_steps, enumerate_snd. Qed.

(** ** The configurations between two records *)

(** Between two records, [examples] holds the examples of the records
    visited, and the records that remain are pending. *)
Lemma record_reachable set_type data pending examples :
  rtc (record_step set_type) (record_start data) (Outer pending examples) ↔
  ∃ k : nat, (k ≤ length data)%nat ∧ pending = drop k (enumerate data) ∧
             create_examples set_type (take k data) = Ok examples.
Proof.
  unfold record_step, record_start. etrans; [apply rtc_nstep_Outer|]. split.
  - intros (done & Hd & Hl). exists (length done).
    assert (enumerate (take (length done) data) = done) as Hdone
      by by rewrite enumerate_take, Hd, take_app_length.
    split_and!.
    + rewrite <-(length_enumerate data), Hd. len.
    + by rewrite Hd, drop_app_length.
    + by rewrite <-for_loop_record_nbody, Hdone.
  - intros (k & _ & -> & Hex). exists (enumerate (take k data)).
    by rewrite enumerate_take, take_drop, <-enumerate_take, for_loop_record_nbody.
Qed.

Lemma create_examples_is_Ok set_type data :
  is_Ok (create_examples set_type data) ↔
  Forall (λ item, missing_keys item = []) data.
Proof.
  rewrite create_examples_eq, mapM_result_is_Ok.
  rewrite <-(enumerate_snd data) at 2. rewrite Forall_fmap.
  apply Forall_iff. intros [i item]. apply create_example_is_Ok.
Qed.

(** ** The inner loop *)

Lemma NoDup_entity_order ts : NoDup (entity_order ts).
Proof.
  rewrite entity_order_eq. pose proof (first_second_ne ts).
  apply NoDup_cons. split; [set_solver|apply NoDup_singleton].
Qed.

Lemma elem_of_entity_order ts e : e ∈ entity_order ts.
Proof.
  rewrite entity_order_eq.
  destruct (entity_first_or_second ts e) as [[-> _]|[-> _]]; set_solver.
Qed.

Lemma build_step_text_app tokens ts st e :
  ∃ more, text (build_step tokens ts st e) = text st ++ more.
Proof.
  rewrite build_step_text. unfold add_sep. case_decide; eexists;
    by rewrite <-!(assoc_L (++)).
Qed.

(** The span of the entity that an iteration visits. *)
Lemma build_step_span_filled tokens ts st e :
  span_filled (tokens, ts) (build_step tokens ts st e) e.
Proof.
  unfold span_filled. rewrite build_step_char_spans, decide_True by done.
  do 2 eexists. split; [done|]. rewrite build_step_text. cbn [fst snd].
  set (before := add_sep _). fold (entity_text tokens ts e).
  pose proof (py_len_nonneg before). pose proof (py_len_nonneg (entity_text tokens ts e)).
  split_and!; [lia..|len|].
  rewrite <-(app_nil_r (_ ++ [space])) at 1.
  apply slice_app_middle; len.
Qed.

(** The spans of the entities visited before stay where they are: the
    text only grows. *)
Lemma build_step_span_kept env st e e' :
  e' ≠ e → span_filled env st e' →
  span_filled env (build_step env.1 env.2 st e) e'.
Proof.
  intros He (a & b & Hcs & Hab & Hb & Hslice).
  destruct (build_step_text_app env.1 env.2 st e) as [more Htext].
  exists a, b. rewrite build_step_char_spans, decide_False, Htext by done.
  pose proof (py_len_nonneg more).
  split_and!; [done|rewrite ?py_len_app; lia..|]. by rewrite slice_app_l by lia.
Qed.

Lemma build_inv_enter examples p env es st :
  record_enter examples p = Ok (env, es, st) → build_inv env es st.
Proof.
  destruct p as [i [[tokens|] [ss|] [se|] [os|] [oe|] ? ? ?]]; intros [=]; subst.
  split; [done|done|]. intros e []. apply elem_of_entity_order.
Qed.

Lemma build_inv_step env e pending st st' :
  build_inv env (e :: pending) st → entity_body env st e = Ok st' →
  build_inv env pending st'.
Proof.
  intros [Hsuffix Hunfilled Hfilled] [= <-].
  assert (e ∉ pending) as He.
  { destruct Hsuffix as [visited Hsuffix].
    pose proof (NoDup_entity_order env.2) as Hnd. rewrite Hsuffix in Hnd.
    by apply NoDup_app in Hnd as (_ & _ & ?%NoDup_cons_1_1). }
  split.
  - by eapply suffix_cons_l.
  - intros e' He'. rewrite build_step_char_spans, decide_False by set_solver.
    apply Hunfilled. set_solver.
  - intros e' He'. destruct (decide (e' = e)) as [->|Hne].
    + destruct env. apply build_step_span_filled.
    + apply build_step_span_kept; [done|]. apply Hfilled. set_solver.
Qed.

(** ** Theorems *)

(** C14: inside the loop over the entities, whatever the record and the
    records before it, the invariant [build_inv] holds: the entities that
    remain have empty spans, and the span of an entity already visited is
    a range of [text] whose characters are the tokens of the entity and
    the space after them. *)
Theorem entity_loop_invariant set_type data p pending examples env es st :
  rtc (record_step set_type) (record_start data)
    (Inner p pending examples env es st) →
  build_inv env es st.
Proof.
  apply (inner_invariant _ _ _ build_inv); [|by apply build_inv_step|done].
  intros ?????. apply build_inv_enter.
Qed.

(** Between two records, [examples] holds exactly the examples of the
    records visited so far, and the records not yet visited are pending:
    the configurations [Outer pending examples] that the loops reach are
    those of the prefixes of [data] on which [create_examples] returns. *)
Theorem record_loop_examples set_type data pending examples :
  rtc (record_step set_type) (record_start data) (Outer pending examples) →
  ∃ k : nat, pending = drop k (enumerate data) ∧ length examples = k ∧
             create_examples set_type (take k data) = Ok examples.
Proof.
  intros (k & Hk & -> & Hex)%record_reachable. exists k. split_and!; [done| |done].
  apply create_examples_length in Hex. rewrite Hex. len.
Qed.

(** C13: [_create_examples] terminates, and when: the loops stop after
    exactly [record_steps data] steps (four for every record that lacks no
    key; the first record that lacks a key ends the execution, in one
    step when the key is read before the inner loop, in four when it is
    read after it), in the configuration that holds the outcome of the
    specification: the examples of the records in closed form, or
    [KeyError] for the first key that the first incomplete record lacks.
    No execution of the loops takes more steps. *)
Theorem record_loop_terminates set_type data :
  nsteps (record_step set_type) (record_steps data) (record_start data)
    (record_outcome (examples_spec set_type data)) ∧
  ∀ n c, nsteps (record_step set_type) n (record_start data) c →
         (n ≤ record_steps data)%nat.
Proof.
  unfold record_step, record_start, record_outcome.
  rewrite <-for_loop_record_spec, <-run_for_loop.
  rewrite <-(record_steps_nested set_type).
  split; [apply nested_run_exact|]. intros n c. apply nsteps_nested_le.
Qed.

(** The execution with fuel reaches that outcome as soon as the fuel is
    the number of steps; four units for each record are enough. *)
Lemma record_run_enough set_type fuel data :
  (record_steps data ≤ fuel)%nat →
  record_run set_type fuel data =
    record_outcome (examples_spec set_type data).
Proof.
  intros Hfuel. unfold record_run, record_start, record_outcome.
  rewrite <-for_loop_record_spec. apply nrun_enough.
  by rewrite record_steps_nested.
Qed.

Lemma record_steps_le data : (record_steps data ≤ 4 * length data)%nat.
Proof.
  induction data as [|item data IH]; simpl; [done|].
  repeat case_match; lia.
Qed.

(** C30: every record is reached: if the records up to position [k] lack
    no key, the loops reach a configuration between two records in which
    [examples[k]] is the example of the record at [k]. *)
Theorem record_loop_progress set_type data (k : nat) item :
  data !! k = Some item →
  Forall (λ item, missing_keys item = []) (take (S k) data) →
  ∃ pending examples example,
    rtc (record_step set_type) (record_start data) (Outer pending examples) ∧
    examples !! k = Some example ∧
    create_example set_type (Z.of_nat k) item = Ok example.
Proof.
  intros Hk [examples Hex]%(create_examples_is_Ok set_type).
  destruct (create_examples_lookup _ _ _ k item Hex) as (example & ? & ?);
    [by rewrite lookup_take_lt by lia|].
  exists (drop (S k) (enumerate data)), examples, example. split_and!; [|done..].
  apply record_reachable. exists (S k). split_and!; [|done..].
  apply lookup_lt_Some in Hk. lia.
Qed.

(** ** The loop of [get_label_list]

    The loop of lines 50-51 has no inner loop and does not raise: it is a
    loop of the file [Loops] over the examples of the training split. *)

(** Line 51. *)
Definition label_body (labels : gset str) (example : InputExample.t) :
    result exn (gset str) :=
  mret (labels ∪ {[InputExample.label example]}).

(** Lines 49-50. *)
Definition label_start (examples : list InputExample.t) :
    config (gset str) InputExample.t exn :=
  Running examples ∅.

Lemma for_loop_label_body examples :
  for_loop label_body examples ∅ = Ok (collect_labels examples).
Proof.
  by apply (for_loop_pure _
              (λ labels example, labels ∪ {[InputExample.label example]})).
Qed.

(** While the loop runs, [labels] is the set of the labels of the examples
    visited; it stops, after one step per example, with the set that
    [get_label_list] sorts. *)
Lemma label_loop_labels examples pending labels :
  rtc (step label_body) (label_start examples) (Running pending labels) →
  ∃ visited, examples = visited ++ pending ∧
             ∀ l, l ∈ labels ↔ l ∈ InputExample.label <$> visited.
Proof.
  intros (visited & -> & Hl)%rtc_step_Running. exists visited. split; [done|].
  rewrite for_loop_label_body in Hl. injection Hl as <-.
  apply elem_of_collect_labels.
Qed.

Lemma label_loop_terminates examples :
  nsteps (step label_body) (length examples) (label_start examples)
    (Running [] (collect_labels examples)).
Proof.
  pose proof (nsteps_run label_body examples ∅) as Hrun.
  rewrite run_for_loop, for_loop_label_body in Hrun.
  by rewrite (iterations_pure _
    (λ labels example, labels ∪ {[InputExample.label example]})) in Hrun.
Qed.

(** ** The theorems on the toy split *)

(** The configuration inside the first record of the toy split, after the
    subject has been visited. *)
Definition john_inner : record_config :=
  Inner (0, john_item) (drop 1 (enumerate toy_data)) []
    (john_tokens, token_spans 0 0 3 3) [obj]
    (build_step john_tokens (token_spans 0 0 3 3) build_init subj).

Lemma record_run_john_inner : record_run (pystr "train") 2 toy_data = john_inner.
Proof. reflexivity. Qed.

Lemma record_run_toy :
  record_run (pystr "train") 12 toy_data = Outer [] toy_examples.
Proof. by vm_compute. Qed.

Lemma entity_loop_invariant_witness :
  build_inv (john_tokens, token_spans 0 0 3 3) [obj]
    (build_step john_tokens (token_spans 0 0 3 3) build_init subj).
Proof.
  apply (entity_loop_invariant (pystr "train") toy_data (0, john_item)
           (drop 1 (enumerate toy_data)) []).
  change (rtc (record_step (pystr "train")) (record_start toy_data) john_inner).
  rewrite <-record_run_john_inner. apply nrun_rtc.
Defined.

Lemma record_loop_examples_witness :
  ∃ k : nat, [] = drop k (enumerate toy_data) ∧ length toy_examples = k ∧
             create_examples (pystr "train") (take k toy_data) = Ok toy_examples.
Proof.
  apply (record_loop_examples (pystr "train") toy_data [] toy_examples).
  rewrite <-record_run_toy. apply nrun_rtc.
Defined.

(** The toy split takes twelve steps.  A split whose second record lacks
    [obj_end] (and [obj_type]) stops in the fifth step, before the text
    of that record is built; when the record lacks only [relation], the
    eighth step raises. *)
Lemma record_steps_toy : record_steps toy_data = 12%nat.
Proof. reflexivity. Qed.

Lemma record_steps_broken :
  record_steps [john_item; broken_item; john_item] = 5%nat ∧
  examples_spec (pystr "train") [john_item; broken_item; john_item] =
    Err (KeyError (pystr "obj_end")).
Proof. by vm_compute. Qed.

Lemma record_steps_unlabelled :
  let item := {| token := Some john_tokens; subj_start := Some 0;
                 subj_end := Some 0; obj_start := Some 3; obj_end := Some 3;
                 subj_type := Some (pystr "PERSON");
                 obj_type := Some (pystr "CITY"); relation := None |} in
  record_steps [john_item; item; john_item] = 8%nat ∧
  record_run (pystr "train") 8 [john_item; item; john_item] =
    NRaised (KeyError (pystr "relation")).
Proof. by vm_compute. Qed.

Lemma record_loop_progress_witness :
  ∃ pending examples example,
    rtc (record_step (pystr "train")) (record_start toy_data)
      (Outer pending examples) ∧
    examples !! 1%nat = Some example ∧
    create_example (pystr "train") (Z.of_nat 1)
      (full_item pair_tokens 0 0 1 1 (pystr "PERSON") (pystr "PERSON")
         no_relation) = Ok example.
Proof.
  apply (record_loop_progress (pystr "train") toy_data 1); [reflexivity|].
  by repeat constructor.
Defined.
