(* ===== verification/ExampleStore.v ===== *)
(** * The example builder and the objects it shares

    [_create_examples]
    ([src/examples/relation_classification/utils.py], lines 55-88) keeps
    the character spans of a record in two lists, [char_spans['subj']] and
    [char_spans['obj']] (line 72), fills them by assignment (lines 78 and
    80) and hands the two lists themselves to [InputExample] (line 85): the
    fields [span_a] and [span_b] of an example are references to objects
    that can still be changed.  The files [Examples] and [Splits] model
    the spans by value; this file models them by reference, on the store
    of the file [Store], and relates the two:

    - [InputExampleRef.t] is an [InputExample] whose spans are references;
    - [new_char_spans] is line 72, [entity_body_ref] lines 74-81,
      [create_example_ref] lines 61-86 and [create_examples_ref] lines
      59-88, with the same statements in the same order as the source;
    - [read_example] reads an example out of a store, and [store_example]
      puts one into a store: they state what the builder computes.

    The theorems show that the builder by reference is the builder by
    value followed by the allocation of the spans; that the lists it
    allocates are new and pairwise distinct, because line 72 is inside the
    loop over the records; and hence that an assignment through a span of
    one example changes no other span and no object that was there
    before. *)

From stdpp Require Import strings functions.
From S2P Require Import Prelude PySeq PyStr Data Loops Store Examples Splits.
Import DatasetProcessor.

#[local] Open Scope Z_scope.

(** [InputExample] (lines 14-22), with the lists that [span_a] and
    [span_b] refer to kept in the store. *)
Module InputExampleRef.
Record t := mk {
  id : str;
  text : str;
  span_a : loc;
  span_b : loc;
  type_a : str;
  type_b : str;
  label : str;
}.
End InputExampleRef.

(** An element of a list of [char_spans]: [None] or an integer. *)
Notation slot := (option Z).

(** [char_spans = dict(subj=[None, None], obj=[None, None])] (line 72):
    two new lists; the dictionary is used in the iteration only and is
    the function from its keys to the lists. *)
Definition new_char_spans : prog slot (entity → loc) :=
  s ← new_list [None; None];
  o ← new_list [None; None];
  mret (λ e, match e with subj => s | obj => o end).

(** One iteration of [for target_entity in entity_order] (lines 74-81);
    the variables of the loop are [text] and [cur]. *)
Definition entity_body_ref (tokens : list str) (token_spans : entity → Z * Z)
    (char_spans : entity → loc) (st : str * Z) (target_entity : entity) :
    prog slot (str * Z) :=
  let token_span := token_spans target_entity in
  let text := st.1 ++ join [space] (slice tokens st.2 token_span.1) in
  let text := add_sep text in
  _ ← list_setitem (char_spans target_entity) 0 (Some (py_len text));
  let text :=
    text ++ (join [space] (slice tokens token_span.1 token_span.2) ++ [space]) in
  _ ← list_setitem (char_spans target_entity) 1 (Some (py_len text));
  mret (text, token_span.2).

(** The body of the loop over the records (lines 61-86). *)
Definition create_example_ref (set_type : str) (i : Z) (item : Item) :
    prog slot InputExampleRef.t :=
  tokens ← lift (getitem (pystr "token") (token item));
  subj_start ← lift (getitem (pystr "subj_start") (subj_start item));
  subj_end ← lift (getitem (pystr "subj_end") (subj_end item));
  obj_start ← lift (getitem (pystr "obj_start") (obj_start item));
  obj_end ← lift (getitem (pystr "obj_end") (obj_end item));
  let token_spans := token_spans subj_start subj_end obj_start obj_end in
  char_spans ← new_char_spans;
  st ← for_in (entity_body_ref tokens token_spans char_spans)
         (entity_order token_spans) ([], 0);
  let text := rstrip (st.1 ++ join [space] (slice_from tokens st.2)) in
  subj_type ← lift (getitem (pystr "subj_type") (subj_type item));
  obj_type ← lift (getitem (pystr "obj_type") (obj_type item));
  relation ← lift (getitem (pystr "relation") (relation item));
  mret (InputExampleRef.mk (set_type ++ pystr "-" ++ str_of_Z i) text
          (char_spans subj) (char_spans obj) subj_type obj_type relation).

(** The loop over the records (lines 59-60, 85-88). *)
Definition create_examples_ref (set_type : str) (data : list Item) :
    prog slot (list InputExampleRef.t) :=
  for_in (λ examples p,
            example ← create_example_ref set_type p.1 p.2;
            mret (examples ++ [example]))
         (enumerate data) [].

(** ** What the builder computes *)

(** The span that the list at [l] holds. *)
Definition read_span (σ : store slot) (l : loc) : option (Z * Z) :=
  match σ !! l with
  | Some [Some a; Some b] => Some (a, b)
  | _ => None
  end.

(** The example that [r] denotes in the store [σ]. *)
Definition read_example (σ : store slot) (r : InputExampleRef.t) :
    option InputExample.t :=
  a ← read_span σ (InputExampleRef.span_a r);
  b ← read_span σ (InputExampleRef.span_b r);
  Some (InputExample.mk (InputExampleRef.id r) (InputExampleRef.text r) a b
          (InputExampleRef.type_a r) (InputExampleRef.type_b r)
          (InputExampleRef.label r)).

(** The example [ex] with its spans in two new lists. *)
Definition store_example (ex : InputExample.t) : prog slot InputExampleRef.t :=
  let span_a := InputExample.span_a ex in
  let span_b := InputExample.span_b ex in
  a ← new_list [Some span_a.1; Some span_a.2];
  b ← new_list [Some span_b.1; Some span_b.2];
  mret (InputExampleRef.mk (InputExample.id ex) (InputExample.text ex) a b
          (InputExample.type_a ex) (InputExample.type_b ex)
          (InputExample.label ex)).

(** The lists that an example refers to. *)
Definition span_locs (r : InputExampleRef.t) : list loc :=
  [InputExampleRef.span_a r; InputExampleRef.span_b r].

(** The references that two allocations in the store [σ] return. *)
Definition span_refs (σ : store slot) (e : entity) : loc :=
  match e with
  | subj => fresh (dom σ)
  | obj => fresh ({[fresh (dom σ)]} ∪ dom σ)
  end.

(** The store in which the lists of [char_spans] hold the entries [f]. *)
Definition slots (p : option Z * option Z) : list slot := [p.1; p.2].
Definition spans_store (cs : entity → loc) (f : entity → option Z * option Z)
    (σ : store slot) : store slot :=
  <[cs obj := slots (f obj)]> (<[cs subj := slots (f subj)]> σ).

(** The example [ex] with the lists [cs] for spans, and the entries of the
    lists that hold its spans. *)
Definition ref_of (ex : InputExample.t) (cs : entity → loc) : InputExampleRef.t :=
  InputExampleRef.mk (InputExample.id ex) (InputExample.text ex) (cs subj)
    (cs obj) (InputExample.type_a ex) (InputExample.type_b ex)
    (InputExample.label ex).
Definition spans_of (ex : InputExample.t) (e : entity) : option Z * option Z :=
  let span :=
    match e with subj => InputExample.span_a ex | obj => InputExample.span_b ex end in
  (Some span.1, Some span.2).

(** What the builder has done to the store when it returns [refs] for the
    examples [exs] and has changed [σ] into [σ']: the objects of [σ] are
    as they were, the new objects are the lists of the examples, each
    example has two lists of its own, and the lists hold the spans. *)
Record allocated (σ σ' : store slot) (refs : list InputExampleRef.t)
    (exs : list InputExample.t) : Prop := {
  alloc_subseteq : σ ⊆ σ';
  alloc_dom : dom σ' = dom σ ∪ list_to_set (refs ≫= span_locs);
  alloc_fresh : Forall (λ l, σ !! l = None) (refs ≫= span_locs);
  alloc_NoDup : NoDup (refs ≫= span_locs);
  alloc_read : Forall2 (λ r ex, read_example σ' r = Some ex) refs exs;
}.

Section with_files.
Context `{Files}.

(** [_create_examples] (lines 55-88). *)
Definition _create_examples_ref (data_dir set_type : str) :
    prog slot (list InputExampleRef.t) :=
  data ← lift (open_json (os_path_join data_dir (set_type ++ pystr ".json")));
  create_examples_ref set_type data.

End with_files.

(** The references and the store that the builder returns for the
    training split of [toy_files], from the empty store. *)
Definition toy_refs : list InputExampleRef.t :=
  [InputExampleRef.mk (pystr "train-0") (pystr "John lives in Paris")
     1%positive 2%positive (pystr "PERSON") (pystr "CITY") (pystr "lives_in");
   InputExampleRef.mk (pystr "train-1") (pystr "Marie  Curie")
     3%positive 4%positive (pystr "PERSON") (pystr "PERSON") no_relation;
   InputExampleRef.mk (pystr "train-2") (pystr "John lives in Paris")
     5%positive 6%positive (pystr "CITY") (pystr "PERSON")
     (pystr "has_resident")].
Definition toy_store : store slot :=
  list_to_map
    [(1%positive, [Some 0; Some 5]); (2%positive, [Some 14; Some 20]);
     (3%positive, [Some 0; Some 6]); (4%positive, [Some 7; Some 13]);
     (5%positive, [Some 14; Some 20]); (6%positive, [Some 0; Some 5])].

(** ** The lists of one record *)

Section spans.
Context (cs : entity → loc) (Hcs : cs subj ≠ cs obj).
Implicit Types (f : entity → option Z * option Z) (σ : store slot).

Lemma spans_store_lookup f σ e : spans_store cs f σ !! cs e = Some (slots (f e)).
Proof.
  unfold spans_store. destruct e.
  - by rewrite lookup_insert_ne, lookup_insert_eq.
  - by rewrite lookup_insert_eq.
Qed.

Lemma spans_store_other f σ l :
  l ≠ cs subj → l ≠ cs obj → spans_store cs f σ !! l = σ !! l.
Proof. intros. unfold spans_store. by rewrite !lookup_insert_ne. Qed.

Lemma spans_store_insert f σ e p :
  <[cs e := slots p]> (spans_store cs f σ) = spans_store cs (<[e := p]> f) σ.
Proof.
  unfold spans_store. destruct e.
  - rewrite fn_lookup_insert, fn_lookup_insert_ne by done.
    by rewrite insert_insert_ne, insert_insert_eq.
  - rewrite fn_lookup_insert, fn_lookup_insert_ne by done.
    by rewrite insert_insert_eq.
Qed.

(** The two assignments of the loop body, on the lists of [char_spans]. *)
Lemma list_setitem_start f σ e v :
  list_setitem (cs e) 0 (Some v) (spans_store cs f σ) =
    Ok ((), spans_store cs (set_start f e v) σ).
Proof.
  rewrite (list_setitem_Ok _ 0 _ (slots (f e)));
    [|apply spans_store_lookup|simpl; lia].
  unfold set_start. by rewrite <-spans_store_insert.
Qed.

Lemma list_setitem_end f σ e v :
  list_setitem (cs e) 1 (Some v) (spans_store cs f σ) =
    Ok ((), spans_store cs (set_end f e v) σ).
Proof.
  rewrite (list_setitem_Ok _ 1 _ (slots (f e)));
    [|apply spans_store_lookup|simpl; lia].
  unfold set_end. by rewrite <-spans_store_insert.
Qed.

(** One iteration by reference is one iteration by value: the lists hold
    the entries of [char_spans] before and after it. *)
Lemma entity_body_ref_step tokens ts (st : build_state) e σ :
  let st' := build_step tokens ts st e in
  entity_body_ref tokens ts cs (text st, cur st) e
      (spans_store cs (char_spans st) σ) =
    Ok ((text st', cur st'), spans_store cs (char_spans st') σ).
Proof.
  unfold entity_body_ref, mbind, prog_bind. cbn [fst snd].
  by rewrite list_setitem_start, list_setitem_end.
Qed.

Lemma entity_loop_ref tokens ts es (st : build_state) σ :
  let st' := foldl (build_step tokens ts) st es in
  for_in (entity_body_ref tokens ts cs) es (text st, cur st)
      (spans_store cs (char_spans st) σ) =
    Ok ((text st', cur st'), spans_store cs (char_spans st') σ).
Proof.
  revert st. induction es as [|e es IH]; intros st; [done|].
  rewrite for_in_cons. unfold mbind, prog_bind.
  rewrite entity_body_ref_step. apply IH.
Qed.

End spans.

(** ** Allocation *)

Section alloc.
Implicit Types (σ : store slot) (f : entity → option Z * option Z).

Lemma span_refs_ne σ : span_refs σ subj ≠ span_refs σ obj.
Proof.
  unfold span_refs. intros Heq.
  pose proof (is_fresh ({[fresh (dom σ)]} ∪ dom σ)) as Hf. set_solver.
Qed.

Lemma span_refs_fresh σ e : σ !! span_refs σ e = None.
Proof.
  apply not_elem_of_dom. destruct e; simpl; [apply is_fresh|].
  pose proof (is_fresh ({[fresh (dom σ)]} ∪ dom σ)). set_solver.
Qed.

(** Two allocations one after the other. *)
Lemma new_list_twice {A} (k : loc → loc → A) vs ws σ :
  (s ← new_list vs; o ← new_list ws; mret (k s o)) σ =
    Ok (k (span_refs σ subj) (span_refs σ obj),
        <[span_refs σ obj := ws]> (<[span_refs σ subj := vs]> σ)).
Proof.
  unfold new_list, mbind, prog_bind, mret, prog_ret. cbn [span_refs].
  by rewrite dom_insert_L.
Qed.

Lemma new_char_spans_run σ :
  new_char_spans σ =
    Ok (span_refs σ, spans_store (span_refs σ) (char_spans build_init) σ).
Proof. apply (new_list_twice (λ s o e, match e with subj => s | obj => o end)). Qed.

Lemma store_example_run ex σ :
  store_example ex σ =
    Ok (ref_of ex (span_refs σ), spans_store (span_refs σ) (spans_of ex) σ).
Proof.
  apply (new_list_twice (λ a b, InputExampleRef.mk _ _ a b _ _ _)).
Qed.

Lemma spans_store_subseteq σ f : σ ⊆ spans_store (span_refs σ) f σ.
Proof.
  unfold spans_store. etrans; [|apply insert_subseteq].
  - apply insert_subseteq, span_refs_fresh.
  - rewrite lookup_insert_ne by apply span_refs_ne. apply span_refs_fresh.
Qed.

End alloc.

(** ** One record *)

(** The inner loop by reference, on the lists that line 72 allocates. *)
Lemma build_loop_ref tokens ts σ :
  for_in (entity_body_ref tokens ts (span_refs σ)) (entity_order ts) ([], 0)
      (spans_store (span_refs σ) (char_spans build_init) σ) =
    Ok ((text (build_loop tokens ts), cur (build_loop tokens ts)),
        spans_store (span_refs σ) (char_spans (build_loop tokens ts)) σ).
Proof.
  apply (entity_loop_ref _ (span_refs_ne σ) tokens ts (entity_order ts)
           build_init σ).
Qed.

(** When the inner loop ends, no entry of the lists is [None]. *)
Lemma slots_build_loop tokens ts e :
  slots (char_spans (build_loop tokens ts) e) =
    slots (Some (span_of (char_spans (build_loop tokens ts) e)).1,
           Some (span_of (char_spans (build_loop tokens ts) e)).2).
Proof. by rewrite build_loop_char_spans. Qed.

Lemma create_example_ref_lift set_type i item :
  create_example_ref set_type i item ≡
    (ex ← lift (create_example set_type i item); store_example ex).
Proof.
  intros σ. unfold create_example_ref, create_example, getitem.
  destruct item as [tok ss se os oe sty oty rel].
  cbn [token subj_start subj_end obj_start obj_end subj_type obj_type relation].
  destruct tok as [tokens|]; [|done]. destruct ss as [ss|]; [|done].
  destruct se as [se|]; [|done]. destruct os as [os|]; [|done].
  destruct oe as [oe|]; [|done].
  unfold mbind, prog_bind, result_bind, lift. cbn [of_option].
  rewrite new_char_spans_run, build_loop_ref.
  destruct sty as [st|]; [|done]. destruct oty as [ot|]; [|done].
  destruct rel as [rel|]; [|done].
  cbn [of_option mret prog_ret result_ret fst snd].
  rewrite store_example_run. unfold ref_of, spans_store, spans_of, raw_text.
  cbn [InputExample.id InputExample.text InputExample.span_a
       InputExample.span_b InputExample.type_a InputExample.type_b
       InputExample.label].
  by rewrite !slots_build_loop.
Qed.

(** ** Reading examples *)

Section read.
Implicit Types (σ : store slot) (r : InputExampleRef.t) (ex : InputExample.t).

Lemma read_span_subseteq σ σ' l s :
  σ ⊆ σ' → read_span σ l = Some s → read_span σ' l = Some s.
Proof.
  unfold read_span. intros Hsub.
  destruct (σ !! l) as [vs|] eqn:Hl; [|done].
  by rewrite (lookup_weaken _ _ _ _ Hl Hsub).
Qed.

Lemma read_example_subseteq σ σ' r ex :
  σ ⊆ σ' → read_example σ r = Some ex → read_example σ' r = Some ex.
Proof.
  unfold read_example. intros Hsub Hr.
  destruct (read_span σ (InputExampleRef.span_a r)) as [a|] eqn:Ha; [|done].
  destruct (read_span σ (InputExampleRef.span_b r)) as [b|] eqn:Hb; [|done].
  by rewrite (read_span_subseteq _ _ _ _ Hsub Ha),
    (read_span_subseteq _ _ _ _ Hsub Hb).
Qed.

(** The example depends on its two lists only. *)
Lemma read_example_ext σ σ' r :
  Forall (λ l, σ' !! l = σ !! l) (span_locs r) →
  read_example σ' r = read_example σ r.
Proof.
  intros [Ha [Hb _]%Forall_cons]%Forall_cons.
  unfold read_example, read_span. by rewrite Ha, Hb.
Qed.

Lemma read_store_example σ ex :
  read_example (spans_store (span_refs σ) (spans_of ex) σ)
    (ref_of ex (span_refs σ)) = Some ex.
Proof.
  pose proof (span_refs_ne σ). unfold read_example, read_span, ref_of.
  cbn [InputExampleRef.span_a InputExampleRef.span_b].
  rewrite !spans_store_lookup by done. by destruct ex as [?? [] [] ???].
Qed.

End read.

(** ** All records *)

Section allocated.
Implicit Types (σ : store slot) (refs : list InputExampleRef.t).
Implicit Types (exs : list InputExample.t).

Lemma allocated_nil σ : allocated σ σ [] [].
Proof. split; [done|set_solver|constructor..]. Qed.

Lemma store_example_allocated ex σ :
  allocated σ (spans_store (span_refs σ) (spans_of ex) σ)
    [ref_of ex (span_refs σ)] [ex].
Proof.
  pose proof (span_refs_ne σ).
  split; cbn [mbind list_bind span_locs ref_of app
              InputExampleRef.span_a InputExampleRef.span_b].
  - apply spans_store_subseteq.
  - unfold spans_store. rewrite !dom_insert_L. set_solver.
  - repeat constructor; apply span_refs_fresh.
  - apply NoDup_cons. split; [set_solver|apply NoDup_singleton].
  - constructor; [apply read_store_example|constructor].
Qed.

(** Two runs of the builder one after the other. *)
Lemma allocated_app σ σ1 σ2 refs1 refs2 exs1 exs2 :
  allocated σ σ1 refs1 exs1 → allocated σ1 σ2 refs2 exs2 →
  allocated σ σ2 (refs1 ++ refs2) (exs1 ++ exs2).
Proof.
  intros [Hsub1 Hdom1 Hfresh1 Hnd1 Hread1] [Hsub2 Hdom2 Hfresh2 Hnd2 Hread2].
  rewrite Forall_forall in Hfresh1, Hfresh2.
  split; rewrite ?bind_app.
  - by etrans.
  - rewrite Hdom2, Hdom1. set_solver.
  - apply Forall_app. split; apply Forall_forall; [done|].
    intros l Hl%Hfresh2. by eapply lookup_weaken_None.
  - apply NoDup_app. split_and!; [done| |done].
    intros l Hl1 Hl2%Hfresh2%not_elem_of_dom. apply Hl2.
    rewrite Hdom1. set_solver.
  - apply Forall2_app; [|done].
    eapply Forall2_impl; [done|]. intros r ex. by apply read_example_subseteq.
Qed.

Lemma store_examples_allocated exs σ refs σ' :
  mapM store_example exs σ = Ok (refs, σ') → allocated σ σ' refs exs.
Proof.
  revert σ refs. induction exs as [|ex exs IH]; intros σ refs.
  { intros [= <- <-]. apply allocated_nil. }
  cbn [mapM]. rewrite prog_bind_unfold, store_example_run, prog_bind_unfold.
  destruct (mapM store_example exs _) as [[refs' σ'']|] eqn:Hexs; [|done].
  intros [= <- <-].
  eapply (allocated_app _ _ _ [_] _ [_]); [apply store_example_allocated|].
  by apply IH.
Qed.

Lemma store_examples_returns exs σ : returns (mapM store_example exs) σ.
Proof.
  revert σ. induction exs as [|ex exs IH]; intros σ; [by eexists _, _|].
  unfold returns. cbn [mapM].
  rewrite prog_bind_unfold, store_example_run, prog_bind_unfold.
  destruct (IH (spans_store (span_refs σ) (spans_of ex) σ)) as (? & ? & ->).
  by eexists _, _.
Qed.

End allocated.

(** ** The builder by reference and the builder by value *)

Lemma store_example_returns ex σ : returns (store_example ex) σ.
Proof. unfold returns. rewrite store_example_run. eauto. Qed.

Lemma create_examples_ref_lift set_type data :
  create_examples_ref set_type data ≡
    (exs ← lift (create_examples set_type data); mapM store_example exs).
Proof.
  unfold create_examples_ref.
  rewrite (for_in_mapM (λ p, create_example_ref set_type p.1 p.2)) by done.
  rewrite (mapM_lift_bind (create_example_at set_type) store_example);
    [|intros; apply create_example_ref_lift|apply store_example_returns].
  rewrite <-create_examples_eq. apply prog_bind_ret_r.
Qed.

(** The outcome of the builder by reference, from the outcome of the
    builder by value. *)
Lemma create_examples_ref_Ok set_type data σ refs σ' :
  create_examples_ref set_type data σ = Ok (refs, σ') ↔
  ∃ exs, create_examples set_type data = Ok exs ∧
         mapM store_example exs σ = Ok (refs, σ').
Proof.
  rewrite create_examples_ref_lift, prog_bind_unfold. unfold lift.
  destruct (create_examples set_type data) as [exs|e]; naive_solver.
Qed.

Lemma create_examples_ref_Err set_type data σ f :
  create_examples_ref set_type data σ = Err f ↔
  ∃ e, f = Raises e ∧ create_examples set_type data = Err e.
Proof.
  rewrite create_examples_ref_lift, prog_bind_unfold. unfold lift.
  destruct (create_examples set_type data) as [exs|e]; [|naive_solver].
  split; [|by intros (? & _ & ?)].
  destruct (store_examples_returns exs σ) as (refs & σ' & ->). done.
Qed.

(** ** Theorems *)

Section theorems.
Context (set_type : str) (data : list Item).
Implicit Types (σ : store slot) (refs : list InputExampleRef.t).

(** C21: the method [_create_examples] with the spans kept in lists of the
    store is the method with the spans kept by value, followed by the
    allocation of two new lists per example that hold its spans: the two
    have the same outcome in every store, exceptions included. *)
Theorem create_examples_ref_by_value `{Files} data_dir :
  _create_examples_ref data_dir set_type ≡
    (exs ← lift (_create_examples data_dir set_type); mapM store_example exs).
Proof.
  unfold _create_examples_ref, _create_examples.
  setoid_rewrite create_examples_ref_lift.
  by rewrite lift_bind, prog_bind_assoc.
Qed.

(** C17: when the loop of [_create_examples] returns, the examples read
    out of the store through the references it returns are the examples
    of the builder by value; when it stops otherwise, it has raised the
    exception of the builder by value: it never uses a reference to no
    object and never raises [IndexError]. *)
Theorem create_examples_ref_refines σ :
  match create_examples_ref set_type data σ with
  | Ok (refs, σ') =>
      ∃ exs, create_examples set_type data = Ok exs ∧
             mapM (read_example σ') refs = Some exs
  | Err f => ∃ e, f = Raises e ∧ create_examples set_type data = Err e
  end.
Proof.
  destruct (create_examples_ref _ _ _) as [[refs σ']|f] eqn:Hrun.
  - apply create_examples_ref_Ok in Hrun as (exs & Hexs & Hst).
    exists exs. split; [done|].
    apply mapM_Some, (alloc_read σ), store_examples_allocated, Hst.
  - by apply create_examples_ref_Err in Hrun.
Qed.

(** C18: the lists that the examples of a split refer to are new objects,
    two per example and no two the same, and nothing else changes in the
    store: the objects that were there are as they were and the new
    objects are these lists.  Line 72 allocates inside the loop over the
    records. *)
Theorem create_examples_ref_separate σ refs σ' :
  create_examples_ref set_type data σ = Ok (refs, σ') →
  σ ⊆ σ' ∧ NoDup (refs ≫= span_locs) ∧
  Forall (λ l, σ !! l = None) (refs ≫= span_locs) ∧
  dom σ' = dom σ ∪ list_to_set (refs ≫= span_locs).
Proof.
  intros (exs & _ & [????]%store_examples_allocated)%create_examples_ref_Ok.
  done.
Qed.

(** C22: the examples of a split are independent objects: an assignment
    to an entry of a span of one example, after the builder has returned,
    changes no other example and no object that was in the store before
    the builder ran. *)
Theorem create_examples_ref_independent σ refs σ' (i : nat) r l k v σ'' :
  create_examples_ref set_type data σ = Ok (refs, σ') →
  refs !! i = Some r → l ∈ span_locs r →
  list_setitem l k v σ' = Ok ((), σ'') →
  (∀ (j : nat) r', j ≠ i → refs !! j = Some r' →
     read_example σ'' r' = read_example σ' r') ∧
  (∀ l', is_Some (σ !! l') → σ'' !! l' = σ !! l').
Proof.
  intros (exs & _ & [Hsub _ Hfresh Hnd _]%store_examples_allocated)%
    create_examples_ref_Ok Hi Hl Hset.
  pose proof (λ l', list_setitem_other _ _ _ _ _ l' Hset) as Hother. split.
  - intros j r' Hij Hj. apply read_example_ext, Forall_forall.
    intros l' Hl'. apply Hother. intros ->.
    by apply (NoDup_bind_lookup span_locs refs i j r r' l).
  - intros l' [vs Hl']. rewrite Hother, (lookup_weaken _ _ _ _ Hl' Hsub); [done|].
    intros ->. rewrite Forall_forall in Hfresh.
    rewrite Hfresh in Hl'; [done|]. apply list_elem_of_bind.
    eauto using list_elem_of_lookup_2.
Qed.

End theorems.

Lemma create_examples_ref_toy :
  create_examples_ref (pystr "train") toy_data ∅ = Ok (toy_refs, toy_store).
Proof. by vm_compute. Qed.

Lemma create_examples_ref_separate_witness :
  ∅ ⊆ toy_store ∧ NoDup (toy_refs ≫= span_locs) ∧
  Forall (λ l, (∅ : store slot) !! l = None) (toy_refs ≫= span_locs) ∧
  dom toy_store = dom (∅ : store slot) ∪ list_to_set (toy_refs ≫= span_locs).
Proof.
  apply (create_examples_ref_separate (pystr "train") toy_data).
  by vm_compute.
Defined.

Lemma create_examples_ref_independent_witness :
  (∀ (j : nat) r', j ≠ 0%nat → toy_refs !! j = Some r' →
     read_example (<[1%positive := [Some 99; Some 5]]> toy_store) r' =
       read_example toy_store r') ∧
  (∀ l', is_Some ((∅ : store slot) !! l') →
     <[1%positive := [Some 99; Some 5]]> toy_store !! l' = (∅ : store slot) !! l').
Proof.
  apply (create_examples_ref_independent (pystr "train") toy_data ∅ toy_refs
           toy_store 0 (InputExampleRef.mk (pystr "train-0")
             (pystr "John lives in Paris") 1%positive 2%positive (pystr "PERSON")
             (pystr "CITY") (pystr "lives_in")) 1%positive 0 (Some 99));
    [by vm_compute|done|by left|by vm_compute].
Defined.
