(* ===== verification/Tokenizer.v ===== *)
(** * The tokenizer

    [convert_examples_to_features]
    ([src/examples/relation_classification/utils.py], lines 91-158) receives
    a subword tokenizer of the [transformers] library and uses five of its
    attributes.  The library is not part of the repository: the class
    [Tokenizer] states what the encoder calls, the class [TokenizerLaws]
    what it relies on, and the theorems on the encoder are proved for every
    instance.  The class [WordTokenizer] describes the tokenizers that cut
    the text at whitespace and then cut every word into pieces on its own,
    as the subword tokenizers of the library do after their
    pre-tokenization; the theorems on the two stages together are proved
    for its instances.  Three small instances serve as concrete inputs: a
    whitespace tokenizer, a variant that behaves like a
    [RobertaTokenizer], and a tokenizer that makes one token of every
    character.

    The classes leave two things out.  The methods are total functions:
    a tokenizer that raises or that keeps state between calls is no
    instance.  And [WordTokenizer] asks that the tokens do not depend on
    the whitespace between the words: the byte-level tokenizer behind
    [RobertaTokenizer] keeps a space in the token after it, so where the
    text has two spaces in a row, as between adjacent entities, it has a
    token for the second one and is no [WordTokenizer]; the theorems
    stated for every [Tokenizer] are the ones that apply to it. *)

From stdpp Require Import strings.
From S2P Require Import Prelude PySeq PyStr.

#[local] Open Scope Z_scope.

(** ** The interface *)

Class Tokenizer := {
  (** [isinstance(tokenizer, RobertaTokenizer)] *)
  is_roberta : bool;
  (** [tokenizer.tokenize(text)] *)
  tokenizer_tokenize : str → list str;
  (** [tokenizer.tokenize(text, add_prefix_space=True)] *)
  tokenizer_tokenize_prefix_space : str → list str;
  (** [tokenizer.cls_token] and [tokenizer.sep_token] *)
  cls_token : str;
  sep_token : str;
  (** [tokenizer.convert_tokens_to_ids(tokens)] *)
  convert_tokens_to_ids : list str → list Z;
}.

(** [convert_tokens_to_ids] maps a list of tokens to the list of their ids,
    one id per token. *)
Class TokenizerLaws (T : Tokenizer) := {
  length_convert_tokens_to_ids tokens :
    length (convert_tokens_to_ids tokens) = length tokens;
}.

#[export] Hint Rewrite @length_convert_tokens_to_ids using apply _ : len.

(** ** A whitespace tokenizer *)

(** [text.split()]: the maximal runs of characters that are not
    whitespace.  [word] is the run being read. *)
Fixpoint split_from (word : str) (text : str) : list str :=
  match text with
  | [] => if decide (word = []) then [] else [word]
  | c :: text =>
      if isspace c
      then (if decide (word = []) then [] else [word]) ++ split_from [] text
      else split_from (word ++ [c]) text
  end.

Definition split (text : str) : list str := split_from [] text.

(** A tokenizer that works word by word: the tokens of a text are the
    [pieces] of its words, in order.  The call is the one that the inner
    function [tokenize] of the encoder makes (lines 97-101). *)
Class WordTokenizer (T : Tokenizer) := {
  pieces : str → list str;
  tokenize_pieces text :
    (if is_roberta then tokenizer_tokenize_prefix_space text
     else tokenizer_tokenize text) = split text ≫= pieces;
}.

(** The id of a token in a vocabulary: its position, or the position after
    the last for an unknown token. *)
Definition vocab_id (vocab : list str) (token : str) : Z :=
  default (py_len vocab) (Z.of_nat <$> list_find (token =.) vocab ≫= Some ∘ fst).

Definition toy_vocab : list str :=
  pystr <$> ["[CLS]"; "[SEP]"; "[HEAD]"; "[TAIL]"; "John"; "lives"; "in";
             "Paris"; "Marie"; "Curie"].

(** A tokenizer that splits on whitespace. *)
Definition ws_tokenizer : Tokenizer := {|
  is_roberta := false;
  tokenizer_tokenize := split;
  tokenizer_tokenize_prefix_space := split;
  cls_token := pystr "[CLS]";
  sep_token := pystr "[SEP]";
  convert_tokens_to_ids := fmap (vocab_id toy_vocab);
|}.

(** A tokenizer for which [isinstance(tokenizer, RobertaTokenizer)] holds:
    with [add_prefix_space=True] every word starts with the letter [G] that
    stands for the space before it; without, the first word does not. *)
Definition prefix_space (tokens : list str) : list str :=
  (λ t, 71%N :: t) <$> tokens.

Definition roberta_tokenizer : Tokenizer := {|
  is_roberta := true;
  tokenizer_tokenize text :=
    match split text with [] => [] | t :: ts => t :: prefix_space ts end;
  tokenizer_tokenize_prefix_space text := prefix_space (split text);
  cls_token := pystr "<s>";
  sep_token := pystr "</s>";
  convert_tokens_to_ids := fmap (vocab_id toy_vocab);
|}.

(** A tokenizer that makes one token of every character of a word. *)
Definition chars (word : str) : list str := (λ c, [c]) <$> word.

Definition char_tokenizer : Tokenizer := {|
  is_roberta := false;
  tokenizer_tokenize text := split text ≫= chars;
  tokenizer_tokenize_prefix_space text := split text ≫= chars;
  cls_token := pystr "[CLS]";
  sep_token := pystr "[SEP]";
  convert_tokens_to_ids := fmap (vocab_id toy_vocab);
|}.

(** ** Lemmas *)

#[export] Instance ws_tokenizer_laws : TokenizerLaws ws_tokenizer.
Proof. split. intros tokens. apply length_fmap. Qed.

#[export] Instance roberta_tokenizer_laws : TokenizerLaws roberta_tokenizer.
Proof. split. intros tokens. apply length_fmap. Qed.

#[export] Instance char_tokenizer_laws : TokenizerLaws char_tokenizer.
Proof. split. intros tokens. apply length_fmap. Qed.

Lemma bind_singleton_fmap {A B} (f : A → B) (l : list A) :
  l ≫= (λ x, [f x]) = f <$> l.
Proof. induction l as [|x l IH]; [done|]. by rewrite bind_cons, IH. Qed.

Lemma ws_tokenize_pieces text : split text = split text ≫= λ w, [w].
Proof. by rewrite bind_singleton_fmap, list_fmap_id. Qed.

Lemma roberta_tokenize_pieces text :
  prefix_space (split text) = split text ≫= λ w, [71%N :: w].
Proof. by rewrite bind_singleton_fmap. Qed.

#[export] Instance ws_tokenizer_words : WordTokenizer ws_tokenizer :=
  Build_WordTokenizer ws_tokenizer (λ w, [w]) ws_tokenize_pieces.

#[export] Instance roberta_tokenizer_words : WordTokenizer roberta_tokenizer :=
  Build_WordTokenizer roberta_tokenizer (λ w, [71%N :: w])
    roberta_tokenize_pieces.

#[export] Instance char_tokenizer_words : WordTokenizer char_tokenizer :=
  Build_WordTokenizer char_tokenizer chars (λ text, eq_refl).

Lemma split_from_nonempty word text : Forall (λ t, t ≠ []) (split_from word text).
Proof.
  revert word. induction text as [|c text IH]; intros word; simpl.
  - case_decide; by repeat constructor.
  - destruct (isspace c); [|done].
    apply Forall_app. split; [case_decide; by repeat constructor|done].
Qed.

(** No token of the whitespace tokenizer is empty or holds whitespace. *)
Lemma split_nonempty text : Forall (λ t, t ≠ []) (split text).
Proof. apply split_from_nonempty. Qed.

Lemma split_from_no_space word text :
  Forall (λ c, isspace c = false) word →
  Forall (Forall (λ c, isspace c = false)) (split_from word text).
Proof.
  revert word. induction text as [|c text IH]; intros word Hword; simpl.
  - case_decide; by repeat constructor.
  - destruct (isspace c) eqn:Hc.
    + apply Forall_app. split; [case_decide; by repeat constructor|].
      by apply IH.
    + apply IH, Forall_app. by repeat constructor.
Qed.

Lemma split_no_space text : Forall (Forall (λ c, isspace c = false)) (split text).
Proof. by apply split_from_no_space. Qed.

(** Whitespace at the end of a text does not change its tokens. *)
Lemma split_from_app_spaces word text w :
  Forall (λ c, isspace c = true) w →
  split_from word (text ++ w) = split_from word text.
Proof.
  intros Hw. revert word. induction text as [|c text IH]; intros word; simpl.
  - revert word. induction Hw as [|c w Hc _ IH]; intros word; [done|].
    simpl. rewrite Hc, IH. simpl. by rewrite app_nil_r.
  - by rewrite !IH.
Qed.

Lemma split_app_spaces text w :
  Forall (λ c, isspace c = true) w → split (text ++ w) = split text.
Proof. apply split_from_app_spaces. Qed.

Lemma split_rstrip text : split (rstrip text) = split text.
Proof.
  destruct (rstrip_decompose text) as (w & Htext & Hw).
  rewrite Htext at 2. by rewrite split_app_spaces.
Qed.

(** A word: a string that is not empty and holds no whitespace. *)
Definition word (t : str) : Prop := t ≠ [] ∧ Forall (λ c, isspace c = false) t.

#[export] Instance word_dec t : Decision (word t).
Proof. unfold word. apply _. Defined.

Lemma split_from_app_word w t text :
  Forall (λ c, isspace c = false) t →
  split_from w (t ++ text) = split_from (w ++ t) text.
Proof.
  intros Ht. revert w. induction Ht as [|c t Hc _ IH]; intros w; simpl.
  - by rewrite app_nil_r.
  - by rewrite Hc, IH, <-(assoc_L (++)).
Qed.

(** Splitting words joined by spaces gives the words back. *)
Lemma split_join (ts : list str) : Forall word ts → split (join [space] ts) = ts.
Proof.
  unfold split. induction 1 as [|t ts [Hne Ht] Hts IH]; [done|].
  destruct ts as [|t' ts].
  - simpl. rewrite <-(app_nil_r t) at 1. rewrite split_from_app_word by done.
    simpl. by rewrite decide_False.
  - rewrite join_cons, split_from_app_word by done. cbn [app split_from].
    rewrite isspace_space, decide_False by done. cbn [app]. by rewrite IH.
Qed.

Lemma word_ends_nonspace t : word t → ends_nonspace t.
Proof.
  intros [Hne Ht]. destruct (last t) as [c|] eqn:Hl.
  - apply ends_nonspace_last. exists c. split; [done|].
    apply last_Some in Hl as [t' ->]. by apply Forall_app in Ht as [_ [? _]%Forall_cons].
  - by apply last_None in Hl.
Qed.
