(* ===== verification/Features.v ===== *)
(** * The feature encoder: [convert_examples_to_features]

    Module [Encoder] models the function of that name in
    [src/examples/relation_classification/utils.py] (lines 91-158).

    - The body of [for example in tqdm(examples)] is [convert_example]; the
      loop itself is [convert_examples_to_features].
    - The inner [for span_name in span_order] loop (lines 113-123) is a fold
      of [encode_step] over an [encode_state] that holds the loop's
      variables [tokens], [cur] and [token_spans].
    - The dictionaries [label_map], [type_map] and [token_spans] are finite
      maps; a lookup of an absent key raises [KeyError].
    - The flags [use_entity_type_token] and [use_marker_token] are booleans.
    - [encoded_tokens] and [encoded_span] are the specification of the
      token sequence and of the token ranges of the entities, in closed
      form. *)

From stdpp Require Import strings.
From S2P Require Import Prelude PySeq PyStr Data Tokenizer.

#[local] Open Scope Z_scope.

Module Encoder.

(** The names of the two span attributes of an example. *)
Inductive span_name := span_a | span_b.

#[export] Instance span_name_eq_dec : EqDecision span_name.
Proof. solve_decision. Defined.

#[export] Instance span_name_countable : Countable span_name.
Proof.
  refine (inj_countable' (λ n, if n is span_a then true else false)
            (λ b : bool, if b then span_a else span_b) _); by intros [].
Defined.

Definition span_name_str (n : span_name) : str :=
  match n with span_a => pystr "span_a" | span_b => pystr "span_b" end.

(** [getattr(example, span_name)] (line 114). *)
Definition getattr (example : InputExample.t) (n : span_name) : Z * Z :=
  match n with
  | span_a => InputExample.span_a example
  | span_b => InputExample.span_b example
  end.

(** [label_map] (line 93): a label that occurs twice keeps its last
    position. *)
Definition label_map (label_list : list str) : gmap str Z :=
  foldl (λ m '(i, l), <[l := i]> m) ∅ (enumerate label_list).

(** [type_map] (line 95). *)
Definition type_map : gmap str Z :=
  foldl (λ m '(i, t), <[t := i + 1]> m) ∅ (enumerate ENTITY_TYPES).

(** [span_order] (lines 105-108): the span that ends first comes first;
    when both end at the same character, [span_b] does. *)
Definition span_order (example : InputExample.t) : list span_name :=
  if decide ((InputExample.span_a example).2 < (InputExample.span_b example).2)
  then [span_a; span_b] else [span_b; span_a].

(** [HEAD_TOKEN if span_name == 'span_a' else TAIL_TOKEN] (lines 118, 121). *)
Definition marker (n : span_name) : str :=
  if decide (n = span_a) then HEAD_TOKEN else TAIL_TOKEN.

(** The variables of the inner loop. *)
Record encode_state := {
  tokens : list str;
  cur : Z;
  token_spans : gmap span_name (Z * Z);
}.

(** [position_ids] (lines 140-141) for a token range and
    [max_mention_length]. *)
Definition position_ids (max_mention_length : Z) (span : Z * Z) : list Z :=
  slice_to (py_range span.1 span.2) max_mention_length ++
  py_repeat (-1) (max_mention_length - span.2 + span.1).

(** [entity_position_ids] (lines 137-142). *)
Definition entity_position_ids (max_mention_length : Z)
    (token_spans : gmap span_name (Z * Z)) : result exn (list (list Z)) :=
  mapM (λ n, span ← getitem (span_name_str n) (token_spans !! n);
             mret (position_ids max_mention_length span))
       [span_a; span_b].

(** [entity_ids] (lines 132-135). *)
Definition entity_ids (use_entity_type_token : bool)
    (example : InputExample.t) : result exn (list Z) :=
  if use_entity_type_token then
    a ← getitem (InputExample.type_a example)
          (type_map !! InputExample.type_a example);
    b ← getitem (InputExample.type_b example)
          (type_map !! InputExample.type_b example);
    mret [a; b]
  else mret [1; 1].

(** [tqdm(examples)] (line 104): the elements of its argument, in their
    order; the progress bar that it draws is not modelled. *)
Definition tqdm {A} (iterable : list A) : list A := iterable.

Section encoder.
Context {tokenizer : Tokenizer}.
Context (label_list : list str) (max_mention_length : Z).
Context (use_entity_type_token use_marker_token : bool).

(** The inner function [tokenize] (lines 97-101). *)
Definition tokenize (text : str) : list str :=
  if is_roberta then tokenizer_tokenize_prefix_space text
  else tokenizer_tokenize text.

(** [if use_marker_token: tokens.append(...)] (lines 117-118, 120-121). *)
Definition append_marker (tokens : list str) (n : span_name) : list str :=
  if use_marker_token then tokens ++ [marker n] else tokens.

(** Lines 110-112. *)
Definition encode_init : encode_state :=
  {| tokens := [cls_token]; cur := 0; token_spans := ∅ |}.

(** One iteration of [for span_name in span_order] (lines 114-123). *)
Definition encode_step (example : InputExample.t) (st : encode_state)
    (n : span_name) : encode_state :=
  let text := InputExample.text example in
  let span := getattr example n in
  let tokens := tokens st ++ tokenize (slice text (cur st) span.1) in
  let start := py_len tokens in
  let tokens := append_marker tokens n in
  let tokens := tokens ++ tokenize (slice text span.1 span.2) in
  let tokens := append_marker tokens n in
  {| tokens := tokens; cur := span.2;
     token_spans := <[n := (start, py_len tokens)]> (token_spans st) |}.

(** The inner loop (lines 113-123). *)
Definition encode_loop (example : InputExample.t) : encode_state :=
  foldl (encode_step example) encode_init (span_order example).

(** The token sequence after lines 125-126. *)
Definition final_tokens (example : InputExample.t) (st : encode_state) :
    list str :=
  (tokens st ++ tokenize (slice_from (InputExample.text example) (cur st))) ++
  [sep_token].

(** The body of the loop over the examples (lines 105-156). *)
Definition convert_example (example : InputExample.t) :
    result exn InputFeatures.t :=
  let st := encode_loop example in
  let tokens := final_tokens example st in
  let word_ids := convert_tokens_to_ids tokens in
  let word_attention_mask := py_repeat 1 (py_len tokens) in
  let word_segment_ids := py_repeat 0 (py_len tokens) in
  entity_ids ← entity_ids use_entity_type_token example;
  entity_position_ids ← entity_position_ids max_mention_length (token_spans st);
  let entity_segment_ids := [0; 0] in
  let entity_attention_mask := [1; 1] in
  label ← getitem (InputExample.label example)
            (label_map label_list !! InputExample.label example);
  mret (InputFeatures.mk word_ids word_segment_ids word_attention_mask
          entity_ids entity_position_ids entity_segment_ids
          entity_attention_mask label).

(** [convert_examples_to_features] (lines 91-158): [features] grows by one
    element per example, and the first exception ends the loop. *)
Definition convert_examples_to_features (examples : list InputExample.t) :
    result exn (list InputFeatures.t) :=
  foldl (λ acc example,
           features ← acc;
           feature ← convert_example example;
           mret (features ++ [feature]))
        (mret []) (tqdm examples).

(** ** Specification of the token sequence

    The sequence is made of the classification token, the tokens of the
    text before the first span, the first entity, the tokens between the
    spans, the second entity, the tokens after it and the separator; an
    entity is the tokens of its span, between two copies of its marker
    when markers are used. *)

Definition first_span (example : InputExample.t) : span_name :=
  if decide ((InputExample.span_a example).2 < (InputExample.span_b example).2)
  then span_a else span_b.
Definition second_span (example : InputExample.t) : span_name :=
  if decide ((InputExample.span_a example).2 < (InputExample.span_b example).2)
  then span_b else span_a.

Definition wrap (n : span_name) (toks : list str) : list str :=
  if use_marker_token then [marker n] ++ toks ++ [marker n] else toks.

(** The tokens of the span [n] of an example. *)
Definition span_tokens (example : InputExample.t) (n : span_name) : list str :=
  let span := getattr example n in
  tokenize (slice (InputExample.text example) span.1 span.2).

Record segments := {
  toks_cls : list str;      (* the classification token and the text before *)
  toks_ent1 : list str;     (* the first entity, with its markers *)
  toks_mid : list str;      (* the text between the entities *)
  toks_ent2 : list str;     (* the second entity, with its markers *)
  toks_tail : list str;     (* the text after, and the separator *)
}.

Definition segments_of (example : InputExample.t) : segments :=
  let text := InputExample.text example in
  let n1 := first_span example in
  let n2 := second_span example in
  let s1 := getattr example n1 in
  let s2 := getattr example n2 in
  {| toks_cls := [cls_token] ++ tokenize (slice text 0 s1.1);
     toks_ent1 := wrap n1 (span_tokens example n1);
     toks_mid := tokenize (slice text s1.2 s2.1);
     toks_ent2 := wrap n2 (span_tokens example n2);
     toks_tail := tokenize (slice_from text s2.2) ++ [sep_token] |}.

Definition segments_tokens (g : segments) : list str :=
  toks_cls g ++ toks_ent1 g ++ toks_mid g ++ toks_ent2 g ++ toks_tail g.

Definition segments_span1 (g : segments) : Z * Z :=
  (py_len (toks_cls g), py_len (toks_cls g) + py_len (toks_ent1 g)).
Definition segments_span2 (g : segments) : Z * Z :=
  let a := (segments_span1 g).2 + py_len (toks_mid g) in
  (a, a + py_len (toks_ent2 g)).

Definition encoded_tokens (example : InputExample.t) : list str :=
  segments_tokens (segments_of example).

Definition encoded_span (example : InputExample.t) (n : span_name) : Z * Z :=
  if decide (n = first_span example) then segments_span1 (segments_of example)
  else segments_span2 (segments_of example).

(** The features an example is meant to yield for entity ids [ids] and
    label index [label]. *)
Definition features_spec (example : InputExample.t) (ids : list Z)
    (label : Z) : InputFeatures.t :=
  let n := py_len (encoded_tokens example) in
  InputFeatures.mk (convert_tokens_to_ids (encoded_tokens example))
    (py_repeat 0 n) (py_repeat 1 n) ids
    [position_ids max_mention_length (encoded_span example span_a);
     position_ids max_mention_length (encoded_span example span_b)]
    [0; 0] [1; 1] label.

(** ** The dictionaries *)

Lemma label_map_Some labels l i :
  label_map labels !! l = Some i ↔
  ∃ k : nat, labels !! k = Some l ∧ i = Z.of_nat k ∧ l ∉ drop (S k) labels.
Proof. apply (dict_enumerate_Some id). by intros. Qed.

Lemma label_map_NoDup labels l i :
  NoDup labels →
  label_map labels !! l = Some i ↔ ∃ k : nat, labels !! k = Some l ∧ i = Z.of_nat k.
Proof. apply (dict_enumerate_NoDup id). by intros. Qed.

Lemma label_map_None labels l : label_map labels !! l = None ↔ l ∉ labels.
Proof. apply (dict_enumerate_None id). by intros. Qed.

Lemma label_map_is_Some labels l : is_Some (label_map labels !! l) ↔ l ∈ labels.
Proof. apply (dict_enumerate_is_Some id). by intros. Qed.

Lemma type_map_Some t i :
  type_map !! t = Some i ↔ ∃ k : nat, ENTITY_TYPES !! k = Some t ∧ i = Z.of_nat k + 1.
Proof.
  apply (dict_enumerate_NoDup (λ i, i + 1)); [by intros|apply NoDup_ENTITY_TYPES].
Qed.

Lemma type_map_None t : type_map !! t = None ↔ t ∉ ENTITY_TYPES.
Proof. apply (dict_enumerate_None (λ i, i + 1)). by intros. Qed.

Lemma type_map_bounds t i : type_map !! t = Some i → 1 ≤ i ≤ 17.
Proof.
  intros (k & Hk%lookup_lt_Some & ->)%type_map_Some.
  rewrite length_ENTITY_TYPES in Hk. lia.
Qed.

(** ** The inner loop *)

Lemma span_order_eq example :
  span_order example = [first_span example; second_span example].
Proof. unfold span_order, first_span, second_span. by case_decide. Qed.

Lemma first_second_span_ne example : first_span example ≠ second_span example.
Proof. unfold first_span, second_span. by case_decide. Qed.

Lemma span_first_or_second example n :
  n = first_span example ∧ n ≠ second_span example ∨
  n = second_span example ∧ n ≠ first_span example.
Proof. unfold first_span, second_span. destruct n; case_decide; naive_solver. Qed.

(** The two [append_marker] of an iteration put the markers around the
    tokens of the span. *)
Lemma append_marker_wrap toks ent n :
  append_marker (append_marker toks n ++ ent) n = toks ++ wrap n ent.
Proof.
  unfold append_marker, wrap. destruct use_marker_token; [|done].
  by rewrite <-!(assoc_L (++)).
Qed.

Lemma py_len_wrap n ent :
  py_len (wrap n ent) = py_len ent + if use_marker_token then 2 else 0.
Proof. unfold wrap. destruct use_marker_token; len. Qed.

Section step.
Context (example : InputExample.t) (st : encode_state) (n : span_name).
Let before :=
  tokens st ++
  tokenize (slice (InputExample.text example) (cur st) (getattr example n).1).

Lemma encode_step_tokens :
  tokens (encode_step example st n) = before ++ wrap n (span_tokens example n).
Proof. unfold encode_step. cbn [tokens]. apply append_marker_wrap. Qed.

Lemma encode_step_cur : cur (encode_step example st n) = (getattr example n).2.
Proof. done. Qed.

Lemma encode_step_token_spans :
  token_spans (encode_step example st n) =
    <[n := (py_len before,
            py_len before + py_len (wrap n (span_tokens example n)))]>
      (token_spans st).
Proof.
  unfold encode_step. cbn [token_spans]. rewrite append_marker_wrap.
  fold before. by rewrite py_len_app.
Qed.

End step.

(** The loop of lines 113-123 followed by lines 125-126 computes the token
    sequence of the specification... *)
Lemma encode_loop_tokens example :
  final_tokens example (encode_loop example) = encoded_tokens example.
Proof.
  unfold encode_loop, final_tokens. rewrite span_order_eq. cbn [foldl].
  rewrite !encode_step_tokens, !encode_step_cur. cbn [tokens cur encode_init].
  unfold encoded_tokens, segments_tokens, segments_of. cbn.
  by rewrite <-!(assoc_L (++)).
Qed.

(** ... and its token ranges: [token_spans] holds exactly the two span
    names when the loop ends. *)
Lemma encode_loop_token_spans example n :
  token_spans (encode_loop example) !! n = Some (encoded_span example n).
Proof.
  unfold encode_loop. rewrite span_order_eq.
  pose proof (first_second_span_ne example) as Hne. cbn [foldl].
  rewrite !encode_step_token_spans, !encode_step_tokens, !encode_step_cur.
  cbn [tokens cur encode_init]. unfold encoded_span.
  destruct (span_first_or_second example n) as [[-> ?]|[-> ?]].
  - rewrite lookup_insert_ne, lookup_insert_eq, decide_True by done. done.
  - rewrite lookup_insert_eq, decide_False by done.
    unfold segments_span2, segments_span1, segments_of. cbn. do 2 f_equal; len.
Qed.

(** ** The token ranges of the entities *)

Section segments.
Context (g : segments).

Lemma segments_spans_ordered :
  1 ≤ py_len (toks_cls g) → 1 ≤ py_len (toks_tail g) →
  1 ≤ (segments_span1 g).1 ≤ (segments_span1 g).2 ∧
  (segments_span1 g).2 ≤ (segments_span2 g).1 ≤ (segments_span2 g).2 ∧
  (segments_span2 g).2 < py_len (segments_tokens g).
Proof.
  unfold segments_span2, segments_span1, segments_tokens. cbn.
  pose proof (py_len_nonneg (toks_ent1 g)). pose proof (py_len_nonneg (toks_mid g)).
  pose proof (py_len_nonneg (toks_ent2 g)). len.
Qed.

Lemma slice_segments_span1 :
  slice (segments_tokens g) (segments_span1 g).1 (segments_span1 g).2 =
    toks_ent1 g.
Proof. by apply slice_app_middle. Qed.

Lemma slice_segments_span2 :
  slice (segments_tokens g) (segments_span2 g).1 (segments_span2 g).2 =
    toks_ent2 g.
Proof.
  unfold segments_tokens.
  rewrite (assoc_L (++) (toks_cls g)), (assoc_L (++) (toks_cls g ++ toks_ent1 g)).
  apply slice_app_middle; unfold segments_span2, segments_span1; cbn; len.
Qed.

End segments.

Lemma encoded_span_first example :
  encoded_span example (first_span example) = segments_span1 (segments_of example).
Proof. unfold encoded_span. by rewrite decide_True. Qed.

Lemma encoded_span_second example :
  encoded_span example (second_span example) = segments_span2 (segments_of example).
Proof.
  unfold encoded_span. rewrite decide_False; [done|].
  intros ?. by apply (first_second_span_ne example).
Qed.

(** [span_cases example n]: [n] is the first or the second span of the
    order, with its token range. *)
Ltac span_cases example n :=
  destruct (span_first_or_second example n) as [[-> _]|[-> _]];
    [rewrite ?encoded_span_first|rewrite ?encoded_span_second].

(** A token range starts after the classification token, is not reversed
    and ends before the separator. *)
Lemma encoded_span_bounds example n :
  1 ≤ (encoded_span example n).1 ≤ (encoded_span example n).2 ∧
  (encoded_span example n).2 < py_len (encoded_tokens example).
Proof.
  destruct (segments_spans_ordered (segments_of example)) as (?&?&?).
  { cbn. pose proof (py_len_nonneg (tokenize (slice (InputExample.text example) 0
      (getattr example (first_span example)).1))). len. }
  { cbn. pose proof (py_len_nonneg (tokenize (slice_from (InputExample.text example)
      (getattr example (second_span example)).2))). len. }
  unfold encoded_tokens. span_cases example n; lia.
Qed.

(** The tokens at a token range are the entity, with its markers. *)
Lemma slice_encoded_span example n :
  slice (encoded_tokens example) (encoded_span example n).1
    (encoded_span example n).2 = wrap n (span_tokens example n).
Proof.
  unfold encoded_tokens. span_cases example n.
  - apply (slice_segments_span1 (segments_of example)).
  - apply (slice_segments_span2 (segments_of example)).
Qed.

(** ** Position ids *)

Lemma position_ids_eq M (s : Z * Z) :
  0 ≤ M → s.1 ≤ s.2 →
  position_ids M s =
    py_range s.1 (s.1 + Z.min (s.2 - s.1) M) ++ py_repeat (-1) (M - (s.2 - s.1)).
Proof.
  intros. unfold position_ids. rewrite slice_to_py_range by done.
  do 2 f_equal. lia.
Qed.

Lemma py_len_position_ids M (s : Z * Z) :
  0 ≤ M → s.1 ≤ s.2 → py_len (position_ids M s) = M.
Proof. intros. rewrite position_ids_eq by done. unfold py_len. len. Qed.

Lemma py_len_position_ids_neg M (s : Z * Z) :
  M < 0 → s.1 ≤ s.2 → py_len (position_ids M s) = Z.max 0 (s.2 - s.1 + M).
Proof.
  intros. unfold position_ids.
  rewrite py_len_app, length_slice_to_neg, py_repeat_neg by lia.
  unfold py_len. len.
Qed.

Lemma elem_of_position_ids M (s : Z * Z) p :
  p ∈ position_ids M s → p = -1 ∨ s.1 ≤ p < s.2.
Proof.
  unfold position_ids. rewrite elem_of_app.
  intros [?%elem_of_slice_to_py_range|?%elem_of_py_repeat]; auto.
Qed.

(** The lookups of line 139 never raise. *)
Lemma entity_position_ids_encode example :
  entity_position_ids max_mention_length (token_spans (encode_loop example)) =
    Ok [position_ids max_mention_length (encoded_span example span_a);
        position_ids max_mention_length (encoded_span example span_b)].
Proof.
  unfold entity_position_ids. simpl. by rewrite !encode_loop_token_spans.
Qed.

(** ** Entity ids *)

Lemma entity_ids_Ok example ids :
  entity_ids use_entity_type_token example = Ok ids ↔
  if use_entity_type_token then
    ∃ ka kb : nat,
      ENTITY_TYPES !! ka = Some (InputExample.type_a example) ∧
      ENTITY_TYPES !! kb = Some (InputExample.type_b example) ∧
      ids = [Z.of_nat ka + 1; Z.of_nat kb + 1]
  else ids = [1; 1].
Proof.
  unfold entity_ids.
  destruct use_entity_type_token; [|split; [by intros [= <-]|by intros ->]].
  rewrite result_bind_Ok. setoid_rewrite result_bind_Ok.
  setoid_rewrite getitem_Ok. setoid_rewrite type_map_Some. split.
  - intros (a & (ka & ? & ->) & b & (kb & ? & ->) & [= <-]). eauto.
  - intros (ka & kb & ? & ? & ->). by do 2 (eexists; split; [eauto|]).
Qed.

Lemma type_map_is_Some t : is_Some (type_map !! t) ↔ t ∈ ENTITY_TYPES.
Proof. apply (dict_enumerate_is_Some (λ i, i + 1)). by intros. Qed.

Lemma entity_ids_Err example e :
  entity_ids use_entity_type_token example = Err e ↔
  use_entity_type_token = true ∧
  (((InputExample.type_a example ∉ ENTITY_TYPES) ∧
      e = KeyError (InputExample.type_a example)) ∨
   (InputExample.type_a example ∈ ENTITY_TYPES ∧
      (InputExample.type_b example ∉ ENTITY_TYPES) ∧
      e = KeyError (InputExample.type_b example))).
Proof.
  unfold entity_ids.
  destruct use_entity_type_token; [|split; [done|by intros [? _]]].
  rewrite <-!type_map_None, <-type_map_is_Some. unfold getitem.
  destruct (type_map !! InputExample.type_a example),
    (type_map !! InputExample.type_b example); simpl;
    (split; [intros [= <-]|intros [_ [[? ->]|([??] & ? & ->)]]]); naive_solver.
Qed.

Lemma entity_ids_bounds example ids :
  entity_ids use_entity_type_token example = Ok ids →
  length ids = 2%nat ∧ Forall (λ i, 1 ≤ i ≤ 17) ids.
Proof.
  rewrite entity_ids_Ok. destruct use_entity_type_token.
  - intros (ka & kb & Ha%lookup_lt_Some & Hb%lookup_lt_Some & ->).
    rewrite length_ENTITY_TYPES in Ha, Hb. split; [done|].
    repeat constructor; lia.
  - intros ->. split; [done|]. repeat constructor; lia.
Qed.

(** ** One example *)

Lemma convert_example_Ok example f :
  convert_example example = Ok f ↔
  ∃ ids i,
    entity_ids use_entity_type_token example = Ok ids ∧
    label_map label_list !! InputExample.label example = Some i ∧
    f = features_spec example ids i.
Proof.
  unfold convert_example, features_spec.
  rewrite entity_position_ids_encode, encode_loop_tokens. unfold getitem.
  destruct (entity_ids _ _), (label_map _ !! _);
    unfold mret, result_ret; simpl; naive_solver.
Qed.

Lemma convert_example_Err example e :
  convert_example example = Err e ↔
  entity_ids use_entity_type_token example = Err e ∨
  (is_Ok (entity_ids use_entity_type_token example) ∧
     (InputExample.label example ∉ label_list) ∧
     e = KeyError (InputExample.label example)).
Proof.
  unfold convert_example. rewrite entity_position_ids_encode.
  rewrite <-label_map_None. unfold getitem, is_Ok.
  destruct (entity_ids _ _), (label_map _ !! _);
    unfold mret, result_ret; simpl; naive_solver.
Qed.

Lemma entity_ids_is_Ok example :
  is_Ok (entity_ids use_entity_type_token example) ↔
  (use_entity_type_token = true →
   InputExample.type_a example ∈ ENTITY_TYPES ∧
   InputExample.type_b example ∈ ENTITY_TYPES).
Proof.
  unfold entity_ids, is_Ok, getitem. destruct use_entity_type_token.
  - rewrite <-!type_map_is_Some.
    destruct (type_map !! InputExample.type_a example),
      (type_map !! InputExample.type_b example); simpl;
      unfold mret, result_ret, is_Some; naive_solver.
  - split; [done|]. by eexists.
Qed.

Lemma convert_example_is_Ok example :
  is_Ok (convert_example example) ↔
  is_Ok (entity_ids use_entity_type_token example) ∧
  InputExample.label example ∈ label_list.
Proof.
  rewrite <-label_map_is_Some. unfold is_Ok at 1. setoid_rewrite convert_example_Ok.
  unfold is_Ok, is_Some. naive_solver.
Qed.

(** ** The loop over the examples *)

Lemma convert_examples_to_features_eq examples :
  convert_examples_to_features examples = mapM convert_example examples.
Proof.
  unfold convert_examples_to_features, tqdm.
  etrans; [by apply (foldl_mapM_result convert_example)|].
  apply result_bind_ret_r.
Qed.

(** ** Properties of one example *)

(** C2: [convert_example] implements its specification on every example:
    the features of [features_spec] for the entity ids and the index of the
    label; the [KeyError] of [entity_ids]; or the [KeyError] of a label
    that the vocabulary lacks.  The lookups in [token_spans] never
    raise. *)
Theorem convert_example_refines_spec example :
  convert_example example =
    match entity_ids use_entity_type_token example with
    | Err e => Err e
    | Ok ids =>
        match label_map label_list !! InputExample.label example with
        | None => Err (KeyError (InputExample.label example))
        | Some i => Ok (features_spec example ids i)
        end
    end.
Proof.
  unfold convert_example, features_spec.
  rewrite entity_position_ids_encode, encode_loop_tokens.
  by destruct (entity_ids _ _), (label_map _ !! _).
Qed.

(** C6: the token range that [token_spans] records for a span holds, in
    the final token sequence, the tokens of the span's text; with
    [use_marker_token] they stand between two copies of the span's
    marker. *)
Theorem encode_loop_span_tokens example n :
  ∃ s, token_spans (encode_loop example) !! n = Some s ∧
       slice (final_tokens example (encode_loop example)) s.1 s.2 =
         if use_marker_token
         then [marker n] ++ span_tokens example n ++ [marker n]
         else span_tokens example n.
Proof.
  exists (encoded_span example n). split; [apply encode_loop_token_spans|].
  rewrite encode_loop_tokens. apply slice_encoded_span.
Qed.

(** C7: a feature has two rows of position ids, each of length
    [max_mention_length], when that length is not negative. *)
Theorem convert_example_position_ids_length example f :
  convert_example example = Ok f → 0 ≤ max_mention_length →
  length (InputFeatures.entity_position_ids f) = 2%nat ∧
  Forall (λ row, py_len row = max_mention_length)
    (InputFeatures.entity_position_ids f).
Proof.
  intros (ids & i & _ & _ & ->)%convert_example_Ok ?. split; [done|]. cbn.
  pose proof (encoded_span_bounds example span_a).
  pose proof (encoded_span_bounds example span_b).
  repeat constructor; apply py_len_position_ids; lia.
Qed.

(** C27: a row of position ids is the consecutive positions of the entity's
    token range, cut after [max_mention_length] of them, followed by [-1]
    up to that length. *)
Theorem convert_example_position_ids_shape example f :
  convert_example example = Ok f → 0 ≤ max_mention_length →
  Forall2 (λ row n,
      let s := encoded_span example n in
      let k := Z.min (s.2 - s.1) max_mention_length in
      row = seqZ s.1 k ++ replicate (Z.to_nat (max_mention_length - k)) (-1))
    (InputFeatures.entity_position_ids f) [span_a; span_b].
Proof.
  intros (ids & i & _ & _ & ->)%convert_example_Ok ?. cbn.
  pose proof (encoded_span_bounds example span_a).
  pose proof (encoded_span_bounds example span_b).
  repeat constructor; rewrite position_ids_eq by lia;
    unfold py_range, py_repeat; (f_equal; f_equal; lia).
Qed.

(** C28: every position id is [-1] or the position of a token of the
    sequence other than the classification token and the separator,
    whatever [max_mention_length] is. *)
Theorem convert_example_position_ids_bounds example f :
  convert_example example = Ok f →
  Forall (Forall (λ p, p = -1 ∨ 1 ≤ p < py_len (encoded_tokens example) - 1))
    (InputFeatures.entity_position_ids f).
Proof.
  intros (ids & i & _ & _ & ->)%convert_example_Ok.
  unfold features_spec. cbn [InputFeatures.entity_position_ids].
  pose proof (encoded_span_bounds example span_a).
  pose proof (encoded_span_bounds example span_b).
  apply Forall_cons_2; [|apply Forall_cons_2; [|apply Forall_nil_2]].
  all: apply Forall_forall; intros p Hp.
  all: apply elem_of_position_ids in Hp as [->|?]; [by left|right; lia].
Qed.

(** C38: with a negative [max_mention_length] a row is the entity's token
    range without its last positions, and its length is not
    [max_mention_length]. *)
Theorem convert_example_negative_max_mention_length example f :
  convert_example example = Ok f → max_mention_length < 0 →
  Forall2 (λ row n,
      let s := encoded_span example n in
      py_len row = Z.max 0 (s.2 - s.1 + max_mention_length))
    (InputFeatures.entity_position_ids f) [span_a; span_b].
Proof.
  intros (ids & i & _ & _ & ->)%convert_example_Ok ?. cbn.
  pose proof (encoded_span_bounds example span_a).
  pose proof (encoded_span_bounds example span_b).
  repeat constructor; apply py_len_position_ids_neg; lia.
Qed.

(** C8: the three word arrays of a feature have the same length, one
    entry per token of the sequence, for a tokenizer that returns one id
    per token; the sequence holds at least the classification token and
    the separator. *)
Theorem convert_example_lengths `{!TokenizerLaws tokenizer} example f :
  convert_example example = Ok f →
  length (InputFeatures.word_ids f) = length (encoded_tokens example) ∧
  length (InputFeatures.word_segment_ids f) = length (encoded_tokens example) ∧
  length (InputFeatures.word_attention_mask f) = length (encoded_tokens example) ∧
  (2 ≤ length (encoded_tokens example))%nat.
Proof.
  intros (ids & i & _ & _ & ->)%convert_example_Ok.
  unfold features_spec. cbn [InputFeatures.word_ids
    InputFeatures.word_segment_ids InputFeatures.word_attention_mask].
  pose proof (encoded_span_bounds example span_a). unfold py_len in *.
  split_and!; len.
Qed.

(** C10: [convert_example] raises exactly when an entity type is not one
    of [ENTITY_TYPES] and entity type ids are asked for, or the label is
    not in the vocabulary; the exception is the [KeyError] of the first of
    [type_a], [type_b] and the label that fails. *)
Theorem convert_example_KeyError example e :
  convert_example example = Err e ↔
  use_entity_type_token = true ∧
    (InputExample.type_a example ∉ ENTITY_TYPES) ∧
    e = KeyError (InputExample.type_a example) ∨
  use_entity_type_token = true ∧
    InputExample.type_a example ∈ ENTITY_TYPES ∧
    (InputExample.type_b example ∉ ENTITY_TYPES) ∧
    e = KeyError (InputExample.type_b example) ∨
  (use_entity_type_token = true →
     InputExample.type_a example ∈ ENTITY_TYPES ∧
     InputExample.type_b example ∈ ENTITY_TYPES) ∧
    (InputExample.label example ∉ label_list) ∧
    e = KeyError (InputExample.label example).
Proof.
  rewrite convert_example_Err, entity_ids_Err, entity_ids_is_Ok. naive_solver.
Qed.

(** The entity ids of a feature are the positions of the two entity
    types in [ENTITY_TYPES], counted from 1, when entity type ids are asked
    for, and [1] and [1] otherwise. *)
Theorem convert_example_entity_ids example f :
  convert_example example = Ok f →
  ∃ a b,
    InputFeatures.entity_ids f = [a; b] ∧ 1 ≤ a ≤ 17 ∧ 1 ≤ b ≤ 17 ∧
    if use_entity_type_token
    then ENTITY_TYPES !! Z.to_nat (a - 1) = Some (InputExample.type_a example) ∧
         ENTITY_TYPES !! Z.to_nat (b - 1) = Some (InputExample.type_b example)
    else a = 1 ∧ b = 1.
Proof.
  intros (ids & i & Hids & _ & ->)%convert_example_Ok. cbn.
  pose proof (entity_ids_bounds _ _ Hids) as [_ Hb].
  apply entity_ids_Ok in Hids. destruct use_entity_type_token.
  - destruct Hids as (ka & kb & Ha & Hb' & ->).
    apply Forall_cons in Hb as [? [? _]%Forall_cons].
    exists (Z.of_nat ka + 1), (Z.of_nat kb + 1).
    replace (Z.to_nat (Z.of_nat ka + 1 - 1)) with ka by lia.
    by replace (Z.to_nat (Z.of_nat kb + 1 - 1)) with kb by lia.
  - subst ids. by exists 1, 1.
Qed.

(** C34: the label of a feature is a position of the example's label in
    the vocabulary, the last one when the label occurs more than once. *)
Theorem convert_example_label example f :
  convert_example example = Ok f →
  let k := Z.to_nat (InputFeatures.label f) in
  0 ≤ InputFeatures.label f ∧
  label_list !! k = Some (InputExample.label example) ∧
  InputExample.label example ∉ drop (S k) label_list.
Proof.
  intros (ids & i & _ & (k & ? & -> & ?)%label_map_Some & ->)%convert_example_Ok.
  cbn. rewrite Nat2Z.id. split_and!; [lia|done..].
Qed.

(** ** The order of the spans *)

(** For an example whose spans are not empty and do not overlap, the
    order of the span ends that [span_order] uses is the order of the span
    starts. *)
Theorem span_order_by_start example :
  let a := InputExample.span_a example in
  let b := InputExample.span_b example in
  a.1 < a.2 → b.1 < b.2 → a.2 ≤ b.1 ∨ b.2 ≤ a.1 →
  span_order example =
    if decide (a.1 < b.1) then [span_a; span_b] else [span_b; span_a].
Proof. intros a b ???. unfold span_order. fold a b. repeat case_decide; (done || lia). Qed.

(** ** Properties of the loop over the examples *)

(** The features come in the order of the examples, one per
    example. *)
Theorem convert_examples_to_features_in_order examples features :
  convert_examples_to_features examples = Ok features →
  Forall2 (λ example f, convert_example example = Ok f) examples features.
Proof. rewrite convert_examples_to_features_eq. apply mapM_result_Ok. Qed.

(** The loop raises the exception of the first example that raises,
    and raises only then. *)
Theorem convert_examples_to_features_first_error examples e :
  convert_examples_to_features examples = Err e ↔
  ∃ (k : nat) example,
    examples !! k = Some example ∧ convert_example example = Err e ∧
    Forall (λ x, is_Ok (convert_example x)) (take k examples).
Proof. rewrite convert_examples_to_features_eq. apply mapM_result_Err_lookup. Qed.

End encoder.

(** ** Concrete inputs *)

(** The example that the example builder makes of the specification's
    worked record, a vocabulary, and the features of the example for the
    whitespace tokenizer with [max_mention_length = 4], entity type ids and
    markers. *)
Definition john_example : InputExample.t :=
  InputExample.mk (pystr "train-0") (pystr "John lives in Paris") (0, 5) (14, 20)
    (pystr "PERSON") (pystr "CITY") (pystr "lives_in").

Definition toy_label_list : list str := [pystr "no_relation"; pystr "lives_in"].

Definition john_features : InputFeatures.t :=
  InputFeatures.mk [0; 2; 4; 2; 5; 6; 3; 7; 3; 1]
    [0; 0; 0; 0; 0; 0; 0; 0; 0; 0] [1; 1; 1; 1; 1; 1; 1; 1; 1; 1]
    [13; 2] [[1; 2; 3; -1]; [6; 7; 8; -1]] [0; 0] [1; 1] 1.

(** The same with [max_mention_length = -1]. *)
Definition john_features_neg : InputFeatures.t :=
  InputFeatures.mk [0; 2; 4; 2; 5; 6; 3; 7; 3; 1]
    [0; 0; 0; 0; 0; 0; 0; 0; 0; 0] [1; 1; 1; 1; 1; 1; 1; 1; 1; 1]
    [13; 2] [[1; 2]; [6; 7]] [0; 0] [1; 1] 1.

(** On the example of the specification's worked record, with markers,
    the token sequence is the classification token, [John] between two
    [HEAD] markers, [lives in], [Paris] between two [TAIL] markers and the
    separator, and the features are [john_features]. *)
Example convert_example_john :
  encoded_tokens (tokenizer := ws_tokenizer) true john_example =
    pystr <$> ["[CLS]"; "[HEAD]"; "John"; "[HEAD]"; "lives"; "in";
               "[TAIL]"; "Paris"; "[TAIL]"; "[SEP]"] ∧
  convert_example (tokenizer := ws_tokenizer) toy_label_list 4 true true
    john_example = Ok john_features.
Proof. split; by vm_compute. Qed.

(** A tokenizer for which [isinstance(tokenizer, RobertaTokenizer)]
    holds is called with [add_prefix_space=True] on every piece of the
    text. *)
Example encoded_tokens_roberta :
  encoded_tokens (tokenizer := roberta_tokenizer) false john_example =
    pystr <$> ["<s>"; "GJohn"; "Glives"; "Gin"; "GParis"; "</s>"].
Proof. by vm_compute. Qed.

(** When the spans of an example overlap, the span that ends first
    comes first even if it starts later, and of two spans that end at the
    same character [span_b] comes first. *)
Example span_order_overlap :
  span_order (InputExample.mk [] (pystr "John lives in Paris") (0, 10) (5, 7)
                [] [] []) = [span_b; span_a] ∧
  span_order (InputExample.mk [] (pystr "John lives in Paris") (0, 10) (5, 10)
                [] [] []) = [span_b; span_a].
Proof. done. Qed.

(** A label that occurs twice in the vocabulary is mapped to its last
    position. *)
Example label_map_duplicate :
  label_map (pystr <$> ["no_relation"; "lives_in"; "no_relation"])
    !! pystr "no_relation" = Some 2.
Proof. by vm_compute. Qed.

Lemma convert_john :
  convert_example (tokenizer := ws_tokenizer) toy_label_list 4 true true
    john_example = Ok john_features.
Proof. by vm_compute. Qed.

Lemma convert_john_neg :
  convert_example (tokenizer := ws_tokenizer) toy_label_list (-1) true true
    john_example = Ok john_features_neg.
Proof. by vm_compute. Qed.

Lemma convert_example_position_ids_length_witness :
  length (InputFeatures.entity_position_ids john_features) = 2%nat ∧
  Forall (λ row, py_len row = 4) (InputFeatures.entity_position_ids john_features).
Proof.
  apply (convert_example_position_ids_length (tokenizer := ws_tokenizer)
           toy_label_list 4 true true john_example john_features);
    [apply convert_john|lia].
Defined.

Lemma convert_example_position_ids_shape_witness :
  Forall2 (λ row n,
      let s := encoded_span (tokenizer := ws_tokenizer) true john_example n in
      let k := Z.min (s.2 - s.1) 4 in
      row = seqZ s.1 k ++ replicate (Z.to_nat (4 - k)) (-1))
    (InputFeatures.entity_position_ids john_features) [span_a; span_b].
Proof.
  apply (convert_example_position_ids_shape (tokenizer := ws_tokenizer)
           toy_label_list 4 true true john_example john_features);
    [apply convert_john|lia].
Defined.

Lemma convert_example_position_ids_bounds_witness :
  Forall (Forall (λ p, p = -1 ∨
      1 ≤ p < py_len (encoded_tokens (tokenizer := ws_tokenizer) true
                        john_example) - 1))
    (InputFeatures.entity_position_ids john_features).
Proof.
  apply (convert_example_position_ids_bounds (tokenizer := ws_tokenizer)
           toy_label_list 4 true true john_example john_features).
  apply convert_john.
Defined.

Lemma convert_example_negative_max_mention_length_witness :
  Forall2 (λ row n,
      let s := encoded_span (tokenizer := ws_tokenizer) true john_example n in
      py_len row = Z.max 0 (s.2 - s.1 + -1))
    (InputFeatures.entity_position_ids john_features_neg) [span_a; span_b].
Proof.
  apply (convert_example_negative_max_mention_length (tokenizer := ws_tokenizer)
           toy_label_list (-1) true true john_example john_features_neg);
    [apply convert_john_neg|lia].
Defined.

Lemma convert_example_lengths_witness :
  length (InputFeatures.word_ids john_features) = 10%nat ∧
  length (InputFeatures.word_segment_ids john_features) = 10%nat ∧
  length (InputFeatures.word_attention_mask john_features) = 10%nat ∧
  (2 ≤ 10)%nat.
Proof.
  apply (convert_example_lengths (tokenizer := ws_tokenizer)
           toy_label_list 4 true true john_example john_features).
  apply convert_john.
Defined.

Lemma convert_example_entity_ids_witness :
  ∃ a b,
    InputFeatures.entity_ids john_features = [a; b] ∧ 1 ≤ a ≤ 17 ∧ 1 ≤ b ≤ 17 ∧
    ENTITY_TYPES !! Z.to_nat (a - 1) = Some (pystr "PERSON") ∧
    ENTITY_TYPES !! Z.to_nat (b - 1) = Some (pystr "CITY").
Proof.
  apply (convert_example_entity_ids (tokenizer := ws_tokenizer)
           toy_label_list 4 true true john_example john_features).
  apply convert_john.
Defined.

Lemma convert_example_label_witness :
  0 ≤ 1 ∧ toy_label_list !! 1%nat = Some (pystr "lives_in") ∧
  pystr "lives_in" ∉ drop 2 toy_label_list.
Proof.
  apply (convert_example_label (tokenizer := ws_tokenizer)
           toy_label_list 4 true true john_example john_features).
  apply convert_john.
Defined.

Lemma span_order_by_start_witness : span_order john_example = [span_a; span_b].
Proof. apply (span_order_by_start john_example); simpl; lia. Defined.

Lemma convert_examples_to_features_in_order_witness :
  Forall2 (λ example f,
      convert_example (tokenizer := ws_tokenizer) toy_label_list 4 true true
        example = Ok f)
    [john_example; john_example] [john_features; john_features].
Proof.
  apply (convert_examples_to_features_in_order (tokenizer := ws_tokenizer)
           toy_label_list 4 true true).
  by vm_compute.
Defined.

End Encoder.
