(* ===== verification/FeatureLoops.v ===== *)
(** * The feature encoder, step by step

    The function [convert_examples_to_features] of
    [src/examples/relation_classification/utils.py] (lines 103-158) as the
    nested loops of the file [Nested]: the loop over the examples is the
    outer loop, the loop over the two span names the inner loop.

    - [feature_enter] is the part of an iteration before the inner loop
      (lines 105-112): the order of the spans and the initial values of
      [tokens], [cur] and [token_spans]; it does not raise;
    - [span_body] is the body of the inner loop (lines 114-123);
    - [feature_leave] is the part after it (lines 125-156): the tail of
      the token sequence, the word arrays, the lookups in [type_map],
      [token_spans] and [label_map] that may raise [KeyError], and
      [features.append];
    - [feature_step] is the transition relation, [feature_start] the
      configuration before the first example, [feature_run] the execution
      with fuel.

    The theorems: the loops stop after [feature_steps] steps, four for
    every example that they visit, in the features that the specification
    asks for or in the [KeyError] of the first example whose types or
    label are unknown ([features_outcome_spec]); inside the inner loop
    the token ranges recorded so far are ranges of [tokens] that hold the
    tokens of their spans ([encode_inv]), so the lookups in [token_spans]
    after the loop find both span names. *)

From stdpp Require Import strings.
From S2P Require Import Prelude PySeq PyStr Data Loops Nested Tokenizer Features.
Import Encoder.

#[local] Open Scope Z_scope.

Section loops.
Context {tokenizer : Tokenizer}.
Context (label_list : list str) (max_mention_length : Z).
Context (use_entity_type_token use_marker_token : bool).

(** ** The parts of an iteration *)

(** Lines 105-112.  The inner loop reads [example]. *)
Definition feature_enter (features : list InputFeatures.t)
    (example : InputExample.t) :
    result exn (InputExample.t * list span_name * encode_state) :=
  mret (example, span_order example, encode_init).

(** Lines 114-123: no statement of the body raises, the calls of the
    tokenizer being total functions (class [Tokenizer]). *)
Definition span_body (example : InputExample.t) (st : encode_state)
    (n : span_name) : result exn encode_state :=
  mret (encode_step use_marker_token example st n).

(** Lines 125-156. *)
Definition feature_leave (features : list InputFeatures.t)
    (example env : InputExample.t) (st : encode_state) :
    result exn (list InputFeatures.t) :=
  let tokens := final_tokens example st in
  let word_ids := convert_tokens_to_ids tokens in
  let word_attention_mask := py_repeat 1 (py_len tokens) in
  let word_segment_ids := py_repeat 0 (py_len tokens) in
  entity_ids ← entity_ids use_entity_type_token example;
  entity_position_ids ← entity_position_ids max_mention_length (token_spans st);
  let entity_segment_ids := [0; 0] in
  let entity_attention_mask := [1; 1] in
  label ← getitem (InputExample.label example)
            (label_map label_list !! InputExample.label example);
  mret (features ++
        [InputFeatures.mk word_ids word_segment_ids word_attention_mask
           entity_ids entity_position_ids entity_segment_ids
           entity_attention_mask label]).

(** ** The transition system *)

Definition feature_config : Type :=
  nconfig (list InputFeatures.t) InputExample.t exn InputExample.t span_name
    encode_state.

Definition feature_step : feature_config → feature_config → Prop :=
  nstep feature_enter span_body feature_leave.

(** Line 103 and the head of the loop (line 104). *)
Definition feature_start (examples : list InputExample.t) : feature_config :=
  Outer (tqdm examples) [].

Definition feature_run (fuel : nat) (examples : list InputExample.t) :
    feature_config :=
  nrun feature_enter span_body feature_leave fuel (feature_start examples).

(** The configuration in which the loops stop when the function returns or
    raises [r] (line 158). *)
Definition feature_outcome (r : result exn (list InputFeatures.t)) :
    feature_config :=
  embed (of_result r).

(** ** The outcome and the number of steps

    What the loops are meant to end in, and after how many steps, written
    from the examples alone. *)

(** The outcome of an example: the features in closed form
    ([features_spec]) for the entity ids and the index of the label, or
    the [KeyError] of an entity type or of a label that is unknown. *)
Definition feature_spec (example : InputExample.t) :
    result exn InputFeatures.t :=
  ids ← entity_ids use_entity_type_token example;
  label ← getitem (InputExample.label example)
            (label_map label_list !! InputExample.label example);
  mret (features_spec max_mention_length use_marker_token example ids label).

Definition features_outcome_spec (examples : list InputExample.t) :
    result exn (list InputFeatures.t) :=
  mapM feature_spec examples.

(** The entity types of the example are known, when they are looked up,
    and so is its label. *)
Definition converts (example : InputExample.t) : bool :=
  (if use_entity_type_token
   then bool_decide (InputExample.type_a example ∈ ENTITY_TYPES ∧
                     InputExample.type_b example ∈ ENTITY_TYPES)
   else true) &&
  bool_decide (InputExample.label example ∈ label_list).

(** Every example that the loops visit takes four steps: one into the
    inner loop, one for each span, one out of it.  The lookups that may
    raise come after the inner loop (lines 133 and 155), so the first
    example that does not convert is tokenized before the fourth step
    raises and ends the execution. *)
Fixpoint feature_steps (examples : list InputExample.t) : nat :=
  match examples with
  | [] => 0
  | example :: examples =>
      4 + if converts example then feature_steps examples else 0
  end.

(** ** The invariant of the inner loop

    While [pending] remains to be visited, [tokens] starts with the
    classification token, [token_spans] has no entry for the span names
    that remain, and the entry of a span name visited is a range of
    [tokens], after the classification token, that holds the tokens of the
    span with their markers. *)

Definition span_recorded (example : InputExample.t) (st : encode_state)
    (n : span_name) : Prop :=
  ∃ s e, token_spans st !! n = Some (s, e) ∧ 1 ≤ s ≤ e ∧ e ≤ py_len (tokens st) ∧
         slice (tokens st) s e = wrap use_marker_token n (span_tokens example n).

Record encode_inv (example : InputExample.t) (pending : list span_name)
    (st : encode_state) : Prop := {
  inv_pending : pending `suffix_of` span_order example;
  inv_cls : head (tokens st) = Some cls_token;
  inv_absent n : n ∈ pending → token_spans st !! n = None;
  inv_recorded n : n ∉ pending → span_recorded example st n;
}.

(** ** The body of the outer loop *)

Lemma feature_nbody features example :
  nbody feature_enter span_body feature_leave features example =
    (feature ← convert_example label_list max_mention_length
                 use_entity_type_token use_marker_token example;
     mret (features ++ [feature])).
Proof.
  unfold nbody, feature_enter. cbn [mbind result_bind mret result_ret].
  rewrite (for_loop_pure _ (encode_step use_marker_token example)) by done.
  unfold convert_example, feature_leave, encode_loop.
  cbn [mbind result_bind mret result_ret].
  destruct (entity_ids _ _); [|done].
  destruct (entity_position_ids _ _); [|done].
  by destruct (getitem _ _).
Qed.

Lemma for_loop_feature_nbody examples :
  for_loop (nbody feature_enter span_body feature_leave) examples [] =
    convert_examples_to_features label_list max_mention_length
      use_entity_type_token use_marker_token examples.
Proof.
  rewrite convert_examples_to_features_eq.
  apply (for_loop_mapM_nil (convert_example _ _ _ _)), feature_nbody.
Qed.

Lemma convert_example_feature_spec example :
  convert_example label_list max_mention_length use_entity_type_token
    use_marker_token example = feature_spec example.
Proof.
  unfold convert_example, feature_spec, features_spec.
  rewrite entity_position_ids_encode, encode_loop_tokens.
  by destruct (entity_ids _ _), (getitem _ _).
Qed.

Lemma for_loop_feature_spec examples :
  for_loop (nbody feature_enter span_body feature_leave) examples [] =
    features_outcome_spec examples.
Proof.
  apply (for_loop_mapM_nil feature_spec). intros features example.
  by rewrite feature_nbody, convert_example_feature_spec.
Qed.

(** ** The number of steps *)

Lemma converts_is_Ok example :
  converts example = true ↔
  is_Ok (convert_example label_list max_mention_length use_entity_type_token
           use_marker_token example).
Proof.
  rewrite convert_example_is_Ok, entity_ids_is_Ok. unfold converts.
  rewrite andb_true_iff, bool_decide_eq_true.
  destruct use_entity_type_token; [rewrite bool_decide_eq_true|]; naive_solver.
Qed.

(** An iteration enters the inner loop, visits the two spans and leaves
    it: four steps, whether the last one raises or not. *)
Lemma feature_iteration_steps features example :
  iteration_steps feature_enter span_body features example = 4%nat.
Proof.
  unfold iteration_steps. cbn.
  rewrite (for_loop_pure _ (encode_step use_marker_token example)),
    (iterations_pure _ (encode_step use_marker_token example)) by done.
  by rewrite span_order_eq.
Qed.

Lemma feature_nested_steps examples features :
  nested_steps feature_enter span_body feature_leave examples features =
    feature_steps examples.
Proof.
  revert features.
  induction examples as [|example examples IH]; intros features; [done|].
  cbn [nested_steps feature_steps].
  rewrite feature_iteration_steps, feature_nbody.
  pose proof (converts_is_Ok example) as Hok.
  destruct (convert_example _ _ _ _ example) as [f|e]; simpl.
  - by rewrite IH, (proj2 Hok) by by eexists.
  - destruct (converts example); [|done]. by destruct Hok as [[? [=]] _].
Qed.

(** ** The inner loop *)

Lemma NoDup_span_order example : NoDup (span_order example).
Proof.
  rewrite span_order_eq. pose proof (first_second_span_ne example).
  apply NoDup_cons. split; [set_solver|apply NoDup_singleton].
Qed.

Lemma elem_of_span_order example n : n ∈ span_order example.
Proof.
  rewrite span_order_eq.
  destruct (span_first_or_second example n) as [[-> _]|[-> _]]; set_solver.
Qed.

Lemma encode_step_tokens_app example st n :
  ∃ more, tokens (encode_step use_marker_token example st n) = tokens st ++ more.
Proof. rewrite encode_step_tokens. eexists. by rewrite <-(assoc_L (++)). Qed.

(** The token range of the span that an iteration visits. *)
Lemma encode_step_span_recorded example st n :
  tokens st ≠ [] →
  span_recorded example (encode_step use_marker_token example st n) n.
Proof.
  intros Hne. unfold span_recorded.
  rewrite encode_step_token_spans, lookup_insert_eq, encode_step_tokens.
  set (before := tokens st ++ _). set (ent := wrap _ _ _).
  assert (1 ≤ py_len before).
  { subst before. rewrite py_len_app. rewrite <-py_len_0 in Hne.
    pose proof (py_len_nonneg (tokens st)).
    pose proof (py_len_nonneg (tokenize (slice (InputExample.text example)
      (cur st) (getattr example n).1))). lia. }
  pose proof (py_len_nonneg ent).
  do 2 eexists. split; [done|]. split_and!; [lia..|rewrite py_len_app; lia|].
  rewrite <-(app_nil_r ent) at 1. by apply slice_app_middle.
Qed.

(** The token ranges recorded before stay where they are: the token
    sequence only grows. *)
Lemma encode_step_span_kept example st n n' :
  n' ≠ n → span_recorded example st n' →
  span_recorded example (encode_step use_marker_token example st n) n'.
Proof.
  intros Hn (s & e & Hts & Hse & He & Hslice).
  destruct (encode_step_tokens_app example st n) as [more Htokens].
  exists s, e. rewrite encode_step_token_spans, lookup_insert_ne, Htokens by done.
  pose proof (py_len_nonneg more).
  split_and!; [done|rewrite ?py_len_app; lia..|]. by rewrite slice_app_l by lia.
Qed.

Lemma encode_inv_enter features x example ns st :
  feature_enter features x = Ok (example, ns, st) → encode_inv example ns st.
Proof.
  intros [= -> <- <-]. split; [done..|]. intros n []. apply elem_of_span_order.
Qed.

Lemma encode_inv_step example n pending st st' :
  encode_inv example (n :: pending) st → span_body example st n = Ok st' →
  encode_inv example pending st'.
Proof.
  intros [Hsuffix Hcls Habsent Hrecorded] [= <-].
  assert (n ∉ pending) as Hn.
  { destruct Hsuffix as [visited Hsuffix].
    pose proof (NoDup_span_order example) as Hnd. rewrite Hsuffix in Hnd.
    by apply NoDup_app in Hnd as (_ & _ & ?%NoDup_cons_1_1). }
  destruct (encode_step_tokens_app example st n) as [more Htokens].
  split.
  - by eapply suffix_cons_l.
  - rewrite Htokens. by destruct (tokens st).
  - intros n' Hn'. rewrite encode_step_token_spans, lookup_insert_ne by set_solver.
    apply Habsent. set_solver.
  - intros n' Hn'. destruct (decide (n' = n)) as [->|Hne].
    + apply encode_step_span_recorded. by destruct (tokens st).
    + apply encode_step_span_kept; [done|]. apply Hrecorded. set_solver.
Qed.

(** When the inner loop has ended, the lookups of lines 139-142 find both
    span names. *)
Lemma encode_inv_position_ids example st :
  encode_inv example [] st →
  is_Ok (entity_position_ids max_mention_length (token_spans st)).
Proof.
  intros [_ _ _ Hrecorded].
  destruct (Hrecorded span_a) as (sa & ea & Ha & _); [set_solver|].
  destruct (Hrecorded span_b) as (sb & eb & Hb & _); [set_solver|].
  unfold entity_position_ids. cbn. rewrite Ha, Hb. by eexists.
Qed.

(** ** The configurations between two examples *)

Lemma feature_reachable examples pending features :
  rtc feature_step (feature_start examples) (Outer pending features) ↔
  ∃ k : nat, (k ≤ length examples)%nat ∧ pending = drop k examples ∧
    convert_examples_to_features label_list max_mention_length
      use_entity_type_token use_marker_token (take k examples) = Ok features.
Proof.
  unfold feature_step, feature_start, tqdm. etrans; [apply rtc_nstep_Outer|].
  setoid_rewrite <-for_loop_feature_nbody. split.
  - intros (done & -> & Hl). exists (length done).
    rewrite take_app_length, drop_app_length. split_and!; [len|done..].
  - intros (k & _ & -> & Hf). exists (take k examples).
    by rewrite take_drop.
Qed.

(** ** Theorems *)

(** C15: inside the loop over the span names, whatever the example and the
    examples before it, the invariant [encode_inv] holds: [tokens] starts
    with the classification token, the span names that remain have no
    entry in [token_spans], and the entry of a span name visited is a
    range of [tokens] that holds the tokens of the span with their
    markers.  So, when the inner loop has ended, the lookups
    [token_spans[span_name]] of lines 139-142 do not raise. *)
Theorem span_loop_invariant examples x pending features example ns st :
  rtc feature_step (feature_start examples)
    (Inner x pending features example ns st) →
  encode_inv example ns st ∧
  (ns = [] → is_Ok (entity_position_ids max_mention_length (token_spans st))).
Proof.
  intros Hrtc. assert (encode_inv example ns st) as Hinv.
  { revert Hrtc.
    apply (inner_invariant feature_enter span_body feature_leave encode_inv);
      [|by apply encode_inv_step|done].
    intros ?????. apply encode_inv_enter. }
  split; [done|]. intros ->. by apply (encode_inv_position_ids example).
Qed.

(** C16: [convert_examples_to_features] terminates, and when: the loops
    stop after exactly [feature_steps examples] steps, four for every
    example up to the first whose entity types or label are unknown, that
    example included (its text is tokenized before the lookup raises), in
    the configuration that holds the outcome of the specification: the
    features of the examples in closed form, or the [KeyError] of that
    example.  No execution of the loops takes more steps. *)
Theorem feature_loop_terminates examples :
  nsteps feature_step (feature_steps examples) (feature_start examples)
    (feature_outcome (features_outcome_spec examples)) ∧
  ∀ n c, nsteps feature_step n (feature_start examples) c →
         (n ≤ feature_steps examples)%nat.
Proof.
  unfold feature_step, feature_start, feature_outcome, tqdm.
  rewrite <-for_loop_feature_spec, <-run_for_loop.
  rewrite <-(feature_nested_steps examples []).
  split; [apply nested_run_exact|]. intros n c. apply nsteps_nested_le.
Qed.

(** The execution with fuel reaches that outcome as soon as the fuel is
    the number of steps; four units for each example are enough. *)
Lemma feature_run_enough fuel examples :
  (feature_steps examples ≤ fuel)%nat →
  feature_run fuel examples = feature_outcome (features_outcome_spec examples).
Proof.
  intros Hfuel. unfold feature_run, feature_start, feature_outcome, tqdm.
  rewrite <-for_loop_feature_spec. apply nrun_enough.
  by rewrite feature_nested_steps.
Qed.

Lemma feature_steps_le examples :
  (feature_steps examples ≤ 4 * length examples)%nat.
Proof.
  induction examples as [|example examples IH]; simpl; [done|].
  case_match; lia.
Qed.

(** Every example is reached: if the examples up to position [k]
    convert, the loops reach a configuration between two examples in
    which [features[k]] is the feature of the example at [k]. *)
Lemma feature_loop_progress examples (k : nat) example :
  examples !! k = Some example →
  Forall (λ x, is_Ok (convert_example label_list max_mention_length
                        use_entity_type_token use_marker_token x))
    (take (S k) examples) →
  ∃ pending features f,
    rtc feature_step (feature_start examples) (Outer pending features) ∧
    features !! k = Some f ∧
    convert_example label_list max_mention_length use_entity_type_token
      use_marker_token example = Ok f.
Proof.
  intros Hk [features Hf]%mapM_result_is_Ok.
  destruct (mapM_result_lookup _ _ _ k example Hf) as (f & ? & ?);
    [by rewrite lookup_take_lt by lia|].
  exists (drop (S k) examples), features, f. split_and!; [|done..].
  apply feature_reachable. exists (S k).
  rewrite convert_examples_to_features_eq. split_and!; [|done..].
  apply lookup_lt_Some in Hk. lia.
Qed.

End loops.

(** ** The theorems on the example of the specification *)

#[local] Existing Instance ws_tokenizer.

(** The configuration inside the example, after its first span has been
    visited, with the whitespace tokenizer and markers. *)
Definition john_span_inner : feature_config :=
  Inner john_example [] [] john_example [span_b]
    (encode_step (tokenizer := ws_tokenizer) true john_example encode_init span_a).

Lemma feature_run_john_inner :
  feature_run (tokenizer := ws_tokenizer) toy_label_list 3 true true 2
    [john_example] = john_span_inner.
Proof. reflexivity. Qed.

(** An example whose label the vocabulary lacks, between two copies of
    the worked example: the loops stop in the eighth step, the last of
    the second example, with the [KeyError] of the label. *)
Lemma feature_steps_unknown_label :
  let unknown :=
    InputExample.mk (pystr "dev-1") (pystr "Marie  Curie") (0, 6) (7, 12)
      (pystr "PERSON") (pystr "PERSON") (pystr "spouse") in
  let examples := [john_example; unknown; john_example] in
  feature_steps toy_label_list true examples = 8%nat ∧
  feature_run (tokenizer := ws_tokenizer) toy_label_list 3 true true 8
    examples = NRaised (KeyError (pystr "spouse")) ∧
  nfinal (feature_run (tokenizer := ws_tokenizer) toy_label_list 3 true true 7
            examples) = false.
Proof. by vm_compute. Qed.

Lemma span_loop_invariant_witness :
  encode_inv (tokenizer := ws_tokenizer) true john_example [span_b]
    (encode_step (tokenizer := ws_tokenizer) true john_example encode_init span_a) ∧
  ([span_b] = [] →
   is_Ok (entity_position_ids 3
     (token_spans (encode_step (tokenizer := ws_tokenizer) true john_example
                     encode_init span_a)))).
Proof.
  apply (span_loop_invariant (tokenizer := ws_tokenizer) toy_label_list 3 true
           true [john_example] john_example [] []).
  change (rtc (feature_step toy_label_list 3 true true)
            (feature_start [john_example]) john_span_inner).
  rewrite <-feature_run_john_inner. apply nrun_rtc.
Defined.

Lemma feature_loop_progress_witness :
  ∃ pending features f,
    rtc (feature_step (tokenizer := ws_tokenizer) toy_label_list 3 true false)
      (feature_start [john_example]) (Outer pending features) ∧
    features !! 0%nat = Some f ∧
    convert_example (tokenizer := ws_tokenizer) toy_label_list 3 true false
      john_example = Ok f.
Proof.
  apply (feature_loop_progress (tokenizer := ws_tokenizer) toy_label_list 3
           true false [john_example] 0); [reflexivity|].
  repeat constructor. by eexists.
Defined.
