(* ===== verification/WellFormed.v ===== *)
(** * Well-formed examples and features

    The invariants that the data model gives the two classes of
    [src/examples/relation_classification/utils.py], as decidable
    predicates, and the theorems that the two stages only produce values
    that satisfy them:

    - [wf_example]: the spans of an [InputExample] start at a position
      that is not negative, are not empty and do not overlap, and the
      text has no trailing whitespace;
    - [wf_features]: the three word arrays of an [InputFeatures] have one
      length, the segment ids are 0 and the mask is 1; there are two
      entity ids, each the rank of an entity type; there are two rows of
      position ids, each of length [max_mention_length], whose entries are
      [-1] or the position of a token between the classification token
      and the separator; the entity segment ids are [[0, 0]] and the
      entity mask is [[1, 1]]; the label is an index of the
      vocabulary. *)

From stdpp Require Import strings.
From S2P Require Import Prelude PySeq PyStr Data Examples Splits Tokenizer Features.

#[local] Open Scope Z_scope.

(** ** The predicates *)

Definition wf_span (s : Z * Z) : Prop := 0 ≤ s.1 < s.2.

Definition wf_example (ex : InputExample.t) : Prop :=
  let a := InputExample.span_a ex in
  let b := InputExample.span_b ex in
  rstrip (InputExample.text ex) = InputExample.text ex ∧
  wf_span a ∧ wf_span b ∧ (a.2 < b.1 ∨ b.2 < a.1).

(** A row of position ids for a sequence of [len] tokens. *)
Definition wf_row (max_mention_length len : Z) (row : list Z) : Prop :=
  py_len row = max_mention_length ∧
  Forall (λ p, p = -1 ∨ 1 ≤ p < len - 1) row.

Definition wf_features (max_mention_length n_labels : Z)
    (f : InputFeatures.t) : Prop :=
  let len := py_len (InputFeatures.word_ids f) in
  2 ≤ len ∧
  py_len (InputFeatures.word_segment_ids f) = len ∧
  py_len (InputFeatures.word_attention_mask f) = len ∧
  Forall (λ x, x = 0) (InputFeatures.word_segment_ids f) ∧
  Forall (λ x, x = 1) (InputFeatures.word_attention_mask f) ∧
  length (InputFeatures.entity_ids f) = 2%nat ∧
  Forall (λ i, 1 ≤ i ≤ 17) (InputFeatures.entity_ids f) ∧
  length (InputFeatures.entity_position_ids f) = 2%nat ∧
  Forall (wf_row max_mention_length len) (InputFeatures.entity_position_ids f) ∧
  InputFeatures.entity_segment_ids f = [0; 0] ∧
  InputFeatures.entity_attention_mask f = [1; 1] ∧
  0 ≤ InputFeatures.label f < n_labels.

#[export] Instance wf_span_dec s : Decision (wf_span s).
Proof. unfold wf_span. apply _. Defined.

#[export] Instance wf_example_dec ex : Decision (wf_example ex).
Proof. unfold wf_example. apply _. Defined.

#[export] Instance wf_row_dec M len row : Decision (wf_row M len row).
Proof. unfold wf_row. apply _. Defined.

#[export] Instance wf_features_dec M n f : Decision (wf_features M n f).
Proof. unfold wf_features. apply _. Defined.

(** ** The examples of the builder *)

Import DatasetProcessor.

Lemma example_spec_wf set_type i tokens ss se os oe st ot rel :
  wf_example (example_spec set_type i tokens ss se os oe st ot rel).
Proof.
  unfold wf_example, wf_span. cbn. set (ts := token_spans ss se os oe).
  pose proof (layout_span_bounds tokens ts subj).
  pose proof (layout_span_bounds tokens ts obj).
  pose proof (layout_spans_disjoint tokens ts) as Hd. cbv zeta in *.
  split_and!; [apply rstrip_idemp|lia..|].
  unfold first_entity, second_entity in Hd. case_decide; lia.
Qed.

Lemma create_example_wf set_type i item ex :
  create_example set_type i item = Ok ex → wf_example ex.
Proof.
  intros (?&?&?&?&?&?&?&?&_&->)%create_example_Ok_inv. apply example_spec_wf.
Qed.

(** Every example that [create_examples] returns is well formed: its
    text has no trailing whitespace, and its two spans start at a position
    that is not negative, are not empty and do not overlap, whatever the
    offsets of the records are. *)
Theorem create_examples_wf set_type data exs :
  create_examples set_type data = Ok exs → Forall wf_example exs.
Proof.
  rewrite create_examples_eq, mapM_result_Ok. intros Hall.
  eapply Forall2_Forall_r; [done|]. apply Forall_true.
  intros [i item] ex. apply create_example_wf.
Qed.

(** ** The features of the encoder *)

Import Encoder.

Section features.
Context {tokenizer : Tokenizer} `{!TokenizerLaws tokenizer}.
Context (label_list : list str) (max_mention_length : Z).
Context (use_entity_type_token use_marker_token : bool).

Lemma Forall_py_repeat (x : Z) n : Forall (λ y, y = x) (py_repeat x n).
Proof. apply Forall_forall. intros y. apply elem_of_py_repeat. Qed.

Lemma position_ids_wf example n :
  0 ≤ max_mention_length →
  wf_row max_mention_length
    (py_len (encoded_tokens use_marker_token example))
    (position_ids max_mention_length (encoded_span use_marker_token example n)).
Proof.
  intros. pose proof (encoded_span_bounds use_marker_token example n).
  split; [apply py_len_position_ids; lia|].
  apply Forall_forall. intros p [->|?]%elem_of_position_ids; [by left|right; lia].
Qed.

Lemma features_spec_wf example ids i :
  0 ≤ max_mention_length →
  entity_ids use_entity_type_token example = Ok ids →
  label_map label_list !! InputExample.label example = Some i →
  wf_features max_mention_length (py_len label_list)
    (features_spec max_mention_length use_marker_token example ids i).
Proof.
  intros HM [??]%entity_ids_bounds (k & Hk%lookup_lt_Some & -> & _)%label_map_Some.
  pose proof (encoded_span_bounds use_marker_token example span_a).
  assert (py_len (convert_tokens_to_ids (encoded_tokens use_marker_token example))
          = py_len (encoded_tokens use_marker_token example)) as Hlen
    by (unfold py_len; len).
  unfold wf_features, features_spec.
  cbn [InputFeatures.word_ids InputFeatures.word_segment_ids
       InputFeatures.word_attention_mask InputFeatures.entity_ids
       InputFeatures.entity_position_ids InputFeatures.entity_segment_ids
       InputFeatures.entity_attention_mask InputFeatures.label].
  rewrite Hlen.
  split_and!; try done; try apply Forall_py_repeat.
  - lia.
  - unfold py_len. len.
  - unfold py_len. len.
  - repeat apply Forall_cons_2; [by apply position_ids_wf..|apply Forall_nil_2].
  - lia.
  - unfold py_len. lia.
Qed.

Lemma convert_example_wf example f :
  0 ≤ max_mention_length →
  convert_example label_list max_mention_length use_entity_type_token
    use_marker_token example = Ok f →
  wf_features max_mention_length (py_len label_list) f.
Proof.
  intros ? (ids & i & ? & ? & ->)%convert_example_Ok. by apply features_spec_wf.
Qed.

(** C12: every feature that [convert_examples_to_features] returns is well
    formed, for a tokenizer that returns one id per token and a
    [max_mention_length] that is not negative: the word arrays have one
    length, there are two entity ids between 1 and 17, two rows of
    [max_mention_length] position ids that are [-1] or the position of a
    token other than the classification token and the separator, and the
    label is an index of [label_list]. *)
Theorem convert_examples_to_features_wf examples features :
  0 ≤ max_mention_length →
  convert_examples_to_features label_list max_mention_length
    use_entity_type_token use_marker_token examples = Ok features →
  Forall (wf_features max_mention_length (py_len label_list)) features.
Proof.
  rewrite convert_examples_to_features_eq, mapM_result_Ok. intros ? Hall.
  eapply Forall2_Forall_r; [done|]. apply Forall_true.
  intros example f. by apply convert_example_wf.
Qed.

End features.

(** ** The theorems on the toy split *)

Lemma create_examples_wf_witness : Forall wf_example toy_examples.
Proof. apply (create_examples_wf (pystr "train") toy_data). reflexivity. Defined.

Lemma convert_examples_to_features_wf_witness :
  Forall (wf_features 4 (py_len toy_label_list)) [john_features].
Proof.
  apply (convert_examples_to_features_wf (tokenizer := ws_tokenizer)
           toy_label_list 4 true true [john_example]); [lia|reflexivity].
Defined.
