(* ===== verification/Pipeline.v ===== *)
(** * The two stages together

    What the feature encoder ([Features]) receives when its examples come
    from the example builder ([Examples]) and its vocabulary from
    [get_label_list] ([Splits]), as in the training script that calls
    [src/examples/relation_classification/utils.py]:

    - the encoder visits the two spans in the order in which the builder
      placed the entities in the text;
    - with a tokenizer that splits on whitespace, the tokens of a span are
      the tokens of the entity in the record;
    - the labels of the training split are all in the vocabulary, so only
      an unknown entity type can make the encoder raise on it;
    - the label index 0 is [no_relation];
    - on another split, a label that the training split lacks raises
      [KeyError], the first such label in the order of the examples.

    [entity_span] is the correspondence between the entities of a record
    and the spans of an example (line 85); [load_features] is the
    composition of the two stages for one split. *)

From stdpp Require Import strings.
From S2P Require Import Prelude PySeq PyStr Data Examples Splits Tokenizer Features.
Import DatasetProcessor.

#[local] Open Scope Z_scope.

(** ** The order of the spans *)

Lemma example_spec_span_ends set_type i tokens ss se os oe st ot rel :
  let ex := example_spec set_type i tokens ss se os oe st ot rel in
  (InputExample.span_a ex).2 < (InputExample.span_b ex).2 ↔ ss < os.
Proof.
  cbn. set (ts := token_spans ss se os oe).
  pose proof (layout_spans_disjoint tokens ts) as Hd.
  pose proof (layout_span_bounds tokens ts subj).
  pose proof (layout_span_bounds tokens ts obj).
  cbv zeta in *. unfold first_entity, second_entity in Hd. cbn in Hd.
  case_decide; lia.
Qed.

(** ** The tokens of a span *)

(** The whitespace tokenizer, applied to the characters of the text at the
    span of an entity, gives the tokens of the entity. *)
Lemma split_layout_span tokens ts e :
  Forall word tokens →
  let l := layout_of tokens ts in
  split (slice (rstrip (layout_text l)) (layout_span l ts e).1
           (layout_span l ts e).2) =
    slice tokens (ts e).1 (ts e).2.
Proof.
  intros Hw. cbv zeta.
  pose proof (layout_span_bounds tokens ts e) as Hb. cbv zeta in Hb.
  destruct (slice_rstrip_spaces (layout_text (layout_of tokens ts))
              (layout_span (layout_of tokens ts) ts e).1
              (layout_span (layout_of tokens ts) ts e).2)
    as (w & Hspaces & Hslice); [lia..|].
  rewrite <-(split_app_spaces _ w), <-Hslice by done.
  rewrite (slice_layout_span tokens ts e), split_app_spaces by by repeat constructor.
  by apply split_join, Forall_slice.
Qed.

(** ** The labels of the training split *)

Lemma label_list_elem exs ex :
  ex ∈ exs → InputExample.label ex ∈ label_list exs.
Proof.
  intros. apply (spec_elem _ _ (label_list_meets_spec exs)). right.
  by apply list_elem_of_fmap_2.
Qed.

Lemma label_list_lookup_0 exs l :
  label_list exs !! Z.to_nat 0 = Some l ↔ l = no_relation.
Proof. unfold label_list. simpl. naive_solver. Qed.

(** ** The definitions that join the stages *)

(** The span of an example that holds an entity: [_create_examples] passes
    [char_spans['subj']] as [span_a] and [char_spans['obj']] as [span_b]
    (line 85). *)
Definition entity_span (e : entity) : Encoder.span_name :=
  match e with subj => Encoder.span_a | obj => Encoder.span_b end.

Section pipeline.
Context `{Files} {tokenizer : Tokenizer}.
Context (max_mention_length : Z) (use_entity_type_token use_marker_token : bool).

(** What a caller of the two stages does for a split: the examples of the
    split, the vocabulary of the training split, and the features of the
    examples for that vocabulary. *)
Definition load_features (data_dir fold : str) :
    result exn (list InputFeatures.t) :=
  examples ← _create_examples data_dir fold;
  label_list ← get_label_list data_dir;
  Encoder.convert_examples_to_features label_list max_mention_length
    use_entity_type_token use_marker_token examples.

Lemma load_features_eq data_dir fold exs train :
  _create_examples data_dir fold = Ok exs →
  get_train_examples data_dir = Ok train →
  load_features data_dir fold =
    Encoder.convert_examples_to_features (label_list train) max_mention_length
      use_entity_type_token use_marker_token exs.
Proof.
  intros Hexs Htrain. unfold load_features.
  by rewrite Hexs, get_label_list_eq, Htrain.
Qed.

Lemma load_features_train data_dir exs :
  get_train_examples data_dir = Ok exs →
  load_features data_dir (pystr "train") =
    Encoder.convert_examples_to_features (label_list exs) max_mention_length
      use_entity_type_token use_marker_token exs.
Proof. intros Hexs. by apply load_features_eq. Qed.

Lemma convert_example_no_relation exs example f :
  Encoder.convert_example (label_list exs) max_mention_length
    use_entity_type_token use_marker_token example = Ok f →
  InputFeatures.label f = 0 ↔ InputExample.label example = no_relation.
Proof.
  intros (ids & i & _ & Hi & ->)%Encoder.convert_example_Ok. cbn.
  apply Encoder.label_map_NoDup in Hi as (k & Hk & ->);
    [|apply (spec_NoDup _ _ (label_list_meets_spec exs))].
  rewrite <-(label_list_lookup_0 exs). split.
  - intros Hk0. by replace (Z.to_nat 0) with k by lia.
  - intros H0. assert (k = Z.to_nat 0) as ->; [|done].
    eapply (NoDup_lookup (label_list exs)); [|done..].
    apply (spec_NoDup _ _ (label_list_meets_spec exs)).
Qed.

(** C11: the encoder visits the spans of an example of the example builder
    in the order in which the builder placed the entities in the text. *)
Theorem pipeline_span_order set_type i tokens ss se os oe st ot rel ex :
  create_example set_type i (full_item tokens ss se os oe st ot rel) = Ok ex →
  Encoder.span_order ex = entity_span <$> entity_order (token_spans ss se os oe).
Proof.
  rewrite create_example_full. intros [= <-].
  unfold Encoder.span_order, entity_order.
  pose proof (example_spec_span_ends set_type i tokens ss se os oe st ot rel).
  cbv zeta in *. cbn [token_spans fst]. repeat case_decide; naive_solver.
Qed.

(** C33: the features of the training split exist for the vocabulary of
    [get_label_list] exactly when no entity type is unknown, if entity
    type ids are asked for: no label of the training split raises
    [KeyError]. *)
Theorem pipeline_train_features data_dir exs :
  get_train_examples data_dir = Ok exs →
  is_Ok (load_features data_dir (pystr "train")) ↔
  (use_entity_type_token = true →
   Forall (λ ex, InputExample.type_a ex ∈ ENTITY_TYPES ∧
                 InputExample.type_b ex ∈ ENTITY_TYPES) exs).
Proof.
  intros Hexs. rewrite (load_features_train _ _ Hexs).
  rewrite Encoder.convert_examples_to_features_eq, mapM_result_is_Ok.
  rewrite !Forall_forall. setoid_rewrite Encoder.convert_example_is_Ok.
  setoid_rewrite Encoder.entity_ids_is_Ok.
  split.
  - intros Hall Huet ex Hex. destruct (Hall ex Hex) as [Ht _]. by apply Ht.
  - intros Hall ex Hex. split; [|by apply label_list_elem].
    intros Huet. by apply (Hall Huet ex Hex).
Qed.

(** In the features of the training split, the label of a feature is
    0 exactly when the label of its example is [no_relation]. *)
Theorem pipeline_no_relation_index data_dir exs features :
  get_train_examples data_dir = Ok exs →
  load_features data_dir (pystr "train") = Ok features →
  Forall2 (λ example f,
      InputFeatures.label f = 0 ↔ InputExample.label example = no_relation)
    exs features.
Proof.
  intros Hexs. rewrite (load_features_train _ _ Hexs).
  rewrite Encoder.convert_examples_to_features_eq, mapM_result_Ok.
  intros Hall. eapply Forall2_impl; [done|].
  intros example f. apply convert_example_no_relation.
Qed.

Lemma elem_of_label_list exs l :
  l ∈ label_list exs ↔ l = no_relation ∨ l ∈ InputExample.label <$> exs.
Proof. apply (spec_elem _ _ (label_list_meets_spec exs)). Qed.

(** C32: the features of a split other than the training split: when the
    entity types raise nothing, [load_features] raises exactly when an
    example of the split has a label that is neither [no_relation] nor a
    label of the training split; the exception is the [KeyError] of the
    first such label. *)
Theorem load_features_unknown_label data_dir fold exs train e :
  _create_examples data_dir fold = Ok exs →
  get_train_examples data_dir = Ok train →
  Forall (λ x, is_Ok (Encoder.entity_ids use_entity_type_token x)) exs →
  load_features data_dir fold = Err e ↔
  ∃ (k : nat) ex,
    exs !! k = Some ex ∧ e = KeyError (InputExample.label ex) ∧
    InputExample.label ex ≠ no_relation ∧
    (InputExample.label ex ∉ InputExample.label <$> train) ∧
    Forall (λ x, InputExample.label x ∈ label_list train) (take k exs).
Proof.
  intros Hexs Htrain Hids. rewrite (load_features_eq _ _ _ _ Hexs Htrain).
  rewrite Encoder.convert_examples_to_features_eq, mapM_result_Err_lookup.
  assert (∀ k, Forall (λ x, is_Ok (Encoder.convert_example (label_list train)
              max_mention_length use_entity_type_token use_marker_token x))
            (take k exs) ↔
          Forall (λ x, InputExample.label x ∈ label_list train) (take k exs))
    as Htake.
  { intros k. rewrite !Forall_forall. setoid_rewrite Encoder.convert_example_is_Ok.
    rewrite Forall_forall in Hids.
    split; intros Hall x Hx; [by apply Hall|].
    split; [|by apply Hall]. by eapply Hids, subseteq_take. }
  setoid_rewrite Htake. setoid_rewrite Encoder.convert_example_Err.
  setoid_rewrite elem_of_label_list.
  split.
  - intros (k & ex & Hk & [Herr|(_ & Hl & ->)] & Hall).
    { eapply Forall_lookup_1 in Hids as [? Hid]; [|done]. congruence. }
    exists k, ex. split_and!; [done..| | |done]; intros ?; apply Hl; auto.
  - intros (k & ex & Hk & -> & Hne & Hnt & Hall). exists k, ex.
    split_and!; [done| |done]. right.
    split_and!; [by eapply Forall_lookup_1 in Hids|by intros [?|?]|done].
Qed.

End pipeline.

(** With the whitespace tokenizer, and a record whose tokens are words,
    the tokens that the encoder finds at the span of an entity are the
    tokens of the entity in the record, whatever the offsets are. *)
Theorem pipeline_entity_tokens set_type i tokens ss se os oe st ot rel ex e :
  create_example set_type i (full_item tokens ss se os oe st ot rel) = Ok ex →
  Forall word tokens →
  Encoder.span_tokens (tokenizer := ws_tokenizer) ex (entity_span e) =
    slice tokens (token_spans ss se os oe e).1 (token_spans ss se os oe e).2.
Proof.
  rewrite create_example_full. intros [= <-] Hw.
  destruct e; apply (split_layout_span tokens (token_spans ss se os oe) _ Hw).
Qed.

(** ** The toy file system, end to end *)

Definition toy_features : list InputFeatures.t :=
  [InputFeatures.mk [0; 4; 5; 6; 7; 1] [0; 0; 0; 0; 0; 0] [1; 1; 1; 1; 1; 1]
     [13; 2] [[1; -1; -1]; [4; -1; -1]] [0; 0] [1; 1] 2;
   InputFeatures.mk [0; 8; 9; 1] [0; 0; 0; 0] [1; 1; 1; 1]
     [13; 13] [[1; -1; -1]; [2; -1; -1]] [0; 0] [1; 1] 0;
   InputFeatures.mk [0; 4; 5; 6; 7; 1] [0; 0; 0; 0; 0; 0] [1; 1; 1; 1; 1; 1]
     [2; 13] [[4; -1; -1]; [1; -1; -1]] [0; 0] [1; 1] 1].

(** On the toy file system, the training split and its vocabulary give
    the features [toy_features] with the whitespace tokenizer, three
    position slots, entity type ids and no markers. *)
Example pipeline_toy :
  load_features (tokenizer := ws_tokenizer) 3 true false (pystr "data")
    (pystr "train") = Ok toy_features.
Proof. by vm_compute. Qed.

(** A file system with the toy training split and a [dev] split whose
    second record has a label that the training split lacks. *)
Definition dev_data : list Item :=
  [john_item;
   full_item john_tokens 0 0 3 3 (pystr "PERSON") (pystr "CITY") (pystr "born_in")].

Definition dev_files : Files := {|
  open_json path :=
    if decide (path = pystr "data/train.json") then Ok toy_data
    else if decide (path = pystr "data/dev.json") then Ok dev_data
    else Err (OSError path)
|}.

Definition dev_examples : list InputExample.t :=
  [example_spec (pystr "dev") 0 john_tokens 0 0 3 3
     (pystr "PERSON") (pystr "CITY") (pystr "lives_in");
   example_spec (pystr "dev") 1 john_tokens 0 0 3 3
     (pystr "PERSON") (pystr "CITY") (pystr "born_in")].

Lemma load_features_unknown_label_witness :
  @load_features dev_files ws_tokenizer 3 true false (pystr "data") (pystr "dev") =
    Err (KeyError (pystr "born_in")) ↔
  ∃ (k : nat) ex,
    dev_examples !! k = Some ex ∧
    KeyError (pystr "born_in") = KeyError (InputExample.label ex) ∧
    InputExample.label ex ≠ no_relation ∧
    (InputExample.label ex ∉ InputExample.label <$> toy_examples) ∧
    Forall (λ x, InputExample.label x ∈ label_list toy_examples) (take k dev_examples).
Proof.
  apply (load_features_unknown_label (H := dev_files) (tokenizer := ws_tokenizer)
           3 true false (pystr "data") (pystr "dev") dev_examples toy_examples);
    [reflexivity..|].
  repeat constructor; by eexists.
Defined.

Lemma pipeline_span_order_witness :
  Encoder.span_order
    (example_spec (pystr "train") 2 john_tokens 3 3 0 0 (pystr "CITY")
       (pystr "PERSON") (pystr "has_resident")) =
    [Encoder.span_b; Encoder.span_a].
Proof.
  apply (pipeline_span_order (pystr "train") 2 john_tokens 3 3 0 0
           (pystr "CITY") (pystr "PERSON") (pystr "has_resident")).
  reflexivity.
Defined.

Lemma pipeline_train_features_witness :
  is_Ok (load_features (tokenizer := ws_tokenizer) 3 true false (pystr "data")
           (pystr "train")) ↔
  (true = true →
   Forall (λ ex, InputExample.type_a ex ∈ ENTITY_TYPES ∧
                 InputExample.type_b ex ∈ ENTITY_TYPES) toy_examples).
Proof.
  apply (pipeline_train_features (tokenizer := ws_tokenizer) 3 true false
           (pystr "data") toy_examples).
  reflexivity.
Defined.

Lemma pipeline_no_relation_index_witness :
  Forall2 (λ example f,
      InputFeatures.label f = 0 ↔ InputExample.label example = no_relation)
    toy_examples toy_features.
Proof.
  apply (pipeline_no_relation_index (tokenizer := ws_tokenizer) 3 true false
           (pystr "data")); by vm_compute.
Defined.

Lemma pipeline_entity_tokens_witness :
  Encoder.span_tokens (tokenizer := ws_tokenizer)
    (example_spec (pystr "train") 0 john_tokens 0 1 3 3 (pystr "PERSON")
       (pystr "CITY") (pystr "lives_in")) Encoder.span_a =
    pystr <$> ["John"; "lives"].
Proof.
  apply (pipeline_entity_tokens (pystr "train") 0 john_tokens 0 1 3 3
           (pystr "PERSON") (pystr "CITY") (pystr "lives_in") _ subj);
    [reflexivity|compute_done].
Defined.
