(* ===== verification/RoundTrip.v ===== *)
(** * From the tokens of a record to the tokens of its features

    The two stages of [src/examples/relation_classification/utils.py]
    composed on one record, with a tokenizer that works word by word
    (class [WordTokenizer]): the builder joins the tokens of the record
    into a text, the encoder cuts the text at the character spans and
    tokenizes the five pieces.  When the tokens of the record are words
    (not empty, without whitespace), the token sequence of the features is
    made of the pieces of five slices of the tokens of the record, the
    slices that the offsets cut out, between the classification token and
    the separator, with the markers around the pieces of the two
    entities: the text in between loses nothing and adds nothing,
    whatever the offsets of the entities are.

    [subwords] is the pieces of a list of words, [record_tokens] the token
    sequence written from the record, and [record_span] the range of an
    entity in it; [in_order] says that the entities of the record are in
    range and do not overlap.  Then the five slices are the tokens of the
    record, each once and in order ([in_order_slices]), and the ranges
    have a closed form for a tokenizer that makes one token of a word.
    For other offsets the slices are still those of the record, but they
    may repeat tokens (entities that overlap) or leave some out (negative
    offsets, which Python counts from the end). *)

From stdpp Require Import strings.
From S2P Require Import Prelude PySeq PyStr Data Examples Tokenizer Features.
From S2P Require Import Pipeline.
Import DatasetProcessor.

#[local] Open Scope Z_scope.

Section definitions.
Context `{!WordTokenizer tokenizer}.

(** The tokens of a list of words: the pieces of each word. *)
Definition subwords (ws : list str) : list str := ws ≫= pieces.

(** The token sequence that a record is meant to yield: the tokens before
    the first entity, the first entity between its markers, the tokens
    between the entities, the second entity between its markers, and the
    tokens after it. *)
Definition record_tokens (use_marker_token : bool) (tokens : list str)
    (ts : entity → Z * Z) : list str :=
  let e1 := first_entity ts in
  let e2 := second_entity ts in
  [cls_token] ++ subwords (slice tokens 0 (ts e1).1) ++
  Encoder.wrap use_marker_token (entity_span e1)
    (subwords (slice tokens (ts e1).1 (ts e1).2)) ++
  subwords (slice tokens (ts e1).2 (ts e2).1) ++
  Encoder.wrap use_marker_token (entity_span e2)
    (subwords (slice tokens (ts e2).1 (ts e2).2)) ++
  subwords (slice_from tokens (ts e2).2) ++ [sep_token].

(** The token range that the entity [e] of a record is meant to get: it
    starts after the classification token, the pieces of the tokens before
    the entity and the markers of the entity before it, and holds the
    pieces of the entity and its own two markers. *)
Definition record_span (use_marker_token : bool) (tokens : list str)
    (ts : entity → Z * Z) (e : entity) : Z * Z :=
  let e1 := first_entity ts in
  let e2 := second_entity ts in
  let m : Z := if use_marker_token then 2 else 0 in
  let n1 := 1 + py_len (subwords (slice tokens 0 (ts e1).1)) in
  let n2 := n1 + py_len (subwords (slice tokens (ts e1).1 (ts e1).2)) + m in
  let n3 := n2 + py_len (subwords (slice tokens (ts e1).2 (ts e2).1)) in
  let n4 := n3 + py_len (subwords (slice tokens (ts e2).1 (ts e2).2)) + m in
  if decide (e = e1) then (n1, n2) else (n3, n4).

End definitions.

(** The entities of a record are in range and do not overlap. *)
Definition in_order (tokens : list str) (ts : entity → Z * Z) : Prop :=
  0 ≤ (ts (first_entity ts)).1 ≤ (ts (first_entity ts)).2 ∧
  (ts (first_entity ts)).2 ≤ (ts (second_entity ts)).1 ∧
  (ts (second_entity ts)).1 ≤ (ts (second_entity ts)).2 ≤ py_len tokens.

(** ** The slices of a record *)

(** When the entities are in range and do not overlap, the five slices of
    [record_tokens] are the tokens of the record, each once and in
    order. *)
Lemma in_order_slices (tokens : list str) ts :
  in_order tokens ts →
  let s1 := ts (first_entity ts) in
  let s2 := ts (second_entity ts) in
  slice tokens 0 s1.1 ++ slice tokens s1.1 s1.2 ++ slice tokens s1.2 s2.1 ++
  slice tokens s2.1 s2.2 ++ slice_from tokens s2.2 = tokens.
Proof.
  intros (? & ? & ?) s1 s2.
  rewrite <-(slice_from_split _ s2.1), <-(slice_from_split _ s1.2),
    <-(slice_from_split _ s1.1), <-slice_to_slice by (subst s1 s2; lia).
  apply slice_to_from.
Qed.

(** Entities that overlap repeat the tokens that they share. *)
Example overlapping_slices :
  let ts := token_spans 0 2 1 3 in
  let s1 := ts (first_entity ts) in
  let s2 := ts (second_entity ts) in
  slice john_tokens 0 s1.1 ++ slice john_tokens s1.1 s1.2 ++
  slice john_tokens s1.2 s2.1 ++ slice john_tokens s2.1 s2.2 ++
  slice_from john_tokens s2.2 =
    pystr <$> ["John"; "lives"; "in"; "lives"; "in"; "Paris"].
Proof. by vm_compute. Qed.

(** ** Whitespace at the end of a piece *)

Lemma split_slice_rstrip s i j :
  0 ≤ i → 0 ≤ j → split (slice (rstrip s) i j) = split (slice s i j).
Proof.
  intros. destruct (slice_rstrip_spaces s i j) as (w & Hw & ->); [done..|].
  by rewrite split_app_spaces.
Qed.

Lemma split_slice_from_rstrip s i :
  0 ≤ i → split (slice_from (rstrip s) i) = split (slice_from s i).
Proof.
  intros. destruct (rstrip_decompose s) as (w & Hs & Hw).
  revert Hs. generalize (rstrip s). intros r ->.
  rewrite !slice_from_drop, drop_app by done.
  rewrite split_app_spaces; [done|by apply Forall_drop].
Qed.

Lemma split_add_sep s : split (add_sep s) = split s.
Proof.
  unfold add_sep. case_decide; [done|].
  apply split_app_spaces. by repeat constructor.
Qed.

Lemma split_join_space (ws : list str) :
  Forall word ws → split (join [space] ws ++ [space]) = ws.
Proof.
  intros. rewrite split_app_spaces by by repeat constructor.
  by apply split_join.
Qed.

(** ** The pieces of the text *)

Section layout.
Context (l : layout).

Lemma slice_layout_pre :
  slice (layout_text l) 0 (layout_span1 l).1 = add_sep (seg_pre l).
Proof. rewrite layout_text_split1, <-slice_to_slice. apply slice_to_app_len. Qed.

Lemma slice_layout_mid :
  slice (layout_text l) (layout_span1 l).2 (layout_span2 l).1 =
    seg_mid l ++ [space].
Proof.
  unfold layout_text. rewrite (assoc_L (++) (add_sep _)).
  apply slice_app_middle; unfold layout_span2, layout_span1; cbn; len.
Qed.

Lemma slice_from_layout_tail :
  slice_from (layout_text l) (layout_span2 l).2 = seg_tail l.
Proof.
  unfold layout_text.
  rewrite (assoc_L (++) (add_sep _)), (assoc_L (++) (add_sep _ ++ _)),
    (assoc_L (++) ((add_sep _ ++ _) ++ _)).
  replace (layout_span2 l).2 with
    (py_len (((add_sep (seg_pre l) ++ seg_ent1 l ++ [space]) ++
               seg_mid l ++ [space]) ++ seg_ent2 l ++ [space]));
    [apply slice_from_app_len|].
  unfold layout_span2, layout_span1. cbn. len.
Qed.

End layout.

(** ** One record *)

Section record.
Context `{!WordTokenizer tokenizer}.
Context (use_marker_token : bool).
Context (set_type : str) (i : Z) (tokens : list str) (ss se os oe : Z).
Context (st ot rel : str).
Let ts := token_spans ss se os oe.
Let ex := example_spec set_type i tokens ss se os oe st ot rel.

(** The inner function [tokenize] of the encoder, for a tokenizer that
    works word by word. *)
Lemma tokenize_subwords text : Encoder.tokenize text = subwords (split text).
Proof. apply tokenize_pieces. Qed.

Lemma first_span_example_spec :
  Encoder.first_span ex = entity_span (first_entity ts).
Proof.
  pose proof (example_spec_span_ends set_type i tokens ss se os oe st ot rel) as H.
  cbv zeta in H. unfold Encoder.first_span, first_entity. fold ex in H |- *.
  subst ts. cbn [token_spans fst]. by repeat case_decide; try tauto.
Qed.

Lemma second_span_example_spec :
  Encoder.second_span ex = entity_span (second_entity ts).
Proof.
  pose proof (example_spec_span_ends set_type i tokens ss se os oe st ot rel) as H.
  cbv zeta in H. unfold Encoder.second_span, second_entity. fold ex in H |- *.
  subst ts. cbn [token_spans fst]. by repeat case_decide; try tauto.
Qed.

Lemma getattr_example_spec e :
  Encoder.getattr ex (entity_span e) = layout_span (layout_of tokens ts) ts e.
Proof. by destruct e. Qed.

(** The five pieces of the text give the five pieces of the token list. *)
Lemma segments_of_example_spec :
  Forall word tokens →
  let e1 := first_entity ts in
  let e2 := second_entity ts in
  Encoder.segments_of use_marker_token ex =
    {| Encoder.toks_cls := [cls_token] ++ subwords (slice tokens 0 (ts e1).1);
       Encoder.toks_ent1 := Encoder.wrap use_marker_token (entity_span e1)
                              (subwords (slice tokens (ts e1).1 (ts e1).2));
       Encoder.toks_mid := subwords (slice tokens (ts e1).2 (ts e2).1);
       Encoder.toks_ent2 := Encoder.wrap use_marker_token (entity_span e2)
                              (subwords (slice tokens (ts e2).1 (ts e2).2));
       Encoder.toks_tail :=
         subwords (slice_from tokens (ts e2).2) ++ [sep_token] |}.
Proof.
  intros Hw e1 e2. unfold Encoder.segments_of, Encoder.span_tokens.
  rewrite first_span_example_spec, second_span_example_spec.
  rewrite !getattr_example_spec. fold e1 e2.
  pose proof (layout_spans_ordered (layout_of tokens ts)) as (? & ? & ?).
  unfold e1, e2. rewrite layout_span_first, layout_span_second.
  change (InputExample.text ex) with (rstrip (layout_text (layout_of tokens ts))).
  rewrite !tokenize_subwords.
  rewrite !split_slice_rstrip, split_slice_from_rstrip by lia.
  rewrite slice_layout_pre, slice_layout_span1, slice_layout_mid,
    slice_layout_span2, slice_from_layout_tail, split_add_sep.
  cbn [layout_of seg_pre seg_ent1 seg_mid seg_ent2 seg_tail].
  rewrite !split_join_space, !split_join
    by (apply Forall_slice || apply Forall_slice_from; done).
  done.
Qed.

Lemma encoded_tokens_example_spec :
  Forall word tokens →
  Encoder.encoded_tokens use_marker_token ex =
    record_tokens use_marker_token tokens ts.
Proof.
  intros Hw. unfold Encoder.encoded_tokens, record_tokens.
  rewrite segments_of_example_spec by done.
  unfold Encoder.segments_tokens. cbn. by rewrite <-?(assoc_L (++)).
Qed.

Lemma encoded_span_example_spec e :
  Forall word tokens →
  Encoder.encoded_span use_marker_token ex (entity_span e) =
    record_span use_marker_token tokens ts e.
Proof.
  intros Hw. pose proof (first_second_ne ts). unfold record_span.
  destruct (entity_first_or_second ts e) as [[-> ?]|[-> ?]]; case_decide; try done.
  - rewrite <-first_span_example_spec, Encoder.encoded_span_first.
    rewrite segments_of_example_spec by done. unfold Encoder.segments_span1.
    cbn [Encoder.toks_cls Encoder.toks_ent1 fst snd].
    rewrite py_len_app, Encoder.py_len_wrap.
    change (py_len [cls_token]) with 1. f_equal; lia.
  - rewrite <-second_span_example_spec, Encoder.encoded_span_second.
    rewrite segments_of_example_spec by done.
    unfold Encoder.segments_span2, Encoder.segments_span1.
    cbn [Encoder.toks_cls Encoder.toks_ent1 Encoder.toks_mid Encoder.toks_ent2
         fst snd].
    rewrite py_len_app, !Encoder.py_len_wrap.
    change (py_len [cls_token]) with 1. f_equal; lia.
Qed.

(** The range of an entity cuts the pieces of its tokens, with their
    markers, out of the token sequence of the record. *)
Lemma slice_record_tokens e :
  slice (record_tokens use_marker_token tokens ts)
    (record_span use_marker_token tokens ts e).1
    (record_span use_marker_token tokens ts e).2 =
    Encoder.wrap use_marker_token (entity_span e)
      (subwords (slice tokens (ts e).1 (ts e).2)).
Proof.
  pose proof (first_second_ne ts).
  unfold record_span, record_tokens. cbv zeta.
  destruct (entity_first_or_second ts e) as [[-> ?]|[-> ?]]; case_decide;
    try done; cbn [fst snd].
  - rewrite (assoc_L (++) [cls_token]).
    apply slice_app_middle; rewrite ?py_len_app, ?Encoder.py_len_wrap;
      change (py_len [cls_token]) with 1; lia.
  - rewrite (assoc_L (++) [cls_token]), (assoc_L (++) ([cls_token] ++ _)),
      (assoc_L (++) (([cls_token] ++ _) ++ _)).
    apply slice_app_middle; rewrite ?py_len_app, ?Encoder.py_len_wrap;
      change (py_len [cls_token]) with 1; lia.
Qed.

(** A tokenizer that makes one token of every word: the ranges in closed
    form, when the entities are in range and do not overlap. *)
Lemma py_len_subwords_words (ws : list str) :
  (∀ w, length (pieces w) = 1%nat) → py_len (subwords ws) = py_len ws.
Proof.
  intros Hone. unfold subwords, py_len. f_equal.
  induction ws as [|w ws IH]; [done|].
  rewrite bind_cons, length_app, Hone, IH. done.
Qed.

Lemma record_span_words e :
  (∀ w, length (pieces w) = 1%nat) → in_order tokens ts →
  let m : Z := if use_marker_token then 2 else 0 in
  let k : Z := if decide (e = first_entity ts) then 0 else m in
  record_span use_marker_token tokens ts e =
    (1 + (ts e).1 + k, 1 + (ts e).2 + k + m).
Proof.
  intros Hone (? & ? & ?). pose proof (first_second_ne ts).
  unfold record_span. cbv zeta.
  rewrite !py_len_subwords_words, !py_len_slice by (done || lia).
  destruct (entity_first_or_second ts e) as [[-> ?]|[-> ?]];
    case_decide; try done; f_equal; lia.
Qed.

End record.

(** C19: with a tokenizer that cuts the text at whitespace and tokenizes
    every word on its own, the token sequence that the encoder computes for
    the example of a record whose tokens are words is [record_tokens]:
    the pieces of the five slices that the offsets cut out of the tokens
    of the record, in order, between the classification token and the
    separator, with the markers around the pieces of the two entities
    when markers are used, whatever the offsets of the entities are.
    Joining the tokens, cutting the text at the character spans and
    tokenizing the parts gives the pieces of those slices and nothing
    else; the slices are the tokens of the record, each once, when the
    entities are in range and do not overlap ([in_order_slices]). *)
Theorem pipeline_tokens `{!WordTokenizer tokenizer} use_marker_token set_type i
    tokens ss se os oe st ot rel ex :
  create_example set_type i (full_item tokens ss se os oe st ot rel) = Ok ex →
  Forall word tokens →
  Encoder.final_tokens ex (Encoder.encode_loop use_marker_token ex) =
    record_tokens use_marker_token tokens (token_spans ss se os oe).
Proof.
  rewrite create_example_full. intros [= <-] Hw.
  rewrite Encoder.encode_loop_tokens. by apply encoded_tokens_example_spec.
Qed.

(** C20: with such a tokenizer and a record whose tokens are words, the
    token range that the encoder records in [token_spans] for an entity
    starts after the classification token, the pieces of the tokens before
    the entity and the markers of the entity before it; the tokens of the
    features in that range are the pieces of the tokens of the entity,
    between its markers when markers are used: the position ids point at
    the entity, whatever the offsets are. *)
Theorem pipeline_positions `{!WordTokenizer tokenizer} use_marker_token set_type
    i tokens ss se os oe st ot rel ex e :
  create_example set_type i (full_item tokens ss se os oe st ot rel) = Ok ex →
  Forall word tokens →
  let ts := token_spans ss se os oe in
  let st := Encoder.encode_loop use_marker_token ex in
  ∃ r, Encoder.token_spans st !! entity_span e = Some r ∧
       r = record_span use_marker_token tokens ts e ∧
       slice (Encoder.final_tokens ex st) r.1 r.2 =
         Encoder.wrap use_marker_token (entity_span e)
           (subwords (slice tokens (ts e).1 (ts e).2)).
Proof.
  rewrite create_example_full. intros [= <-] Hw ts' st'. subst ts' st'.
  eexists. split; [apply Encoder.encode_loop_token_spans|].
  rewrite Encoder.encode_loop_tokens.
  rewrite encoded_span_example_spec, encoded_tokens_example_spec by done.
  split; [done|apply slice_record_tokens].
Qed.

(** The witnesses use the tokenizer that makes one token of every
    character. *)
#[local] Existing Instance char_tokenizer.

Lemma pipeline_tokens_witness :
  Encoder.final_tokens Encoder.john_example
    (Encoder.encode_loop true Encoder.john_example) =
    record_tokens true john_tokens (token_spans 0 0 3 3).
Proof.
  apply (pipeline_tokens true (pystr "train") 0 john_tokens 0 0 3 3
           (pystr "PERSON") (pystr "CITY") (pystr "lives_in"));
    [reflexivity|compute_done].
Defined.

Lemma pipeline_positions_witness :
  ∃ r, Encoder.token_spans (Encoder.encode_loop true Encoder.john_example) !!
         Encoder.span_b = Some r ∧
       r = record_span true john_tokens (token_spans 0 0 3 3) obj ∧
       slice (Encoder.final_tokens Encoder.john_example
                (Encoder.encode_loop true Encoder.john_example)) r.1 r.2 =
         Encoder.wrap true Encoder.span_b (subwords (slice john_tokens 3 4)).
Proof.
  apply (pipeline_positions true (pystr "train") 0 john_tokens 0 0 3 3
           (pystr "PERSON") (pystr "CITY") (pystr "lives_in")
           Encoder.john_example obj);
    [reflexivity|compute_done].
Defined.

(** The worked record with that tokenizer: the object is the tokens 14 to
    20, five characters between two markers. *)
Lemma pipeline_positions_chars :
  record_span true john_tokens (token_spans 0 0 3 3) obj = (14, 21) ∧
  Encoder.wrap true Encoder.span_b (subwords (slice john_tokens 3 4)) =
    [TAIL_TOKEN] ++ (pystr <$> ["P"; "a"; "r"; "i"; "s"]) ++ [TAIL_TOKEN].
Proof. by vm_compute. Qed.
